(** * STM32MP1 clock-tree driver: model and verified properties

    Shallow embedding of [drivers/st/clk/stm32mp1_clk.c] (Arm Trusted
    Firmware, STM32MP1 platform): PLL mathematics, parent resolution, the
    rate engine, the gate engine with its reference counts and the DVFS
    entry points.

    The platform is AArch32 (the BL32 image is SP_MIN and the platform code
    uses the AArch32 system-register accessors), hence [unsigned int],
    [unsigned long] and [uintptr_t] are 32 bits wide and
    [unsigned long long] is 64 bits wide. *)

From Stdlib Require Import ZArith Lia List Bool.
From stdpp Require Import gmap list.

Local Open Scope Z_scope.

(** ** C integer types *)

Module CInt.

Definition UINT_MAX : Z := 4294967295.

Definition u8 (x : Z) : Z := x mod 2 ^ 8.
Definition u16 (x : Z) : Z := x mod 2 ^ 16.
(** [uint32_t], [unsigned int] and [unsigned long]. *)
Definition u32 (x : Z) : Z := x mod 2 ^ 32.
(** [unsigned long long]. *)
Definition u64 (x : Z) : Z := x mod 2 ^ 64.
(** Conversion to [int] (two's complement, as GCC defines it).  Integer
    division is [Z.div] and [Z.modulo] on non-negative operands; dividing
    by zero yields 0 and leaves the dividend as remainder, which is what
    the UDIV instruction of the Cortex-A7 computes. *)
Definition to_int (x : Z) : Z :=
  let y := u32 x in if y <? 2 ^ 31 then y else y - 2 ^ 32.

Definition BIT (n : Z) : Z := Z.shiftl 1 n.
Definition GENMASK (h l : Z) : Z := Z.shiftl (Z.ones (h - l + 1)) l.

(** Reading [a[i]] in an array of integers. *)
Definition array_get (a : list Z) (i : Z) : Z := nth (Z.to_nat i) a 0.

End CInt.
Export CInt.

(** ** Error codes and images *)

Inductive errno : Set :=
| EPERM | EIO | ENXIO | EACCES | EINVAL | ETIMEDOUT.

(** The driver is compiled twice; [IMAGE_BL2] and [IMAGE_BL32] select
    table entries and the secure/non-secure policy of the gate engine. *)
Inductive image : Set := IMAGE_BL2 | IMAGE_BL32.

(** ** Constants of headers that are not part of the sources

    [stm32mp1_rcc.h] (register offsets, selector field positions),
    [dt-bindings/clock/stm32mp1-clks.h] (clock identifiers),
    [dt-bindings/clock/stm32mp1-clksrc.h] and [platform_def.h] are taken as
    parameters; every definition and theorem below holds for whatever
    values they carry. *)

Class Platform : Type := {
  IMAGE : image;
  (* stm32mp1_rcc.h: gate registers *)
  RCC_DDRITFCR : Z;
  RCC_MP_APB1ENSETR : Z;
  RCC_MP_APB2ENSETR : Z;
  RCC_MP_APB3ENSETR : Z;
  RCC_MP_APB4ENSETR : Z;
  RCC_MP_APB5ENSETR : Z;
  RCC_BDCR : Z;
  RCC_MP_AHB2ENSETR : Z;
  RCC_MP_AHB4ENSETR : Z;
  RCC_MP_AHB5ENSETR : Z;
  RCC_MP_TZAHB6ENSETR : Z;
  RCC_MP_AHB6ENSETR : Z;
  RCC_DBGCFGR : Z;
  RCC_MP_ENCLRR_OFFSET : Z;
  (* stm32mp1_rcc.h: selector registers *)
  RCC_I2C12CKSELR : Z;
  RCC_I2C35CKSELR : Z;
  RCC_STGENCKSELR : Z;
  RCC_I2C46CKSELR : Z;
  RCC_SPI6CKSELR : Z;
  RCC_UART1CKSELR : Z;
  RCC_RNG1CKSELR : Z;
  RCC_MPCKSELR : Z;
  RCC_CPERCKSELR : Z;
  RCC_UART6CKSELR : Z;
  RCC_UART24CKSELR : Z;
  RCC_UART35CKSELR : Z;
  RCC_UART78CKSELR : Z;
  RCC_SDMMC12CKSELR : Z;
  RCC_SDMMC3CKSELR : Z;
  RCC_QSPICKSELR : Z;
  RCC_FMCCKSELR : Z;
  RCC_ASSCKSELR : Z;
  RCC_MSSCKSELR : Z;
  RCC_USBCKSELR : Z;
  (* [<reg>_<label>SRC_SHIFT] and [<reg>_<label>SRC_MASK], by selector *)
  SRC_SHIFT : Z -> Z;
  SRC_MASK : Z -> Z;
  (* stm32mp1_rcc.h: dividers *)
  RCC_MPCKDIVR : Z;
  RCC_AXIDIVR : Z;
  RCC_MCUDIVR : Z;
  RCC_APB1DIVR : Z;
  RCC_APB2DIVR : Z;
  RCC_APB3DIVR : Z;
  RCC_APB4DIVR : Z;
  RCC_APB5DIVR : Z;
  (* stm32mp1_rcc.h: PLL registers *)
  RCC_RCK12SELR : Z;
  RCC_RCK3SELR : Z;
  RCC_RCK4SELR : Z;
  RCC_PLL1CR : Z; RCC_PLL1CFGR1 : Z; RCC_PLL1CFGR2 : Z;
  RCC_PLL1FRACR : Z; RCC_PLL1CSGR : Z;
  RCC_PLL2CR : Z; RCC_PLL2CFGR1 : Z; RCC_PLL2CFGR2 : Z;
  RCC_PLL2FRACR : Z; RCC_PLL2CSGR : Z;
  RCC_PLL3CR : Z; RCC_PLL3CFGR1 : Z; RCC_PLL3CFGR2 : Z;
  RCC_PLL3FRACR : Z; RCC_PLL3CSGR : Z;
  RCC_PLL4CR : Z; RCC_PLL4CFGR1 : Z; RCC_PLL4CFGR2 : Z;
  RCC_PLL4FRACR : Z; RCC_PLL4CSGR : Z;
  (* dt-bindings/clock/stm32mp1-clks.h *)
  PLL1_P : Z;
  PLL4_P : Z; PLL4_Q : Z; PLL4_R : Z;
  CK_PER : Z; CK_MPU : Z; CK_AXI : Z; CK_MCU : Z;
  RTC : Z;
  DDRC1 : Z; DDRC1LP : Z; DDRC2 : Z; DDRC2LP : Z;
  DDRPHYC : Z; DDRPHYCLP : Z; DDRCAPB : Z; DDRCAPBLP : Z;
  AXIDCG : Z; DDRPHYCAPB : Z; DDRPHYCAPBLP : Z;
  TIM12_K : Z; TIM15_K : Z;
  USART1_K : Z; USART2_K : Z; USART3_K : Z; UART4_K : Z; UART5_K : Z;
  USART6_K : Z; UART7_K : Z; UART8_K : Z;
  SYSCFG : Z; LTDC_PX : Z; DDRPERFM : Z; IWDG2 : Z; USBPHY_K : Z;
  SPI6_K : Z; I2C4_K : Z; I2C6_K : Z;
  RTCAPB : Z; TZC1 : Z; TZC2 : Z; TZPC : Z; IWDG1 : Z; BSEC : Z;
  STGEN_K : Z;
  DMA1 : Z; DMA2 : Z; USBO_K : Z; SDMMC3_K : Z;
  GPIOA : Z; GPIOB : Z; GPIOC : Z; GPIOD : Z; GPIOE : Z; GPIOF : Z;
  GPIOG : Z; GPIOH : Z; GPIOI : Z; GPIOJ : Z; GPIOK : Z; GPIOZ : Z;
  CRYP1 : Z; HASH1 : Z; RNG1_K : Z; BKPSRAM : Z;
  MDMA : Z; GPU : Z; ETHMAC : Z; FMC_K : Z; QSPI_K : Z;
  SDMMC1_K : Z; SDMMC2_K : Z; USBH : Z; CK_DBG : Z;
  (* dt-bindings/clock/stm32mp1-clksrc.h *)
  CLK_MPU_HSI : Z; CLK_MPU_PLL1P : Z; CLK_MPU_PLL1P_DIV : Z;
  CLK_PLL12_HSI : Z; CLK_PLL12_HSE : Z;
  (* platform_def.h *)
  PLAT_MAX_OPP_NB : nat;
  PLL1_SETTINGS_VALID_ID : Z
}.

(** ** Enumerations of the driver *)

(** [enum stm32mp_osc_id]: the oscillators open [enum stm32mp1_parent_id]. *)
Definition _HSI : Z := 0.
Definition _HSE : Z := 1.
Definition _CSI : Z := 2.
Definition _LSI : Z := 3.
Definition _LSE : Z := 4.
Definition _I2S_CKIN : Z := 5.
Definition NB_OSC : Z := 6.
Definition _UNKNOWN_OSC_ID : Z := 255.

(** [enum stm32mp1_parent_id]. *)
Definition _HSI_KER : Z := NB_OSC.
Definition _HSE_KER : Z := 7.
Definition _HSE_KER_DIV2 : Z := 8.
Definition _CSI_KER : Z := 9.
Definition _PLL1_P : Z := 10.
Definition _PLL1_Q : Z := 11.
Definition _PLL1_R : Z := 12.
Definition _PLL2_P : Z := 13.
Definition _PLL2_Q : Z := 14.
Definition _PLL2_R : Z := 15.
Definition _PLL3_P : Z := 16.
Definition _PLL3_Q : Z := 17.
Definition _PLL3_R : Z := 18.
Definition _PLL4_P : Z := 19.
Definition _PLL4_Q : Z := 20.
Definition _PLL4_R : Z := 21.
Definition _ACLK : Z := 22.
Definition _PCLK1 : Z := 23.
Definition _PCLK2 : Z := 24.
Definition _PCLK3 : Z := 25.
Definition _PCLK4 : Z := 26.
Definition _PCLK5 : Z := 27.
Definition _HCLK6 : Z := 28.
Definition _HCLK2 : Z := 29.
Definition _CK_PER : Z := 30.
Definition _CK_MPU : Z := 31.
Definition _CK_MCU : Z := 32.
Definition _USB_PHY_48 : Z := 33.
Definition _PARENT_NB : Z := 34.
Definition _UNKNOWN_ID : Z := 255.

(** [enum stm32mp1_parent_sel]. *)
Definition _I2C12_SEL : Z := 0.
Definition _I2C35_SEL : Z := 1.
Definition _STGEN_SEL : Z := 2.
Definition _I2C46_SEL : Z := 3.
Definition _SPI6_SEL : Z := 4.
Definition _UART1_SEL : Z := 5.
Definition _RNG1_SEL : Z := 6.
Definition _UART6_SEL : Z := 7.
Definition _UART24_SEL : Z := 8.
Definition _UART35_SEL : Z := 9.
Definition _UART78_SEL : Z := 10.
Definition _SDMMC12_SEL : Z := 11.
Definition _SDMMC3_SEL : Z := 12.
Definition _QSPI_SEL : Z := 13.
Definition _FMC_SEL : Z := 14.
Definition _AXIS_SEL : Z := 15.
Definition _MCUS_SEL : Z := 16.
Definition _USBPHY_SEL : Z := 17.
Definition _USBO_SEL : Z := 18.
Definition _RTC_SEL : Z := 19.
Definition _MPU_SEL : Z := 20.
Definition _PER_SEL : Z := 21.
Definition _PARENT_SEL_NB : Z := 22.
Definition _UNKNOWN_SEL : Z := 255.

(** [enum stm32mp1_pll_id], [enum stm32mp1_div_id], [enum stm32mp1_pllcfg],
    [enum stm32mp1_plltype]. *)
Definition _PLL1 : Z := 0.
Definition _PLL2 : Z := 1.
Definition _PLL3 : Z := 2.
Definition _PLL4 : Z := 3.
Definition _PLL_NB : Z := 4.

Definition _DIV_P : Z := 0.
Definition _DIV_Q : Z := 1.
Definition _DIV_R : Z := 2.
Definition _DIV_NB : Z := 3.

Definition PLLCFG_M : nat := 0.
Definition PLLCFG_N : nat := 1.
Definition PLLCFG_P : nat := 2.
Definition PLLCFG_Q : nat := 3.
Definition PLLCFG_R : nat := 4.
Definition PLLCFG_O : nat := 5.
Definition PLLCFG_NB : nat := 6.

Definition PLL_800 : Z := 0.
Definition PLL_1600 : Z := 1.

Definition USB_PHY_48_MHZ : Z := 48000000.
Definition POST_DIVM_MIN : Z := 8000000.
Definition POST_DIVM_MAX : Z := 16000000.
Definition DIVM_MIN : Z := 0.
Definition DIVM_MAX : Z := 63.
Definition DIVN_MIN : Z := 24.
Definition DIVN_MAX : Z := 99.
Definition DIVP_MIN : Z := 0.
Definition DIVP_MAX : Z := 127.
Definition FRAC_MAX : Z := 8192.
Definition VCO_MIN : Z := 800000000.
Definition VCO_MAX : Z := 1600000000.
Definition SEC : Z := 1.
Definition N_S : Z := 0.

(** ** Clock identifiers fixed by the driver's compile-time assertion

    [clock_is_always_on] asserts ([CASSERT]) that the oscillator identifiers
    are 0 to 5 in this order and that the outputs of PLL1 to PLL3 are nine
    consecutive identifiers. *)
Definition CK_HSE : Z := 0.
Definition CK_CSI : Z := CK_HSE + 1.
Definition CK_LSI : Z := CK_HSE + 2.
Definition CK_LSE : Z := CK_HSE + 3.
Definition CK_HSI : Z := CK_HSE + 4.
Definition CK_HSE_DIV2 : Z := CK_HSE + 5.

Section ClockIds.
Context {P : Platform}.

Definition PLL1_Q : Z := PLL1_P + 1.
Definition PLL1_R : Z := PLL1_P + 2.
Definition PLL2_P : Z := PLL1_P + 3.
Definition PLL2_Q : Z := PLL1_P + 4.
Definition PLL2_R : Z := PLL1_P + 5.
Definition PLL3_P : Z := PLL1_P + 6.
Definition PLL3_Q : Z := PLL1_P + 7.
Definition PLL3_R : Z := PLL1_P + 8.

End ClockIds.

(** ** Register field layout

    Modelled from the spec: the positions of the fields inside the RCC
    registers, defined by [stm32mp1_rcc.h], which is not part of the
    sources.  The spec fixes M in 0..63, P, Q and R in 0..127, a 13-bit
    fractional value scaled by 2^13, a 9-bit N, 3-bit MPU, AXI and APB
    divider fields, a 4-bit MCU divider field, 3-bit source selectors and
    a 2-bit PLL reference selector. *)
Module RccFields.

Definition RCC_SELR_REFCLK_SRC_MASK : Z := GENMASK 1 0.
Definition RCC_SELR_SRC_MASK : Z := GENMASK 2 0.
Definition RCC_SELR_SRCRDY : Z := BIT 31.
Definition RCC_DIVR_DIV_MASK : Z := GENMASK 5 0.
Definition RCC_DIVR_DIVRDY : Z := BIT 31.

Definition RCC_MPUDIV_MASK : Z := GENMASK 2 0.
Definition RCC_AXIDIV_MASK : Z := GENMASK 2 0.
Definition RCC_MCUDIV_MASK : Z := GENMASK 3 0.
Definition RCC_APBXDIV_MASK : Z := GENMASK 2 0.

Definition RCC_MPCKSELR_HSI : Z := 0.
Definition RCC_MPCKSELR_HSE : Z := 1.
Definition RCC_MPCKSELR_PLL : Z := 2.
Definition RCC_MPCKSELR_PLL_MPUDIV : Z := 3.

Definition RCC_ASSCKSELR_HSI : Z := 0.
Definition RCC_ASSCKSELR_HSE : Z := 1.
Definition RCC_ASSCKSELR_PLL : Z := 2.

Definition RCC_MSSCKSELR_HSI : Z := 0.
Definition RCC_MSSCKSELR_HSE : Z := 1.
Definition RCC_MSSCKSELR_CSI : Z := 2.
Definition RCC_MSSCKSELR_PLL : Z := 3.

Definition RCC_CPERCKSELR_HSI : Z := 0.
Definition RCC_CPERCKSELR_CSI : Z := 1.
Definition RCC_CPERCKSELR_HSE : Z := 2.

Definition RCC_PLLNCR_PLLON : Z := BIT 0.
Definition RCC_PLLNCR_PLLRDY : Z := BIT 1.
Definition RCC_PLLNCR_SSCG_CTRL : Z := BIT 2.
Definition RCC_PLLNCR_DIVPEN : Z := BIT 4.
Definition RCC_PLLNCR_DIVQEN : Z := BIT 5.
Definition RCC_PLLNCR_DIVREN : Z := BIT 6.
Definition RCC_PLLNCR_DIVEN_SHIFT : Z := 4.

Definition RCC_PLLNCFGR1_DIVM_SHIFT : Z := 16.
Definition RCC_PLLNCFGR1_DIVM_MASK : Z := GENMASK 21 16.
Definition RCC_PLLNCFGR1_DIVN_SHIFT : Z := 0.
Definition RCC_PLLNCFGR1_DIVN_MASK : Z := GENMASK 8 0.
Definition RCC_PLLNCFGR1_IFRGE_SHIFT : Z := 24.
Definition RCC_PLLNCFGR1_IFRGE_MASK : Z := GENMASK 25 24.

Definition RCC_PLLNCFGR2_DIVX_MASK : Z := GENMASK 6 0.
Definition RCC_PLLNCFGR2_DIVP_SHIFT : Z := 0.
Definition RCC_PLLNCFGR2_DIVP_MASK : Z := GENMASK 6 0.
Definition RCC_PLLNCFGR2_DIVQ_SHIFT : Z := 8.
Definition RCC_PLLNCFGR2_DIVQ_MASK : Z := GENMASK 14 8.
Definition RCC_PLLNCFGR2_DIVR_SHIFT : Z := 16.
Definition RCC_PLLNCFGR2_DIVR_MASK : Z := GENMASK 22 16.

Definition RCC_PLLNFRACR_FRACV_SHIFT : Z := 3.
Definition RCC_PLLNFRACR_FRACV_MASK : Z := GENMASK 15 3.
Definition RCC_PLLNFRACR_FRACLE : Z := BIT 16.

(** [PQR(p, q, r)] of the clock-source binding: one enable bit per
    output. *)
Definition PQR (p q r : Z) : Z :=
  Z.lor (Z.land p 1)
        (Z.lor (Z.shiftl (Z.land q 1) 1) (Z.shiftl (Z.land r 1) 2)).

End RccFields.
Export RccFields.

(** ** Static tables *)

Record stm32mp1_pll_t : Set := {
  refclk_min : Z;
  refclk_max : Z;
  divn_max : Z
}.

Record stm32mp1_clk_gate_t : Set := {
  gate_offset : Z;   (* uint16_t offset *)
  gate_bit : Z;      (* uint8_t bit *)
  gate_index : Z;    (* uint8_t index *)
  gate_set_clr : Z;  (* uint8_t set_clr *)
  gate_secure : Z;   (* uint8_t secure *)
  gate_sel : Z;      (* uint8_t sel, an [enum stm32mp1_parent_sel] *)
  gate_fixed : Z     (* uint8_t fixed, an [enum stm32mp1_parent_id] *)
}.

Record stm32mp1_clk_sel_t : Set := {
  sel_offset : Z;    (* uint16_t offset *)
  sel_src : Z;       (* uint8_t src *)
  sel_msk : Z;       (* uint8_t msk *)
  sel_nb_parent : Z; (* uint8_t nb_parent *)
  sel_parent : list Z
}.

Record stm32mp1_clk_pll_t : Set := {
  plltype : Z;
  rckxselr : Z;
  pllxcfgr1 : Z;
  pllxcfgr2 : Z;
  pllxfracr : Z;
  pllxcr : Z;
  pllxcsgr : Z;
  refclk : list Z
}.

Definition _CLK_SELEC (sec off b idx s : Z) : stm32mp1_clk_gate_t :=
  {| gate_offset := u16 off; gate_bit := u8 b; gate_index := u8 idx;
     gate_set_clr := 0; gate_secure := u8 sec; gate_sel := u8 s;
     gate_fixed := _UNKNOWN_ID |}.

Definition _CLK_FIXED (sec off b idx f : Z) : stm32mp1_clk_gate_t :=
  {| gate_offset := u16 off; gate_bit := u8 b; gate_index := u8 idx;
     gate_set_clr := 0; gate_secure := u8 sec; gate_sel := _UNKNOWN_SEL;
     gate_fixed := u8 f |}.

Definition _CLK_SC_SELEC (sec off b idx s : Z) : stm32mp1_clk_gate_t :=
  {| gate_offset := u16 off; gate_bit := u8 b; gate_index := u8 idx;
     gate_set_clr := 1; gate_secure := u8 sec; gate_sel := u8 s;
     gate_fixed := _UNKNOWN_ID |}.

Definition _CLK_SC_FIXED (sec off b idx f : Z) : stm32mp1_clk_gate_t :=
  {| gate_offset := u16 off; gate_bit := u8 b; gate_index := u8 idx;
     gate_set_clr := 1; gate_secure := u8 sec; gate_sel := _UNKNOWN_SEL;
     gate_fixed := u8 f |}.

Definition i2c12_parents : list Z := [_PCLK1; _PLL4_R; _HSI_KER; _CSI_KER].
Definition i2c35_parents : list Z := [_PCLK1; _PLL4_R; _HSI_KER; _CSI_KER].
Definition stgen_parents : list Z := [_HSI_KER; _HSE_KER].
Definition i2c46_parents : list Z := [_PCLK5; _PLL3_Q; _HSI_KER; _CSI_KER].
Definition spi6_parents : list Z :=
  [_PCLK5; _PLL4_Q; _HSI_KER; _CSI_KER; _HSE_KER; _PLL3_Q].
Definition usart1_parents : list Z :=
  [_PCLK5; _PLL3_Q; _HSI_KER; _CSI_KER; _PLL4_Q; _HSE_KER].
Definition rng1_parents : list Z := [_CSI; _PLL4_R; _LSE; _LSI].
Definition uart6_parents : list Z :=
  [_PCLK2; _PLL4_Q; _HSI_KER; _CSI_KER; _HSE_KER].
Definition uart234578_parents : list Z :=
  [_PCLK1; _PLL4_Q; _HSI_KER; _CSI_KER; _HSE_KER].
Definition sdmmc12_parents : list Z := [_HCLK6; _PLL3_R; _PLL4_P; _HSI_KER].
Definition sdmmc3_parents : list Z := [_HCLK2; _PLL3_R; _PLL4_P; _HSI_KER].
Definition qspi_parents : list Z := [_ACLK; _PLL3_R; _PLL4_P; _CK_PER].
Definition fmc_parents : list Z := [_ACLK; _PLL3_R; _PLL4_P; _CK_PER].
Definition axiss_parents : list Z := [_HSI; _HSE; _PLL2_P].
Definition mcuss_parents : list Z := [_HSI; _HSE; _CSI; _PLL3_P].
Definition usbphy_parents : list Z := [_HSE_KER; _PLL4_R; _HSE_KER_DIV2].
Definition usbo_parents : list Z := [_PLL4_R; _USB_PHY_48].
Definition rtc_parents : list Z := [_UNKNOWN_ID; _LSE; _LSI; _HSE].
Definition mpu_parents : list Z := [_HSI; _HSE; _PLL1_P; _PLL1_P].
Definition per_parents : list Z := [_HSI; _HSE; _CSI].

(** Characteristics of a PLL according to its type. *)
Definition stm32mp1_pll : list stm32mp1_pll_t :=
  [ {| refclk_min := 4; refclk_max := 16; divn_max := 99 |};    (* PLL_800 *)
    {| refclk_min := 8; refclk_max := 16; divn_max := 199 |} ]. (* PLL_1600 *)

(** PLLNCFGR2 divider shift by output. *)
Definition pllncfgr2 : list Z :=
  [RCC_PLLNCFGR2_DIVP_SHIFT; RCC_PLLNCFGR2_DIVQ_SHIFT;
   RCC_PLLNCFGR2_DIVR_SHIFT].

(** Prescaler tables. *)
Definition stm32mp1_mcu_div : list Z :=
  [0; 1; 2; 3; 4; 6; 7; 8; 9; 9; 9; 9; 9; 9; 9; 9].
Definition stm32mp1_mpu_apbx_div : list Z := [0; 1; 2; 3; 4; 4; 4; 4].
Definition stm32mp1_mpu_div : list Z := stm32mp1_mpu_apbx_div.
Definition stm32mp1_apbx_div : list Z := stm32mp1_mpu_apbx_div.
Definition stm32mp1_axi_div : list Z := [1; 2; 3; 4; 4; 4; 4; 4].

Section Tables.
Context {P : Platform}.

Definition bl32_only {A : Type} (l : list A) : list A :=
  match IMAGE with IMAGE_BL32 => l | IMAGE_BL2 => [] end.

Definition bl2_only {A : Type} (l : list A) : list A :=
  match IMAGE with IMAGE_BL2 => l | IMAGE_BL32 => [] end.

(** State the parent clock ID straight related to a clock; entries that
    the initialiser does not name ([_HCLK6], [_HCLK2]) are zero. *)
Definition parent_id_clock_id : list Z :=
  map u8
    [ CK_HSI;        (* _HSI *)
      CK_HSE;        (* _HSE *)
      CK_CSI;        (* _CSI *)
      CK_LSI;        (* _LSI *)
      CK_LSE;        (* _LSE *)
      _UNKNOWN_ID;   (* _I2S_CKIN *)
      CK_HSI;        (* _HSI_KER *)
      CK_HSE;        (* _HSE_KER *)
      CK_HSE_DIV2;   (* _HSE_KER_DIV2 *)
      CK_CSI;        (* _CSI_KER *)
      PLL1_P; PLL1_Q; PLL1_R;
      PLL2_P; PLL2_Q; PLL2_R;
      PLL3_P; PLL3_Q; PLL3_R;
      PLL4_P; PLL4_Q; PLL4_R;
      CK_AXI;        (* _ACLK *)
      CK_AXI;        (* _PCLK1 *)
      CK_AXI;        (* _PCLK2 *)
      CK_AXI;        (* _PCLK3 *)
      CK_AXI;        (* _PCLK4 *)
      CK_AXI;        (* _PCLK5 *)
      0;             (* _HCLK6 *)
      0;             (* _HCLK2 *)
      CK_PER;        (* _CK_PER *)
      CK_MPU;        (* _CK_MPU *)
      CK_MCU;        (* _CK_MCU *)
      _UNKNOWN_ID ]. (* _USB_PHY_48 *)

Definition stm32mp1_clk_gate : list stm32mp1_clk_gate_t :=
  [ _CLK_FIXED SEC RCC_DDRITFCR 0 DDRC1 _ACLK;
    _CLK_FIXED SEC RCC_DDRITFCR 1 DDRC1LP _ACLK;
    _CLK_FIXED SEC RCC_DDRITFCR 2 DDRC2 _ACLK;
    _CLK_FIXED SEC RCC_DDRITFCR 3 DDRC2LP _ACLK;
    _CLK_FIXED SEC RCC_DDRITFCR 4 DDRPHYC _PLL2_R;
    _CLK_FIXED SEC RCC_DDRITFCR 5 DDRPHYCLP _PLL2_R;
    _CLK_FIXED SEC RCC_DDRITFCR 6 DDRCAPB _PCLK4;
    _CLK_FIXED SEC RCC_DDRITFCR 7 DDRCAPBLP _PCLK4;
    _CLK_FIXED SEC RCC_DDRITFCR 8 AXIDCG _ACLK;
    _CLK_FIXED SEC RCC_DDRITFCR 9 DDRPHYCAPB _PCLK4;
    _CLK_FIXED SEC RCC_DDRITFCR 10 DDRPHYCAPBLP _PCLK4 ]
  ++ bl32_only
  [ _CLK_SC_FIXED N_S RCC_MP_APB1ENSETR 6 TIM12_K _PCLK1 ]
  ++ bl2_only
  [ _CLK_SC_SELEC N_S RCC_MP_APB1ENSETR 14 USART2_K _UART24_SEL;
    _CLK_SC_SELEC N_S RCC_MP_APB1ENSETR 15 USART3_K _UART35_SEL;
    _CLK_SC_SELEC N_S RCC_MP_APB1ENSETR 16 UART4_K _UART24_SEL;
    _CLK_SC_SELEC N_S RCC_MP_APB1ENSETR 17 UART5_K _UART35_SEL;
    _CLK_SC_SELEC N_S RCC_MP_APB1ENSETR 18 UART7_K _UART78_SEL;
    _CLK_SC_SELEC N_S RCC_MP_APB1ENSETR 19 UART8_K _UART78_SEL ]
  ++ bl32_only
  [ _CLK_SC_FIXED N_S RCC_MP_APB2ENSETR 2 TIM15_K _PCLK2 ]
  ++ bl2_only
  [ _CLK_SC_SELEC N_S RCC_MP_APB2ENSETR 13 USART6_K _UART6_SEL ]
  ++
  [ _CLK_SC_FIXED N_S RCC_MP_APB3ENSETR 11 SYSCFG _UNKNOWN_ID ]
  ++ bl32_only
  [ _CLK_SC_SELEC N_S RCC_MP_APB4ENSETR 0 LTDC_PX _UNKNOWN_SEL ]
  ++
  [ _CLK_SC_SELEC N_S RCC_MP_APB4ENSETR 8 DDRPERFM _UNKNOWN_SEL;
    _CLK_SC_SELEC N_S RCC_MP_APB4ENSETR 15 IWDG2 _UNKNOWN_SEL;
    _CLK_SC_SELEC N_S RCC_MP_APB4ENSETR 16 USBPHY_K _USBPHY_SEL;

    _CLK_SC_SELEC SEC RCC_MP_APB5ENSETR 0 SPI6_K _SPI6_SEL;
    _CLK_SC_SELEC SEC RCC_MP_APB5ENSETR 2 I2C4_K _I2C46_SEL;
    _CLK_SC_SELEC SEC RCC_MP_APB5ENSETR 3 I2C6_K _I2C46_SEL;
    _CLK_SC_SELEC SEC RCC_MP_APB5ENSETR 4 USART1_K _UART1_SEL;
    _CLK_SC_FIXED SEC RCC_MP_APB5ENSETR 8 RTCAPB _PCLK5;
    _CLK_SC_FIXED SEC RCC_MP_APB5ENSETR 11 TZC1 _PCLK5;
    _CLK_SC_FIXED SEC RCC_MP_APB5ENSETR 12 TZC2 _PCLK5;
    _CLK_SC_FIXED SEC RCC_MP_APB5ENSETR 13 TZPC _PCLK5;
    _CLK_SC_FIXED SEC RCC_MP_APB5ENSETR 15 IWDG1 _PCLK5;
    _CLK_SC_FIXED SEC RCC_MP_APB5ENSETR 16 BSEC _PCLK5;
    _CLK_SC_SELEC SEC RCC_MP_APB5ENSETR 20 STGEN_K _STGEN_SEL;

    _CLK_SELEC SEC RCC_BDCR 20 RTC _RTC_SEL ]
  ++ bl32_only
  [ _CLK_SC_SELEC N_S RCC_MP_AHB2ENSETR 0 DMA1 _UNKNOWN_SEL;
    _CLK_SC_SELEC N_S RCC_MP_AHB2ENSETR 1 DMA2 _UNKNOWN_SEL;
    _CLK_SC_SELEC N_S RCC_MP_AHB2ENSETR 8 USBO_K _USBO_SEL;
    _CLK_SC_SELEC N_S RCC_MP_AHB2ENSETR 16 SDMMC3_K _SDMMC3_SEL ]
  ++
  [ _CLK_SC_SELEC N_S RCC_MP_AHB4ENSETR 0 GPIOA _UNKNOWN_SEL;
    _CLK_SC_SELEC N_S RCC_MP_AHB4ENSETR 1 GPIOB _UNKNOWN_SEL;
    _CLK_SC_SELEC N_S RCC_MP_AHB4ENSETR 2 GPIOC _UNKNOWN_SEL;
    _CLK_SC_SELEC N_S RCC_MP_AHB4ENSETR 3 GPIOD _UNKNOWN_SEL;
    _CLK_SC_SELEC N_S RCC_MP_AHB4ENSETR 4 GPIOE _UNKNOWN_SEL;
    _CLK_SC_SELEC N_S RCC_MP_AHB4ENSETR 5 GPIOF _UNKNOWN_SEL;
    _CLK_SC_SELEC N_S RCC_MP_AHB4ENSETR 6 GPIOG _UNKNOWN_SEL;
    _CLK_SC_SELEC N_S RCC_MP_AHB4ENSETR 7 GPIOH _UNKNOWN_SEL;
    _CLK_SC_SELEC N_S RCC_MP_AHB4ENSETR 8 GPIOI _UNKNOWN_SEL;
    _CLK_SC_SELEC N_S RCC_MP_AHB4ENSETR 9 GPIOJ _UNKNOWN_SEL;
    _CLK_SC_SELEC N_S RCC_MP_AHB4ENSETR 10 GPIOK _UNKNOWN_SEL;

    _CLK_SC_FIXED SEC RCC_MP_AHB5ENSETR 0 GPIOZ _PCLK5;
    _CLK_SC_FIXED SEC RCC_MP_AHB5ENSETR 4 CRYP1 _PCLK5;
    _CLK_SC_FIXED SEC RCC_MP_AHB5ENSETR 5 HASH1 _PCLK5;
    _CLK_SC_SELEC SEC RCC_MP_AHB5ENSETR 6 RNG1_K _RNG1_SEL;
    _CLK_SC_FIXED SEC RCC_MP_AHB5ENSETR 8 BKPSRAM _PCLK5 ]
  ++ bl32_only
  [ _CLK_SC_FIXED SEC RCC_MP_TZAHB6ENSETR 0 MDMA _ACLK;
    _CLK_SC_SELEC N_S RCC_MP_AHB6ENSETR 5 GPU _UNKNOWN_SEL;
    _CLK_SC_FIXED N_S RCC_MP_AHB6ENSETR 10 ETHMAC _ACLK ]
  ++ bl2_only
  [ _CLK_SC_SELEC N_S RCC_MP_AHB6ENSETR 12 FMC_K _FMC_SEL;
    _CLK_SC_SELEC N_S RCC_MP_AHB6ENSETR 14 QSPI_K _QSPI_SEL ]
  ++
  [ _CLK_SC_SELEC N_S RCC_MP_AHB6ENSETR 16 SDMMC1_K _SDMMC12_SEL;
    _CLK_SC_SELEC N_S RCC_MP_AHB6ENSETR 17 SDMMC2_K _SDMMC12_SEL ]
  ++ bl32_only
  [ _CLK_SC_SELEC N_S RCC_MP_AHB6ENSETR 24 USBH _UNKNOWN_SEL ]
  ++
  [ _CLK_SELEC N_S RCC_DBGCFGR 8 CK_DBG _UNKNOWN_SEL ].

Definition NB_GATES : nat := length stm32mp1_clk_gate.

Definition _CLK_PARENT_SEL (label rcc_selr : Z) (parents : list Z)
  : stm32mp1_clk_sel_t :=
  {| sel_offset := u16 rcc_selr;
     sel_src := u8 (SRC_SHIFT label);
     sel_msk := u8 (Z.shiftr (SRC_MASK label) (SRC_SHIFT label));
     sel_nb_parent := u8 (Z.of_nat (length parents));
     sel_parent := parents |}.

(** [stm32mp1_clk_sel], in the order of [enum stm32mp1_parent_sel]. *)
Definition stm32mp1_clk_sel : list stm32mp1_clk_sel_t :=
  [ _CLK_PARENT_SEL _I2C12_SEL RCC_I2C12CKSELR i2c12_parents;
    _CLK_PARENT_SEL _I2C35_SEL RCC_I2C35CKSELR i2c35_parents;
    _CLK_PARENT_SEL _STGEN_SEL RCC_STGENCKSELR stgen_parents;
    _CLK_PARENT_SEL _I2C46_SEL RCC_I2C46CKSELR i2c46_parents;
    _CLK_PARENT_SEL _SPI6_SEL RCC_SPI6CKSELR spi6_parents;
    _CLK_PARENT_SEL _UART1_SEL RCC_UART1CKSELR usart1_parents;
    _CLK_PARENT_SEL _RNG1_SEL RCC_RNG1CKSELR rng1_parents;
    _CLK_PARENT_SEL _UART6_SEL RCC_UART6CKSELR uart6_parents;
    _CLK_PARENT_SEL _UART24_SEL RCC_UART24CKSELR uart234578_parents;
    _CLK_PARENT_SEL _UART35_SEL RCC_UART35CKSELR uart234578_parents;
    _CLK_PARENT_SEL _UART78_SEL RCC_UART78CKSELR uart234578_parents;
    _CLK_PARENT_SEL _SDMMC12_SEL RCC_SDMMC12CKSELR sdmmc12_parents;
    _CLK_PARENT_SEL _SDMMC3_SEL RCC_SDMMC3CKSELR sdmmc3_parents;
    _CLK_PARENT_SEL _QSPI_SEL RCC_QSPICKSELR qspi_parents;
    _CLK_PARENT_SEL _FMC_SEL RCC_FMCCKSELR fmc_parents;
    _CLK_PARENT_SEL _AXIS_SEL RCC_ASSCKSELR axiss_parents;
    _CLK_PARENT_SEL _MCUS_SEL RCC_MSSCKSELR mcuss_parents;
    _CLK_PARENT_SEL _USBPHY_SEL RCC_USBCKSELR usbphy_parents;
    _CLK_PARENT_SEL _USBO_SEL RCC_USBCKSELR usbo_parents;
    _CLK_PARENT_SEL _RTC_SEL RCC_BDCR rtc_parents;
    _CLK_PARENT_SEL _MPU_SEL RCC_MPCKSELR mpu_parents;
    _CLK_PARENT_SEL _PER_SEL RCC_CPERCKSELR per_parents ].

Definition _CLK_PLL (type off1 off2 off3 off4 off5 off6 p1 p2 p3 p4 : Z)
  : stm32mp1_clk_pll_t :=
  {| plltype := type; rckxselr := u16 off1; pllxcfgr1 := u16 off2;
     pllxcfgr2 := u16 off3; pllxfracr := u16 off4; pllxcr := u16 off5;
     pllxcsgr := u16 off6; refclk := [p1; p2; p3; p4] |}.

Definition stm32mp1_clk_pll : list stm32mp1_clk_pll_t :=
  [ _CLK_PLL PLL_1600
      RCC_RCK12SELR RCC_PLL1CFGR1 RCC_PLL1CFGR2
      RCC_PLL1FRACR RCC_PLL1CR RCC_PLL1CSGR
      _HSI _HSE _UNKNOWN_OSC_ID _UNKNOWN_OSC_ID;
    _CLK_PLL PLL_1600
      RCC_RCK12SELR RCC_PLL2CFGR1 RCC_PLL2CFGR2
      RCC_PLL2FRACR RCC_PLL2CR RCC_PLL2CSGR
      _HSI _HSE _UNKNOWN_OSC_ID _UNKNOWN_OSC_ID;
    _CLK_PLL PLL_800
      RCC_RCK3SELR RCC_PLL3CFGR1 RCC_PLL3CFGR2
      RCC_PLL3FRACR RCC_PLL3CR RCC_PLL3CSGR
      _HSI _HSE _CSI _UNKNOWN_OSC_ID;
    _CLK_PLL PLL_800
      RCC_RCK4SELR RCC_PLL4CFGR1 RCC_PLL4CFGR2
      RCC_PLL4FRACR RCC_PLL4CR RCC_PLL4CSGR
      _HSI _HSE _CSI _I2S_CKIN ].

End Tables.

(** ** Driver state and outcomes of a call *)

(** [struct stm32mp1_pll_settings]. *)
Record stm32mp1_pll_settings : Set := {
  valid_id : Z;
  opp_freq : list Z;        (* freq[PLAT_MAX_OPP_NB] *)
  opp_volt : list Z;        (* volt[PLAT_MAX_OPP_NB] *)
  opp_cfg : list (list Z);  (* cfg[PLAT_MAX_OPP_NB][PLAT_MAX_PLLCFG_NB] *)
  opp_frac : list Z         (* frac[PLAT_MAX_OPP_NB] *)
}.

(** The RCC registers, keyed by their offset from [stm32mp_rcc_base()],
    and the private variables of the driver. *)
Record clk_state : Type := {
  rcc : gmap Z Z;
  stm32mp1_osc : list Z;
  gate_refcounts : list Z;
  pll1_settings : stm32mp1_pll_settings;
  current_opp_khz : Z
}.

Definition set_rcc (s : clk_state) (m : gmap Z Z) : clk_state :=
  {| rcc := m; stm32mp1_osc := stm32mp1_osc s;
     gate_refcounts := gate_refcounts s; pll1_settings := pll1_settings s;
     current_opp_khz := current_opp_khz s |}.

Definition set_gate_refcounts (s : clk_state) (l : list Z) : clk_state :=
  {| rcc := rcc s; stm32mp1_osc := stm32mp1_osc s;
     gate_refcounts := l; pll1_settings := pll1_settings s;
     current_opp_khz := current_opp_khz s |}.

Definition set_pll1_settings (s : clk_state) (t : stm32mp1_pll_settings)
  : clk_state :=
  {| rcc := rcc s; stm32mp1_osc := stm32mp1_osc s;
     gate_refcounts := gate_refcounts s; pll1_settings := t;
     current_opp_khz := current_opp_khz s |}.

Definition set_current_opp_khz (s : clk_state) (k : Z) : clk_state :=
  {| rcc := rcc s; stm32mp1_osc := stm32mp1_osc s;
     gate_refcounts := gate_refcounts s; pll1_settings := pll1_settings s;
     current_opp_khz := k |}.

(** How a call ends. *)
Inductive result (A : Type) : Type :=
| Ret (a : A)   (* the call returns [a] *)
| Panic.        (* [panic()]: the call never returns *)
Arguments Ret {A} a.
Arguments Panic {A}.

(** A C [int] that is either a value or a negated error code. *)
Inductive cint : Set :=
| Int (v : Z)
| Err (e : errno).

(** [ret < 0], [ret != 0] for such an [int]. *)
Definition is_neg (r : cint) : bool :=
  match r with Int v => v <? 0 | Err _ => true end.
Definition is_nonzero (r : cint) : bool :=
  match r with Int v => negb (v =? 0) | Err _ => true end.

(** State-passing computations that may panic. *)
Definition M (A : Type) : Type := clk_state -> result (A * clk_state).

Definition ret {A : Type} (a : A) : M A := fun s => Ret (a, s).
Definition bind {A B : Type} (m : M A) (k : A -> M B) : M B :=
  fun s => match m s with
           | Ret (a, s') => k a s'
           | Panic => Panic
           end.
Definition panic {A : Type} : M A := fun _ => Panic.
Definition get : M clk_state := fun s => Ret (s, s).
Definition modify (f : clk_state -> clk_state) : M unit :=
  fun s => Ret (tt, f s).

Declare Scope clk_scope.
Delimit Scope clk_scope with clk.
Notation "'let*' x ':=' m 'in' k" := (bind m (fun x => k))
  (at level 10, x name, m at level 100, k at level 200) : clk_scope.
Notation "'run' m 'then' k" := (bind m (fun _ => k))
  (at level 10, m at level 100, k at level 200) : clk_scope.

(** ** Memory-mapped I/O

    Modelled from the spec: the MMIO primitives of [lib/mmio.h] and the
    behaviour of the RCC registers (section 4.A).  A register holds the
    32-bit word last written to it; a set/clear pair is two addresses for
    one word: writing to the set register raises the bits written as 1,
    writing to the clear register, [RCC_MP_ENCLRR_OFFSET] above, lowers
    them, and reading the set register returns the word. *)

Definition mmio_read_32 (s : clk_state) (addr : Z) : Z :=
  default 0 (rcc s !! addr).

Definition mmio_write_32 (addr value : Z) (s : clk_state) : clk_state :=
  set_rcc s (<[addr := u32 value]> (rcc s)).

Definition mmio_setbits_32 (addr set : Z) (s : clk_state) : clk_state :=
  mmio_write_32 addr (Z.lor (mmio_read_32 s addr) set) s.

Definition mmio_clrbits_32 (addr clear : Z) (s : clk_state) : clk_state :=
  mmio_write_32 addr (Z.ldiff (mmio_read_32 s addr) clear) s.

Definition mmio_clrsetbits_32 (addr clear set : Z) (s : clk_state)
  : clk_state :=
  mmio_write_32 addr (Z.lor (Z.ldiff (mmio_read_32 s addr) clear) set) s.

(** [mmio_write_32] to the set register of a set/clear pair. *)
Definition mmio_write_32_enset (addr value : Z) (s : clk_state)
  : clk_state :=
  set_rcc s (<[addr := u32 (Z.lor (mmio_read_32 s addr) value)]> (rcc s)).

(** [stm32mp_mmio_setbits_32_shregs] and [stm32mp_mmio_clrbits_32_shregs]
    take the shared-register lock around the read-modify-write. *)
Definition stm32mp_mmio_setbits_32_shregs := mmio_setbits_32.
Definition stm32mp_mmio_clrbits_32_shregs := mmio_clrbits_32.

(** ** The driver *)

Section Driver.
Context {P : Platform}.
Local Open Scope clk_scope.

(** [mmio_write_32] to the clear register of a set/clear pair: the word
    it acts on is read back at the set register, [RCC_MP_ENCLRR_OFFSET]
    below. *)
Definition mmio_write_32_enclr (addr value : Z) (s : clk_state)
  : clk_state :=
  let paired := addr - RCC_MP_ENCLRR_OFFSET in
  set_rcc s (<[paired := u32 (Z.ldiff (mmio_read_32 s paired) value)]> (rcc s)).

(** Position of the first element that satisfies [p]: the search loops of
    the driver ([for (n = 0; n < ARRAY_SIZE(t); n++) if (...) return n]). *)
Fixpoint first_index {A : Type} (p : A -> bool) (l : list A) : option nat :=
  match l with
  | [] => None
  | x :: l' => if p x then Some 0%nat else option_map S (first_index p l')
  end.

Definition clock_id2parent_id (id : Z) : Z :=
  match first_index (fun c => c =? id) parent_id_clock_id with
  | Some n => Z.of_nat n
  | None => _UNKNOWN_ID
  end.

Definition gate_ref (idx : Z) : stm32mp1_clk_gate_t :=
  nth (Z.to_nat idx) stm32mp1_clk_gate (_CLK_SELEC 0 0 0 0 0).

Definition gate_is_non_secure (gate : stm32mp1_clk_gate_t) : bool :=
  gate_secure gate =? N_S.

Definition clk_sel_ref (idx : Z) : stm32mp1_clk_sel_t :=
  nth (Z.to_nat idx) stm32mp1_clk_sel (_CLK_PARENT_SEL 0 0 []).

Definition pll_ref (idx : Z) : stm32mp1_clk_pll_t :=
  nth (Z.to_nat idx) stm32mp1_clk_pll (_CLK_PLL 0 0 0 0 0 0 0 0 0 0 0).

Definition stm32mp1_clk_get_fixed (idx : Z) (s : clk_state) : Z :=
  if NB_OSC <=? idx then 0 else array_get (stm32mp1_osc s) idx.

Definition stm32mp1_clk_get_gated_id (id : Z) : cint :=
  match first_index (fun g => gate_index g =? id) stm32mp1_clk_gate with
  | Some i => Int (Z.of_nat i)
  | None => Err EINVAL
  end.

Definition stm32mp1_clk_get_sel (i : Z) : Z := gate_sel (gate_ref i).

Definition stm32mp1_clk_get_fixed_parent (i : Z) : Z :=
  gate_fixed (gate_ref i).

Definition stm32mp1_clk_get_parent (id : Z) (s : clk_state) : result cint :=
  (* Few non gateable clock have a static parent ID, find them *)
  let i := clock_id2parent_id id in
  if negb (i =? _UNKNOWN_ID) then Ret (Int i) else
  match stm32mp1_clk_get_gated_id id with
  | Err _ => Panic
  | Int i =>
      let p := stm32mp1_clk_get_fixed_parent i in
      if p <? _PARENT_NB then Ret (Int p) else
      let s_ := stm32mp1_clk_get_sel i in
      if s_ =? _UNKNOWN_SEL then Ret (Err EINVAL) else
      if _PARENT_SEL_NB <=? s_ then Panic else
      let sel := clk_sel_ref s_ in
      let p_sel :=
        Z.shiftr (Z.land (mmio_read_32 s (sel_offset sel))
                         (Z.shiftl (sel_msk sel) (sel_src sel)))
                 (sel_src sel) in
      if p_sel <? sel_nb_parent sel
      then Ret (Int (array_get (sel_parent sel) p_sel))
      else Ret (Err EINVAL)
  end.

Definition stm32mp1_pll_get_fref (pll : stm32mp1_clk_pll_t) (s : clk_state)
  : Z :=
  let selr := mmio_read_32 s (rckxselr pll) in
  let src := Z.land selr RCC_SELR_REFCLK_SRC_MASK in
  stm32mp1_clk_get_fixed (array_get (refclk pll) src) s.

(** [stm32mp1_pll_get_fvco]: VCO / 2 for PLL1 and PLL2, VCO for PLL3 and
    PLL4.  [refclk] and [fvco] are [unsigned long], [numerator] and
    [denominator] are [unsigned long long]. *)
Definition stm32mp1_pll_get_fvco (pll : stm32mp1_clk_pll_t) (s : clk_state)
  : Z :=
  let cfgr1 := mmio_read_32 s (pllxcfgr1 pll) in
  let fracr := mmio_read_32 s (pllxfracr pll) in
  let divm := Z.shiftr (Z.land cfgr1 RCC_PLLNCFGR1_DIVM_MASK)
                       RCC_PLLNCFGR1_DIVM_SHIFT in
  let divn := Z.land cfgr1 RCC_PLLNCFGR1_DIVN_MASK in
  let refclk := stm32mp1_pll_get_fref pll s in
  if negb (Z.land fracr RCC_PLLNFRACR_FRACLE =? 0) then
    let fracv := Z.shiftr (Z.land fracr RCC_PLLNFRACR_FRACV_MASK)
                          RCC_PLLNFRACR_FRACV_SHIFT in
    let numerator := u64 (u64 (Z.shiftl (u64 (divn + 1)) 13) + fracv) in
    let numerator := u64 (refclk * numerator) in
    let denominator := u64 (Z.shiftl (u64 (divm + 1)) 13) in
    u32 (numerator / denominator)
  else
    u32 (u32 (refclk * u32 (divn + 1)) / u32 (divm + 1)).

Definition stm32mp1_read_pll_freq (pll_id div_id : Z) (s : clk_state) : Z :=
  let pll := pll_ref pll_id in
  if _DIV_NB <=? div_id then 0 else
  let cfgr2 := mmio_read_32 s (pllxcfgr2 pll) in
  let divy := Z.land (Z.shiftr cfgr2 (array_get pllncfgr2 div_id))
                     RCC_PLLNCFGR2_DIVX_MASK in
  stm32mp1_pll_get_fvco pll s / u32 (divy + 1).

Definition get_clock_rate (p : Z) (s : clk_state) : Z :=
  if p =? _CK_MPU then
    (* MPU sub system *)
    let reg := mmio_read_32 s RCC_MPCKSELR in
    let src := Z.land reg RCC_SELR_SRC_MASK in
    if src =? RCC_MPCKSELR_HSI then stm32mp1_clk_get_fixed _HSI s
    else if src =? RCC_MPCKSELR_HSE then stm32mp1_clk_get_fixed _HSE s
    else if src =? RCC_MPCKSELR_PLL then stm32mp1_read_pll_freq _PLL1 _DIV_P s
    else if src =? RCC_MPCKSELR_PLL_MPUDIV then
      let clock := stm32mp1_read_pll_freq _PLL1 _DIV_P s in
      let reg := mmio_read_32 s RCC_MPCKDIVR in
      let clkdiv := Z.land reg RCC_MPUDIV_MASK in
      Z.shiftr clock (array_get stm32mp1_mpu_div clkdiv)
    else 0
  else if (p =? _ACLK) || (p =? _HCLK2) || (p =? _HCLK6) || (p =? _PCLK4)
          || (p =? _PCLK5) then
    (* AXI sub system *)
    let reg := mmio_read_32 s RCC_ASSCKSELR in
    let src := Z.land reg RCC_SELR_SRC_MASK in
    let clock :=
      if src =? RCC_ASSCKSELR_HSI then stm32mp1_clk_get_fixed _HSI s
      else if src =? RCC_ASSCKSELR_HSE then stm32mp1_clk_get_fixed _HSE s
      else if src =? RCC_ASSCKSELR_PLL
           then stm32mp1_read_pll_freq _PLL2 _DIV_P s
      else 0 in
    (* System clock divider *)
    let reg := mmio_read_32 s RCC_AXIDIVR in
    let clock :=
      clock / array_get stm32mp1_axi_div (Z.land reg RCC_AXIDIV_MASK) in
    if p =? _PCLK4 then
      let reg := mmio_read_32 s RCC_APB4DIVR in
      Z.shiftr clock (array_get stm32mp1_apbx_div (Z.land reg RCC_APBXDIV_MASK))
    else if p =? _PCLK5 then
      let reg := mmio_read_32 s RCC_APB5DIVR in
      Z.shiftr clock (array_get stm32mp1_apbx_div (Z.land reg RCC_APBXDIV_MASK))
    else clock
  else if (p =? _CK_MCU) || (p =? _PCLK1) || (p =? _PCLK2) || (p =? _PCLK3)
  then
    (* MCU sub system *)
    let reg := mmio_read_32 s RCC_MSSCKSELR in
    let src := Z.land reg RCC_SELR_SRC_MASK in
    let clock :=
      if src =? RCC_MSSCKSELR_HSI then stm32mp1_clk_get_fixed _HSI s
      else if src =? RCC_MSSCKSELR_HSE then stm32mp1_clk_get_fixed _HSE s
      else if src =? RCC_MSSCKSELR_CSI then stm32mp1_clk_get_fixed _CSI s
      else if src =? RCC_MSSCKSELR_PLL
           then stm32mp1_read_pll_freq _PLL3 _DIV_P s
      else 0 in
    (* MCU clock divider *)
    let reg := mmio_read_32 s RCC_MCUDIVR in
    let clock :=
      Z.shiftr clock (array_get stm32mp1_mcu_div (Z.land reg RCC_MCUDIV_MASK)) in
    if p =? _PCLK1 then
      let reg := mmio_read_32 s RCC_APB1DIVR in
      Z.shiftr clock (array_get stm32mp1_apbx_div (Z.land reg RCC_APBXDIV_MASK))
    else if p =? _PCLK2 then
      let reg := mmio_read_32 s RCC_APB2DIVR in
      Z.shiftr clock (array_get stm32mp1_apbx_div (Z.land reg RCC_APBXDIV_MASK))
    else if p =? _PCLK3 then
      let reg := mmio_read_32 s RCC_APB3DIVR in
      Z.shiftr clock (array_get stm32mp1_apbx_div (Z.land reg RCC_APBXDIV_MASK))
    else clock
  else if p =? _CK_PER then
    let reg := mmio_read_32 s RCC_CPERCKSELR in
    let src := Z.land reg RCC_SELR_SRC_MASK in
    if src =? RCC_CPERCKSELR_HSI then stm32mp1_clk_get_fixed _HSI s
    else if src =? RCC_CPERCKSELR_HSE then stm32mp1_clk_get_fixed _HSE s
    else if src =? RCC_CPERCKSELR_CSI then stm32mp1_clk_get_fixed _CSI s
    else 0
  else if (p =? _HSI) || (p =? _HSI_KER) then stm32mp1_clk_get_fixed _HSI s
  else if (p =? _CSI) || (p =? _CSI_KER) then stm32mp1_clk_get_fixed _CSI s
  else if (p =? _HSE) || (p =? _HSE_KER) then stm32mp1_clk_get_fixed _HSE s
  else if p =? _HSE_KER_DIV2 then Z.shiftr (stm32mp1_clk_get_fixed _HSE s) 1
  else if p =? _LSI then stm32mp1_clk_get_fixed _LSI s
  else if p =? _LSE then stm32mp1_clk_get_fixed _LSE s
  (* PLL *)
  else if p =? _PLL1_P then stm32mp1_read_pll_freq _PLL1 _DIV_P s
  else if p =? _PLL1_Q then stm32mp1_read_pll_freq _PLL1 _DIV_Q s
  else if p =? _PLL1_R then stm32mp1_read_pll_freq _PLL1 _DIV_R s
  else if p =? _PLL2_P then stm32mp1_read_pll_freq _PLL2 _DIV_P s
  else if p =? _PLL2_Q then stm32mp1_read_pll_freq _PLL2 _DIV_Q s
  else if p =? _PLL2_R then stm32mp1_read_pll_freq _PLL2 _DIV_R s
  else if p =? _PLL3_P then stm32mp1_read_pll_freq _PLL3 _DIV_P s
  else if p =? _PLL3_Q then stm32mp1_read_pll_freq _PLL3 _DIV_Q s
  else if p =? _PLL3_R then stm32mp1_read_pll_freq _PLL3 _DIV_R s
  else if p =? _PLL4_P then stm32mp1_read_pll_freq _PLL4 _DIV_P s
  else if p =? _PLL4_Q then stm32mp1_read_pll_freq _PLL4 _DIV_Q s
  else if p =? _PLL4_R then stm32mp1_read_pll_freq _PLL4 _DIV_R s
  (* Other *)
  else if p =? _USB_PHY_48 then USB_PHY_48_MHZ
  else 0.

Definition __clk_enable (gate : stm32mp1_clk_gate_t) (s : clk_state)
  : clk_state :=
  if negb (gate_set_clr gate =? 0)
  then mmio_write_32_enset (gate_offset gate) (BIT (gate_bit gate)) s
  else stm32mp_mmio_setbits_32_shregs (gate_offset gate)
         (BIT (gate_bit gate)) s.

Definition __clk_disable (gate : stm32mp1_clk_gate_t) (s : clk_state)
  : clk_state :=
  if negb (gate_set_clr gate =? 0)
  then mmio_write_32_enclr (gate_offset gate + RCC_MP_ENCLRR_OFFSET)
         (BIT (gate_bit gate)) s
  else stm32mp_mmio_clrbits_32_shregs (gate_offset gate)
         (BIT (gate_bit gate)) s.

Definition __clk_is_enabled (gate : stm32mp1_clk_gate_t) (s : clk_state)
  : bool :=
  negb (Z.land (mmio_read_32 s (gate_offset gate)) (BIT (gate_bit gate)) =? 0).

(** Oscillators and PLLs are not gated at runtime. *)
Definition clock_is_always_on (id : Z) : bool :=
  if (id <=? CK_HSE_DIV2) || ((PLL1_P <=? id) && (id <=? PLL3_R)) then true
  else if (id =? CK_AXI) || (id =? CK_MPU) || (id =? CK_MCU) || (id =? RTC)
  then true
  else false.

Definition refcount_of (i : Z) (s : clk_state) : Z :=
  array_get (gate_refcounts s) i.

Definition set_refcount (i v : Z) (s : clk_state) : clk_state :=
  set_gate_refcounts s (<[Z.to_nat i := v]> (gate_refcounts s)).

Definition __stm32mp1_clk_enable (id : Z) (with_refcnt : bool) : M unit :=
  if clock_is_always_on id then ret tt else
  match stm32mp1_clk_get_gated_id id with
  | Err _ => panic
  | Int i =>
      let gate := gate_ref i in
      if negb with_refcnt then modify (__clk_enable gate) else
      match IMAGE, gate_is_non_secure gate with
      | IMAGE_BL32, true =>
          (* Enable non-secure clock w/o any refcounting *)
          modify (__clk_enable gate)
      | _, _ =>
          let* s := get in
          run (if refcount_of i s =? 0
               then modify (__clk_enable gate) else ret tt) then
          run modify (fun s => set_refcount i (u32 (refcount_of i s + 1)) s)
          then
          let* s := get in
          if refcount_of i s =? UINT_MAX then panic else ret tt
      end
  end.

Definition __stm32mp1_clk_disable (id : Z) (with_refcnt : bool) : M unit :=
  if clock_is_always_on id then ret tt else
  match stm32mp1_clk_get_gated_id id with
  | Err _ => panic
  | Int i =>
      let gate := gate_ref i in
      if negb with_refcnt then modify (__clk_disable gate) else
      match IMAGE, gate_is_non_secure gate with
      | IMAGE_BL32, true =>
          (* Don't disable non-secure clocks *)
          ret tt
      | _, _ =>
          let* s := get in
          if refcount_of i s =? 0 then panic else
          run modify (fun s => set_refcount i (u32 (refcount_of i s - 1)) s)
          then
          let* s := get in
          if refcount_of i s =? 0
          then modify (__clk_disable gate) else ret tt
      end
  end.

Definition stm32mp_clk_enable (id : Z) : M unit :=
  __stm32mp1_clk_enable id true.

Definition stm32mp_clk_disable (id : Z) : M unit :=
  __stm32mp1_clk_disable id true.

Definition stm32mp1_clk_force_enable (id : Z) : M unit :=
  __stm32mp1_clk_enable id false.

Definition stm32mp1_clk_force_disable (id : Z) : M unit :=
  __stm32mp1_clk_disable id false.

Definition stm32mp_clk_is_enabled (id : Z) (s : clk_state) : result bool :=
  if clock_is_always_on id then Ret true else
  match stm32mp1_clk_get_gated_id id with
  | Err _ => Panic
  | Int i => Ret (__clk_is_enabled (gate_ref i) s)
  end.

Definition stm32mp_clk_get_rate (id : Z) (s : clk_state) : result Z :=
  match stm32mp1_clk_get_parent id s with
  | Ret p =>
      match p with
      | Err _ => Ret 0
      | Int p => if p <? 0 then Ret 0 else Ret (get_clock_rate p s)
      end
  | Panic => Panic
  end.

End Driver.

(** ** Polled hardware

    Modelled from the spec: the delay timer ([timeout_init_us],
    [timeout_elapsed]) and the reaction of the RCC while software polls a
    ready bit (section 5: polling loops bounded by explicit timeouts).
    [hw_step] is what the hardware does to the registers between two
    reads, [timeout_polls us] how many reads fit in [us] microseconds. *)
Class Hardware : Type := {
  hw_step : gmap Z Z -> gmap Z Z;
  timeout_polls : Z -> nat
}.

Definition TIMEOUT_US_200MS : Z := 200000.
Definition TIMEOUT_US_1S : Z := 1000000.
Definition PLLRDY_TIMEOUT : Z := TIMEOUT_US_200MS.
Definition CLKSRC_TIMEOUT : Z := TIMEOUT_US_200MS.
Definition CLKDIV_TIMEOUT : Z := TIMEOUT_US_200MS.

(** Modelled from the spec: [udiv_round_nearest] of [utils_def.h],
    division of unsigned longs rounded to nearest. *)
Definition udiv_round_nearest (x y : Z) : Z := u32 (x + y / 2) / y.

(** The device-tree collaborator: what [dt_get_all_opp_freqvolt] returned
    and stored through its three pointers. *)
Inductive dt_status : Set := DT_OK | DT_ERR_NOTFOUND | DT_ERR_OTHER.

Record dt_opp : Set := {
  dt_ret : dt_status;
  dt_count : Z;
  dt_freq : list Z;
  dt_volt : list Z
}.

Section PllControl.
Context {P : Platform} {H : Hardware}.
Local Open Scope clk_scope.

(** [while (busy) { if (timeout_elapsed(timeout)) return -ETIMEDOUT; }]:
    [true] when the loop gave up. *)
Fixpoint poll_while (n : nat) (busy : clk_state -> bool) (s : clk_state)
  : bool * clk_state :=
  if busy s then
    match n with
    | O => (true, s)
    | S n' => poll_while n' busy (set_rcc s (hw_step (rcc s)))
    end
  else (false, s).

Definition stm32mp1_check_pll_conf (pll_id clksrc : Z) (pllcfg : list Z)
  (dt_frac : Z) (s : clk_state) : bool :=
  let pll := pll_ref pll_id in
  let type := plltype pll in
  let clksrc_address := Z.shiftr clksrc 4 in
  (* Check PLL output *)
  if negb (mmio_read_32 s (pllxcr pll) =? RCC_PLLNCR_PLLON) then false else
  (* Check current clksrc *)
  let src := Z.land (mmio_read_32 s clksrc_address) RCC_SELR_SRC_MASK in
  if negb (src =? Z.land clksrc RCC_SELR_SRC_MASK) then false else
  (* Check Div *)
  let src := Z.land (mmio_read_32 s (rckxselr pll))
                    RCC_SELR_REFCLK_SRC_MASK in
  let refclk := stm32mp1_clk_get_fixed (array_get (refclk pll) src) s
                / u32 (array_get pllcfg (Z.of_nat PLLCFG_M) + 1) in
  if (refclk <? u32 (refclk_min (nth (Z.to_nat type) stm32mp1_pll
                                     (Build_stm32mp1_pll_t 0 0 0)) * 1000000))
     || (u32 (refclk_max (nth (Z.to_nat type) stm32mp1_pll
                              (Build_stm32mp1_pll_t 0 0 0)) * 1000000) <? refclk)
  then false else
  let ifrge :=
    if (type =? PLL_800) && (8000000 <=? refclk) then 1 else 0 in
  let value :=
    Z.land (u32 (Z.shiftl (array_get pllcfg (Z.of_nat PLLCFG_N))
                          RCC_PLLNCFGR1_DIVN_SHIFT))
           RCC_PLLNCFGR1_DIVN_MASK in
  let value :=
    Z.lor value
      (Z.land (u32 (Z.shiftl (array_get pllcfg (Z.of_nat PLLCFG_M))
                             RCC_PLLNCFGR1_DIVM_SHIFT))
              RCC_PLLNCFGR1_DIVM_MASK) in
  let value :=
    Z.lor value
      (Z.land (u32 (Z.shiftl ifrge RCC_PLLNCFGR1_IFRGE_SHIFT))
              RCC_PLLNCFGR1_IFRGE_MASK) in
  if negb (mmio_read_32 s (pllxcfgr1 pll) =? value) then false else
  (* Fractional configuration *)
  let fracv := dt_frac in
  let value := u32 (Z.shiftl fracv RCC_PLLNFRACR_FRACV_SHIFT) in
  let value := Z.lor value RCC_PLLNFRACR_FRACLE in
  if negb (mmio_read_32 s (pllxfracr pll) =? value) then false else
  (* Output config *)
  let value :=
    Z.land (u32 (Z.shiftl (array_get pllcfg (Z.of_nat PLLCFG_P))
                          RCC_PLLNCFGR2_DIVP_SHIFT))
           RCC_PLLNCFGR2_DIVP_MASK in
  let value :=
    Z.lor value
      (Z.land (u32 (Z.shiftl (array_get pllcfg (Z.of_nat PLLCFG_Q))
                             RCC_PLLNCFGR2_DIVQ_SHIFT))
              RCC_PLLNCFGR2_DIVQ_MASK) in
  let value :=
    Z.lor value
      (Z.land (u32 (Z.shiftl (array_get pllcfg (Z.of_nat PLLCFG_R))
                             RCC_PLLNCFGR2_DIVR_SHIFT))
              RCC_PLLNCFGR2_DIVR_MASK) in
  if negb (mmio_read_32 s (pllxcfgr2 pll) =? value) then false else
  true.

Definition stm32mp1_pll_start (pll_id : Z) (s : clk_state) : clk_state :=
  let pll := pll_ref pll_id in
  (* Preserve RCC_PLLNCR_SSCG_CTRL value *)
  mmio_clrsetbits_32 (pllxcr pll)
    (Z.lor RCC_PLLNCR_DIVPEN (Z.lor RCC_PLLNCR_DIVQEN RCC_PLLNCR_DIVREN))
    RCC_PLLNCR_PLLON s.

Definition stm32mp1_pll_output (pll_id output : Z) (s : clk_state)
  : cint * clk_state :=
  let pll := pll_ref pll_id in
  (* Wait PLL lock *)
  let '(timed_out, s) :=
    poll_while (timeout_polls PLLRDY_TIMEOUT)
      (fun s => Z.land (mmio_read_32 s (pllxcr pll)) RCC_PLLNCR_PLLRDY =? 0)
      s in
  if timed_out then (Err ETIMEDOUT, s) else
  (* Start the requested output *)
  (Int 0,
   mmio_setbits_32 (pllxcr pll)
     (u32 (Z.shiftl output RCC_PLLNCR_DIVEN_SHIFT)) s).

Definition stm32mp1_pll_stop (pll_id : Z) (s : clk_state)
  : cint * clk_state :=
  let pll := pll_ref pll_id in
  (* Stop all output *)
  let s := mmio_clrbits_32 (pllxcr pll)
             (Z.lor RCC_PLLNCR_DIVPEN
                    (Z.lor RCC_PLLNCR_DIVQEN RCC_PLLNCR_DIVREN)) s in
  (* Stop PLL *)
  let s := mmio_clrbits_32 (pllxcr pll) RCC_PLLNCR_PLLON s in
  (* Wait PLL stopped *)
  let '(timed_out, s) :=
    poll_while (timeout_polls PLLRDY_TIMEOUT)
      (fun s =>
         negb (Z.land (mmio_read_32 s (pllxcr pll)) RCC_PLLNCR_PLLRDY =? 0))
      s in
  if timed_out then (Err ETIMEDOUT, s) else (Int 0, s).

Definition stm32mp1_pll_compute_pllxcfgr2 (pllcfg : list Z) : Z :=
  let value :=
    Z.land (u32 (Z.shiftl (array_get pllcfg (Z.of_nat PLLCFG_P))
                          RCC_PLLNCFGR2_DIVP_SHIFT))
           RCC_PLLNCFGR2_DIVP_MASK in
  let value :=
    Z.lor value
      (Z.land (u32 (Z.shiftl (array_get pllcfg (Z.of_nat PLLCFG_Q))
                             RCC_PLLNCFGR2_DIVQ_SHIFT))
              RCC_PLLNCFGR2_DIVQ_MASK) in
  Z.lor value
    (Z.land (u32 (Z.shiftl (array_get pllcfg (Z.of_nat PLLCFG_R))
                           RCC_PLLNCFGR2_DIVR_SHIFT))
            RCC_PLLNCFGR2_DIVR_MASK).

Definition stm32mp1_pll_config_output (pll_id : Z) (pllcfg : list Z)
  (s : clk_state) : clk_state :=
  let pll := pll_ref pll_id in
  let value := stm32mp1_pll_compute_pllxcfgr2 pllcfg in
  mmio_write_32 (pllxcfgr2 pll) value s.

(** [stm32mp1_pll_compute_pllxcfgr1]: the word stored through [cfgr1], or
    the error returned. *)
Definition stm32mp1_pll_compute_pllxcfgr1 (pll : stm32mp1_clk_pll_t)
  (pllcfg : list Z) (s : clk_state) : errno + Z :=
  let type := plltype pll in
  let src := Z.land (mmio_read_32 s (rckxselr pll))
                    RCC_SELR_REFCLK_SRC_MASK in
  let refclk := stm32mp1_clk_get_fixed (array_get (refclk pll) src) s
                / u32 (array_get pllcfg (Z.of_nat PLLCFG_M) + 1) in
  if (refclk <? u32 (refclk_min (nth (Z.to_nat type) stm32mp1_pll
                                     (Build_stm32mp1_pll_t 0 0 0)) * 1000000))
     || (u32 (refclk_max (nth (Z.to_nat type) stm32mp1_pll
                              (Build_stm32mp1_pll_t 0 0 0)) * 1000000) <? refclk)
  then inl EINVAL else
  let ifrge :=
    if (type =? PLL_800) && (8000000 <=? refclk) then 1 else 0 in
  let cfgr1 :=
    Z.land (u32 (Z.shiftl (array_get pllcfg (Z.of_nat PLLCFG_N))
                          RCC_PLLNCFGR1_DIVN_SHIFT))
           RCC_PLLNCFGR1_DIVN_MASK in
  let cfgr1 :=
    Z.lor cfgr1
      (Z.land (u32 (Z.shiftl (array_get pllcfg (Z.of_nat PLLCFG_M))
                             RCC_PLLNCFGR1_DIVM_SHIFT))
              RCC_PLLNCFGR1_DIVM_MASK) in
  let cfgr1 :=
    Z.lor cfgr1
      (Z.land (u32 (Z.shiftl ifrge RCC_PLLNCFGR1_IFRGE_SHIFT))
              RCC_PLLNCFGR1_IFRGE_MASK) in
  inr cfgr1.

Definition stm32mp1_pll_config (pll_id : Z) (pllcfg : list Z) (fracv : Z)
  (s : clk_state) : cint * clk_state :=
  let pll := pll_ref pll_id in
  match stm32mp1_pll_compute_pllxcfgr1 pll pllcfg s with
  | inl e => (Err e, s)
  | inr value =>
      let s := mmio_write_32 (pllxcfgr1 pll) value s in
      (* Fractional configuration *)
      let value := 0 in
      let s := mmio_write_32 (pllxfracr pll) value s in
      (* Frac must be enabled only once its configuration is loaded *)
      let value := u32 (Z.shiftl fracv RCC_PLLNFRACR_FRACV_SHIFT) in
      let s := mmio_write_32 (pllxfracr pll) value s in
      let s := mmio_setbits_32 (pllxfracr pll) RCC_PLLNFRACR_FRACLE s in
      let s := stm32mp1_pll_config_output pll_id pllcfg s in
      (Int 0, s)
  end.

Definition stm32mp1_set_clksrc (clksrc : Z) (s : clk_state)
  : cint * clk_state :=
  let clksrc_address := Z.shiftr clksrc 4 in
  let s := mmio_clrsetbits_32 clksrc_address RCC_SELR_SRC_MASK
             (Z.land clksrc RCC_SELR_SRC_MASK) s in
  let '(timed_out, s) :=
    poll_while (timeout_polls CLKSRC_TIMEOUT)
      (fun s => Z.land (mmio_read_32 s clksrc_address) RCC_SELR_SRCRDY =? 0)
      s in
  if timed_out then (Err ETIMEDOUT, s) else (Int 0, s).

Definition stm32mp1_set_clkdiv (clkdiv address : Z) (s : clk_state)
  : cint * clk_state :=
  let s := mmio_clrsetbits_32 address RCC_DIVR_DIV_MASK
             (Z.land clkdiv RCC_DIVR_DIV_MASK) s in
  let '(timed_out, s) :=
    poll_while (timeout_polls CLKDIV_TIMEOUT)
      (fun s => Z.land (mmio_read_32 s address) RCC_DIVR_DIVRDY =? 0)
      s in
  if timed_out then (Err ETIMEDOUT, s) else (Int 0, s).

(** ** DVFS engine *)

Definition clk_pll1_settings_are_valid (s : clk_state) : bool :=
  valid_id (pll1_settings s) =? PLL1_SETTINGS_VALID_ID.

(** [for (i = 0; i < PLAT_MAX_OPP_NB; i++)] of [stm32mp1_round_opp_khz]:
    one pass over [pll1_settings.freq]. *)
Fixpoint round_opp_loop (freqs : list Z) (freq_khz round_opp : Z) : Z :=
  match freqs with
  | [] => round_opp
  | f :: freqs' =>
      round_opp_loop freqs' freq_khz
        (if (f <=? freq_khz) && (round_opp <? f) then f else round_opp)
  end.

(** [stm32mp1_round_opp_khz]: the value returned and the value left in
    [*freq_khz]. *)
Definition stm32mp1_round_opp_khz (freq_khz : Z) (s : clk_state)
  : cint * Z :=
  if negb (clk_pll1_settings_are_valid s) then
    (* No OPP table in DT, or an error occurred during PLL1 settings
       computation: return current CPU frequency. *)
    (Int 0, current_opp_khz s)
  else
    (Int 0, round_opp_loop (opp_freq (pll1_settings s)) freq_khz 0).

(** [stm32mp1_is_pll_config_on_the_fly]: the value returned and the value
    left in [*result], which starts as [result0]:
    (-1) config on the fly is not possible, (0) config on the fly is
    possible, (+1) same parameters, no need to reconfigure. *)
Definition stm32mp1_is_pll_config_on_the_fly (pll_id : Z) (pllcfg : list Z)
  (fracv : Z) (result0 : Z) (s : clk_state) : cint * Z :=
  let pll := pll_ref pll_id in
  match stm32mp1_pll_compute_pllxcfgr1 pll pllcfg s with
  | inl e => (Err e, result0)
  | inr value =>
      if negb (mmio_read_32 s (pllxcfgr1 pll) =? value) then
        (* Different DIVN/DIVM, can't config on the fly *)
        (Int 0, -1)
      else
        let fracr := u32 (Z.shiftl fracv RCC_PLLNFRACR_FRACV_SHIFT) in
        let fracr := Z.lor fracr RCC_PLLNFRACR_FRACLE in
        let value := stm32mp1_pll_compute_pllxcfgr2 pllcfg in
        if (mmio_read_32 s (pllxfracr pll) =? fracr)
           && (mmio_read_32 s (pllxcfgr2 pll) =? value)
        then (* Same parameters, no need to config *) (Int 0, 1)
        else (Int 0, 0)
  end.

Definition stm32mp1_get_mpu_div (freq_khz : Z) (s : clk_state) : Z :=
  let freq_pll1_p := get_clock_rate _PLL1_P s / 1000 in
  if negb (freq_pll1_p mod freq_khz =? 0) then -1 else
  let div := freq_pll1_p / freq_khz in
  if div =? 1 then 0
  else if div =? 2 then 1
  else if div =? 4 then 2
  else if div =? 8 then 3
  else if div =? 16 then 4
  else -1.

Definition stm32mp1_pll1_config_from_opp_khz (freq_khz : Z) (s : clk_state)
  : cint * clk_state :=
  match first_index (fun f => f =? freq_khz) (opp_freq (pll1_settings s)) with
  | None => (Err ENXIO, s)
  | Some i =>
      let cfg_i := nth i (opp_cfg (pll1_settings s)) [] in
      let frac_i := nth i (opp_frac (pll1_settings s)) 0 in
      let div := stm32mp1_get_mpu_div freq_khz s in
      if div =? 0 then stm32mp1_set_clksrc CLK_MPU_PLL1P s
      else if negb (div =? -1) then
        let '(r, s) := stm32mp1_set_clkdiv div RCC_MPCKDIVR s in
        if is_nonzero r then (r, s)
        else stm32mp1_set_clksrc CLK_MPU_PLL1P_DIV s
      else
      let '(r, config_on_the_fly) :=
        stm32mp1_is_pll_config_on_the_fly _PLL1 cfg_i frac_i (-1) s in
      if is_nonzero r then (r, s) else
      if config_on_the_fly =? 1 then
        (* No need to reconfigure, setup already OK *)
        (Int 0, s)
      else
      let '(r, s) :=
        if config_on_the_fly =? -1 then
          (* Switch to HSI and stop PLL1 before reconfiguration *)
          let '(r, s) := stm32mp1_set_clksrc CLK_MPU_HSI s in
          if is_nonzero r then (r, s) else stm32mp1_pll_stop _PLL1 s
        else (Int 0, s) in
      if is_nonzero r then (r, s) else
      let '(r, s) := stm32mp1_pll_config _PLL1 cfg_i frac_i s in
      if is_nonzero r then (r, s) else
      if config_on_the_fly =? -1 then
        (* Start PLL1 and switch back to after reconfiguration *)
        let s := stm32mp1_pll_start _PLL1 s in
        let '(r, s) :=
          stm32mp1_pll_output _PLL1 (array_get cfg_i (Z.of_nat PLLCFG_O)) s in
        if is_nonzero r then (r, s) else
        let '(r, s) := stm32mp1_set_clksrc CLK_MPU_PLL1P s in
        if is_nonzero r then (r, s) else (Int 0, s)
      else (Int 0, s)
  end.

Definition stm32mp1_set_opp_khz (freq_khz : Z) : M cint :=
  let* s := get in
  if freq_khz =? current_opp_khz s then
    (* OPP already set, nothing to do *)
    ret (Int 0)
  else if negb (clk_pll1_settings_are_valid s) then
    (* No OPP table in DT or an error occurred during PLL1 settings
       computation: return error. *)
    ret (Err EACCES)
  else
  (* Check that PLL1 is MPU clock source *)
  let mpu_src := Z.land (mmio_read_32 s RCC_MPCKSELR) RCC_SELR_SRC_MASK in
  if negb (mpu_src =? RCC_MPCKSELR_PLL)
     && negb (mpu_src =? RCC_MPCKSELR_PLL_MPUDIV)
  then ret (Err EPERM)
  else
  let '(r, s) := stm32mp1_pll1_config_from_opp_khz freq_khz s in
  if is_nonzero r then
    (* Restore original value *)
    let '(r, s) :=
      stm32mp1_pll1_config_from_opp_khz (current_opp_khz s) s in
    if is_nonzero r then panic
    else run modify (fun _ => s) then ret (Err EIO)
  else
    run modify (fun _ => set_current_opp_khz s freq_khz) then ret (Int 0).

End PllControl.

(** ** Reverse PLL mathematics and the OPP table *)

(** What [clk_compute_pll1_settings] holds while it searches: the cells
    behind [pllcfg] and [fracv], and [best_diff]. *)
Record pll1_search : Set := {
  srch_pllcfg : list Z;
  srch_fracv : Z;
  srch_best_diff : Z
}.

(** A [for] loop over the successive values of its variable; the body
    either falls through to the next iteration ([inl], also on
    [continue]) or leaves the function ([inr]). *)
Fixpoint for_each {S R : Type} (vals : list Z) (body : Z -> S -> S + R)
  (st : S) : S + R :=
  match vals with
  | [] => inl st
  | v :: vals' =>
      match body v st with
      | inl st' => for_each vals' body st'
      | inr r => inr r
      end
  end.

(** [lo, lo + 1, ..., lo + n - 1]. *)
Definition upto (lo : Z) (n : nat) : list Z :=
  map (fun k => lo + Z.of_nat k) (seq 0 n).

(** [hi, hi - 1, ..., hi - n + 1]. *)
Definition downfrom (hi : Z) (n : nat) : list Z :=
  map (fun k => hi - Z.of_nat k) (seq 0 n).

(** [for (i = 2; i != 0; i--)]: 2 loops to refine the fractional part. *)
Fixpoint refine_frac (i : nat) (post_divm output_freq divm divn divp : Z)
  (frac : Z) (st : pll1_search) : pll1_search + pll1_search :=
  match i with
  | O => inl st
  | S i' =>
      if FRAC_MAX <? frac then inl st (* break *) else
      let vco :=
        u64 (u32 (post_divm * u32 (divn + 1))
             + u64 (post_divm * u64 frac) / FRAC_MAX) in
      if (vco <? VCO_MIN / 2) || (VCO_MAX / 2 <? vco) then
        refine_frac i' post_divm output_freq divm divn divp (frac + 1) st
      else
        let freq := vco / u64 (divp + 1) in
        let diff :=
          if output_freq <? freq then u32 (u64 (freq - output_freq))
          else u32 (u64 (output_freq - freq)) in
        if diff <? srch_best_diff st then
          let pllcfg := <[PLLCFG_M := u32 divm]> (srch_pllcfg st) in
          let pllcfg := <[PLLCFG_N := u32 divn]> pllcfg in
          let pllcfg := <[PLLCFG_P := u32 divp]> pllcfg in
          let st' := {| srch_pllcfg := pllcfg; srch_fracv := u32 frac;
                        srch_best_diff := srch_best_diff st |} in
          if diff =? 0 then inr st' else
          refine_frac i' post_divm output_freq divm divn divp (frac + 1)
            {| srch_pllcfg := pllcfg; srch_fracv := u32 frac;
               srch_best_diff := diff |}
        else
          refine_frac i' post_divm output_freq divm divn divp (frac + 1) st
  end.

(** Body of [for (divp = DIVP_MIN; divp <= DIVP_MAX; divp++)]. *)
Definition search_divp (input_freq output_freq post_divm divm divp : Z)
  (st : pll1_search) : pll1_search + pll1_search :=
  let freq := u64 (u64 (output_freq * u64 (divm + 1)) * u64 (divp + 1)) in
  let divn := to_int (u64 (freq / input_freq - 1)) in
  if (divn <? DIVN_MIN) || (DIVN_MAX <? divn) then inl st else
  let frac :=
    to_int (u64 (u64 (freq * FRAC_MAX) / input_freq
                 - u64 ((divn + 1) * FRAC_MAX))) in
  refine_frac 2 post_divm output_freq divm divn divp frac st.

(** Body of [for (divm = DIVM_MAX; divm >= DIVM_MIN; divm--)]. *)
Definition search_divm (input_freq output_freq divm : Z) (st : pll1_search)
  : pll1_search + pll1_search :=
  let post_divm := input_freq / u32 (divm + 1) in
  if (post_divm <? POST_DIVM_MIN) || (POST_DIVM_MAX <? post_divm)
  then inl st else
  for_each (upto DIVP_MIN 128)
    (search_divp input_freq output_freq post_divm divm) st.

(** [clk_compute_pll1_settings]: the value returned and what is left
    behind [pllcfg] and [fracv]. *)
Definition clk_compute_pll1_settings (input_freq freq_khz : Z)
  (pllcfg : list Z) (fracv : Z) : cint * list Z * Z :=
  let output_freq := u32 (freq_khz * 1000) in
  (* Following parameters have always the same value *)
  let pllcfg := <[PLLCFG_Q := 0]> pllcfg in
  let pllcfg := <[PLLCFG_R := 0]> pllcfg in
  let pllcfg := <[PLLCFG_O := PQR 1 0 0]> pllcfg in
  match for_each (downfrom DIVM_MAX 64) (search_divm input_freq output_freq)
          {| srch_pllcfg := pllcfg; srch_fracv := fracv;
             srch_best_diff := UINT_MAX |} with
  | inr st => (Int 0, srch_pllcfg st, srch_fracv st)
  | inl st =>
      if srch_best_diff st =? UINT_MAX
      then (Int (-1), srch_pllcfg st, srch_fracv st)
      else (Int 0, srch_pllcfg st, srch_fracv st)
  end.

Section OppTable.
Context {P : Platform}.
Local Open Scope clk_scope.

Definition set_opp_cfg (i : nat) (pllcfg : list Z) (fracv : Z)
  (t : stm32mp1_pll_settings) : stm32mp1_pll_settings :=
  {| valid_id := valid_id t; opp_freq := opp_freq t; opp_volt := opp_volt t;
     opp_cfg := <[i := pllcfg]> (opp_cfg t);
     opp_frac := <[i := fracv]> (opp_frac t) |}.

(** Which branch [clk_get_pll1_settings] takes: [Some true] computes the
    settings, [Some false] copies those of entry [i], [None] fails. *)
Definition clk_get_pll1_settings_branch (freq_khz : Z)
  (t : stm32mp1_pll_settings) : option bool * nat :=
  match first_index (fun f => f =? freq_khz) (opp_freq t) with
  | None => (if valid_id t =? 0 then Some true else None, length (opp_freq t))
  | Some i =>
      (Some (array_get (nth i (opp_cfg t) []) (Z.of_nat PLLCFG_O) =? 0), i)
  end.

(** [clk_get_pll1_settings]: the value returned and what is left behind
    [pllcfg] and [fracv]. *)
Definition clk_get_pll1_settings (clksrc freq_khz : Z) (pllcfg : list Z)
  (fracv : Z) (s : clk_state) : result (cint * list Z * Z) :=
  let t := pll1_settings s in
  match clk_get_pll1_settings_branch freq_khz t with
  | (Some true, _) =>
      (* Either PLL1 settings structure is completely empty, or these
         settings are not yet computed: do it. *)
      let input_freq :=
        if clksrc =? CLK_PLL12_HSI then stm32mp_clk_get_rate CK_HSI s
        else if clksrc =? CLK_PLL12_HSE then stm32mp_clk_get_rate CK_HSE s
        else Panic in
      match input_freq with
      | Ret input_freq =>
          Ret (clk_compute_pll1_settings input_freq freq_khz pllcfg fracv)
      | Panic => Panic
      end
  | (Some false, i) =>
      (* Index is in range and PLL1 settings are computed: use content to
         answer to the request. *)
      Ret (Int 0, nth i (opp_cfg t) [], nth i (opp_frac t) 0)
  | (None, _) => Ret (Int (-1), pllcfg, fracv)
  end.

Definition clk_save_current_pll1_settings (buck1_voltage : Z) : M Z :=
  let* s := get in
  let pll := pll_ref _PLL1 in
  match stm32mp_clk_get_rate CK_MPU s with
  | Panic => panic
  | Ret rate =>
      let freq := u32 (udiv_round_nearest rate 1000) in
      let t := pll1_settings s in
      match first_index (fun f => f =? freq) (opp_freq t) with
      | None => ret (-1)
      | Some i =>
          if negb (nth i (opp_volt t) 0 =? buck1_voltage)
             && negb (buck1_voltage =? 0)
          then ret (-1) else
          let cfgr1 := mmio_read_32 s (pllxcfgr1 pll) in
          let cfgr2 := mmio_read_32 s (pllxcfgr2 pll) in
          let row := nth i (opp_cfg t) [] in
          let row := <[PLLCFG_M :=
            Z.shiftr (Z.land cfgr1 RCC_PLLNCFGR1_DIVM_MASK)
                     RCC_PLLNCFGR1_DIVM_SHIFT]> row in
          let row := <[PLLCFG_N :=
            Z.shiftr (Z.land cfgr1 RCC_PLLNCFGR1_DIVN_MASK)
                     RCC_PLLNCFGR1_DIVN_SHIFT]> row in
          let row := <[PLLCFG_P :=
            Z.shiftr (Z.land cfgr2 RCC_PLLNCFGR2_DIVP_MASK)
                     RCC_PLLNCFGR2_DIVP_SHIFT]> row in
          let row := <[PLLCFG_Q :=
            Z.shiftr (Z.land cfgr2 RCC_PLLNCFGR2_DIVQ_MASK)
                     RCC_PLLNCFGR2_DIVQ_SHIFT]> row in
          let row := <[PLLCFG_R :=
            Z.shiftr (Z.land cfgr2 RCC_PLLNCFGR2_DIVR_MASK)
                     RCC_PLLNCFGR2_DIVR_SHIFT]> row in
          let row := <[PLLCFG_O :=
            Z.shiftr (mmio_read_32 s (pllxcr pll))
                     RCC_PLLNCR_DIVEN_SHIFT]> row in
          let fracv :=
            Z.shiftr (Z.land (mmio_read_32 s (pllxfracr pll))
                             RCC_PLLNFRACR_FRACV_MASK)
                     RCC_PLLNFRACR_FRACV_SHIFT in
          run modify (fun s =>
                set_pll1_settings s (set_opp_cfg i row fracv t))
          then ret (Z.of_nat i)
      end
  end.

Definition stm32mp1_clk_get_pll1_current_clksrc : M Z :=
  let* s := get in
  let pll := pll_ref _PLL1 in
  let value := mmio_read_32 s (rckxselr pll) in
  let src := Z.land value RCC_SELR_REFCLK_SRC_MASK in
  if src =? 0 then ret CLK_PLL12_HSI
  else if src =? 1 then ret CLK_PLL12_HSE
  else panic.

(** A [for] loop whose body may leave the function or panic. *)
Fixpoint for_each_m {R : Type} (vals : list Z) (body : Z -> M (option R))
  : M (option R) :=
  match vals with
  | [] => ret None
  | v :: vals' =>
      let* r := body v in
      match r with
      | Some r => ret (Some r)
      | None => for_each_m vals' body
      end
  end.

(** Body of the loop of [stm32mp1_clk_compute_all_pll1_settings]. *)
Definition compute_all_body (index clksrc : Z) (i : Z) : M (option cint) :=
  if i =? index then ret None else
  let* s := get in
  let t := pll1_settings s in
  let n := Z.to_nat i in
  match clk_get_pll1_settings clksrc (nth n (opp_freq t) 0)
          (nth n (opp_cfg t) []) (nth n (opp_frac t) 0) s with
  | Panic => panic
  | Ret (r, pllcfg, fracv) =>
      run modify (fun s =>
            set_pll1_settings s (set_opp_cfg n pllcfg fracv t))
      then
      if is_nonzero r then ret (Some r) else ret None
  end.

(** [stm32mp1_clk_compute_all_pll1_settings]; [dt] is what
    [dt_get_all_opp_freqvolt] answered. *)
Definition stm32mp1_clk_compute_all_pll1_settings (dt : dt_opp)
  (buck1_voltage : Z) : M cint :=
  run modify (fun s =>
        let t := pll1_settings s in
        set_pll1_settings s
          {| valid_id := valid_id t; opp_freq := dt_freq dt;
             opp_volt := dt_volt dt; opp_cfg := opp_cfg t;
             opp_frac := opp_frac t |})
  then
  match dt_ret dt with
  | DT_ERR_NOTFOUND => ret (Int 0)
  | DT_ERR_OTHER => ret (Int 0)
  | DT_OK =>
      let* index := clk_save_current_pll1_settings buck1_voltage in
      let* clksrc := stm32mp1_clk_get_pll1_current_clksrc in
      let* r :=
        for_each_m (upto 0 (Z.to_nat (to_int (dt_count dt))))
          (compute_all_body index clksrc) in
      match r with
      | Some r => ret r
      | None =>
          run modify (fun s =>
                let t := pll1_settings s in
                set_pll1_settings s
                  {| valid_id := PLL1_SETTINGS_VALID_ID;
                     opp_freq := opp_freq t; opp_volt := opp_volt t;
                     opp_cfg := opp_cfg t; opp_frac := opp_frac t |})
          then ret (Int 0)
      end
  end.

End OppTable.

(** ** Sequences of gate operations *)

Inductive gate_op : Set := OpEnable | OpDisable.

Section GateRuns.
Context {P : Platform}.
Local Open Scope clk_scope.

Definition apply_gate_op (id : Z) (op : gate_op) : M unit :=
  match op with
  | OpEnable => stm32mp_clk_enable id
  | OpDisable => stm32mp_clk_disable id
  end.

Fixpoint run_gate_ops (id : Z) (ops : list gate_op) : M unit :=
  match ops with
  | [] => ret tt
  | op :: ops' => run apply_gate_op id op then run_gate_ops id ops'
  end.

End GateRuns.

(** ** A concrete platform

    Used to exhibit runs of the driver: the offsets follow the RCC register
    map of the STM32MP15x, the identifiers the numbering of the clock
    binding, and the image is BL32. *)
Definition stm32mp15_src_shift (label : Z) : Z :=
  if label =? _USBO_SEL then 4
  else if label =? _RTC_SEL then 16
  else 0.

Definition stm32mp15_src_mask (label : Z) : Z :=
  if label =? _USBO_SEL then BIT 4
  else if label =? _RTC_SEL then GENMASK 17 16
  else if (label =? _STGEN_SEL) || (label =? _RNG1_SEL) || (label =? _QSPI_SEL)
          || (label =? _FMC_SEL) || (label =? _MCUS_SEL)
          || (label =? _USBPHY_SEL) || (label =? _MPU_SEL)
          || (label =? _PER_SEL)
  then GENMASK 1 0
  else GENMASK 2 0.

Definition stm32mp15 : Platform := {|
  IMAGE := IMAGE_BL32;
  RCC_DDRITFCR := 0xD8;
  RCC_MP_APB1ENSETR := 0xA00;
  RCC_MP_APB2ENSETR := 0xA08;
  RCC_MP_APB3ENSETR := 0xA10;
  RCC_MP_APB4ENSETR := 0x200;
  RCC_MP_APB5ENSETR := 0x208;
  RCC_BDCR := 0x140;
  RCC_MP_AHB2ENSETR := 0xA18;
  RCC_MP_AHB4ENSETR := 0xA28;
  RCC_MP_AHB5ENSETR := 0x210;
  RCC_MP_TZAHB6ENSETR := 0x220;
  RCC_MP_AHB6ENSETR := 0x218;
  RCC_DBGCFGR := 0x80C;
  RCC_MP_ENCLRR_OFFSET := 4;
  RCC_I2C12CKSELR := 0x8C0;
  RCC_I2C35CKSELR := 0x8C4;
  RCC_STGENCKSELR := 0xD4;
  RCC_I2C46CKSELR := 0xC0;
  RCC_SPI6CKSELR := 0xC4;
  RCC_UART1CKSELR := 0xC8;
  RCC_RNG1CKSELR := 0xCC;
  RCC_MPCKSELR := 0x20;
  RCC_CPERCKSELR := 0xD0;
  RCC_UART6CKSELR := 0x8E4;
  RCC_UART24CKSELR := 0x8E8;
  RCC_UART35CKSELR := 0x8EC;
  RCC_UART78CKSELR := 0x8F0;
  RCC_SDMMC12CKSELR := 0x8F4;
  RCC_SDMMC3CKSELR := 0x8F8;
  RCC_QSPICKSELR := 0x900;
  RCC_FMCCKSELR := 0x904;
  RCC_ASSCKSELR := 0x24;
  RCC_MSSCKSELR := 0x48;
  RCC_USBCKSELR := 0x91C;
  SRC_SHIFT := stm32mp15_src_shift;
  SRC_MASK := stm32mp15_src_mask;
  RCC_MPCKDIVR := 0x2C;
  RCC_AXIDIVR := 0x30;
  RCC_MCUDIVR := 0x830;
  RCC_APB1DIVR := 0x834;
  RCC_APB2DIVR := 0x838;
  RCC_APB3DIVR := 0x83C;
  RCC_APB4DIVR := 0x3C;
  RCC_APB5DIVR := 0x40;
  RCC_RCK12SELR := 0x28;
  RCC_RCK3SELR := 0x820;
  RCC_RCK4SELR := 0x824;
  RCC_PLL1CR := 0x80; RCC_PLL1CFGR1 := 0x84; RCC_PLL1CFGR2 := 0x88;
  RCC_PLL1FRACR := 0x8C; RCC_PLL1CSGR := 0x90;
  RCC_PLL2CR := 0x94; RCC_PLL2CFGR1 := 0x98; RCC_PLL2CFGR2 := 0x9C;
  RCC_PLL2FRACR := 0xA0; RCC_PLL2CSGR := 0xA4;
  RCC_PLL3CR := 0x880; RCC_PLL3CFGR1 := 0x884; RCC_PLL3CFGR2 := 0x888;
  RCC_PLL3FRACR := 0x88C; RCC_PLL3CSGR := 0x890;
  RCC_PLL4CR := 0x894; RCC_PLL4CFGR1 := 0x898; RCC_PLL4CFGR2 := 0x89C;
  RCC_PLL4FRACR := 0x8A0; RCC_PLL4CSGR := 0x8A4;
  PLL1_P := 180;
  PLL4_P := 189; PLL4_Q := 190; PLL4_R := 191;
  CK_PER := 193; CK_MPU := 194; CK_AXI := 195; CK_MCU := 196;
  RTC := 192;
  DDRC1 := 220; DDRC1LP := 221; DDRC2 := 222; DDRC2LP := 223;
  DDRPHYC := 224; DDRPHYCLP := 225; DDRCAPB := 226; DDRCAPBLP := 227;
  AXIDCG := 228; DDRPHYCAPB := 229; DDRPHYCAPBLP := 230;
  TIM12_K := 203; TIM15_K := 209;
  USART1_K := 148; USART2_K := 149; USART3_K := 150; UART4_K := 151;
  UART5_K := 152; USART6_K := 153; UART7_K := 154; UART8_K := 155;
  SYSCFG := 51; LTDC_PX := 167; DDRPERFM := 231; IWDG2 := 58;
  USBPHY_K := 127;
  SPI6_K := 135; I2C4_K := 140; I2C6_K := 142;
  RTCAPB := 65; TZC1 := 66; TZC2 := 67; TZPC := 68; IWDG1 := 69; BSEC := 70;
  STGEN_K := 128;
  DMA1 := 72; DMA2 := 73; USBO_K := 166; SDMMC3_K := 120;
  GPIOA := 85; GPIOB := 86; GPIOC := 87; GPIOD := 88; GPIOE := 89;
  GPIOF := 90; GPIOG := 91; GPIOH := 92; GPIOI := 93; GPIOJ := 94;
  GPIOK := 95; GPIOZ := 96;
  CRYP1 := 97; HASH1 := 98; RNG1_K := 124; BKPSRAM := 100;
  MDMA := 101; GPU := 102; ETHMAC := 106; FMC_K := 121; QSPI_K := 122;
  SDMMC1_K := 118; SDMMC2_K := 119; USBH := 112; CK_DBG := 214;
  CLK_MPU_HSI := 0x200; CLK_MPU_PLL1P := 0x202; CLK_MPU_PLL1P_DIV := 0x203;
  CLK_PLL12_HSI := 0x280; CLK_PLL12_HSE := 0x281;
  PLAT_MAX_OPP_NB := 2;
  PLL1_SETTINGS_VALID_ID := 0x504C4C31
|}.

(** Hardware that raises every ready bit the driver polls as soon as it is
    read once more: source and divider ready, PLL ready following PLLON. *)
Definition prompt_hw_step (m : gmap Z Z) : gmap Z Z :=
  let rd a := default 0 (m !! a) in
  let cr := rd 0x80 in
  let cr' := if Z.testbit cr 0 then Z.lor cr RCC_PLLNCR_PLLRDY
             else Z.ldiff cr RCC_PLLNCR_PLLRDY in
  <[0x80 := cr']>
    (<[0x20 := Z.lor (rd 0x20) RCC_SELR_SRCRDY]>
       (<[0x2C := Z.lor (rd 0x2C) RCC_DIVR_DIVRDY]> m)).

Definition prompt_hw : Hardware := {|
  hw_step := prompt_hw_step;
  timeout_polls := fun _ => 8%nat
|}.

(** An idle state: no register written yet, six oscillator rates, every
    reference count at zero, an empty OPP table of two entries. *)
Definition idle_state (hsi hse : Z) : clk_state :=
  {| rcc := ∅;
     stm32mp1_osc := [hsi; hse; 0; 0; 0; 0];
     gate_refcounts := replicate (@NB_GATES stm32mp15) 0;
     pll1_settings :=
       {| valid_id := 0; opp_freq := [0; 0]; opp_volt := [0; 0];
          opp_cfg := [[0; 0; 0; 0; 0; 0]; [0; 0; 0; 0; 0; 0]];
          opp_frac := [0; 0] |};
     current_opp_khz := 0 |}.

(** ** Definitions used by the statements *)

(** Enables minus disables of a run. *)
Definition gate_ops_balance (ops : list gate_op) : Z :=
  fold_right (fun op n => match op with
                          | OpEnable => n + 1
                          | OpDisable => n - 1
                          end) 0 ops.

(** The forward PLL mathematics as the specification words it. *)
Definition spec_pll_fvco (reference M N FRAC : Z) (fracle : bool) : Z :=
  if fracle
  then reference * ((N + 1) * 2 ^ 13 + FRAC) / ((M + 1) * 2 ^ 13)
  else reference * (N + 1) / (M + 1).

Definition spec_pll_fout (fvco divider : Z) : Z := fvco / (divider + 1).

(** The fields of the PLL registers. *)
Definition pll_DIVM (pll : stm32mp1_clk_pll_t) (s : clk_state) : Z :=
  (mmio_read_32 s (pllxcfgr1 pll) / 2 ^ 16) mod 2 ^ 6.

Definition pll_DIVN (pll : stm32mp1_clk_pll_t) (s : clk_state) : Z :=
  mmio_read_32 s (pllxcfgr1 pll) mod 2 ^ 9.

Definition pll_FRACV (pll : stm32mp1_clk_pll_t) (s : clk_state) : Z :=
  (mmio_read_32 s (pllxfracr pll) / 2 ^ 3) mod 2 ^ 13.

Definition pll_FRACLE (pll : stm32mp1_clk_pll_t) (s : clk_state) : bool :=
  Z.testbit (mmio_read_32 s (pllxfracr pll)) 16.

(** Output divider: P, Q and R sit 8 bits apart. *)
Definition pll_DIVY (pll : stm32mp1_clk_pll_t) (div_id : Z) (s : clk_state)
  : Z :=
  (mmio_read_32 s (pllxcfgr2 pll) / 2 ^ (8 * div_id)) mod 2 ^ 7.

(** The fractional register word [(frac << shift) | FRACLE]. *)
Definition pllxfracr_word (fracv : Z) : Z :=
  Z.lor (u32 (Z.shiftl fracv RCC_PLLNFRACR_FRACV_SHIFT)) RCC_PLLNFRACR_FRACLE.

(** The candidate rate the search evaluates for (M, N, P, FRAC). *)
Definition pll1_half_vco (input_freq M N FRAC : Z) : Z :=
  let post_divm := input_freq / (M + 1) in
  post_divm * (N + 1) + post_divm * FRAC / FRAC_MAX.

Definition pll1_candidate_rate (input_freq M N P FRAC : Z) : Z :=
  pll1_half_vco input_freq M N FRAC / (P + 1).

(** The domain constraints on a synthesized (M, N, P, FRAC). *)
Definition pll1_domain_ok (input_freq M N P FRAC : Z) : Prop :=
  DIVM_MIN <= M <= DIVM_MAX
  /\ POST_DIVM_MIN <= input_freq / (M + 1) <= POST_DIVM_MAX
  /\ DIVN_MIN <= N <= DIVN_MAX
  /\ DIVP_MIN <= P <= DIVP_MAX
  /\ 0 <= FRAC <= FRAC_MAX
  /\ VCO_MIN / 2 <= pll1_half_vco input_freq M N FRAC <= VCO_MAX / 2.

(** The cells behind [pllcfg] and [fracv] hold such a setting. *)
Definition pll1_entry_ok (input_freq : Z) (pllcfg : list Z) (fracv : Z)
  : Prop :=
  pll1_domain_ok input_freq
    (array_get pllcfg (Z.of_nat PLLCFG_M))
    (array_get pllcfg (Z.of_nat PLLCFG_N))
    (array_get pllcfg (Z.of_nat PLLCFG_P)) fracv.

(** What the search keeps between iterations: either nothing was stored
    yet, or the stored setting meets the constraints; the three constant
    cells are never touched. *)
Definition search_inv (input_freq : Z) (st : pll1_search) : Prop :=
  length (srch_pllcfg st) = 6%nat
  /\ array_get (srch_pllcfg st) (Z.of_nat PLLCFG_Q) = 0
  /\ array_get (srch_pllcfg st) (Z.of_nat PLLCFG_R) = 0
  /\ array_get (srch_pllcfg st) (Z.of_nat PLLCFG_O) = PQR 1 0 0
  /\ 0 <= srch_best_diff st <= UINT_MAX
  /\ (srch_best_diff st = UINT_MAX
      \/ pll1_entry_ok input_freq (srch_pllcfg st) (srch_fracv st)).

Definition search_found (input_freq : Z) (st : pll1_search) : Prop :=
  length (srch_pllcfg st) = 6%nat
  /\ array_get (srch_pllcfg st) (Z.of_nat PLLCFG_Q) = 0
  /\ array_get (srch_pllcfg st) (Z.of_nat PLLCFG_R) = 0
  /\ array_get (srch_pllcfg st) (Z.of_nat PLLCFG_O) = PQR 1 0 0
  /\ pll1_entry_ok input_freq (srch_pllcfg st) (srch_fracv st).

Definition opp_row (i : nat) (s : clk_state) : list Z :=
  nth i (opp_cfg (pll1_settings s)) [].

Definition opp_fracv (i : nat) (s : clk_state) : Z :=
  nth i (opp_frac (pll1_settings s)) 0.

Section StatementDefs.
Context {P : Platform}.

Definition gate_inv (i : Z) (s : clk_state) : Prop :=
  (Z.to_nat i < length (gate_refcounts s))%nat
  /\ 0 <= refcount_of i s < UINT_MAX
  /\ (refcount_of i s = 0 <-> __clk_is_enabled (gate_ref i) s = false).

(** The always-on identifiers: the oscillator rails, the HSE/2 rail, the
    outputs of PLL1, PLL2 and PLL3, CK_AXI, CK_MPU, CK_MCU and RTC. *)
Definition always_on_ids : list Z :=
  [ CK_HSE; CK_HSI; CK_CSI; CK_LSI; CK_LSE; CK_HSE_DIV2;
    PLL1_P; PLL1_Q; PLL1_R; PLL2_P; PLL2_Q; PLL2_R; PLL3_P; PLL3_Q; PLL3_R;
    CK_AXI; CK_MPU; CK_MCU; RTC ].

(** What an operation on an always-on identifier does: nothing. *)
Definition gate_ops_are_noops (id : Z) : Prop :=
  forall (with_refcnt : bool) (s : clk_state),
    __stm32mp1_clk_enable id with_refcnt s = Ret (tt, s)
    /\ __stm32mp1_clk_disable id with_refcnt s = Ret (tt, s)
    /\ stm32mp_clk_is_enabled id s = Ret true.

(** The rate of a clock of the AXI subsystem as the specification words
    it: the source selected by the 3-bit field of the AXI selector, divided
    by the AXIDIV table value, then shifted right by the APB divider table
    value for PCLK4 and PCLK5. *)
Definition spec_axi_rate (p : Z) (s : clk_state) : Z :=
  let field r := mmio_read_32 s r mod 8 in
  let source :=
    match field RCC_ASSCKSELR with
    | 0 => stm32mp1_clk_get_fixed _HSI s
    | 1 => stm32mp1_clk_get_fixed _HSE s
    | 2 => stm32mp1_read_pll_freq _PLL2 _DIV_P s
    | _ => 0
    end in
  let axi :=
    source
    / nth (Z.to_nat (field RCC_AXIDIVR)) [1; 2; 3; 4; 4; 4; 4; 4] 0 in
  if p =? _PCLK4 then
    axi / 2 ^ nth (Z.to_nat (field RCC_APB4DIVR)) [0; 1; 2; 3; 4; 4; 4; 4] 0
  else if p =? _PCLK5 then
    axi / 2 ^ nth (Z.to_nat (field RCC_APB5DIVR)) [0; 1; 2; 3; 4; 4; 4; 4] 0
  else axi.

(** What [matches] requires, as the specification lists it, with the
    control register compared as a whole. *)
Definition pll_conf_matches (pll_id clksrc : Z) (pllcfg : list Z)
  (fracv : Z) (s : clk_state) : Prop :=
  let pll := pll_ref pll_id in
  mmio_read_32 s (pllxcr pll) = RCC_PLLNCR_PLLON
  /\ mmio_read_32 s (clksrc / 2 ^ 4) mod 8 = clksrc mod 8
  /\ (exists w,
        stm32mp1_pll_compute_pllxcfgr1 pll pllcfg s = inr w
        /\ mmio_read_32 s (pllxcfgr1 pll) = w)
  /\ mmio_read_32 s (pllxfracr pll) = pllxfracr_word fracv
  /\ mmio_read_32 s (pllxcfgr2 pll) = stm32mp1_pll_compute_pllxcfgr2 pllcfg.

(** Entry [k] is still to be synthesized when the loop of
    [stm32mp1_clk_compute_all_pll1_settings] starts in [s0]: it is not
    the snapshot [index], its frequency does not occur earlier in the
    table and its output-enable cell is still 0. *)
Definition opp_entry_pending (index : Z) (s0 : clk_state) (k : nat) : Prop :=
  let freqs0 := opp_freq (pll1_settings s0) in
  Z.of_nat k <> index
  /\ first_index (fun f => f =? nth k freqs0 0) freqs0 = Some k
  /\ array_get (opp_row k s0) (Z.of_nat PLLCFG_O) = 0
  /\ length (opp_row k s0) = 6%nat.

(** What holds after the first [n] iterations of that loop. *)
Definition opp_loop_inv (index input_freq : Z) (s0 : clk_state) (n : nat)
  (s : clk_state) : Prop :=
  stm32mp1_osc s = stm32mp1_osc s0
  /\ opp_freq (pll1_settings s) = opp_freq (pll1_settings s0)
  /\ length (opp_cfg (pll1_settings s)) = length (opp_cfg (pll1_settings s0))
  /\ length (opp_frac (pll1_settings s))
     = length (opp_frac (pll1_settings s0))
  /\ (forall m, (n <= m)%nat -> opp_row m s = opp_row m s0)
  /\ (forall k, (k < n)%nat -> opp_entry_pending index s0 k ->
        search_found input_freq
          {| srch_pllcfg := opp_row k s; srch_fracv := opp_fracv k s;
             srch_best_diff := 0 |}).

End StatementDefs.

(** ** Concrete states used by the examples *)

Definition with_regs (regs : list (Z * Z)) (s : clk_state) : clk_state :=
  set_rcc s (list_to_map regs).

(** HSE at 24 MHz feeds PLL1 with M = 1, N = 65, P = 1 and a fractional
    part of 4096 with FRACLE set. *)
Definition pll1_fractional_state : clk_state :=
  with_regs [(0x28, 1); (0x84, 65 + 1 * 65536); (0x88, 1);
             (0x8C, 4096 * 8 + 65536)]
    (idle_state 64000000 24000000).

(** HSE at 48 MHz feeds PLL1 with M = 5, N = 99 and no fractional part:
    a half-VCO of 800 MHz. *)
Definition pll1_hse48_state : clk_state :=
  with_regs [(0x28, 1); (0x84, 99 + 5 * 65536); (0x88, 0); (0x8C, 0)]
    (idle_state 64000000 48000000).

(** HSI at 64 MHz feeds PLL1 with M = 0, N = 99 and FRACLE set with a
    fractional part of 0: the registers describe 6.4 GHz. *)
Definition pll1_hsi_6400_state : clk_state :=
  with_regs [(0x28, 0); (0x84, 99 + 0 * 65536); (0x88, 0); (0x8C, 65536)]
    (idle_state 64000000 24000000).

(** AXI runs from PLL2_P at 266 MHz (HSE 24 MHz, M = 2, N = 65,
    FRAC = 4096, P = 1), AXIDIV field 1 and APB5DIV field 2. *)
Definition axi_266_state : clk_state :=
  with_regs [(0x24, 2); (0x28, 1); (0x98, 65 + 2 * 65536); (0x9C, 1);
             (0xA0, 4096 * 8 + 65536); (0x30, 1); (0x40, 2)]
    (idle_state 64000000 24000000).

(** PLL3 locked and running from HSE at 24 MHz with the configuration
    M = 1, N = 33, P = 1, Q = 16, R = 36 and fractional part 0x1A04: the
    control register holds PLLON, PLLRDY and the three output enables. *)
Definition pll3_cfg : list Z := [1; 33; 1; 16; 36; 7].
Definition pll3_frac : Z := 0x1A04.
Definition CLK_PLL3_HSE : Z := 0x8201.
Definition pll3_running_state : clk_state :=
  with_regs [(0x880, 0x73); (0x820, 0x80000001);
             (0x884, 33 + 1 * 65536 + 1 * 16777216);
             (0x88C, 0x1A04 * 8 + 65536);
             (0x888, 1 + 16 * 256 + 36 * 65536)]
    (idle_state 64000000 24000000).

(** The same registers with PLL3 started and not yet locked (the control
    register holds PLLON alone), and with PLL3 stopped. *)
Definition pll3_started_state : clk_state :=
  with_regs [(0x880, 0x1); (0x820, 0x80000001);
             (0x884, 33 + 1 * 65536 + 1 * 16777216);
             (0x88C, 0x1A04 * 8 + 65536);
             (0x888, 1 + 16 * 256 + 36 * 65536)]
    (idle_state 64000000 24000000).

Definition pll3_stopped_state : clk_state :=
  with_regs [(0x880, 0x0); (0x820, 0x80000001);
             (0x884, 33 + 1 * 65536 + 1 * 16777216);
             (0x88C, 0x1A04 * 8 + 65536);
             (0x888, 1 + 16 * 256 + 36 * 65536)]
    (idle_state 64000000 24000000).

(** PLL1 locked at 800 MHz from HSE at 24 MHz (M = 2, N = 99, P = 0), the
    MPU running from PLL1_P. *)
Definition mpu_800_state : clk_state :=
  set_current_opp_khz
    (with_regs [(0x28, 1); (0x84, 99 + 2 * 65536); (0x88, 0); (0x8C, 65536);
                (0x80, 0x13); (0x20, 0x80000002)]
       (idle_state 64000000 24000000))
    800000.

(** The same with a populated OPP table. *)
Definition opp_table_state : clk_state :=
  set_pll1_settings mpu_800_state
    {| valid_id := 0x504C4C31;
       opp_freq := [800000; 650000]; opp_volt := [1350; 1200];
       opp_cfg := [[2; 99; 0; 0; 0; 1]; [2; 80; 0; 0; 0; 1]];
       opp_frac := [0; 2048] |}.

(** A device tree asking for 800 MHz and 700.1 MHz. *)
Definition dt_opp_700100 : dt_opp :=
  {| dt_ret := DT_OK; dt_count := 2;
     dt_freq := [800000; 700100]; dt_volt := [1350; 1200] |}.

(** A device tree asking for 800 MHz and 650 MHz, and the state in which
    populating the table from it leaves [mpu_800_state]. *)
Definition dt_opp_650000 : dt_opp :=
  {| dt_ret := DT_OK; dt_count := 2;
     dt_freq := [800000; 650000]; dt_volt := [1350; 1200] |}.

Definition opp_computed_state : clk_state :=
  match @stm32mp1_clk_compute_all_pll1_settings stm32mp15 dt_opp_650000 0
          mpu_800_state with
  | Ret (_, s') => s'
  | Panic => mpu_800_state
  end.

(** The USB PHY selector field holds 3, past its three candidates. *)
Definition usbphy_sel3_state : clk_state :=
  with_regs [(0x91C, 3)] (idle_state 64000000 24000000).

(** PLL1 was programmed for 800 MHz from HSI at 64 MHz (M = 5, N = 74,
    P = 0, no fractional part, FRACLE set); the reference mux of PLL1 and
    PLL2 has since been moved to HSE at 24 MHz. *)
Definition pll1_hsi_cfg : list Z := [5; 74; 0; 0; 0; 1].
Definition pll1_moved_to_hse_state : clk_state :=
  with_regs [(0x28, 1); (0x84, 74 + 5 * 65536); (0x88, 0); (0x8C, 65536)]
    (idle_state 64000000 24000000).

(** ** Further functions of the driver *)

Section Lookups.
Context {P : Platform}.

(** [get_id_from_rcc_bit]: lookup of a clock from the location of its
    enable bit, in the register of the gate or, for a set/clear gate, in
    its clear register. *)
Definition get_id_from_rcc_bit (offset bit : Z) : Z :=
  match first_index
          (fun gate =>
             ((offset =? gate_offset gate) && (bit =? gate_bit gate))
             || (negb (gate_set_clr gate =? 0)
                 && (offset =? u32 (gate_offset gate + RCC_MP_ENCLRR_OFFSET))
                 && (bit =? gate_bit gate)))
          stm32mp1_clk_gate with
  | Some idx => gate_index (gate_ref (Z.of_nat idx))
  | None =>
      (* Currently only supported gated clocks *)
      u32 (Z.lnot 0)
  end.

(** Lookup platform clock from enable bit location in RCC registers. *)
Definition stm32mp1_clk_rcc2id (offset bit : Z) : Z :=
  get_id_from_rcc_bit offset bit.

(** [for (i = 0; i < PLAT_MAX_OPP_NB; i++)] of
    [stm32mp1_clk_get_maxfreq_opp]. *)
Fixpoint maxfreq_opp_loop (idx : list nat) (t : stm32mp1_pll_settings)
  (freq voltage : Z) : Z * Z :=
  match idx with
  | [] => (freq, voltage)
  | i :: idx' =>
      if freq <? nth i (opp_freq t) 0
      then maxfreq_opp_loop idx' t (nth i (opp_freq t) 0)
             (nth i (opp_volt t) 0)
      else maxfreq_opp_loop idx' t freq voltage
  end.

(** [stm32mp1_clk_get_maxfreq_opp]: the value returned and the values
    left in [*freq_khz] and [*voltage_mv], which start as [freq_khz0] and
    [voltage_mv0]. *)
Definition stm32mp1_clk_get_maxfreq_opp (freq_khz0 voltage_mv0 : Z)
  (s : clk_state) : cint * Z * Z :=
  if negb (clk_pll1_settings_are_valid s)
  then (Int (-1), freq_khz0, voltage_mv0) else
  let '(freq, voltage) :=
    maxfreq_opp_loop (seq 0 PLAT_MAX_OPP_NB) (pll1_settings s) 0 0 in
  if (freq =? 0) || (voltage =? 0)
  then (Int (-1), freq_khz0, voltage_mv0)
  else (Int 0, freq, voltage).

End Lookups.

(** ** Definitions used by further statements *)

(** [s'] differs from [s] at most in the reference count of gate [i] and
    in bit [b] of the register at [offset]. *)
Definition gate_frame (i offset b : Z) (s s' : clk_state) : Prop :=
  (forall j, j <> Z.to_nat i ->
     gate_refcounts s' !! j = gate_refcounts s !! j)
  /\ length (gate_refcounts s') = length (gate_refcounts s)
  /\ (forall addr k, 0 <= k < 32 -> (addr, k) <> (offset, b) ->
        Z.testbit (mmio_read_32 s' addr) k
        = Z.testbit (mmio_read_32 s addr) k)
  /\ stm32mp1_osc s' = stm32mp1_osc s
  /\ pll1_settings s' = pll1_settings s
  /\ current_opp_khz s' = current_opp_khz s.

(** [s'] differs from [s] at most in the registers. *)
Definition same_software_state (s s' : clk_state) : Prop :=
  stm32mp1_osc s' = stm32mp1_osc s
  /\ gate_refcounts s' = gate_refcounts s
  /\ pll1_settings s' = pll1_settings s
  /\ current_opp_khz s' = current_opp_khz s.

(** The values [stm32mp1_pll1_config_from_opp_khz] returns for a
    frequency of the table. *)
Definition pll1_config_code (r : cint) : Prop :=
  r = Int 0 \/ r = Err ETIMEDOUT \/ r = Err EINVAL.

(** A step of that function leaves the software state alone and returns
    such a value. *)
Definition pll1_config_ok (s : clk_state) (x : cint * clk_state) : Prop :=
  same_software_state s (snd x) /\ pll1_config_code (fst x).

(** [s'] differs from [s] at most in the PLL settings and fractional
    parts of the OPP table. *)
Definition same_but_opp_settings (s s' : clk_state) : Prop :=
  rcc s' = rcc s
  /\ stm32mp1_osc s' = stm32mp1_osc s
  /\ gate_refcounts s' = gate_refcounts s
  /\ current_opp_khz s' = current_opp_khz s
  /\ valid_id (pll1_settings s') = valid_id (pll1_settings s)
  /\ opp_freq (pll1_settings s') = opp_freq (pll1_settings s)
  /\ opp_volt (pll1_settings s') = opp_volt (pll1_settings s).

(** The registers that configure one PLL are four different words. *)
Definition pll_registers_distinct (pll : stm32mp1_clk_pll_t) : Prop :=
  NoDup [rckxselr pll; pllxcfgr1 pll; pllxcfgr2 pll; pllxfracr pll].

(** [s'] differs from [s] at most in the registers listed. *)
Definition only_registers (addrs : list Z) (s s' : clk_state) : Prop :=
  same_software_state s s'
  /\ forall addr, ~ In addr addrs -> mmio_read_32 s' addr = mmio_read_32 s addr.

Section HardwareRuns.
Context {H : Hardware}.

(** The registers after the hardware ran for [k] polls of a wait loop. *)
Fixpoint hw_run (k : nat) (s : clk_state) : clk_state :=
  match k with
  | O => s
  | S k' => hw_run k' (set_rcc s (hw_step (rcc s)))
  end.

End HardwareRuns.

(** Bit [b] of register [addr]. *)
Definition reg_bit (s : clk_state) (addr b : Z) : bool :=
  Z.testbit (mmio_read_32 s addr) b.

(** ** Secure parent clocks

    Constants of [stm32mp1_rcc.h] and of the clock binding that the
    registration of secure parents uses. *)
Class SecurePlatform : Type := {
  RCC_TZCR : Z;
  RCC_TZCR_TZEN : Z;
  PLL1 : Z; PLL2 : Z; PLL3 : Z; PLL4 : Z
}.

(** The shared resources this driver registers as secure with
    [stm32mp_register_secure_periph]. *)
Inductive shres : Set := STM32MP1_SHRES_PLL3.

Section SecureParents.
Context {P : Platform} {SP : SecurePlatform}.

Definition stm32mp1_rcc_is_secure (s : clk_state) : bool :=
  let mask := RCC_TZCR_TZEN in
  Z.land (mmio_read_32 s RCC_TZCR) mask =? mask.

(** [get_parent_id_parent]: the parent ID of the target parent clock, or
    -1. *)
Definition get_parent_id_parent (parent_id : Z) (s : clk_state) : result Z :=
  let via_sel (s_ : Z) :=
    let sel := clk_sel_ref s_ in
    let p_sel := Z.land (Z.shiftr (mmio_read_32 s (sel_offset sel))
                                  (sel_src sel))
                        (sel_msk sel) in
    if p_sel <? sel_nb_parent sel
    then Ret (array_get (sel_parent sel) p_sel)
    else Ret (-1) in
  let via_pll (pll_id : Z) :=
    let pll := pll_ref pll_id in
    let p_sel := Z.land (mmio_read_32 s (rckxselr pll))
                        RCC_SELR_REFCLK_SRC_MASK in
    if negb (array_get (refclk pll) p_sel =? _UNKNOWN_OSC_ID)
    then Ret (array_get (refclk pll) p_sel)
    else Ret (-1) in
  if existsb (Z.eqb parent_id) [_ACLK; _PCLK4; _PCLK5] then via_sel _AXIS_SEL
  else if existsb (Z.eqb parent_id) [_PLL1_P; _PLL1_Q; _PLL1_R]
  then via_pll _PLL1
  else if existsb (Z.eqb parent_id) [_PLL2_P; _PLL2_Q; _PLL2_R]
  then via_pll _PLL2
  else if existsb (Z.eqb parent_id) [_PLL3_P; _PLL3_Q; _PLL3_R]
  then via_pll _PLL3
  else if existsb (Z.eqb parent_id) [_PLL4_P; _PLL4_Q; _PLL4_R]
  then via_pll _PLL4
  else if existsb (Z.eqb parent_id)
            [_PCLK1; _PCLK2; _HCLK2; _HCLK6; _CK_PER; _CK_MPU; _CK_MCU;
             _USB_PHY_48]
  then (* We do not expected to access these *) Panic
  else (* Other parents have no parent *) Ret (-1).

(** [secure_parent_clocks]: the resources registered as secure, in the
    order of the calls.  The function calls itself on the parent of the
    parent; [fuel] bounds the depth of these calls, and [None] is a run
    that needs more. *)
Fixpoint secure_parent_clocks (fuel : nat) (parent_id : Z) (s : clk_state)
  : option (result (list shres)) :=
  match fuel with
  | O => None
  | S fuel' =>
      let registered :=
        if existsb (Z.eqb parent_id) [_PLL3_P; _PLL3_Q; _PLL3_R]
        then Some [STM32MP1_SHRES_PLL3]
        else if existsb (Z.eqb parent_id)
                  (* These clocks are always secure when RCC is secure *)
                  [_ACLK; _HCLK2; _HCLK6; _PCLK4; _PCLK5;
                   _PLL1_P; _PLL1_Q; _PLL1_R; _PLL2_P; _PLL2_Q; _PLL2_R;
                   _HSI; _HSI_KER; _LSI; _CSI; _CSI_KER; _HSE; _HSE_KER;
                   _HSE_KER_DIV2; _LSE]
        then Some []
        else None in
      match registered with
      | None => Some Panic
      | Some l =>
          match get_parent_id_parent parent_id s with
          | Panic => Some Panic
          | Ret grandparent_id =>
              if 0 <=? grandparent_id then
                match secure_parent_clocks fuel' grandparent_id s with
                | Some (Ret l') => Some (Ret (l ++ l'))
                | other => other
                end
              else Some (Ret l)
          end
      end
  end.

Definition stm32mp1_register_clock_parents_secure (fuel : nat)
  (clock_id : Z) (s : clk_state) : option (result (list shres)) :=
  match IMAGE with
  | IMAGE_BL2 => Some (Ret [])
  | IMAGE_BL32 =>
      if negb (stm32mp1_rcc_is_secure s) then Some (Ret []) else
      if (clock_id =? PLL1) || (clock_id =? PLL2) then
        (* PLL1/PLL2 are always secure: nothing to do *)
        Some (Ret [])
      else if clock_id =? PLL3 then Some (Ret [STM32MP1_SHRES_PLL3])
      else if clock_id =? PLL4 then Some Panic
      else
        (* Others are expected gateable clock *)
        match stm32mp1_clk_get_parent clock_id s with
        | Panic => Some Panic
        | Ret (Err _) => Some (Ret [])
        | Ret (Int parent_id) =>
            if parent_id <? 0 then Some (Ret [])
            else secure_parent_clocks fuel parent_id s
        end
  end.

End SecureParents.

(** The parents [secure_parent_clocks] accepts and whose own parents it
    can look up. *)
Definition securable_parents : list Z :=
  [_ACLK; _PCLK4; _PCLK5; _PLL1_P; _PLL1_Q; _PLL1_R;
   _PLL2_P; _PLL2_Q; _PLL2_R; _HSI; _HSI_KER; _LSI; _CSI; _CSI_KER;
   _HSE; _HSE_KER; _HSE_KER_DIV2; _LSE].

(** ** Suspend and resume

    Constants of [stm32mp1_rcc.h] used by the save and restore sequence of
    the non-secure configuration. *)
Class PmPlatform : Type := {
  RCC_SPI2S23CKSELR : Z; RCC_SPI45CKSELR : Z;
  RCC_LPTIM23CKSELR : Z; RCC_LPTIM45CKSELR : Z;
  RCC_SAI1CKSELR : Z; RCC_ETHCKSELR : Z; RCC_RNG2CKSELR : Z;
  RCC_SPDIFCKSELR : Z; RCC_SPI2S1CKSELR : Z; RCC_CECCKSELR : Z;
  RCC_LPTIM1CKSELR : Z; RCC_FDCANCKSELR : Z;
  RCC_SAI2CKSELR : Z; RCC_SAI3CKSELR : Z; RCC_SAI4CKSELR : Z;
  RCC_ADCCKSELR : Z; RCC_DSICKSELR : Z;
  RCC_MP_AHB3ENSETR : Z; RCC_MP_MLAHBENSETR : Z;
  RCC_MCO1CFGR : Z; RCC_MCO2CFGR : Z;
  RCC_MP_RSTSCLRR : Z;
  RCC_OCENSETR : Z; RCC_OCENCLRR : Z;
  RCC_OCENR_HSIKERON : Z; RCC_OCENR_CSIKERON : Z; RCC_OCENR_HSEKERON : Z
}.

(** [struct backup_mux_cfg]. *)
Record backup_mux_cfg_t : Set := {
  mux_offset : Z;   (* uint16_t offset *)
  mux_value : Z;    (* uint8_t value *)
  mux_bit_len : Z   (* uint8_t bit_len *)
}.

Definition MUXCFG (_offset _bit_len : Z) : backup_mux_cfg_t :=
  {| mux_offset := u16 _offset; mux_value := 0; mux_bit_len := u8 _bit_len |}.

(** [struct backup_clock_cfg]: used for set/clear registers and for regular
    registers. *)
Record backup_clock_cfg_t : Set := {
  cfg_offset : Z;   (* uint32_t offset *)
  cfg_value : Z     (* uint32_t value *)
}.

(** The four static arrays of the save and restore sequence. *)
Record pm_backup : Set := {
  backup_mux0_cfg : list backup_mux_cfg_t;
  backup_mux4_cfg : list backup_mux_cfg_t;
  backup_clock_sc_cfg : list backup_clock_cfg_t;
  backup_clock_cfg : list backup_clock_cfg_t
}.

Section SuspendResume.
Context {P : Platform} {PM : PmPlatform}.

(** The arrays as the image holds them before the first suspend. *)
Definition pm_backup_init : pm_backup :=
  {| backup_mux0_cfg :=
       [ MUXCFG RCC_SDMMC12CKSELR 3;
         MUXCFG RCC_SPI2S23CKSELR 3;
         MUXCFG RCC_SPI45CKSELR 3;
         MUXCFG RCC_I2C12CKSELR 3;
         MUXCFG RCC_I2C35CKSELR 3;
         MUXCFG RCC_LPTIM23CKSELR 3;
         MUXCFG RCC_LPTIM45CKSELR 3;
         MUXCFG RCC_UART24CKSELR 3;
         MUXCFG RCC_UART35CKSELR 3;
         MUXCFG RCC_UART78CKSELR 3;
         MUXCFG RCC_SAI1CKSELR 3;
         MUXCFG RCC_ETHCKSELR 2;
         MUXCFG RCC_I2C46CKSELR 3;
         MUXCFG RCC_RNG2CKSELR 2;
         MUXCFG RCC_SDMMC3CKSELR 3;
         MUXCFG RCC_FMCCKSELR 2;
         MUXCFG RCC_QSPICKSELR 2;
         MUXCFG RCC_USBCKSELR 2;
         MUXCFG RCC_SPDIFCKSELR 2;
         MUXCFG RCC_SPI2S1CKSELR 3;
         MUXCFG RCC_CECCKSELR 2;
         MUXCFG RCC_LPTIM1CKSELR 3;
         MUXCFG RCC_UART6CKSELR 3;
         MUXCFG RCC_FDCANCKSELR 2;
         MUXCFG RCC_SAI2CKSELR 3;
         MUXCFG RCC_SAI3CKSELR 3;
         MUXCFG RCC_SAI4CKSELR 3;
         MUXCFG RCC_ADCCKSELR 2;
         MUXCFG RCC_DSICKSELR 1;
         MUXCFG RCC_CPERCKSELR 2;
         MUXCFG RCC_RNG1CKSELR 2;
         MUXCFG RCC_STGENCKSELR 2;
         MUXCFG RCC_UART1CKSELR 3;
         MUXCFG RCC_SPI6CKSELR 3 ];
     backup_mux4_cfg := [ MUXCFG RCC_USBCKSELR 1 ];
     backup_clock_sc_cfg :=
       map (fun off => {| cfg_offset := u32 off; cfg_value := 0 |})
         [ RCC_MP_APB1ENSETR; RCC_MP_APB2ENSETR; RCC_MP_APB3ENSETR;
           RCC_MP_APB4ENSETR; RCC_MP_APB5ENSETR; RCC_MP_AHB2ENSETR;
           RCC_MP_AHB3ENSETR; RCC_MP_AHB4ENSETR; RCC_MP_AHB5ENSETR;
           RCC_MP_AHB6ENSETR; RCC_MP_MLAHBENSETR ];
     backup_clock_cfg :=
       map (fun off => {| cfg_offset := u32 off; cfg_value := 0 |})
         [ RCC_MCO1CFGR; RCC_MCO2CFGR; RCC_PLL3CR; RCC_PLL4CR;
           RCC_PLL4CFGR2; RCC_MCUDIVR; RCC_MSSCKSELR ] |}.

Definition set_mux_value (cfg : backup_mux_cfg_t) (v : Z)
  : backup_mux_cfg_t :=
  {| mux_offset := mux_offset cfg; mux_value := u8 v;
     mux_bit_len := mux_bit_len cfg |}.

Definition set_cfg_value (cfg : backup_clock_cfg_t) (v : Z)
  : backup_clock_cfg_t :=
  {| cfg_offset := cfg_offset cfg; cfg_value := u32 v |}.

(** The mask of a mux field: [GENMASK_32(bit_len - 1U, 0U)] in
    [backup_mux0_cfg], [GENMASK_32(4U + bit_len - 1U, 4U)] in
    [backup_mux4_cfg]. *)
Definition mux0_mask (cfg : backup_mux_cfg_t) : Z :=
  GENMASK (u32 (mux_bit_len cfg - 1)) 0.

Definition mux4_mask (cfg : backup_mux_cfg_t) : Z :=
  GENMASK (u32 (4 + mux_bit_len cfg - 1)) 4.

Definition backup_mux_cfg (s : clk_state) (b : pm_backup) : pm_backup :=
  {| backup_mux0_cfg :=
       map (fun cfg =>
              set_mux_value cfg
                (Z.land (mmio_read_32 s (mux_offset cfg)) (mux0_mask cfg)))
           (backup_mux0_cfg b);
     backup_mux4_cfg :=
       map (fun cfg =>
              set_mux_value cfg
                (Z.land (mmio_read_32 s (mux_offset cfg)) (mux4_mask cfg)))
           (backup_mux4_cfg b);
     backup_clock_sc_cfg := backup_clock_sc_cfg b;
     backup_clock_cfg := backup_clock_cfg b |}.

Definition restore_mux_cfg (b : pm_backup) (s : clk_state) : clk_state :=
  let s :=
    fold_left (fun s cfg =>
                 let mask := mux0_mask cfg in
                 let value := Z.land (mux_value cfg) mask in
                 mmio_clrsetbits_32 (mux_offset cfg) mask value s)
              (backup_mux0_cfg b) s in
  fold_left (fun s cfg =>
               let mask := mux4_mask cfg in
               let value := Z.land (mux_value cfg) mask in
               mmio_clrsetbits_32 (mux_offset cfg) mask value s)
            (backup_mux4_cfg b) s.

Definition backup_sc_cfg (s : clk_state) (b : pm_backup) : pm_backup :=
  {| backup_mux0_cfg := backup_mux0_cfg b;
     backup_mux4_cfg := backup_mux4_cfg b;
     backup_clock_sc_cfg :=
       map (fun cfg => set_cfg_value cfg (mmio_read_32 s (cfg_offset cfg)))
           (backup_clock_sc_cfg b);
     backup_clock_cfg := backup_clock_cfg b |}.

(** Each word goes to the set register and its complement to the clear
    register. *)
Definition restore_sc_cfg (b : pm_backup) (s : clk_state) : clk_state :=
  fold_left (fun s cfg =>
               let s := mmio_write_32_enset (cfg_offset cfg)
                          (cfg_value cfg) s in
               mmio_write_32_enclr (cfg_offset cfg + RCC_MP_ENCLRR_OFFSET)
                 (u32 (Z.lnot (cfg_value cfg))) s)
            (backup_clock_sc_cfg b) s.

Definition backup_regular_cfg (s : clk_state) (b : pm_backup) : pm_backup :=
  {| backup_mux0_cfg := backup_mux0_cfg b;
     backup_mux4_cfg := backup_mux4_cfg b;
     backup_clock_sc_cfg := backup_clock_sc_cfg b;
     backup_clock_cfg :=
       map (fun cfg => set_cfg_value cfg (mmio_read_32 s (cfg_offset cfg)))
           (backup_clock_cfg b) |}.

Definition restore_regular_cfg (b : pm_backup) (s : clk_state)
  : clk_state :=
  fold_left (fun s cfg => mmio_write_32 (cfg_offset cfg) (cfg_value cfg) s)
            (backup_clock_cfg b) s.

Definition ker_mask : Z :=
  Z.lor RCC_OCENR_HSIKERON (Z.lor RCC_OCENR_CSIKERON RCC_OCENR_HSEKERON).

Definition disable_kernel_clocks (s : clk_state) : clk_state :=
  (* Disable all ck_xxx_ker clocks *)
  mmio_write_32_enclr RCC_OCENCLRR ker_mask s.

Definition enable_kernel_clocks (s : clk_state) : clk_state :=
  (* Enable ck_xxx_ker clocks if ck_xxx was on *)
  let reg := u32 (Z.shiftl (mmio_read_32 s RCC_OCENSETR) 1) in
  mmio_write_32_enset RCC_OCENSETR (Z.land reg ker_mask) s.

Definition clear_rcc_reset_status (s : clk_state) : clk_state :=
  (* Clear reset status fields *)
  mmio_write_32 RCC_MP_RSTSCLRR 0 s.

Definition stm32mp1_clock_suspend (s : clk_state) (b : pm_backup)
  : clk_state * pm_backup :=
  let b := backup_regular_cfg s b in
  let b := backup_sc_cfg s b in
  let b := backup_mux_cfg s b in
  (clear_rcc_reset_status s, b).

(** One turn of the loop of [stm32mp1_clock_resume]: sync secure and shared
    clocks physical state on functional state. *)
Definition clock_resume_sync (s : clk_state) (idx : nat) : clk_state :=
  let gate := gate_ref (Z.of_nat idx) in
  if clock_is_always_on (gate_index gate) then s
  else if gate_is_non_secure gate then s
  else if negb (refcount_of (Z.of_nat idx) s =? 0)
  then __clk_enable gate s
  else __clk_disable gate s.

Definition stm32mp1_clock_resume (b : pm_backup) (s : clk_state)
  : clk_state :=
  let s := restore_mux_cfg b s in
  let s := restore_sc_cfg b s in
  let s := restore_regular_cfg b s in
  let s := fold_left clock_resume_sync (seq 0 NB_GATES) s in
  disable_kernel_clocks s.

End SuspendResume.

Section SuspendResumeStatements.
Context {P : Platform} {PM : PmPlatform}.

(** The gates [stm32mp1_clock_resume] brings back in line with their
    reference count: secure or shared, and not always on. *)
Definition resume_synced (gate : stm32mp1_clk_gate_t) : bool :=
  negb (clock_is_always_on (gate_index gate))
  && negb (gate_is_non_secure gate).

Definition synced_gate_bits : list (Z * Z) :=
  map (fun gate => (gate_offset gate, gate_bit gate))
      (filter (fun gate => resume_synced gate = true) stm32mp1_clk_gate).

(** The word that a write to [RCC_OCENCLRR] acts on. *)
Definition kernel_clocks_register : Z :=
  RCC_OCENCLRR - RCC_MP_ENCLRR_OFFSET.

(** The field widths of a backup fit the [uint8_t] that holds the field. *)
Definition pm_backup_wf (b : pm_backup) : Prop :=
  Forall (fun cfg => 1 <= mux_bit_len cfg <= 8) (backup_mux0_cfg b)
  /\ Forall (fun cfg => 1 <= mux_bit_len cfg <= 4) (backup_mux4_cfg b).

(** Bit [k] of register [addr] is part of what suspend saves. *)
Definition saved_bit (b : pm_backup) (addr k : Z) : bool :=
  existsb (fun cfg => (mux_offset cfg =? addr) && (k <? mux_bit_len cfg))
          (backup_mux0_cfg b)
  || existsb (fun cfg => (mux_offset cfg =? addr) && (4 <=? k)
                         && (k <? 4 + mux_bit_len cfg))
             (backup_mux4_cfg b)
  || existsb (fun cfg => cfg_offset cfg =? addr) (backup_clock_sc_cfg b)
  || existsb (fun cfg => cfg_offset cfg =? addr) (backup_clock_cfg b).

End SuspendResumeStatements.

(** Bit [k] of register [addr] holds in [s] what it held in [s0]. *)
Definition bit_restored (s0 : clk_state) (addr k : Z) (s : clk_state)
  : Prop :=
  reg_bit s addr k = reg_bit s0 addr k.

(** ** HSI divider

    Constants of [stm32mp1_rcc.h] used to program the HSI divider. *)
Class OscPlatform : Type := {
  RCC_HSICFGR : Z;
  RCC_HSICFGR_HSIDIV_MASK : Z;
  RCC_OCRDYR : Z;
  RCC_OCRDYR_HSIDIVRDY : Z
}.


Section HsiDivider.
Context {P : Platform} {H : Hardware} {OP : OscPlatform}.




End HsiDivider.

(** The bits of the PLL control register that starting and stopping a PLL
    write: [PLLON] and the three output enables. *)
Definition pll_on_off_bit (b : Z) : bool :=
  (b =? 0) || (b =? 4) || (b =? 5) || (b =? 6).

(** ** Peripheral kernel clock selection *)

(** [stm32mp1_pkcs_config]: the binding packs the register offset in bits
    15 to 4, the value in bits 3 to 0, and in bit 31 whether the field is
    the second nibble of the register. *)
Definition stm32mp1_pkcs_config (pkcs : Z) (s : clk_state) : clk_state :=
  let address := Z.land (Z.shiftr pkcs 4) 0xFFF in
  let value := Z.land pkcs 0xF in
  let mask := 0xF in
  let '(mask, value) :=
    if negb (Z.land pkcs (BIT 31) =? 0)
    then (u32 (Z.shiftl mask 4), u32 (Z.shiftl value 4))
    else (mask, value) in
  mmio_clrsetbits_32 address mask value s.

(** ** The concrete platform, continued

    The remaining offsets follow the same register map, the identifiers of
    the PLLs the same binding. *)
Definition stm32mp15_secure : SecurePlatform := {|
  RCC_TZCR := 0x0;
  RCC_TZCR_TZEN := BIT 0;
  PLL1 := 176; PLL2 := 177; PLL3 := 178; PLL4 := 179
|}.

Definition stm32mp15_pm : PmPlatform := {|
  RCC_SPI2S23CKSELR := 0x8DC; RCC_SPI45CKSELR := 0x8E0;
  RCC_LPTIM23CKSELR := 0x930; RCC_LPTIM45CKSELR := 0x92C;
  RCC_SAI1CKSELR := 0x8C8; RCC_ETHCKSELR := 0x8FC; RCC_RNG2CKSELR := 0x920;
  RCC_SPDIFCKSELR := 0x914; RCC_SPI2S1CKSELR := 0x8D8;
  RCC_CECCKSELR := 0x918;
  RCC_LPTIM1CKSELR := 0x934; RCC_FDCANCKSELR := 0x90C;
  RCC_SAI2CKSELR := 0x8CC; RCC_SAI3CKSELR := 0x8D0; RCC_SAI4CKSELR := 0x8D4;
  RCC_ADCCKSELR := 0x928; RCC_DSICKSELR := 0x924;
  RCC_MP_AHB3ENSETR := 0xA20; RCC_MP_MLAHBENSETR := 0xA38;
  RCC_MCO1CFGR := 0x800; RCC_MCO2CFGR := 0x804;
  RCC_MP_RSTSCLRR := 0x408;
  RCC_OCENSETR := 0xC; RCC_OCENCLRR := 0x10;
  RCC_OCENR_HSIKERON := BIT 1; RCC_OCENR_CSIKERON := BIT 5;
  RCC_OCENR_HSEKERON := BIT 9
|}.

(** The RCC is secure and SPI6 runs from PLL3_Q. *)
Definition secure_spi6_state : clk_state :=
  with_regs [(0x0, 1); (0xC4, 5)] (idle_state 64000000 24000000).

(** TZC1 is counted twice and its gate is off, BSEC is not counted and its
    gate is on: what a resume can find. *)
Definition unsynced_state : clk_state :=
  set_refcount 23 2
    (with_regs [(0x208, 65536)] (idle_state 64000000 24000000)).

(** The QSPI mux selects its source 2 and the MCU divider field holds 3. *)
Definition before_suspend_state : clk_state :=
  with_regs [(0x900, 2); (0x830, 3)] (idle_state 64000000 24000000).

(** PLL1 stopped, fed by HSE at 24 MHz. *)
Definition pll1_stopped_state : clk_state :=
  with_regs [(0x28, 1)] (idle_state 64000000 24000000).

(** ** Callers *)

(** The [clock_id] column of [tzc_source_ip] in [stm32mp1_private.c]: the
    clocks that [stm32mp_plat_reset] asks [stm32mp_clk_is_enabled] about
    before it resets the TZC transaction source IPs. *)
Section Callers.
Context {P : Platform}.

Definition tzc_source_ip_clock_id : list Z :=
  [LTDC_PX; GPU; USBH; SDMMC1_K; SDMMC2_K; MDMA;
   USBO_K; SDMMC3_K; ETHMAC; DMA1; DMA2].

End Callers.

(** ** Early boot *)

Section EarlyBoot.
Context {P : Platform} {SP : SecurePlatform}.
Local Open Scope clk_scope.

(** The loop that opens [sync_earlyboot_clocks_state], over the gates that
    are left: the parents of every gate that is not non-secure are
    registered as secure. *)
Fixpoint register_secure_gates (fuel : nat)
  (gates : list stm32mp1_clk_gate_t) (s : clk_state)
  : option (result (list shres)) :=
  match gates with
  | [] => Some (Ret [])
  | gate :: gates' =>
      if negb (gate_is_non_secure gate) then
        match stm32mp1_register_clock_parents_secure fuel
                (gate_index gate) s with
        | Some (Ret l) =>
            match register_secure_gates fuel gates' s with
            | Some (Ret l') => Some (Ret (l ++ l'))
            | other => other
            end
        | other => other
        end
      else register_secure_gates fuel gates' s
  end.

(** The clocks that [sync_earlyboot_clocks_state] enables, in the order of
    its calls: DDR controller and phy clocks, TZC400, ETZPC and STGEN
    clocks, RTCAPB. *)
Definition earlyboot_clocks : list Z :=
  [AXIDCG;
   DDRC1; DDRC1LP; DDRC2; DDRC2LP; DDRCAPB; DDRPHYC; DDRPHYCLP;
   DDRPHYCAPB; DDRPHYCAPBLP;
   TZPC; TZC1; TZC2; STGEN_K;
   RTCAPB].

Fixpoint enable_clocks (ids : list Z) : M unit :=
  match ids with
  | [] => ret tt
  | id :: ids' => run stm32mp_clk_enable id then enable_clocks ids'
  end.

(** [sync_earlyboot_clocks_state]: the resources registered as secure and
    the state left. *)
Definition sync_earlyboot_clocks_state (fuel : nat) (s : clk_state)
  : option (result (list shres * clk_state)) :=
  match register_secure_gates fuel stm32mp1_clk_gate s with
  | None => None
  | Some Panic => Some Panic
  | Some (Ret l) =>
      match enable_clocks earlyboot_clocks s with
      | Panic => Some Panic
      | Ret (_, s') => Some (Ret (l, s'))
      end
  end.

(** A gate that is counted is on, and its count leaves room for [n] more
    references. *)
Definition counted_gate_on (n : Z) (i : Z) (s : clk_state) : Prop :=
  0 <= refcount_of i s < UINT_MAX - n
  /\ (refcount_of i s <> 0 -> __clk_is_enabled (gate_ref i) s = true).

(** Every gate of the table is in that state, and the array of counts has
    the size of the table. *)
Definition counted_gates_on (n : Z) (s : clk_state) : Prop :=
  length (gate_refcounts s) = NB_GATES
  /\ forall j, 0 <= j < Z.of_nat NB_GATES -> counted_gate_on n j s.

(** From [s] to [s'] no count went down, no register bit went from 1 to 0,
    and the oscillator rates and the OPP data are the same. *)
Definition only_more_enabled (s s' : clk_state) : Prop :=
  (forall j, 0 <= j -> refcount_of j s <= refcount_of j s')
  /\ (forall addr k, 0 <= k < 32 ->
        reg_bit s addr k = true -> reg_bit s' addr k = true)
  /\ stm32mp1_osc s' = stm32mp1_osc s
  /\ pll1_settings s' = pll1_settings s
  /\ current_opp_khz s' = current_opp_khz s.

End EarlyBoot.

(** * Properties *)

(** ** Integer and bit-level facts *)

Lemma u32_range x : 0 <= u32 x < 2 ^ 32.
Proof. unfold u32. apply Z.mod_pos_bound. lia. Qed.

Lemma u64_range x : 0 <= u64 x < 2 ^ 64.
Proof. unfold u64. apply Z.mod_pos_bound. lia. Qed.

Lemma u32_small x : 0 <= x < 2 ^ 32 -> u32 x = x.
Proof. intros. unfold u32. apply Z.mod_small. lia. Qed.

Lemma u64_small x : 0 <= x < 2 ^ 64 -> u64 x = x.
Proof. intros. unfold u64. apply Z.mod_small. lia. Qed.

Lemma u32_idem x : u32 (u32 x) = u32 x.
Proof. unfold u32. apply Z.mod_mod. lia. Qed.

Lemma BIT_pow2 b : 0 <= b -> BIT b = 2 ^ b.
Proof. intros. unfold BIT. rewrite Z.shiftl_mul_pow2 by lia. lia. Qed.

Lemma land_BIT_eqb x b :
  0 <= b -> (Z.land x (BIT b) =? 0) = negb (Z.testbit x b).
Proof.
  intros Hb. rewrite BIT_pow2 by lia.
  destruct (Z.testbit x b) eqn:E; simpl.
  - apply Z.eqb_neq. intros Hz.
    assert (Z.testbit (Z.land x (2 ^ b)) b = true) as Ht.
    { rewrite Z.land_spec, E, Z.pow2_bits_true by lia. reflexivity. }
    rewrite Hz, Z.bits_0 in Ht. discriminate.
  - apply Z.eqb_eq. apply Z.bits_inj'. intros n Hn.
    rewrite Z.land_spec, Z.bits_0.
    destruct (Z.eq_dec n b) as [->|Hne].
    + rewrite E. reflexivity.
    + rewrite Z.pow2_bits_false by lia. apply andb_false_r.
Qed.

Lemma testbit_u32 x b : 0 <= b < 32 -> Z.testbit (u32 x) b = Z.testbit x b.
Proof. intros. unfold u32. apply Z.mod_pow2_bits_low. lia. Qed.

Lemma testbit_BIT b n : 0 <= b -> Z.testbit (BIT b) n = (b =? n).
Proof. intros. rewrite BIT_pow2 by lia. apply Z.pow2_bits_eqb. lia. Qed.

(** ** Registers and reference counts *)

Lemma read_write_eq addr v s :
  mmio_read_32 (mmio_write_32 addr v s) addr = u32 v.
Proof.
  unfold mmio_read_32, mmio_write_32. simpl. by rewrite lookup_insert_eq.
Qed.

Lemma read_write_ne addr addr' v s :
  addr <> addr' ->
  mmio_read_32 (mmio_write_32 addr v s) addr' = mmio_read_32 s addr'.
Proof.
  intros. unfold mmio_read_32, mmio_write_32. simpl.
  by rewrite lookup_insert_ne.
Qed.

Section GateEngine.
Context {P : Platform}.

(** The enable bit of a gate after [__clk_enable] and [__clk_disable],
    whichever write style the gate uses. *)
Lemma clk_enable_is_enabled g s :
  0 <= gate_bit g < 32 -> __clk_is_enabled g (__clk_enable g s) = true.
Proof.
  intros Hb. unfold __clk_is_enabled, __clk_enable.
  rewrite land_BIT_eqb, negb_involutive by lia.
  destruct (negb (gate_set_clr g =? 0)).
  - unfold mmio_write_32_enset, mmio_read_32 at 1. simpl.
    rewrite lookup_insert_eq. simpl.
    rewrite testbit_u32, Z.lor_spec, testbit_BIT, Z.eqb_refl by lia.
    apply orb_true_r.
  - unfold stm32mp_mmio_setbits_32_shregs, mmio_setbits_32.
    rewrite read_write_eq.
    rewrite testbit_u32, Z.lor_spec, testbit_BIT, Z.eqb_refl by lia.
    apply orb_true_r.
Qed.

Lemma clk_disable_is_enabled g s :
  0 <= gate_bit g < 32 -> __clk_is_enabled g (__clk_disable g s) = false.
Proof.
  intros Hb. unfold __clk_is_enabled, __clk_disable.
  rewrite land_BIT_eqb, negb_involutive by lia.
  destruct (negb (gate_set_clr g =? 0)).
  - unfold mmio_write_32_enclr.
    replace (gate_offset g + RCC_MP_ENCLRR_OFFSET - RCC_MP_ENCLRR_OFFSET)
      with (gate_offset g) by lia.
    unfold mmio_read_32 at 1. simpl. rewrite lookup_insert_eq. simpl.
    rewrite testbit_u32, Z.ldiff_spec, testbit_BIT, Z.eqb_refl by lia.
    apply andb_false_r.
  - unfold stm32mp_mmio_clrbits_32_shregs, mmio_clrbits_32.
    rewrite read_write_eq.
    rewrite testbit_u32, Z.ldiff_spec, testbit_BIT, Z.eqb_refl by lia.
    apply andb_false_r.
Qed.

Lemma clk_enable_refcounts g s :
  gate_refcounts (__clk_enable g s) = gate_refcounts s.
Proof. unfold __clk_enable. by destruct (negb _). Qed.

Lemma clk_disable_refcounts g s :
  gate_refcounts (__clk_disable g s) = gate_refcounts s.
Proof. unfold __clk_disable. by destruct (negb _). Qed.

Lemma set_refcount_is_enabled g i v s :
  __clk_is_enabled g (set_refcount i v s) = __clk_is_enabled g s.
Proof. reflexivity. Qed.

Lemma refcount_of_set_refcount i v s :
  0 <= i -> (Z.to_nat i < length (gate_refcounts s))%nat ->
  refcount_of i (set_refcount i v s) = v.
Proof.
  intros Hi Hlen. unfold refcount_of, set_refcount, array_get. simpl.
  apply nth_lookup_Some with (d := 0).
  by apply list_lookup_insert_eq.
Qed.

Lemma set_refcount_length i v s :
  length (gate_refcounts (set_refcount i v s)) = length (gate_refcounts s).
Proof. unfold set_refcount. simpl. apply length_insert. Qed.

End GateEngine.

Section GateSteps.
Context {P : Platform}.

Lemma first_index_Some {A : Type} (p : A -> bool) (l : list A) n d :
  first_index p l = Some n -> (n < length l)%nat /\ p (nth n l d) = true.
Proof.
  revert n. induction l as [|x l IH]; simpl; intros n Hn; [discriminate|].
  destruct (p x) eqn:E.
  - inversion Hn; subst. simpl. split; [lia | assumption].
  - destruct (first_index p l) as [m|]; simpl in Hn; [|discriminate].
    inversion Hn; subst. destruct (IH m eq_refl) as [? ?].
    simpl. split; [lia | assumption].
Qed.

Lemma first_index_None {A : Type} (p : A -> bool) (l : list A) :
  first_index p l = None -> Forall (fun x => p x = false) l.
Proof.
  induction l as [|x l IH]; simpl; intros Hn; [constructor|].
  destruct (p x) eqn:E; [discriminate|].
  destruct (first_index p l); simpl in Hn; [discriminate|].
  constructor; auto.
Qed.

(** Every entry of the gate table names a bit of a 32-bit register. *)
Lemma gate_table_bits :
  Forall (fun g => 0 <= gate_bit g < 32) stm32mp1_clk_gate.
Proof.
  unfold stm32mp1_clk_gate, bl32_only, bl2_only.
  destruct IMAGE; simpl;
    repeat (constructor;
            [unfold _CLK_FIXED, _CLK_SELEC, _CLK_SC_FIXED, _CLK_SC_SELEC;
             cbn [gate_bit]; vm_compute; split; [discriminate | reflexivity]|]);
    constructor.
Qed.

Lemma gated_id_gate id i :
  stm32mp1_clk_get_gated_id id = Int i ->
  0 <= i /\ (Z.to_nat i < NB_GATES)%nat
  /\ gate_index (gate_ref i) = id /\ 0 <= gate_bit (gate_ref i) < 32.
Proof.
  unfold stm32mp1_clk_get_gated_id.
  destruct (first_index _ _) as [n|] eqn:E; [|discriminate].
  intros Hi. inversion Hi; subst i.
  destruct (first_index_Some _ _ _ (_CLK_SELEC 0 0 0 0 0) E) as [Hlt Hp].
  unfold gate_ref, NB_GATES. rewrite Nat2Z.id.
  split; [lia|]. split; [lia|]. split.
  - by apply Z.eqb_eq.
  - pose proof gate_table_bits as HF. rewrite List.Forall_forall in HF.
    apply HF, nth_In, Hlt.
Qed.

(** One refcounted enable, as an equation. *)
Lemma clk_enable_step id i s :
  clock_is_always_on id = false ->
  stm32mp1_clk_get_gated_id id = Int i ->
  gate_secure (gate_ref i) = SEC ->
  stm32mp_clk_enable id s =
    let s1 := if refcount_of i s =? 0 then __clk_enable (gate_ref i) s else s in
    let s2 := set_refcount i (u32 (refcount_of i s1 + 1)) s1 in
    if refcount_of i s2 =? UINT_MAX then Panic else Ret (tt, s2).
Proof.
  intros Hon Hid Hsec.
  unfold stm32mp_clk_enable, __stm32mp1_clk_enable.
  rewrite Hon, Hid. simpl negb. cbv iota.
  unfold gate_is_non_secure. rewrite Hsec. change (SEC =? N_S) with false.
  destruct IMAGE; cbv beta iota delta [bind get modify ret panic negb];
    destruct (refcount_of i s =? 0); cbv beta iota zeta;
    match goal with |- context [?c =? UINT_MAX] => destruct (c =? UINT_MAX) end;
    reflexivity.
Qed.

(** One refcounted disable, as an equation. *)
Lemma clk_disable_step id i s :
  clock_is_always_on id = false ->
  stm32mp1_clk_get_gated_id id = Int i ->
  gate_secure (gate_ref i) = SEC ->
  stm32mp_clk_disable id s =
    if refcount_of i s =? 0 then Panic else
    let s1 := set_refcount i (u32 (refcount_of i s - 1)) s in
    Ret (tt, if refcount_of i s1 =? 0 then __clk_disable (gate_ref i) s1 else s1).
Proof.
  intros Hon Hid Hsec.
  unfold stm32mp_clk_disable, __stm32mp1_clk_disable.
  rewrite Hon, Hid. simpl negb. cbv iota.
  unfold gate_is_non_secure. rewrite Hsec. change (SEC =? N_S) with false.
  destruct IMAGE; cbv beta iota delta [bind get modify ret panic negb];
    destruct (refcount_of i s =? 0); cbv beta iota zeta; try reflexivity;
    match goal with |- context [?c =? 0] => destruct (c =? 0) end;
    reflexivity.
Qed.

End GateSteps.

Section GateDiscipline.
Context {P : Platform}.

Lemma refcount_of_maybe_enable i g (c : bool) s :
  refcount_of i (if c then __clk_enable g s else s) = refcount_of i s.
Proof.
  unfold refcount_of. destruct c; [by rewrite clk_enable_refcounts | done].
Qed.

Lemma clk_enable_counted id i s :
  clock_is_always_on id = false ->
  stm32mp1_clk_get_gated_id id = Int i ->
  gate_secure (gate_ref i) = SEC ->
  (Z.to_nat i < length (gate_refcounts s))%nat ->
  0 <= refcount_of i s < UINT_MAX ->
  stm32mp_clk_enable id s =
    if refcount_of i s + 1 =? UINT_MAX then Panic
    else Ret (tt, set_refcount i (refcount_of i s + 1)
                    (if refcount_of i s =? 0
                     then __clk_enable (gate_ref i) s else s)).
Proof.
  intros Hon Hid Hsec Hlen Hrange.
  destruct (gated_id_gate _ _ Hid) as (Hi & _).
  rewrite (clk_enable_step _ _ _ Hon Hid Hsec). cbv zeta.
  rewrite refcount_of_maybe_enable.
  rewrite refcount_of_set_refcount.
  - rewrite u32_small by (unfold UINT_MAX in Hrange; lia). reflexivity.
  - exact Hi.
  - destruct (_ =? 0); [by rewrite clk_enable_refcounts | done].
Qed.

Lemma clk_enable_inv id i s s' :
  clock_is_always_on id = false ->
  stm32mp1_clk_get_gated_id id = Int i ->
  gate_secure (gate_ref i) = SEC ->
  gate_inv i s ->
  stm32mp_clk_enable id s = Ret (tt, s') ->
  gate_inv i s'
  /\ refcount_of i s' = refcount_of i s + 1
  /\ __clk_is_enabled (gate_ref i) s' = true
  /\ (refcount_of i s <> 0 -> rcc s' = rcc s).
Proof.
  intros Hon Hid Hsec (Hlen & Hrange & Hiff) Hstep.
  destruct (gated_id_gate _ _ Hid) as (Hi & _ & _ & Hbit).
  rewrite (clk_enable_counted _ _ _ Hon Hid Hsec Hlen Hrange) in Hstep.
  set (s1 := if refcount_of i s =? 0 then __clk_enable (gate_ref i) s else s)
    in *.
  assert (gate_refcounts s1 = gate_refcounts s) as Hrc.
  { unfold s1. destruct (_ =? 0); [apply clk_enable_refcounts | reflexivity]. }
  destruct (refcount_of i s + 1 =? UINT_MAX) eqn:Emax; [discriminate|].
  apply Z.eqb_neq in Emax.
  inversion Hstep; subst s'; clear Hstep.
  assert (__clk_is_enabled (gate_ref i) s1 = true) as Hen.
  { unfold s1. destruct (refcount_of i s =? 0) eqn:E0.
    - by apply clk_enable_is_enabled.
    - apply Z.eqb_neq in E0. destruct (__clk_is_enabled _ s) eqn:E; [done|].
      exfalso. apply E0, Hiff. reflexivity. }
  assert (refcount_of i (set_refcount i (refcount_of i s + 1) s1)
          = refcount_of i s + 1) as Hnew
    by (apply refcount_of_set_refcount; rewrite ?Hrc; lia).
  split; [|split; [|split]].
  - split; [|split].
    + rewrite set_refcount_length, Hrc. exact Hlen.
    + rewrite Hnew. lia.
    + rewrite Hnew, set_refcount_is_enabled, Hen. split; [lia | discriminate].
  - exact Hnew.
  - by rewrite set_refcount_is_enabled.
  - intros Hnz. apply Z.eqb_neq in Hnz. unfold s1. rewrite Hnz. reflexivity.
Qed.

Lemma clk_disable_inv id i s s' :
  clock_is_always_on id = false ->
  stm32mp1_clk_get_gated_id id = Int i ->
  gate_secure (gate_ref i) = SEC ->
  gate_inv i s ->
  stm32mp_clk_disable id s = Ret (tt, s') ->
  gate_inv i s'
  /\ refcount_of i s' = refcount_of i s - 1
  /\ (refcount_of i s <> 1 -> rcc s' = rcc s).
Proof.
  intros Hon Hid Hsec (Hlen & Hrange & Hiff) Hstep.
  destruct (gated_id_gate _ _ Hid) as (Hi & _ & _ & Hbit).
  rewrite (clk_disable_step _ _ _ Hon Hid Hsec) in Hstep.
  destruct (refcount_of i s =? 0) eqn:E0; [discriminate|].
  apply Z.eqb_neq in E0. cbv zeta in Hstep.
  rewrite refcount_of_set_refcount in Hstep by lia.
  rewrite (u32_small (refcount_of i s - 1)) in Hstep
    by (unfold UINT_MAX in Hrange; lia).
  assert (refcount_of i (set_refcount i (refcount_of i s - 1) s)
          = refcount_of i s - 1) as Hnew
    by (apply refcount_of_set_refcount; lia).
  destruct (refcount_of i s - 1 =? 0) eqn:E1;
    inversion Hstep; subst s'; clear Hstep.
  - apply Z.eqb_eq in E1.
    assert (refcount_of i (__clk_disable (gate_ref i)
              (set_refcount i (refcount_of i s - 1) s)) = refcount_of i s - 1)
      as Hnew'.
    { unfold refcount_of at 1. rewrite clk_disable_refcounts. exact Hnew. }
    split; [|split].
    + split; [|split].
      * rewrite clk_disable_refcounts, set_refcount_length. exact Hlen.
      * rewrite Hnew'. lia.
      * rewrite Hnew', clk_disable_is_enabled by lia. split; [done | lia].
    + exact Hnew'.
    + intros Hne. lia.
  - apply Z.eqb_neq in E1. split; [|split].
    + split; [|split].
      * rewrite set_refcount_length. exact Hlen.
      * rewrite Hnew. lia.
      * rewrite Hnew, set_refcount_is_enabled. split; [lia|].
        intros Hoff. exfalso. apply E0, Hiff, Hoff.
    + exact Hnew.
    + intros _. reflexivity.
Qed.

Lemma gate_ops_balance_cons op ops :
  gate_ops_balance (op :: ops)
  = gate_ops_balance ops + match op with OpEnable => 1 | OpDisable => -1 end.
Proof. destruct op; simpl; unfold gate_ops_balance; lia. Qed.

Lemma run_gate_ops_inv id i ops : forall s s',
  clock_is_always_on id = false ->
  stm32mp1_clk_get_gated_id id = Int i ->
  gate_secure (gate_ref i) = SEC ->
  gate_inv i s ->
  run_gate_ops id ops s = Ret (tt, s') ->
  gate_inv i s'
  /\ refcount_of i s' = refcount_of i s + gate_ops_balance ops.
Proof.
  induction ops as [|op ops IH]; intros s s' Hon Hid Hsec Hinv Hrun.
  - inversion Hrun; subst. split; [exact Hinv|]. unfold gate_ops_balance.
    simpl. lia.
  - simpl in Hrun. unfold bind in Hrun.
    destruct (apply_gate_op id op s) as [[[] s1]|] eqn:E1; [|discriminate].
    rewrite gate_ops_balance_cons.
    destruct op; simpl in E1.
    + destruct (clk_enable_inv _ _ _ _ Hon Hid Hsec Hinv E1)
        as (Hinv1 & Hc1 & _).
      destruct (IH s1 s' Hon Hid Hsec Hinv1 Hrun) as (Hinv' & Hc').
      split; [exact Hinv' | lia].
    + destruct (clk_disable_inv _ _ _ _ Hon Hid Hsec Hinv E1)
        as (Hinv1 & Hc1 & _).
      destruct (IH s1 s' Hon Hid Hsec Hinv1 Hrun) as (Hinv' & Hc').
      split; [exact Hinv' | lia].
Qed.

(** C1. For a secure gate that is not always on, reached from its
    identifier [id] at position [i] of the gate table, starting with a
    reference count of 0 and the hardware bit off: enable, enable, disable,
    disable give the counts 1, 2, 1, 0; the hardware bit is raised by the
    first enable, stays up (no register changes) over the second enable
    and the first disable, and is lowered by the second disable; one more
    disable panics.  After every run of enables and disables that returns,
    the count is the number of enables minus the number of disables, and
    it is 0 exactly when the bit is off.  An enable that would bring
    the count to [UINT_MAX] panics. *)
Theorem gate_refcount_discipline (id i : Z) (s : clk_state) :
  clock_is_always_on id = false ->
  stm32mp1_clk_get_gated_id id = Int i ->
  gate_secure (gate_ref i) = SEC ->
  (Z.to_nat i < length (gate_refcounts s))%nat ->
  refcount_of i s = 0 ->
  __clk_is_enabled (gate_ref i) s = false ->
  (exists s1 s2 s3 s4,
      stm32mp_clk_enable id s = Ret (tt, s1)
      /\ refcount_of i s1 = 1 /\ __clk_is_enabled (gate_ref i) s1 = true
      /\ stm32mp_clk_enable id s1 = Ret (tt, s2)
      /\ refcount_of i s2 = 2 /\ __clk_is_enabled (gate_ref i) s2 = true
      /\ rcc s2 = rcc s1
      /\ stm32mp_clk_disable id s2 = Ret (tt, s3)
      /\ refcount_of i s3 = 1 /\ __clk_is_enabled (gate_ref i) s3 = true
      /\ rcc s3 = rcc s2
      /\ stm32mp_clk_disable id s3 = Ret (tt, s4)
      /\ refcount_of i s4 = 0 /\ __clk_is_enabled (gate_ref i) s4 = false
      /\ stm32mp_clk_disable id s4 = Panic)
  /\ (forall ops s',
        run_gate_ops id ops s = Ret (tt, s') ->
        refcount_of i s' = gate_ops_balance ops
        /\ (refcount_of i s' = 0
            <-> __clk_is_enabled (gate_ref i) s' = false))
  /\ (forall s0,
        (Z.to_nat i < length (gate_refcounts s0))%nat ->
        refcount_of i s0 = UINT_MAX - 1 ->
        stm32mp_clk_enable id s0 = Panic).
Proof.
  intros Hon Hid Hsec Hlen Hc Hoff.
  destruct (gated_id_gate _ _ Hid) as (Hi & _ & _ & Hbit).
  assert (gate_inv i s) as Hinv.
  { split; [exact Hlen|]. rewrite Hc. unfold UINT_MAX. split; [lia|].
    split; auto. }
  split; [|split].
  - (* the four-step run *)
    assert (forall t, gate_inv i t -> refcount_of i t + 1 <> UINT_MAX ->
              exists t', stm32mp_clk_enable id t = Ret (tt, t')) as Hen.
    { intros t (Hl & Hr & _) Hne.
      rewrite (clk_enable_counted _ _ _ Hon Hid Hsec Hl Hr).
      apply Z.eqb_neq in Hne. rewrite Hne. eauto. }
    assert (forall t, gate_inv i t -> refcount_of i t <> 0 ->
              exists t', stm32mp_clk_disable id t = Ret (tt, t')) as Hdis.
    { intros t _ Hne.
      rewrite (clk_disable_step _ _ _ Hon Hid Hsec).
      apply Z.eqb_neq in Hne. rewrite Hne. eauto. }
    destruct (Hen s Hinv) as [s1 E1]; [rewrite Hc; unfold UINT_MAX; lia|].
    destruct (clk_enable_inv _ _ _ _ Hon Hid Hsec Hinv E1)
      as (Hinv1 & Hc1 & Hon1 & _).
    rewrite Hc in Hc1. simpl in Hc1.
    destruct (Hen s1 Hinv1) as [s2 E2]; [rewrite Hc1; unfold UINT_MAX; lia|].
    destruct (clk_enable_inv _ _ _ _ Hon Hid Hsec Hinv1 E2)
      as (Hinv2 & Hc2 & Hon2 & Hrcc2).
    rewrite Hc1 in Hc2, Hrcc2. simpl in Hc2.
    destruct (Hdis s2 Hinv2) as [s3 E3]; [rewrite Hc2; lia|].
    destruct (clk_disable_inv _ _ _ _ Hon Hid Hsec Hinv2 E3)
      as (Hinv3 & Hc3 & Hrcc3).
    rewrite Hc2 in Hc3, Hrcc3. simpl in Hc3.
    destruct (Hdis s3 Hinv3) as [s4 E4]; [rewrite Hc3; lia|].
    destruct (clk_disable_inv _ _ _ _ Hon Hid Hsec Hinv3 E4)
      as (Hinv4 & Hc4 & _).
    rewrite Hc3 in Hc4. simpl in Hc4.
    exists s1, s2, s3, s4.
    repeat (split; [first [eassumption | apply Hrcc2; lia | apply Hrcc3; lia]|]).
    split.
    + destruct Hinv3 as (_ & _ & Hiff3). rewrite Hc3 in Hiff3.
      destruct (__clk_is_enabled (gate_ref i) s3); [done|].
      exfalso. assert (1 = 0) by (apply Hiff3; reflexivity). lia.
    + split; [apply Hrcc3; lia|]. split; [exact E4|]. split; [exact Hc4|].
      split.
      * destruct Hinv4 as (_ & _ & Hiff4). apply Hiff4. exact Hc4.
      * rewrite (clk_disable_step _ _ _ Hon Hid Hsec), Hc4. reflexivity.
  - (* the invariant along every run *)
    intros ops s' Hrun.
    destruct (run_gate_ops_inv _ _ _ _ _ Hon Hid Hsec Hinv Hrun)
      as ((_ & _ & Hiff) & Hbal).
    split; [rewrite Hbal, Hc; lia | exact Hiff].
  - (* overflow *)
    intros s0 Hlen0 Hc0.
    rewrite (clk_enable_counted _ _ _ Hon Hid Hsec Hlen0)
      by (rewrite Hc0; unfold UINT_MAX; lia).
    rewrite Hc0. reflexivity.
Qed.

End GateDiscipline.

Section AlwaysOn.
Context {P : Platform}.

Lemma always_on_noop id :
  clock_is_always_on id = true -> gate_ops_are_noops id.
Proof.
  intros Hon b s.
  unfold __stm32mp1_clk_enable, __stm32mp1_clk_disable,
    stm32mp_clk_is_enabled.
  rewrite Hon. repeat split.
Qed.

Lemma clock_is_always_on_true id :
  id <= 5 \/ PLL1_P <= id <= PLL1_P + 8
  \/ id = CK_AXI \/ id = CK_MPU \/ id = CK_MCU \/ id = RTC ->
  clock_is_always_on id = true.
Proof.
  intros Hid. unfold clock_is_always_on, PLL3_R, CK_HSE_DIV2, CK_HSE.
  destruct ((id <=? 0 + 5) || (PLL1_P <=? id) && (id <=? PLL1_P + 8)) eqn:E;
    [reflexivity|].
  apply orb_false_iff in E as [E1 E2].
  apply Z.leb_gt in E1. apply andb_false_iff in E2.
  destruct Hid as [H | [H | [ -> | [ -> | [ -> | -> ] ] ] ] ].
  - lia.
  - destruct E2 as [E2|E2]; apply Z.leb_gt in E2; lia.
  - by rewrite Z.eqb_refl.
  - by rewrite Z.eqb_refl, orb_true_r.
  - by rewrite Z.eqb_refl, !orb_true_r.
  - by rewrite Z.eqb_refl, !orb_true_r.
Qed.

Lemma always_on_ids_on :
  Forall (fun id => clock_is_always_on id = true) always_on_ids.
Proof.
  unfold always_on_ids.
  unfold PLL1_Q, PLL1_R, PLL2_P, PLL2_Q, PLL2_R, PLL3_P, PLL3_Q, PLL3_R,
    CK_HSI, CK_CSI, CK_LSI, CK_LSE, CK_HSE_DIV2, CK_HSE.
  repeat constructor; apply clock_is_always_on_true; lia.
Qed.

Lemma clock_is_always_on_inv id :
  clock_is_always_on id = true ->
  id <= 5 \/ PLL1_P <= id <= PLL1_P + 8
  \/ id = CK_AXI \/ id = CK_MPU \/ id = CK_MCU \/ id = RTC.
Proof.
  unfold clock_is_always_on, PLL3_R, CK_HSE_DIV2, CK_HSE.
  destruct (id <=? 0 + 5) eqn:E1; [apply Z.leb_le in E1; lia|].
  destruct (PLL1_P <=? id) eqn:E2, (id <=? PLL1_P + 8) eqn:E3;
    cbn [orb andb]; rewrite ?Z.leb_le in *; try lia;
    destruct (id =? CK_AXI) eqn:E4, (id =? CK_MPU) eqn:E5,
      (id =? CK_MCU) eqn:E6, (id =? RTC) eqn:E7;
    cbn [orb]; rewrite ?Z.eqb_eq in *; try lia; discriminate.
Qed.

(** C8. The always-on set is made of the HSE, HSI, CSI, LSI and LSE
    rails, the HSE/2 rail, the P, Q and R outputs of PLL1, PLL2 and PLL3,
    CK_AXI, CK_MPU, CK_MCU and RTC.  For every identifier of the set,
    enable and disable return at once and leave every register and
    reference count as they were, with or without reference counting, and
    is_enabled answers true. *)
Theorem always_on_clocks_are_noops :
  (forall id, 0 <= id ->
     (clock_is_always_on id = true <-> In id always_on_ids))
  /\ Forall gate_ops_are_noops always_on_ids.
Proof.
  split.
  - intros id Hid. split.
    + intros Hon. apply clock_is_always_on_inv in Hon.
      unfold always_on_ids, PLL1_Q, PLL1_R, PLL2_P, PLL2_Q, PLL2_R, PLL3_P,
        PLL3_Q, PLL3_R, CK_HSI, CK_CSI, CK_LSI, CK_LSE, CK_HSE_DIV2, CK_HSE.
      cbn [In]. lia.
    + intros Hin. apply clock_is_always_on_true. revert Hin.
      unfold always_on_ids, PLL1_Q, PLL1_R, PLL2_P, PLL2_Q, PLL2_R, PLL3_P,
        PLL3_Q, PLL3_R, CK_HSI, CK_CSI, CK_LSI, CK_LSE, CK_HSE_DIV2, CK_HSE.
      cbn [In]. lia.
  - eapply Forall_impl; [apply always_on_ids_on|].
    intros id Hon. by apply always_on_noop.
Qed.

(** An identifier outside the always-on set that names no gate is fatal
    to the three operations. *)
Lemma not_always_on_not_gated id b s :
  clock_is_always_on id = false ->
  stm32mp1_clk_get_gated_id id = Err EINVAL ->
  __stm32mp1_clk_enable id b s = Panic
  /\ __stm32mp1_clk_disable id b s = Panic
  /\ stm32mp_clk_is_enabled id s = Panic.
Proof.
  intros Hon Hid.
  unfold __stm32mp1_clk_enable, __stm32mp1_clk_disable,
    stm32mp_clk_is_enabled.
  rewrite Hon, Hid. repeat split.
Qed.

(** Whatever the binding header says, as long as PLL4_P differs from the
    identifiers of the always-on set, it is not always on. *)
Lemma pll4_p_not_always_on :
  5 < PLL4_P -> (PLL4_P < PLL1_P \/ PLL1_P + 8 < PLL4_P) ->
  PLL4_P <> CK_AXI -> PLL4_P <> CK_MPU -> PLL4_P <> CK_MCU -> PLL4_P <> RTC ->
  clock_is_always_on PLL4_P = false.
Proof.
  intros H5 Hr Ha Hm Hc Ht. unfold clock_is_always_on, PLL3_R, CK_HSE_DIV2, CK_HSE.
  replace (PLL4_P <=? 0 + 5) with false by (symmetry; apply Z.leb_gt; lia).
  replace ((PLL1_P <=? PLL4_P) && (PLL4_P <=? PLL1_P + 8)) with false.
  2:{ symmetry. apply andb_false_iff.
      destruct Hr; [left | right]; apply Z.leb_gt; lia. }
  simpl.
  apply Z.eqb_neq in Ha, Hm, Hc, Ht. rewrite Ha, Hm, Hc, Ht. reflexivity.
Qed.

End AlwaysOn.

Section RateErrors.
Context {P : Platform}.

(** C10. For an identifier that the identity table does not
    resolve: if it names no gate, asking for its rate panics; if it names a
    gate without fixed parent, the rate is 0 when the gate has no selector,
    and also when the field read from its selector register indexes past
    the end of the selector's candidates. *)
Theorem clk_get_rate_unresolved_parent (id : Z) (s : clk_state) :
  clock_id2parent_id id = _UNKNOWN_ID ->
  match stm32mp1_clk_get_gated_id id with
  | Err _ => stm32mp_clk_get_rate id s = Panic
  | Int i =>
      _PARENT_NB <= stm32mp1_clk_get_fixed_parent i ->
      let sel := clk_sel_ref (stm32mp1_clk_get_sel i) in
      let field :=
        Z.shiftr (Z.land (mmio_read_32 s (sel_offset sel))
                         (Z.shiftl (sel_msk sel) (sel_src sel)))
                 (sel_src sel) in
      (stm32mp1_clk_get_sel i = _UNKNOWN_SEL ->
       stm32mp_clk_get_rate id s = Ret 0)
      /\ (stm32mp1_clk_get_sel i < _PARENT_SEL_NB ->
          sel_nb_parent sel <= field ->
          stm32mp_clk_get_rate id s = Ret 0)
  end.
Proof.
  intros Hid.
  unfold stm32mp_clk_get_rate, stm32mp1_clk_get_parent.
  rewrite Hid. change (negb (_UNKNOWN_ID =? _UNKNOWN_ID)) with false.
  cbv iota.
  destruct (stm32mp1_clk_get_gated_id id) as [i|e]; [|reflexivity].
  intros Hfix. cbv zeta.
  replace (stm32mp1_clk_get_fixed_parent i <? _PARENT_NB) with false
    by (symmetry; apply Z.ltb_ge; lia).
  split.
  - intros Hsel. rewrite Hsel. reflexivity.
  - intros Hsel Hfield.
    replace (stm32mp1_clk_get_sel i =? _UNKNOWN_SEL) with false
      by (symmetry; apply Z.eqb_neq; unfold _UNKNOWN_SEL, _PARENT_SEL_NB in *; lia).
    replace (_PARENT_SEL_NB <=? stm32mp1_clk_get_sel i) with false
      by (symmetry; apply Z.leb_gt; lia).
    match goal with |- context [?a <? ?b] =>
      replace (a <? b) with false by (symmetry; apply Z.ltb_ge; exact Hfield)
    end.
    reflexivity.
Qed.

End RateErrors.

(** ** Register fields as quotients and remainders *)

Lemma land_low_mask x n : 0 <= n -> Z.land x (GENMASK (n - 1) 0) = x mod 2 ^ n.
Proof.
  intros Hn. unfold GENMASK. rewrite Z.shiftl_0_r.
  replace (n - 1 - 0 + 1) with n by lia. by apply Z.land_ones.
Qed.

Lemma field_extract x h l :
  0 <= l <= h ->
  Z.shiftr (Z.land x (GENMASK h l)) l = (x / 2 ^ l) mod 2 ^ (h - l + 1).
Proof.
  intros Hl. unfold GENMASK.
  rewrite Z.shiftr_land, Z.shiftr_shiftl_l by lia.
  replace (l - l) with 0 by lia. rewrite Z.shiftl_0_r.
  rewrite Z.land_ones by lia. by rewrite Z.shiftr_div_pow2 by lia.
Qed.

Lemma shifted_field x s n :
  0 <= s -> 0 <= n ->
  Z.land (Z.shiftr x s) (GENMASK (n - 1) 0) = (x / 2 ^ s) mod 2 ^ n.
Proof.
  intros Hs Hn. rewrite land_low_mask by lia.
  by rewrite Z.shiftr_div_pow2 by lia.
Qed.

(** ** Forward PLL mathematics and rate walk *)

Section PllFields.
Context {P : Platform}.

Lemma pll_get_fvco_fields pll s :
  stm32mp1_pll_get_fvco pll s =
    let divm := pll_DIVM pll s in
    let divn := pll_DIVN pll s in
    let refclk := stm32mp1_pll_get_fref pll s in
    if pll_FRACLE pll s then
      u32 (u64 (refclk * u64 (u64 (Z.shiftl (u64 (divn + 1)) 13)
                              + pll_FRACV pll s))
           / u64 (Z.shiftl (u64 (divm + 1)) 13))
    else u32 (u32 (refclk * u32 (divn + 1)) / u32 (divm + 1)).
Proof.
  unfold stm32mp1_pll_get_fvco, pll_DIVM, pll_DIVN, pll_FRACV, pll_FRACLE.
  cbv zeta.
  unfold RCC_PLLNFRACR_FRACLE. rewrite land_BIT_eqb, negb_involutive by lia.
  unfold RCC_PLLNCFGR1_DIVM_MASK, RCC_PLLNCFGR1_DIVM_SHIFT,
    RCC_PLLNCFGR1_DIVN_MASK, RCC_PLLNFRACR_FRACV_MASK,
    RCC_PLLNFRACR_FRACV_SHIFT.
  rewrite !field_extract by lia.
  change (GENMASK 8 0) with (GENMASK (9 - 1) 0).
  rewrite land_low_mask by lia.
  reflexivity.
Qed.

Lemma pll_fvco_exact pll s :
  let reference := stm32mp1_pll_get_fref pll s in
  let fvco := spec_pll_fvco reference (pll_DIVM pll s) (pll_DIVN pll s)
                (pll_FRACV pll s) (pll_FRACLE pll s) in
  0 <= reference < 2 ^ 32 ->
  (if pll_FRACLE pll s then fvco < 2 ^ 32
   else reference * (pll_DIVN pll s + 1) < 2 ^ 32) ->
  stm32mp1_pll_get_fvco pll s = fvco.
Proof.
  intros reference fvco Href Hfit.
  rewrite pll_get_fvco_fields. cbv zeta.
  fold reference.
  assert (0 <= pll_DIVM pll s < 2 ^ 6) as HM
    by (unfold pll_DIVM; apply Z.mod_pos_bound; lia).
  assert (0 <= pll_DIVN pll s < 2 ^ 9) as HN
    by (unfold pll_DIVN; apply Z.mod_pos_bound; lia).
  assert (0 <= pll_FRACV pll s < 2 ^ 13) as HF
    by (unfold pll_FRACV; apply Z.mod_pos_bound; lia).
  unfold fvco, spec_pll_fvco in *.
  destruct (pll_FRACLE pll s).
  - rewrite (u64_small (pll_DIVN pll s + 1)) by lia.
    rewrite (u64_small (pll_DIVM pll s + 1)) by lia.
    rewrite !Z.shiftl_mul_pow2 by lia.
    rewrite (u64_small ((pll_DIVN pll s + 1) * 2 ^ 13)) by lia.
    rewrite (u64_small ((pll_DIVN pll s + 1) * 2 ^ 13 + pll_FRACV pll s))
      by lia.
    rewrite (u64_small ((pll_DIVM pll s + 1) * 2 ^ 13)) by lia.
    rewrite u64_small by nia.
    apply u32_small. split; [|exact Hfit].
    apply Z.div_pos; nia.
  - rewrite (u32_small (pll_DIVN pll s + 1)) by lia.
    rewrite (u32_small (pll_DIVM pll s + 1)) by lia.
    rewrite (u32_small (reference * _)) by nia.
    apply u32_small. split; [apply Z.div_pos; nia|].
    apply Z.le_lt_trans with (reference * (pll_DIVN pll s + 1)); [|lia].
    apply Z.div_le_upper_bound; nia.
Qed.

Lemma read_pll_freq_fields pll_id div_id s :
  0 <= div_id < 3 ->
  stm32mp1_read_pll_freq pll_id div_id s =
    spec_pll_fout (stm32mp1_pll_get_fvco (pll_ref pll_id) s)
      (pll_DIVY (pll_ref pll_id) div_id s).
Proof.
  intros Hd. unfold stm32mp1_read_pll_freq, spec_pll_fout, pll_DIVY.
  replace (_DIV_NB <=? div_id) with false
    by (symmetry; apply Z.leb_gt; unfold _DIV_NB; lia).
  cbv zeta. unfold RCC_PLLNCFGR2_DIVX_MASK.
  assert (array_get pllncfgr2 div_id = 8 * div_id) as ->.
  { assert (div_id = 0 \/ div_id = 1 \/ div_id = 2) as [->|[->| ->]] by lia;
      reflexivity. }
  change (GENMASK 6 0) with (GENMASK (7 - 1) 0).
  rewrite shifted_field by lia.
  rewrite u32_small; [reflexivity|].
  pose proof (Z.mod_pos_bound (mmio_read_32 s (pllxcfgr2 (pll_ref pll_id))
                               / 2 ^ (8 * div_id)) (2 ^ 7)). lia.
Qed.

(** C2. For every PLL whose reference rate is an unsigned
    long: when FRACLE is set and the quotient
    reference * ((N+1) * 2^13 + FRAC) / ((M+1) * 2^13) fits in 32 bits,
    the VCO-side frequency is that quotient; when FRACLE is clear and
    reference * (N+1) fits in 32 bits, it is reference * (N+1) / (M+1);
    the rate of an output is that frequency divided by its divider plus
    one.  With reference 24e6, M = 1, N = 65 and P = 1 this gives 792e6 and
    396e6 without fractional part, 798e6 and 399e6 with FRAC = 4096. *)
Theorem pll_forward_math (pll_id div_id : Z) (s : clk_state) :
  let pll := pll_ref pll_id in
  let reference := stm32mp1_pll_get_fref pll s in
  let fvco := spec_pll_fvco reference (pll_DIVM pll s) (pll_DIVN pll s)
                (pll_FRACV pll s) (pll_FRACLE pll s) in
  0 <= reference < 2 ^ 32 ->
  (if pll_FRACLE pll s then fvco < 2 ^ 32
   else reference * (pll_DIVN pll s + 1) < 2 ^ 32) ->
  0 <= div_id < 3 ->
  stm32mp1_pll_get_fvco pll s = fvco
  /\ stm32mp1_read_pll_freq pll_id div_id s
     = spec_pll_fout fvco (pll_DIVY pll div_id s)
  /\ (reference = 24000000 -> pll_DIVM pll s = 1 -> pll_DIVN pll s = 65 ->
      pll_DIVY pll div_id s = 1 ->
      (pll_FRACLE pll s = false ->
       stm32mp1_pll_get_fvco pll s = 792000000
       /\ stm32mp1_read_pll_freq pll_id div_id s = 396000000)
      /\ (pll_FRACLE pll s = true -> pll_FRACV pll s = 4096 ->
          stm32mp1_pll_get_fvco pll s = 798000000
          /\ stm32mp1_read_pll_freq pll_id div_id s = 399000000)).
Proof.
  intros pll reference fvco Href Hfit Hdiv.
  assert (stm32mp1_pll_get_fvco pll s = fvco) as Hfvco
    by (by apply pll_fvco_exact).
  assert (stm32mp1_read_pll_freq pll_id div_id s
          = spec_pll_fout fvco (pll_DIVY pll div_id s)) as Hout
    by (rewrite read_pll_freq_fields by exact Hdiv; fold pll;
        by rewrite Hfvco).
  split; [exact Hfvco|]. split; [exact Hout|].
  intros Hr HM HN HY. rewrite Hout, Hfvco. unfold fvco.
  rewrite Hr, HM, HN, HY. split.
  - intros ->. split; reflexivity.
  - intros -> ->. split; reflexivity.
Qed.

End PllFields.

Section AxiRate.
Context {P : Platform}.

Lemma apbx_div_nonneg k : 0 <= array_get stm32mp1_apbx_div k.
Proof.
  unfold array_get, stm32mp1_apbx_div, stm32mp1_mpu_apbx_div.
  destruct (Z.to_nat k) as [|[|[|[|[|[|[|[|n]]]]]]]]; simpl; try lia.
  destruct n; lia.
Qed.

Lemma axi_rate_refines p s :
  In p [_ACLK; _HCLK2; _HCLK6; _PCLK4; _PCLK5] ->
  get_clock_rate p s = spec_axi_rate p s.
Proof.
  intros Hp. unfold spec_axi_rate. cbv zeta.
  assert (forall r, Z.land (mmio_read_32 s r) (GENMASK 2 0)
                    = mmio_read_32 s r mod 8) as Hfield.
  { intros r. change (GENMASK 2 0) with (GENMASK (3 - 1) 0).
    by rewrite land_low_mask by lia. }
  assert (forall c k, Z.shiftr c (array_get stm32mp1_apbx_div k)
                      = c / 2 ^ array_get stm32mp1_apbx_div k) as Hsh
    by (intros; apply Z.shiftr_div_pow2, apbx_div_nonneg).
  assert ((if Z.land (mmio_read_32 s RCC_ASSCKSELR) RCC_SELR_SRC_MASK
              =? RCC_ASSCKSELR_HSI then stm32mp1_clk_get_fixed _HSI s
           else if Z.land (mmio_read_32 s RCC_ASSCKSELR) RCC_SELR_SRC_MASK
                   =? RCC_ASSCKSELR_HSE then stm32mp1_clk_get_fixed _HSE s
           else if Z.land (mmio_read_32 s RCC_ASSCKSELR) RCC_SELR_SRC_MASK
                   =? RCC_ASSCKSELR_PLL
                then stm32mp1_read_pll_freq _PLL2 _DIV_P s else 0)
          = match mmio_read_32 s RCC_ASSCKSELR mod 8 with
            | 0 => stm32mp1_clk_get_fixed _HSI s
            | 1 => stm32mp1_clk_get_fixed _HSE s
            | 2 => stm32mp1_read_pll_freq _PLL2 _DIV_P s
            | _ => 0
            end) as Hsrc.
  { unfold RCC_SELR_SRC_MASK. rewrite Hfield.
    pose proof (Z.mod_pos_bound (mmio_read_32 s RCC_ASSCKSELR) 8 ltac:(lia)).
    destruct (mmio_read_32 s RCC_ASSCKSELR mod 8) as [|q|q]; try lia;
      [reflexivity|].
    destruct q as [[q|q|]|[q|q|]|]; try reflexivity; try lia. }
  simpl in Hp.
  destruct Hp as [<-|[<-|[<-|[<-|[<-|[]]]]]];
    unfold get_clock_rate;
    match goal with
    | |- (if ?c then _ else _) = _ => change c with false; cbv iota
    end;
    match goal with
    | |- (if ?c then _ else _) = _ => change c with true; cbv iota
    end;
    cbv zeta; rewrite Hsrc;
    unfold RCC_AXIDIV_MASK, RCC_APBXDIV_MASK; rewrite ?Hfield, ?Hsh;
    reflexivity.
Qed.

(** C9. For every clock of the AXI subsystem (ACLK, HCLK2, HCLK6, PCLK4,
    PCLK5) the computed rate is the rate of the source the AXI selector
    field designates (HSI, HSE or PLL2_P) divided by the entry of
    {1,2,3,4,4,4,4,4} that the AXIDIV field indexes, shifted right, for
    PCLK4 and PCLK5, by the entry of {0,1,2,3,4,4,4,4} that the APB4DIV or
    APB5DIV field indexes.  With PLL2_P at 266 MHz as source, an AXIDIV
    field of 1 and an APB5DIV field of 2 the rate of PCLK5 is
    33 250 000 Hz. *)
Theorem axi_rate_walk (p : Z) (s : clk_state) :
  In p [_ACLK; _HCLK2; _HCLK6; _PCLK4; _PCLK5] ->
  get_clock_rate p s = spec_axi_rate p s
  /\ (mmio_read_32 s RCC_ASSCKSELR mod 8 = 2 ->
      stm32mp1_read_pll_freq _PLL2 _DIV_P s = 266000000 ->
      mmio_read_32 s RCC_AXIDIVR mod 8 = 1 ->
      mmio_read_32 s RCC_APB5DIVR mod 8 = 2 ->
      get_clock_rate _PCLK5 s = 33250000).
Proof.
  intros Hp. split; [by apply axi_rate_refines|].
  intros Hsel Hpll Haxi Hapb.
  rewrite axi_rate_refines by (simpl; tauto).
  unfold spec_axi_rate. cbv zeta.
  rewrite Hsel, Hpll, Haxi, Hapb. reflexivity.
Qed.

End AxiRate.

(** ** Words that fit a 32-bit register *)

Lemma u32_fixed w :
  (forall i, 32 <= i -> Z.testbit w i = false) -> u32 w = w.
Proof.
  intros Hhigh. unfold u32. apply Z.bits_inj'. intros n Hn.
  destruct (Z.lt_ge_cases n 32).
  - apply Z.mod_pow2_bits_low. lia.
  - rewrite Z.mod_pow2_bits_high by lia. symmetry. by apply Hhigh.
Qed.

Lemma testbit_u32_high x i : 32 <= i -> Z.testbit (u32 x) i = false.
Proof. intros. unfold u32. apply Z.mod_pow2_bits_high. lia. Qed.

Lemma testbit_GENMASK_high h l i :
  0 <= l <= h + 1 -> h < i -> Z.testbit (GENMASK h l) i = false.
Proof.
  intros Hl Hi. unfold GENMASK. rewrite Z.shiftl_spec by lia.
  apply Z.ones_spec_high. lia.
Qed.

Lemma testbit_land_mask_high x h l i :
  0 <= l <= h + 1 -> h < i -> Z.testbit (Z.land x (GENMASK h l)) i = false.
Proof.
  intros. rewrite Z.land_spec, testbit_GENMASK_high by lia.
  apply andb_false_r.
Qed.

Section PllWords.
Context {P : Platform} {H : Hardware}.

Lemma pllxcfgr2_word_fits pllcfg :
  u32 (stm32mp1_pll_compute_pllxcfgr2 pllcfg)
  = stm32mp1_pll_compute_pllxcfgr2 pllcfg.
Proof.
  apply u32_fixed. intros i Hi. unfold stm32mp1_pll_compute_pllxcfgr2.
  cbv zeta.
  unfold RCC_PLLNCFGR2_DIVP_MASK, RCC_PLLNCFGR2_DIVQ_MASK,
    RCC_PLLNCFGR2_DIVR_MASK.
  rewrite !Z.lor_spec, !testbit_land_mask_high by lia. reflexivity.
Qed.

Lemma pllxcfgr1_word_fits pll pllcfg s w :
  stm32mp1_pll_compute_pllxcfgr1 pll pllcfg s = inr w -> u32 w = w.
Proof.
  unfold stm32mp1_pll_compute_pllxcfgr1. cbv zeta.
  destruct (_ || _); [discriminate|].
  intros Hw. inversion Hw; subst w; clear Hw.
  apply u32_fixed. intros i Hi.
  unfold RCC_PLLNCFGR1_DIVN_MASK, RCC_PLLNCFGR1_DIVM_MASK,
    RCC_PLLNCFGR1_IFRGE_MASK.
  rewrite !Z.lor_spec, !testbit_land_mask_high by lia. reflexivity.
Qed.

Lemma pllxfracr_word_fits fracv :
  u32 (pllxfracr_word fracv) = pllxfracr_word fracv.
Proof.
  apply u32_fixed. intros i Hi. unfold pllxfracr_word, RCC_PLLNFRACR_FRACLE.
  rewrite Z.lor_spec, testbit_u32_high, testbit_BIT by lia.
  cbn [orb]. apply Z.eqb_neq. lia.
Qed.

Lemma check_pll_conf_eq pll_id clksrc pllcfg fracv s :
  stm32mp1_check_pll_conf pll_id clksrc pllcfg fracv s =
    let pll := pll_ref pll_id in
    (mmio_read_32 s (pllxcr pll) =? RCC_PLLNCR_PLLON)
    && (mmio_read_32 s (clksrc / 2 ^ 4) mod 8 =? clksrc mod 8)
    && match stm32mp1_pll_compute_pllxcfgr1 pll pllcfg s with
       | inl _ => false
       | inr w =>
           (mmio_read_32 s (pllxcfgr1 pll) =? w)
           && (mmio_read_32 s (pllxfracr pll) =? pllxfracr_word fracv)
           && (mmio_read_32 s (pllxcfgr2 pll)
               =? stm32mp1_pll_compute_pllxcfgr2 pllcfg)
       end.
Proof.
  unfold stm32mp1_check_pll_conf, stm32mp1_pll_compute_pllxcfgr1,
    stm32mp1_pll_compute_pllxcfgr2, pllxfracr_word.
  cbv zeta.
  rewrite Z.shiftr_div_pow2 by lia.
  unfold RCC_SELR_SRC_MASK. change (GENMASK 2 0) with (GENMASK (3 - 1) 0).
  rewrite !land_low_mask by lia. change (2 ^ 3) with 8.
  destruct (mmio_read_32 s (pllxcr (pll_ref pll_id)) =? RCC_PLLNCR_PLLON);
    [|reflexivity].
  destruct (mmio_read_32 s (clksrc / 2 ^ 4) mod 8 =? clksrc mod 8);
    [|reflexivity].
  cbn [negb andb].
  destruct (_ || _); [reflexivity|].
  destruct (mmio_read_32 s (pllxcfgr1 (pll_ref pll_id)) =? _); [|reflexivity].
  destruct (mmio_read_32 s (pllxfracr (pll_ref pll_id)) =? _); [|reflexivity].
  destruct (mmio_read_32 s (pllxcfgr2 (pll_ref pll_id)) =? _); reflexivity.
Qed.

Lemma check_pll_conf_iff pll_id clksrc pllcfg fracv s :
  stm32mp1_check_pll_conf pll_id clksrc pllcfg fracv s = true
  <-> pll_conf_matches pll_id clksrc pllcfg fracv s.
Proof.
  rewrite check_pll_conf_eq. unfold pll_conf_matches. cbv zeta.
  rewrite !andb_true_iff, !Z.eqb_eq.
  destruct (stm32mp1_pll_compute_pllxcfgr1 _ _ _) as [e|w].
  - split; [intros [_ ?]; discriminate|].
    intros (_ & _ & (w & Hw & _) & _). discriminate.
  - rewrite !andb_true_iff, !Z.eqb_eq. split.
    + intros ((? & ?) & (? & ?) & ?). eauto 10.
    + intros (? & ? & (w' & Hw & ?) & ? & ?). inversion Hw; subst. tauto.
Qed.

(** Configuring what already matches changes no register. *)
Lemma pll_config_of_matching pll_id clksrc pllcfg fracv s :
  pll_conf_matches pll_id clksrc pllcfg fracv s ->
  exists s',
    stm32mp1_pll_config pll_id pllcfg fracv s = (Int 0, s')
    /\ forall addr, mmio_read_32 s' addr = mmio_read_32 s addr.
Proof.
  intros (_ & _ & (w & Hw & H1) & Hf & H2). cbv zeta in *.
  unfold stm32mp1_pll_config. rewrite Hw.
  eexists. split; [reflexivity|]. intros addr.
  unfold stm32mp1_pll_config_output, mmio_setbits_32.
  set (pll := pll_ref pll_id) in *.
  destruct (Z.eq_dec (pllxcfgr2 pll) addr) as [<-|Hne2].
  { rewrite read_write_eq, pllxcfgr2_word_fits. by rewrite H2. }
  rewrite read_write_ne by exact Hne2.
  destruct (Z.eq_dec (pllxfracr pll) addr) as [<-|Hnef].
  { rewrite !read_write_eq, u32_idem.
    fold (pllxfracr_word fracv). rewrite pllxfracr_word_fits. by rewrite Hf. }
  rewrite !read_write_ne by exact Hnef.
  destruct (Z.eq_dec (pllxcfgr1 pll) addr) as [<-|Hne1].
  { rewrite read_write_eq, (pllxcfgr1_word_fits _ _ _ _ Hw). by rewrite H1. }
  by rewrite read_write_ne by exact Hne1.
Qed.

(** C5. Whenever [matches] answers true, PLLON is set in the control
    register of the PLL, the current mux field equals the one of [clksrc],
    reference / (M+1) lies in the range of the PLL type, configuration
    register 1 holds the expected (N, M, IFRGE) word, the fractional
    register holds (frac << shift) | FRACLE, the output-divider register
    holds the expected (P, Q, R) word, and configuring with the same
    parameters succeeds and leaves every register as it reads now.
    Conversely, when the control register holds PLLON alone and the mux
    field and the three registers are as above, [matches] answers
    true. *)
Theorem pll_matches_characterised (pll_id clksrc : Z) (pllcfg : list Z)
  (fracv : Z) (s : clk_state) :
  let pll := pll_ref pll_id in
  let registers_match :=
    mmio_read_32 s (clksrc / 2 ^ 4) mod 8 = clksrc mod 8
    /\ (exists w,
          stm32mp1_pll_compute_pllxcfgr1 pll pllcfg s = inr w
          /\ mmio_read_32 s (pllxcfgr1 pll) = w)
    /\ mmio_read_32 s (pllxfracr pll) = pllxfracr_word fracv
    /\ mmio_read_32 s (pllxcfgr2 pll)
       = stm32mp1_pll_compute_pllxcfgr2 pllcfg in
  (stm32mp1_check_pll_conf pll_id clksrc pllcfg fracv s = true ->
   Z.land (mmio_read_32 s (pllxcr pll)) RCC_PLLNCR_PLLON = RCC_PLLNCR_PLLON
   /\ registers_match
   /\ exists s',
        stm32mp1_pll_config pll_id pllcfg fracv s = (Int 0, s')
        /\ forall addr, mmio_read_32 s' addr = mmio_read_32 s addr)
  /\ (mmio_read_32 s (pllxcr pll) = RCC_PLLNCR_PLLON ->
      registers_match ->
      stm32mp1_check_pll_conf pll_id clksrc pllcfg fracv s = true).
Proof.
  cbv zeta. split.
  - intros Hm. apply check_pll_conf_iff in Hm.
    pose proof (pll_config_of_matching _ _ _ _ _ Hm) as Hcfg.
    destruct Hm as (Hcr & Hrest). cbv zeta in Hcr.
    split; [by rewrite Hcr|]. split; [exact Hrest | exact Hcfg].
  - intros Hcr Hrest. apply check_pll_conf_iff. split; assumption.
Qed.

(** C4. For a requested configuration whose reference /
    (M+1) lies outside the range of the PLL type, the on-the-fly decision
    fails with the error of the word computation and leaves the caller's
    result untouched.  Otherwise it returns 0 and decides stop-reconfigure
    (-1) exactly when the prospective configuration-register-1 word differs
    from the register, same (1) exactly when that word, the fractional word
    (frac << shift) | FRACLE and the output-divider word all equal the
    registers, and onfly (0) in the remaining case. *)
Theorem on_the_fly_decision (pll_id : Z) (pllcfg : list Z) (fracv : Z)
  (result0 : Z) (s : clk_state) :
  let pll := pll_ref pll_id in
  let ret := fst (stm32mp1_is_pll_config_on_the_fly pll_id pllcfg fracv
                    result0 s) in
  let decision := snd (stm32mp1_is_pll_config_on_the_fly pll_id pllcfg fracv
                         result0 s) in
  let same_frac_and_output :=
    mmio_read_32 s (pllxfracr pll) = pllxfracr_word fracv
    /\ mmio_read_32 s (pllxcfgr2 pll) = stm32mp1_pll_compute_pllxcfgr2 pllcfg
  in
  match stm32mp1_pll_compute_pllxcfgr1 pll pllcfg s with
  | inl e => ret = Err e /\ decision = result0
  | inr w =>
      ret = Int 0
      /\ (decision = -1 <-> mmio_read_32 s (pllxcfgr1 pll) <> w)
      /\ (decision = 1 <->
          mmio_read_32 s (pllxcfgr1 pll) = w /\ same_frac_and_output)
      /\ (decision = 0 <->
          mmio_read_32 s (pllxcfgr1 pll) = w /\ ~ same_frac_and_output)
  end.
Proof.
  cbv zeta.
  unfold stm32mp1_is_pll_config_on_the_fly.
  destruct (stm32mp1_pll_compute_pllxcfgr1 _ _ _) as [e|w];
    [split; reflexivity|].
  fold (pllxfracr_word fracv).
  destruct (mmio_read_32 s (pllxcfgr1 (pll_ref pll_id)) =? w) eqn:E1;
    cbn [negb fst snd].
  - apply Z.eqb_eq in E1.
    destruct (mmio_read_32 s (pllxfracr (pll_ref pll_id)) =? _) eqn:E2;
      destruct (mmio_read_32 s (pllxcfgr2 (pll_ref pll_id)) =? _) eqn:E3;
      cbn [andb fst snd];
      rewrite ?Z.eqb_eq, ?Z.eqb_neq in E2, E3;
      (split; [reflexivity|]); repeat split; try lia; try tauto;
      try (intros; discriminate); intuition (try lia; try discriminate).
  - apply Z.eqb_neq in E1.
    (split; [reflexivity|]); repeat split; try lia; try tauto;
      intuition (try lia; try discriminate).
Qed.

End PllWords.

(** ** DVFS entry points *)

Lemma round_opp_loop_spec freqs : forall f r0,
  let r := round_opp_loop freqs f r0 in
  r0 <= r
  /\ (r = r0 \/ (In r freqs /\ r <= f))
  /\ (forall t, In t freqs -> t <= f -> t <= r).
Proof.
  induction freqs as [|x freqs IH]; intros f r0; cbn [round_opp_loop].
  - cbv zeta. split; [lia|]. split; [by left|]. intros t [].
  - cbv zeta.
    destruct (IH f (if (x <=? f) && (r0 <? x) then x else r0))
      as (Hle & Hin & Hmax).
    destruct ((x <=? f) && (r0 <? x)) eqn:E.
    + apply andb_true_iff in E as [E1 E2].
      apply Z.leb_le in E1. apply Z.ltb_lt in E2.
      split; [lia|]. split.
      * right. destruct Hin as [->|[? ?]]; [split; [by left | lia]|].
        split; [by right | lia].
      * intros t [<-|Ht] Htf; [lia | by apply Hmax].
    + apply andb_false_iff in E.
      split; [lia|]. split.
      * destruct Hin as [->|[? ?]]; [by left|]. right. split; [by right | lia].
      * intros t [<-|Ht] Htf; [|by apply Hmax].
        destruct E as [E|E]; [apply Z.leb_gt in E | apply Z.ltb_ge in E]; lia.
Qed.

Section Dvfs.
Context {P : Platform} {H : Hardware}.

(** C6. For every requested frequency [f]: with an invalid
    table the current OPP is returned; with a valid table the value [v]
    returned satisfies v <= f and is at least every table frequency that
    does not exceed [f]; it is a frequency of the table when some non-zero
    table frequency does not exceed [f], and it is 0 when every non-zero
    table frequency exceeds [f]. *)
Theorem round_opp_supported (f : Z) (s : clk_state) :
  0 <= f ->
  let table := opp_freq (pll1_settings s) in
  let v := snd (stm32mp1_round_opp_khz f s) in
  fst (stm32mp1_round_opp_khz f s) = Int 0
  /\ (clk_pll1_settings_are_valid s = false -> v = current_opp_khz s)
  /\ (clk_pll1_settings_are_valid s = true ->
      v <= f
      /\ (forall t, In t table -> t <= f -> t <= v)
      /\ ((exists t, In t table /\ 0 < t <= f) -> In v table)
      /\ ((forall t, In t table -> 0 < t -> f < t) -> v = 0)).
Proof.
  intros Hf table v. unfold v, stm32mp1_round_opp_khz.
  destruct (clk_pll1_settings_are_valid s); cbn [negb fst snd].
  - split; [reflexivity|]. split; [discriminate|]. intros _.
    destruct (round_opp_loop_spec table f 0) as (Hle & Hin & Hmax).
    cbv zeta in *. fold table.
    split; [destruct Hin as [->|[_ ?]]; lia|].
    split; [exact Hmax|]. split.
    + intros (t & Ht & Htf). destruct Hin as [Hr|[? _]]; [|assumption].
      specialize (Hmax t Ht ltac:(lia)). lia.
    + intros Hnone. destruct Hin as [Hr|[Hr Hrf]]; [exact Hr|].
      destruct (Z.eq_dec (round_opp_loop table f 0) 0) as [|Hnz]; [assumption|].
      specialize (Hnone _ Hr ltac:(lia)). lia.
  - split; [reflexivity|]. split; [reflexivity|]. discriminate.
Qed.

(** C7. [set_opp] returns success and changes nothing when the frequency
    is the current OPP; otherwise it fails with [EACCES], changing nothing,
    when the OPP table is not valid, whatever the MPU mux; with a valid
    table it fails with [EPERM], changing nothing, when the MPU mux selects
    neither PLL1_P nor PLL1_P through MPUDIV; and whenever it returns
    success for a changed frequency, both checks passed and the stored
    current OPP is that frequency. *)
Theorem set_opp_checks (freq_khz : Z) (s : clk_state) :
  (freq_khz = current_opp_khz s ->
   stm32mp1_set_opp_khz freq_khz s = Ret (Int 0, s))
  /\ (freq_khz <> current_opp_khz s ->
      clk_pll1_settings_are_valid s = false ->
      stm32mp1_set_opp_khz freq_khz s = Ret (Err EACCES, s))
  /\ (freq_khz <> current_opp_khz s ->
      clk_pll1_settings_are_valid s = true ->
      mmio_read_32 s RCC_MPCKSELR mod 8 <> RCC_MPCKSELR_PLL ->
      mmio_read_32 s RCC_MPCKSELR mod 8 <> RCC_MPCKSELR_PLL_MPUDIV ->
      stm32mp1_set_opp_khz freq_khz s = Ret (Err EPERM, s))
  /\ (forall s',
        freq_khz <> current_opp_khz s ->
        stm32mp1_set_opp_khz freq_khz s = Ret (Int 0, s') ->
        current_opp_khz s' = freq_khz
        /\ clk_pll1_settings_are_valid s = true
        /\ (mmio_read_32 s RCC_MPCKSELR mod 8 = RCC_MPCKSELR_PLL
            \/ mmio_read_32 s RCC_MPCKSELR mod 8 = RCC_MPCKSELR_PLL_MPUDIV)).
Proof.
  unfold stm32mp1_set_opp_khz, bind, get, ret, modify, panic.
  unfold RCC_SELR_SRC_MASK. change (GENMASK 2 0) with (GENMASK (3 - 1) 0).
  rewrite land_low_mask by lia. change (2 ^ 3) with 8.
  split; [|split; [|split]].
  - intros ->. by rewrite Z.eqb_refl.
  - intros Hne Hv. apply Z.eqb_neq in Hne. by rewrite Hne, Hv.
  - intros Hne Hv H1 H2. apply Z.eqb_neq in Hne, H1, H2.
    by rewrite Hne, Hv, H1, H2.
  - intros s' Hne. apply Z.eqb_neq in Hne. rewrite Hne.
    destruct (clk_pll1_settings_are_valid s); cbn [negb]; [|discriminate].
    destruct (mmio_read_32 s RCC_MPCKSELR mod 8 =? RCC_MPCKSELR_PLL) eqn:E1;
      destruct (mmio_read_32 s RCC_MPCKSELR mod 8 =? RCC_MPCKSELR_PLL_MPUDIV)
        eqn:E2; cbn [negb andb]; try discriminate;
      (destruct (stm32mp1_pll1_config_from_opp_khz freq_khz s) as [r s1];
       destruct (is_nonzero r);
       [ destruct (stm32mp1_pll1_config_from_opp_khz (current_opp_khz s1) s1)
           as [r2 s2]; destruct (is_nonzero r2); discriminate
       | intros Hr; inversion Hr; subst s'; cbn;
         split; [reflexivity|]; split; [reflexivity|];
         first [ left; by apply Z.eqb_eq | right; by apply Z.eqb_eq ] ]).
Qed.

End Dvfs.

(** ** Reverse PLL mathematics *)

Lemma for_each_inv {S R : Type} (I : S -> Prop) (Q : R -> Prop)
  (vals : list Z) (body : Z -> S -> S + R) :
  (forall v st, In v vals -> I st ->
     match body v st with inl st' => I st' | inr r => Q r end) ->
  forall st, I st ->
    match for_each vals body st with inl st' => I st' | inr r => Q r end.
Proof.
  induction vals as [|v vals IH]; intros Hbody st Hst; simpl; [exact Hst|].
  pose proof (Hbody v st (or_introl eq_refl) Hst) as Hv.
  destruct (body v st) as [st'|r]; [|exact Hv].
  apply IH; [|exact Hv]. intros v' st'' Hin. apply Hbody. by right.
Qed.

Lemma In_upto lo n v : In v (upto lo n) -> lo <= v < lo + Z.of_nat n.
Proof.
  unfold upto. rewrite in_map_iff. intros (k & <- & Hk).
  apply in_seq in Hk. lia.
Qed.

Lemma In_downfrom hi n v : In v (downfrom hi n) -> hi - Z.of_nat n < v <= hi.
Proof.
  unfold downfrom. rewrite in_map_iff. intros (k & <- & Hk).
  apply in_seq in Hk. lia.
Qed.

Lemma to_int_small x : 0 <= x < 2 ^ 31 -> to_int x = x.
Proof.
  intros Hx. unfold to_int. cbv zeta. rewrite u32_small by lia.
  destruct (x <? 2 ^ 31) eqn:E; [reflexivity|]. apply Z.ltb_ge in E. lia.
Qed.

Lemma to_int_minus_one : to_int (u64 (-1)) = -1.
Proof. reflexivity. Qed.

Lemma array_get_insert_eq (l : list Z) (i : nat) v :
  (i < length l)%nat -> array_get (<[i := v]> l) (Z.of_nat i) = v.
Proof.
  intros Hi. unfold array_get. rewrite Nat2Z.id.
  apply nth_lookup_Some with (d := 0). by apply list_lookup_insert_eq.
Qed.

Lemma array_get_insert_ne (l : list Z) (i j : nat) v :
  i <> j -> array_get (<[i := v]> l) (Z.of_nat j) = array_get l (Z.of_nat j).
Proof.
  intros Hne. unfold array_get. rewrite Nat2Z.id.
  destruct (l !! j) as [x|] eqn:E.
  - rewrite (nth_lookup_Some _ _ 0 x) by (by rewrite list_lookup_insert_ne).
    symmetry. by apply nth_lookup_Some.
  - rewrite !nth_overflow; [reflexivity| |].
    + by apply lookup_ge_None.
    + rewrite length_insert. by apply lookup_ge_None.
Qed.

Lemma stored_setting_ok input_freq divm divn divp frac pllcfg :
  length pllcfg = 6%nat ->
  array_get pllcfg (Z.of_nat PLLCFG_Q) = 0 ->
  array_get pllcfg (Z.of_nat PLLCFG_R) = 0 ->
  array_get pllcfg (Z.of_nat PLLCFG_O) = PQR 1 0 0 ->
  pll1_domain_ok input_freq divm divn divp frac ->
  let pllcfg' :=
    <[PLLCFG_P := u32 divp]>
      (<[PLLCFG_N := u32 divn]> (<[PLLCFG_M := u32 divm]> pllcfg)) in
  length pllcfg' = 6%nat
  /\ array_get pllcfg' (Z.of_nat PLLCFG_Q) = 0
  /\ array_get pllcfg' (Z.of_nat PLLCFG_R) = 0
  /\ array_get pllcfg' (Z.of_nat PLLCFG_O) = PQR 1 0 0
  /\ pll1_entry_ok input_freq pllcfg' (u32 frac).
Proof.
  intros Hlen HQ HR HO Hok pllcfg'.
  destruct Hok as (HM & Hpost & HN & HP & HF & Hvco).
  unfold DIVM_MIN, DIVM_MAX, DIVN_MIN, DIVN_MAX, DIVP_MIN, DIVP_MAX, FRAC_MAX
    in *.
  unfold pllcfg'.
  split; [by rewrite !length_insert|].
  unfold PLLCFG_M, PLLCFG_N, PLLCFG_P, PLLCFG_Q, PLLCFG_R, PLLCFG_O in *.
  rewrite !(array_get_insert_ne _ _ 3) by lia.
  rewrite !(array_get_insert_ne _ _ 4) by lia.
  rewrite !(array_get_insert_ne _ _ 5) by lia.
  split; [exact HQ|]. split; [exact HR|]. split; [exact HO|].
  unfold pll1_entry_ok, PLLCFG_M, PLLCFG_N, PLLCFG_P.
  rewrite (array_get_insert_eq _ 2) by (rewrite !length_insert; lia).
  rewrite (array_get_insert_ne _ 2 1) by lia.
  rewrite (array_get_insert_eq _ 1) by (rewrite !length_insert; lia).
  rewrite (array_get_insert_ne _ 2 0), (array_get_insert_ne _ 1 0) by lia.
  rewrite (array_get_insert_eq _ 0) by lia.
  rewrite !u32_small by lia.
  unfold pll1_domain_ok, DIVM_MIN, DIVM_MAX, DIVN_MIN, DIVN_MAX, DIVP_MIN,
    DIVP_MAX, FRAC_MAX. tauto.
Qed.

Lemma refine_frac_inv input_freq output_freq divm divn divp i :
  forall frac st,
  0 <= divm <= 63 ->
  POST_DIVM_MIN <= input_freq / (divm + 1) <= POST_DIVM_MAX ->
  24 <= divn <= 99 -> 0 <= divp <= 127 -> 0 <= frac ->
  search_inv input_freq st ->
  match refine_frac i (input_freq / (divm + 1)) output_freq divm divn divp
          frac st with
  | inl st' => search_inv input_freq st'
  | inr st' => search_found input_freq st'
  end.
Proof.
  induction i as [|i IH]; intros frac st HM Hpost HN HP Hfrac Hinv;
    cbn [refine_frac]; [exact Hinv|].
  destruct (FRAC_MAX <? frac) eqn:Efrac; [exact Hinv|].
  apply Z.ltb_ge in Efrac. cbv zeta.
  set (post := input_freq / (divm + 1)) in *.
  unfold POST_DIVM_MIN, POST_DIVM_MAX, FRAC_MAX in *.
  assert (u64 (u32 (post * u32 (divn + 1)) + u64 (post * u64 frac) / 8192)
          = pll1_half_vco input_freq divm divn frac) as Hvco.
  { unfold pll1_half_vco, FRAC_MAX. fold post. cbv zeta.
    rewrite (u32_small (divn + 1)) by lia.
    rewrite (u32_small (post * _)) by nia.
    rewrite (u64_small frac) by lia.
    rewrite (u64_small (post * frac)) by nia.
    apply u64_small.
    assert (0 <= post * frac / 8192 <= post).
    { split; [apply Z.div_pos; nia|].
      apply Z.div_le_upper_bound; nia. }
    nia. }
  rewrite Hvco.
  destruct ((pll1_half_vco input_freq divm divn frac <? VCO_MIN / 2)
            || (VCO_MAX / 2 <? pll1_half_vco input_freq divm divn frac))
    eqn:Erange.
  { apply IH; auto; lia. }
  apply orb_false_iff in Erange as [E1 E2].
  apply Z.ltb_ge in E1, E2.
  destruct Hinv as (Hlen & HQ & HR & HO & Hbest & Hst).
  assert (pll1_domain_ok input_freq divm divn divp frac) as Hok.
  { unfold pll1_domain_ok, DIVM_MIN, DIVM_MAX, DIVN_MIN, DIVN_MAX, DIVP_MIN,
      DIVP_MAX, FRAC_MAX, POST_DIVM_MIN, POST_DIVM_MAX. fold post.
    repeat split; lia. }
  destruct (stored_setting_ok _ _ _ _ _ _ Hlen HQ HR HO Hok)
    as (Hlen' & HQ' & HR' & HO' & Hentry').
  match goal with
  | |- context [if ?d <? srch_best_diff st then _ else _] =>
      set (diff := d); destruct (diff <? srch_best_diff st) eqn:Ediff
  end.
  - destruct (diff =? 0) eqn:Ezero.
    + unfold search_found. cbn [srch_pllcfg srch_fracv]. tauto.
    + apply IH; auto; try lia.
      unfold search_inv. cbn [srch_pllcfg srch_fracv srch_best_diff].
      apply Z.ltb_lt in Ediff.
      assert (0 <= diff).
      { unfold diff. destruct (_ <? _); apply u32_range. }
      repeat split; auto; try lia.
  - apply IH; auto; try lia.
    unfold search_inv. tauto.
Qed.

Lemma to_int_pred q : 0 <= q < 2 ^ 31 -> to_int (u64 (q - 1)) = q - 1.
Proof.
  intros Hq. destruct (Z.eq_dec q 0) as [->|Hne]; [reflexivity|].
  rewrite u64_small by lia. apply to_int_small. lia.
Qed.

Lemma search_divp_inv input_freq output_freq divm divp st :
  0 <= input_freq < 2 ^ 32 -> 0 <= output_freq < 2 ^ 32 ->
  0 <= divm <= 63 ->
  POST_DIVM_MIN <= input_freq / (divm + 1) <= POST_DIVM_MAX ->
  0 <= divp <= 127 ->
  search_inv input_freq st ->
  match search_divp input_freq output_freq (input_freq / (divm + 1)) divm
          divp st with
  | inl st' => search_inv input_freq st'
  | inr st' => search_found input_freq st'
  end.
Proof.
  intros Hin Hout HM Hpost HP Hinv. unfold search_divp. cbv zeta.
  assert (8000000 <= input_freq) as Hin8.
  { unfold POST_DIVM_MIN in Hpost.
    assert (input_freq / (divm + 1) <= input_freq)
      by (apply Z.div_le_upper_bound; nia). lia. }
  rewrite (u64_small (divm + 1)), (u64_small (divp + 1)) by lia.
  rewrite (u64_small (output_freq * (divm + 1))) by nia.
  rewrite (u64_small (output_freq * (divm + 1) * (divp + 1))) by nia.
  set (freq := output_freq * (divm + 1) * (divp + 1)).
  assert (0 <= freq < 2 ^ 45) as Hfreq by (unfold freq; nia).
  set (q := freq / input_freq).
  assert (0 <= q < 2 ^ 23) as Hq.
  { unfold q. split; [apply Z.div_pos; lia|].
    apply Z.div_lt_upper_bound; lia. }
  rewrite to_int_pred by lia.
  destruct ((q - 1 <? DIVN_MIN) || (DIVN_MAX <? q - 1)) eqn:EN; [exact Hinv|].
  apply orb_false_iff in EN as [E1 E2]. apply Z.ltb_ge in E1, E2.
  unfold DIVN_MIN, DIVN_MAX, FRAC_MAX in *.
  replace (q - 1 + 1) with q by lia.
  rewrite (u64_small (freq * 8192)) by lia.
  rewrite (u64_small (q * 8192)) by lia.
  assert (q * input_freq <= freq < (q + 1) * input_freq) as Hqr.
  { unfold q. pose proof (Z.div_mod freq input_freq ltac:(lia)).
    pose proof (Z.mod_pos_bound freq input_freq ltac:(lia)). nia. }
  assert (q * 8192 <= freq * 8192 / input_freq < (q + 1) * 8192) as Hfr.
  { split; [apply Z.div_le_lower_bound; nia|].
    apply Z.div_lt_upper_bound; nia. }
  rewrite u64_small by lia. rewrite to_int_small by lia.
  apply refine_frac_inv; auto; lia.
Qed.

Lemma search_divm_inv input_freq output_freq divm st :
  0 <= input_freq < 2 ^ 32 -> 0 <= output_freq < 2 ^ 32 ->
  0 <= divm <= 63 ->
  search_inv input_freq st ->
  match search_divm input_freq output_freq divm st with
  | inl st' => search_inv input_freq st'
  | inr st' => search_found input_freq st'
  end.
Proof.
  intros Hin Hout HM Hinv. unfold search_divm. cbv zeta.
  rewrite (u32_small (divm + 1)) by lia.
  destruct ((input_freq / (divm + 1) <? POST_DIVM_MIN)
            || (POST_DIVM_MAX <? input_freq / (divm + 1))) eqn:E;
    [exact Hinv|].
  apply orb_false_iff in E as [E1 E2]. apply Z.ltb_ge in E1, E2.
  apply (for_each_inv (search_inv input_freq) (search_found input_freq));
    [|exact Hinv].
  intros divp st' Hdivp Hst'. apply In_upto in Hdivp.
  unfold DIVP_MIN in Hdivp.
  apply search_divp_inv; auto; lia.
Qed.

(** A successful search leaves a setting inside the domain. *)
Lemma compute_pll1_settings_sound input_freq freq_khz pllcfg fracv
  pllcfg' fracv' :
  0 <= input_freq < 2 ^ 32 ->
  length pllcfg = 6%nat ->
  clk_compute_pll1_settings input_freq freq_khz pllcfg fracv
    = (Int 0, pllcfg', fracv') ->
  search_found input_freq
    {| srch_pllcfg := pllcfg'; srch_fracv := fracv'; srch_best_diff := 0 |}.
Proof.
  intros Hin Hlen. unfold clk_compute_pll1_settings. cbv zeta.
  set (st0 := {| srch_pllcfg := _; srch_fracv := fracv;
                 srch_best_diff := UINT_MAX |}).
  assert (search_inv input_freq st0) as Hinv0.
  { unfold search_inv, st0. cbn [srch_pllcfg srch_fracv srch_best_diff].
    unfold PLLCFG_Q, PLLCFG_R, PLLCFG_O.
    split; [by rewrite !length_insert|].
    rewrite !(array_get_insert_ne _ _ 3) by lia.
    rewrite (array_get_insert_ne _ _ 4) by lia.
    rewrite (array_get_insert_eq _ 3) by lia.
    rewrite (array_get_insert_eq _ 4) by (rewrite !length_insert; lia).
    rewrite (array_get_insert_eq _ 5) by (rewrite !length_insert; lia).
    unfold UINT_MAX. repeat split; auto; lia. }
  pose proof (for_each_inv (search_inv input_freq) (search_found input_freq)
                (downfrom DIVM_MAX 64)
                (search_divm input_freq (u32 (freq_khz * 1000)))) as Hloop.
  specialize (Hloop ltac:(
    intros divm st Hdivm Hst; apply In_downfrom in Hdivm;
    unfold DIVM_MAX in Hdivm;
    apply search_divm_inv; auto; [apply u32_range | lia]) st0 Hinv0).
  destruct (for_each _ _ st0) as [st|st].
  - destruct Hloop as (Hl & HQ & HR & HO & Hb & Hst).
    destruct (srch_best_diff st =? UINT_MAX) eqn:E;
      intros Hr; inversion Hr; subst.
    apply Z.eqb_neq in E. destruct Hst as [?|Hok]; [contradiction|].
    unfold search_found. cbn [srch_pllcfg srch_fracv]. tauto.
  - intros Hr. inversion Hr; subst.
    destruct Hloop as (? & ? & ? & ? & ?).
    unfold search_found. cbn [srch_pllcfg srch_fracv]. tauto.
Qed.

(** When M + 1 divides the reference, the forward mathematics with the
    fractional part enabled gives the half-VCO the search evaluated. *)
Lemma forward_fvco_is_half_vco input_freq M N FRAC :
  0 <= M -> input_freq mod (M + 1) = 0 ->
  spec_pll_fvco input_freq M N FRAC true
  = pll1_half_vco input_freq M N FRAC.
Proof.
  intros HM Hdiv. unfold spec_pll_fvco, pll1_half_vco, FRAC_MAX. cbv zeta.
  assert (input_freq = (M + 1) * (input_freq / (M + 1))) as Hpost.
  { pose proof (Z.div_mod input_freq (M + 1) ltac:(lia)). lia. }
  set (post := input_freq / (M + 1)) in *.
  rewrite Hpost at 1. clearbody post. clear Hpost.
  replace ((M + 1) * post * ((N + 1) * 2 ^ 13 + FRAC))
    with ((M + 1) * (post * ((N + 1) * 2 ^ 13 + FRAC))) by ring.
  rewrite Z.div_mul_cancel_l by lia.
  replace (post * ((N + 1) * 2 ^ 13 + FRAC))
    with (post * (N + 1) * 2 ^ 13 + post * FRAC) by ring.
  change 8192 with (2 ^ 13).
  by rewrite Z.div_add_l by lia.
Qed.

(** Every setting (M, N, P, FRAC) that the reverse PLL1 search returns
    successfully lies in the domain; Q and R are 0 and only the P output is
    enabled.  When M+1 divides the reference, the forward PLL mathematics
    on the setting gives exactly the candidate rate that the search
    compared with the requested frequency. *)
Lemma pll1_search_in_domain (input_freq freq_khz : Z) (pllcfg : list Z)
  (fracv : Z) (pllcfg' : list Z) (fracv' : Z) :
  0 <= input_freq < 2 ^ 32 ->
  length pllcfg = 6%nat ->
  clk_compute_pll1_settings input_freq freq_khz pllcfg fracv
    = (Int 0, pllcfg', fracv') ->
  let M := array_get pllcfg' (Z.of_nat PLLCFG_M) in
  let N := array_get pllcfg' (Z.of_nat PLLCFG_N) in
  let P := array_get pllcfg' (Z.of_nat PLLCFG_P) in
  pll1_domain_ok input_freq M N P fracv'
  /\ array_get pllcfg' (Z.of_nat PLLCFG_Q) = 0
  /\ array_get pllcfg' (Z.of_nat PLLCFG_R) = 0
  /\ array_get pllcfg' (Z.of_nat PLLCFG_O) = PQR 1 0 0
  /\ (input_freq mod (M + 1) = 0 ->
      spec_pll_fout (spec_pll_fvco input_freq M N fracv' true) P
      = pll1_candidate_rate input_freq M N P fracv').
Proof.
  intros Hin Hlen Hrun M N P.
  destruct (compute_pll1_settings_sound _ _ _ _ _ _ Hin Hlen Hrun)
    as (_ & HQ & HR & HO & Hok).
  cbn [srch_pllcfg srch_fracv] in *.
  split; [exact Hok|]. split; [exact HQ|]. split; [exact HR|].
  split; [exact HO|].
  intros Hdiv. unfold spec_pll_fout, pll1_candidate_rate.
  rewrite forward_fvco_is_half_vco; [reflexivity | | exact Hdiv].
  destruct Hok as (HM & _). unfold DIVM_MIN in HM. fold M in HM. lia.
Qed.

(** ** The OPP table after its population *)

Lemma for_each_m_app {R : Type} (l1 l2 : list Z) (body : Z -> M (option R)) s :
  for_each_m (l1 ++ l2) body s
  = match for_each_m l1 body s with
    | Ret (None, s1) => for_each_m l2 body s1
    | Ret (Some r, s1) => Ret (Some r, s1)
    | Panic => Panic
    end.
Proof.
  revert s. induction l1 as [|v l1 IH]; intros s; [reflexivity|].
  simpl. unfold bind. destruct (body v s) as [[[r|] s1]|]; auto.
Qed.

Lemma upto_S lo n : upto lo (S n) = upto lo n ++ [lo + Z.of_nat n].
Proof. unfold upto. by rewrite seq_S, map_app. Qed.

Lemma nth_insert_eq {A : Type} (l : list A) (i : nat) (x d : A) :
  (i < length l)%nat -> nth i (<[i := x]> l) d = x.
Proof.
  intros Hi. rewrite nth_lookup, list_lookup_insert_eq by exact Hi.
  reflexivity.
Qed.

Lemma nth_insert_ne {A : Type} (l : list A) (i j : nat) (x d : A) :
  i <> j -> nth j (<[i := x]> l) d = nth j l d.
Proof.
  intros Hij. by rewrite !nth_lookup, list_lookup_insert_ne.
Qed.

Section OppTable1.
Context {P : Platform}.

Lemma rate_CK_HSI s :
  stm32mp_clk_get_rate CK_HSI s = Ret (stm32mp1_clk_get_fixed _HSI s).
Proof. reflexivity. Qed.

Lemma rate_CK_HSE s :
  stm32mp_clk_get_rate CK_HSE s = Ret (stm32mp1_clk_get_fixed _HSE s).
Proof. reflexivity. Qed.

Lemma get_fixed_range idx s :
  Forall (fun r => 0 <= r < 2 ^ 32) (stm32mp1_osc s) ->
  0 <= stm32mp1_clk_get_fixed idx s < 2 ^ 32.
Proof.
  intros Hosc. unfold stm32mp1_clk_get_fixed.
  destruct (NB_OSC <=? idx); [lia|].
  unfold array_get.
  destruct (nth_in_or_default (Z.to_nat idx) (stm32mp1_osc s) 0) as [Hin| ->];
    [|lia].
  rewrite List.Forall_forall in Hosc. by apply Hosc.
Qed.

End OppTable1.

Section OppTable2.
Context {P : Platform}.

Lemma compute_all_body_step index clksrc k s s' :
  compute_all_body index clksrc (Z.of_nat k) s = Ret (None, s') ->
  (Z.of_nat k = index /\ s' = s)
  \/ (Z.of_nat k <> index
      /\ exists pllcfg fracv,
           clk_get_pll1_settings clksrc
             (nth k (opp_freq (pll1_settings s)) 0)
             (opp_row k s) (opp_fracv k s) s = Ret (Int 0, pllcfg, fracv)
           /\ s' = set_pll1_settings s
                     (set_opp_cfg k pllcfg fracv (pll1_settings s))).
Proof.
  unfold compute_all_body, opp_row, opp_fracv. rewrite Nat2Z.id.
  destruct (Z.of_nat k =? index) eqn:E.
  - intros Hr. inversion Hr. left. split; [by apply Z.eqb_eq | reflexivity].
  - apply Z.eqb_neq in E. unfold bind, get, modify, ret, panic.
    destruct (clk_get_pll1_settings _ _ _ _ s) as [[[r pllcfg] fracv]|];
      [|discriminate].
    destruct (is_nonzero r) eqn:Er; [discriminate|].
    intros Hr. inversion Hr. right. split; [exact E|].
    exists pllcfg, fracv. split; [|reflexivity].
    destruct r as [v|e]; [|discriminate]. simpl in Er.
    apply negb_false_iff, Z.eqb_eq in Er. by subst.
Qed.

Section Loop.
Variables (index clksrc input_freq : Z) (s0 : clk_state).
Hypothesis Hin : 0 <= input_freq < 2 ^ 32.
Hypothesis Hsrc :
  forall s, stm32mp1_osc s = stm32mp1_osc s0 ->
    (if clksrc =? CLK_PLL12_HSI then stm32mp_clk_get_rate CK_HSI s
     else if clksrc =? CLK_PLL12_HSE then stm32mp_clk_get_rate CK_HSE s
     else Panic) = Ret input_freq.

Lemma compute_all_loop_inv n s' :
  (n <= length (opp_cfg (pll1_settings s0)))%nat ->
  (n <= length (opp_frac (pll1_settings s0)))%nat ->
  for_each_m (upto 0 n) (compute_all_body index clksrc) s0
    = Ret (None, s') ->
  opp_loop_inv index input_freq s0 n s'.
Proof.
  revert s'. induction n as [|n IH]; intros s' Hc Hf.
  - intros Hr. inversion Hr. subst s'. unfold opp_loop_inv.
    split_and!; auto. intros k Hk. lia.
  - rewrite upto_S, for_each_m_app.
    destruct (for_each_m (upto 0 n) _ s0) as [[[r|] s1]|] eqn:E1;
      try discriminate.
    specialize (IH s1 ltac:(lia) ltac:(lia) eq_refl).
    destruct IH as (Hosc & Hfreq & Hlc & Hlf & Hrows & Hdone).
    rewrite Z.add_0_l. cbn [for_each_m]. unfold bind at 1.
    destruct (compute_all_body index clksrc (Z.of_nat n) s1)
      as [[[r|] s2]|] eqn:E2; try discriminate.
    intros Hr. inversion Hr. subst s'. clear Hr.
    destruct (compute_all_body_step _ _ _ _ _ E2)
      as [(Heq & ->)|(Hne & pllcfg & fracv & Hget & ->)].
    + unfold opp_loop_inv. split_and!; auto.
      * intros m Hm. apply Hrows. lia.
      * intros k Hk Hsyn. destruct (Nat.eq_dec k n) as [->|Hkn].
        -- unfold opp_entry_pending in Hsyn. by destruct Hsyn as (Hidx & _).
        -- apply Hdone; [lia | exact Hsyn].
    + unfold opp_loop_inv, opp_row, opp_fracv.
      cbn [pll1_settings set_pll1_settings set_opp_cfg opp_cfg opp_frac
           opp_freq stm32mp1_osc].
      rewrite !length_insert.
      split_and!; auto.
      * intros m Hm. rewrite nth_insert_ne by lia. apply Hrows. lia.
      * intros k Hk Hsyn. destruct (Nat.eq_dec k n) as [->|Hkn].
        -- rewrite !nth_insert_eq by lia.
           unfold opp_entry_pending in Hsyn. cbv zeta in Hsyn.
           destruct Hsyn as (_ & Hfirst & HO & Hlen).
           unfold clk_get_pll1_settings, clk_get_pll1_settings_branch in Hget.
           rewrite Hfreq in Hget. rewrite Hfirst in Hget.
           fold (opp_row n s1) in Hget. rewrite (Hrows n) in Hget by lia.
           rewrite HO in Hget. cbn [Z.eqb] in Hget.
           rewrite (Hsrc s1 Hosc) in Hget.
           inversion Hget as [Hrun].
           apply (compute_pll1_settings_sound _ _ _ _ _ _ Hin Hlen Hrun).
        -- rewrite !nth_insert_ne by lia.
           apply Hdone; [lia | exact Hsyn].
Qed.

End Loop.
End OppTable2.

Lemma for_each_m_Some {R : Type} (vals : list Z) (body : Z -> M (option R))
  (good : R -> Prop) :
  (forall v s r s', body v s = Ret (Some r, s') -> good r) ->
  forall s r s', for_each_m vals body s = Ret (Some r, s') -> good r.
Proof.
  intros Hbody. induction vals as [|v vals IH]; intros s r s'; simpl.
  - discriminate.
  - unfold bind at 1. destruct (body v s) as [[[r1|] s1]|] eqn:E;
      [|apply IH|discriminate].
    intros Hr. inversion Hr; subst. eapply Hbody, E.
Qed.

Section OppTable3.
Context {P : Platform}.

Lemma compute_all_body_Some index clksrc v s r s' :
  compute_all_body index clksrc v s = Ret (Some r, s') ->
  is_nonzero r = true.
Proof.
  unfold compute_all_body. destruct (v =? index); [discriminate|].
  unfold bind, get, modify, ret, panic.
  destruct (clk_get_pll1_settings _ _ _ _ s) as [[[r1 pllcfg] fracv]|];
    [|discriminate].
  destruct (is_nonzero r1) eqn:E; [|discriminate].
  intros Hr. inversion Hr; subst. exact E.
Qed.

(** What [clk_save_current_pll1_settings] leaves behind: only the row it
    returns is written, and that row holds the frequency the MPU runs
    at. *)
Lemma save_current_frame buck1_voltage s index s1 :
  clk_save_current_pll1_settings buck1_voltage s = Ret (index, s1) ->
  rcc s1 = rcc s /\ stm32mp1_osc s1 = stm32mp1_osc s
  /\ opp_freq (pll1_settings s1) = opp_freq (pll1_settings s)
  /\ length (opp_cfg (pll1_settings s1)) = length (opp_cfg (pll1_settings s))
  /\ length (opp_frac (pll1_settings s1))
     = length (opp_frac (pll1_settings s))
  /\ (forall m, Z.of_nat m <> index -> opp_row m s1 = opp_row m s)
  /\ (forall m, Z.of_nat m = index ->
      exists rate,
        stm32mp_clk_get_rate CK_MPU s = Ret rate
        /\ nth m (opp_freq (pll1_settings s)) 0
           = u32 (udiv_round_nearest rate 1000)).
Proof.
  unfold clk_save_current_pll1_settings, bind, get, modify, ret, panic.
  destruct (stm32mp_clk_get_rate CK_MPU s) as [rate|]; [|discriminate].
  destruct (first_index _ _) as [j|] eqn:Ej.
  - destruct (first_index_Some _ _ _ 0 Ej) as (Hj & Hfreq).
    apply Z.eqb_eq in Hfreq.
    destruct (_ && _).
    + intros Hr. inversion Hr; subst. split_and!; auto.
      intros m Hm. lia.
    + intros Hr. inversion Hr; subst. unfold opp_row.
      cbn [pll1_settings set_pll1_settings set_opp_cfg opp_cfg opp_frac
           opp_freq stm32mp1_osc rcc].
      rewrite !length_insert. split_and!; auto.
      * intros m Hm. apply nth_insert_ne. lia.
      * intros m Hm. apply Nat2Z.inj in Hm. subst m. eauto.
  - intros Hr. inversion Hr; subst. split_and!; auto.
    intros m Hm. lia.
Qed.

End OppTable3.

Section OppTable4.
Context {P : Platform}.

Lemma mmio_read_32_rcc s1 s addr :
  rcc s1 = rcc s -> mmio_read_32 s1 addr = mmio_read_32 s addr.
Proof. unfold mmio_read_32. by intros ->. Qed.

Lemma get_rate_rcc id s1 s :
  rcc s1 = rcc s -> stm32mp1_osc s1 = stm32mp1_osc s ->
  stm32mp_clk_get_rate id s1 = stm32mp_clk_get_rate id s.
Proof.
  destruct s1 as [r1 o1 g1 t1 c1], s as [r o g t c]. simpl.
  intros -> ->. reflexivity.
Qed.

(** C3. After [stm32mp1_clk_compute_all_pll1_settings] has returned 0 on
    a device-tree table, take an entry [i] that the reverse PLL1 search
    synthesized: its frequency is not the one the MPU runs at, does not
    occur earlier in the table, and its settings were not computed before.
    The (M, N, P, FRAC) stored for it lies in the domain: 0 <= M <= 63
    with reference / (M+1) in [8e6, 16e6], N in [24, 99], P in [0, 127],
    FRAC in [0, 8192] and a half-VCO in [400e6, 800e6]; Q and R are 0 and
    only the P output is enabled.  When M+1 divides the reference, the
    forward PLL mathematics on the stored setting gives exactly the
    candidate rate that the search compared with the entry's frequency. *)
Theorem pll1_settings_in_domain (dt : dt_opp) (buck1_voltage : Z)
  (s s' : clk_state) (i : nat) :
  CLK_PLL12_HSI <> CLK_PLL12_HSE ->
  Forall (fun r => 0 <= r < 2 ^ 32) (stm32mp1_osc s) ->
  length (opp_cfg (pll1_settings s)) = PLAT_MAX_OPP_NB ->
  length (opp_frac (pll1_settings s)) = PLAT_MAX_OPP_NB ->
  dt_ret dt = DT_OK ->
  0 <= dt_count dt <= Z.of_nat PLAT_MAX_OPP_NB ->
  dt_count dt < 2 ^ 31 ->
  stm32mp1_clk_compute_all_pll1_settings dt buck1_voltage s
    = Ret (Int 0, s') ->
  Z.of_nat i < dt_count dt ->
  (forall rate, stm32mp_clk_get_rate CK_MPU s = Ret rate ->
     nth i (dt_freq dt) 0 <> u32 (udiv_round_nearest rate 1000)) ->
  first_index (fun f => f =? nth i (dt_freq dt) 0) (dt_freq dt) = Some i ->
  length (opp_row i s) = PLLCFG_NB ->
  array_get (opp_row i s) (Z.of_nat PLLCFG_O) = 0 ->
  let input_freq := stm32mp1_pll_get_fref (pll_ref _PLL1) s in
  let M := array_get (opp_row i s') (Z.of_nat PLLCFG_M) in
  let N := array_get (opp_row i s') (Z.of_nat PLLCFG_N) in
  let P := array_get (opp_row i s') (Z.of_nat PLLCFG_P) in
  let FRAC := opp_fracv i s' in
  opp_freq (pll1_settings s') = dt_freq dt
  /\ pll1_domain_ok input_freq M N P FRAC
  /\ array_get (opp_row i s') (Z.of_nat PLLCFG_Q) = 0
  /\ array_get (opp_row i s') (Z.of_nat PLLCFG_R) = 0
  /\ array_get (opp_row i s') (Z.of_nat PLLCFG_O) = PQR 1 0 0
  /\ (input_freq mod (M + 1) = 0 ->
      spec_pll_fout (spec_pll_fvco input_freq M N FRAC true) P
      = pll1_candidate_rate input_freq M N P FRAC).
Proof.
  intros Hne Hosc Hlc Hlf Hdt Hcnt Hmax Hrun Hi Hcur Hfirst Hlen HO.
  unfold stm32mp1_clk_compute_all_pll1_settings in Hrun.
  rewrite Hdt in Hrun. unfold bind at 1, modify at 1 in Hrun.
  set (s_dt := set_pll1_settings s _) in Hrun.
  unfold bind at 1 in Hrun.
  destruct (clk_save_current_pll1_settings buck1_voltage s_dt)
    as [[index s1]|] eqn:Esave; [|discriminate].
  destruct (save_current_frame _ _ _ _ Esave)
    as (Hrcc1 & Hosc1 & Hfreq1 & Hlc1 & Hlf1 & Hrows1 & Hidx).
  change (rcc s_dt) with (rcc s) in Hrcc1.
  change (stm32mp1_osc s_dt) with (stm32mp1_osc s) in Hosc1.
  change (opp_freq (pll1_settings s_dt)) with (dt_freq dt) in Hfreq1, Hidx.
  change (opp_cfg (pll1_settings s_dt)) with (opp_cfg (pll1_settings s))
    in Hlc1.
  change (opp_frac (pll1_settings s_dt)) with (opp_frac (pll1_settings s))
    in Hlf1.
  assert (Z.of_nat i <> index) as Hni.
  { intros Heq. destruct (Hidx i Heq) as (rate & Hrate & Hf).
    apply (Hcur rate); [|exact Hf].
    rewrite <- Hrate. symmetry. by apply get_rate_rcc. }
  assert (opp_row i s1 = opp_row i s) as Hrow1 by (by apply Hrows1).
  unfold bind at 1 in Hrun.
  destruct (stm32mp1_clk_get_pll1_current_clksrc s1)
    as [[clksrc s1']|] eqn:Esrc; [|discriminate].
  set (input_freq := stm32mp1_pll_get_fref (pll_ref _PLL1) s).
  assert (s1' = s1
          /\ forall t, stm32mp1_osc t = stm32mp1_osc s1 ->
               (if clksrc =? CLK_PLL12_HSI then stm32mp_clk_get_rate CK_HSI t
                else if clksrc =? CLK_PLL12_HSE
                     then stm32mp_clk_get_rate CK_HSE t
                else Panic) = Ret input_freq) as (-> & Hsrc).
  { unfold stm32mp1_clk_get_pll1_current_clksrc, bind, get, ret, panic
      in Esrc.
    unfold input_freq, stm32mp1_pll_get_fref.
    rewrite (mmio_read_32_rcc s1 s) in Esrc by exact Hrcc1.
    destruct (Z.land _ _ =? 0) eqn:E0.
    - inversion Esrc; subst. split; [reflexivity|]. intros t Ht.
      rewrite Z.eqb_refl, rate_CK_HSI. apply Z.eqb_eq in E0. rewrite E0.
      unfold stm32mp1_clk_get_fixed. by rewrite Ht, Hosc1.
    - destruct (Z.land _ _ =? 1) eqn:E1; [|discriminate].
      inversion Esrc; subst. split; [reflexivity|]. intros t Ht.
      assert ((CLK_PLL12_HSE =? CLK_PLL12_HSI) = false) as ->
        by (apply Z.eqb_neq; congruence).
      rewrite Z.eqb_refl, rate_CK_HSE. apply Z.eqb_eq in E1. rewrite E1.
      unfold stm32mp1_clk_get_fixed. by rewrite Ht, Hosc1. }
  assert (0 <= input_freq < 2 ^ 32) as Hin by (by apply get_fixed_range).
  rewrite to_int_small in Hrun by lia.
  unfold bind at 1 in Hrun.
  destruct (for_each_m _ _ s1) as [[[r|] s2]|] eqn:Eloop; [| |discriminate].
  { (* the loop left the function: not with 0 *)
    pose proof (for_each_m_Some _ _ (fun r => is_nonzero r = true)
                  (compute_all_body_Some index clksrc) _ _ _ Eloop) as Hr.
    unfold ret in Hrun. inversion Hrun; subst. discriminate. }
  unfold bind, modify, ret in Hrun. inversion Hrun. subst s'. clear Hrun.
  pose proof (compute_all_loop_inv index clksrc input_freq s1 Hin Hsrc
                (Z.to_nat (dt_count dt)) s2) as Hloop.
  destruct (Hloop ltac:(lia) ltac:(lia) Eloop)
    as (_ & Hfreq2 & _ & _ & _ & Hdone).
  destruct (Hdone i ltac:(lia)) as (_ & HQ & HR & HO' & Hok).
  { unfold opp_entry_pending. cbv zeta. rewrite Hfreq1, Hrow1.
    split_and!; auto. }
  cbn [srch_pllcfg srch_fracv] in *.
  unfold opp_row, opp_fracv.
  cbn [pll1_settings set_pll1_settings opp_cfg opp_frac opp_freq].
  fold (opp_row i s2). fold (opp_fracv i s2).
  split; [by rewrite Hfreq2, Hfreq1|].
  split; [exact Hok|]. split; [exact HQ|]. split; [exact HR|].
  split; [exact HO'|].
  intros Hdiv. unfold spec_pll_fout, pll1_candidate_rate.
  rewrite forward_fvco_is_half_vco; [reflexivity | | exact Hdiv].
  destruct Hok as (HM & _). unfold DIVM_MIN in HM. lia.
Qed.

End OppTable4.

(** * Runs on the concrete platform *)

(** Discharge the first premise of [H] with [tac]. *)
Ltac premise H tac :=
  match type of H with
  | ?A -> _ =>
      let Ha := fresh in
      assert (Ha : A) by tac; specialize (H Ha); clear Ha
  end.

Section ConcreteRuns.
#[local] Existing Instance stm32mp15.
#[local] Existing Instance prompt_hw.

(** The gate TZC1 of the BL32 image, at position 23 of the gate table,
    from the idle state: two enables and two disables, then a panic. *)
Lemma gate_refcount_discipline_witness :
  exists s1 s2 s3 s4,
    stm32mp_clk_enable TZC1 (idle_state 64000000 24000000) = Ret (tt, s1)
    /\ refcount_of 23 s1 = 1 /\ __clk_is_enabled (gate_ref 23) s1 = true
    /\ stm32mp_clk_enable TZC1 s1 = Ret (tt, s2)
    /\ refcount_of 23 s2 = 2 /\ __clk_is_enabled (gate_ref 23) s2 = true
    /\ rcc s2 = rcc s1
    /\ stm32mp_clk_disable TZC1 s2 = Ret (tt, s3)
    /\ refcount_of 23 s3 = 1 /\ __clk_is_enabled (gate_ref 23) s3 = true
    /\ rcc s3 = rcc s2
    /\ stm32mp_clk_disable TZC1 s3 = Ret (tt, s4)
    /\ refcount_of 23 s4 = 0 /\ __clk_is_enabled (gate_ref 23) s4 = false
    /\ stm32mp_clk_disable TZC1 s4 = Panic.
Proof.
  refine (proj1 (gate_refcount_discipline
            TZC1 23 (idle_state 64000000 24000000) _ _ _ _ _ _));
    vm_compute; first [reflexivity | lia].
Defined.

(** Every gate of the BL32 table is reached from its own identifier. *)
Lemma stm32mp15_gates_resolve :
  forallb (fun '(i, g) =>
             match stm32mp1_clk_get_gated_id (gate_index g) with
             | Int j => j =? i
             | Err _ => false
             end)
    (combine (upto 0 (length stm32mp1_clk_gate)) stm32mp1_clk_gate) = true.
Proof. vm_compute. reflexivity. Qed.

(** Scenario S2 on PLL1. *)
Lemma pll_forward_math_witness :
  stm32mp1_pll_get_fvco (pll_ref _PLL1)
    pll1_fractional_state = 798000000
  /\ stm32mp1_read_pll_freq _PLL1 _DIV_P pll1_fractional_state
     = 399000000.
Proof.
  refine (proj2 (proj2 (proj2 (pll_forward_math _PLL1 _DIV_P
            pll1_fractional_state _ _ _)) _ _ _ _) _ _);
    vm_compute; first [reflexivity | split; [discriminate | reflexivity]].
Defined.

(** C2 counterexample: with HSE at 48 MHz, M = 5 and N = 99 the integer
    path multiplies in 32 bits and loses the high part of 4.8e9; with HSI
    at 64 MHz, M = 0 and N = 99 the fractional path computes 6.4e9 in 64
    bits and returns its low 32 bits. *)
Lemma pll_forward_math_overflow :
  let pll := pll_ref _PLL1 in
  (let s := pll1_hse48_state in
   stm32mp1_pll_get_fref pll s = 48000000
   /\ pll_DIVM pll s = 5 /\ pll_DIVN pll s = 99
   /\ pll_FRACLE pll s = false
   /\ spec_pll_fvco 48000000 5 99 0 false = 800000000
   /\ stm32mp1_pll_get_fvco pll s = 84172117)
  /\ (let s := pll1_hsi_6400_state in
      stm32mp1_pll_get_fref pll s = 64000000
      /\ pll_DIVM pll s = 0 /\ pll_DIVN pll s = 99
      /\ pll_FRACV pll s = 0 /\ pll_FRACLE pll s = true
      /\ spec_pll_fvco 64000000 0 99 0 true = 6400000000
      /\ stm32mp1_pll_get_fvco pll s = 2105032704).
Proof. vm_compute. repeat split. Qed.

(** The 650 MHz operating point, synthesized from a 24 MHz reference
    while the MPU runs at 800 MHz: M = 2, N = 80, P = 0, FRAC = 2048. *)
Lemma pll1_settings_in_domain_witness :
  stm32mp1_clk_compute_all_pll1_settings dt_opp_650000 0 mpu_800_state
    = Ret (Int 0, opp_computed_state)
  /\ opp_row 1 opp_computed_state = [2; 80; 0; 0; 0; 1]
  /\ opp_fracv 1 opp_computed_state = 2048
  /\ pll1_domain_ok 24000000 2 80 0 2048
  /\ spec_pll_fout (spec_pll_fvco 24000000 2 80 2048 true) 0
     = pll1_candidate_rate 24000000 2 80 0 2048.
Proof.
  assert (Hrun : stm32mp1_clk_compute_all_pll1_settings dt_opp_650000 0
                   mpu_800_state = Ret (Int 0, opp_computed_state))
    by (vm_compute; reflexivity).
  assert (Hrow : opp_row 1 opp_computed_state = [2; 80; 0; 0; 0; 1])
    by (vm_compute; reflexivity).
  assert (Hfrac : opp_fracv 1 opp_computed_state = 2048)
    by (vm_compute; reflexivity).
  assert (Href : stm32mp1_pll_get_fref (pll_ref _PLL1) mpu_800_state
                 = 24000000) by (vm_compute; reflexivity).
  assert (Hosc : Forall (fun r => 0 <= r < 2 ^ 32)
                   (stm32mp1_osc mpu_800_state))
    by (repeat constructor; lia).
  assert (Hmpu : stm32mp_clk_get_rate CK_MPU mpu_800_state
                 = Ret 800000000) by (vm_compute; reflexivity).
  assert (Hcur : forall rate,
             stm32mp_clk_get_rate CK_MPU mpu_800_state = Ret rate ->
             nth 1 (dt_freq dt_opp_650000) 0
             <> u32 (udiv_round_nearest rate 1000)).
  { intros rate Hrate. rewrite Hmpu in Hrate. inversion Hrate; subst.
    vm_compute. discriminate. }
  pose proof (pll1_settings_in_domain (P := stm32mp15) dt_opp_650000 0
                mpu_800_state opp_computed_state 1) as Hthm.
  premise Hthm ltac:(vm_compute; discriminate).
  premise Hthm ltac:(exact Hosc).
  do 3 premise Hthm ltac:(vm_compute; reflexivity).
  premise Hthm ltac:(vm_compute; split; discriminate).
  premise Hthm ltac:(vm_compute; reflexivity).
  premise Hthm ltac:(exact Hrun).
  premise Hthm ltac:(vm_compute; reflexivity).
  premise Hthm ltac:(exact Hcur).
  do 3 premise Hthm ltac:(vm_compute; reflexivity).
  cbv zeta in Hthm. rewrite Hrow, Hfrac, Href in Hthm.
  destruct Hthm as (_ & Hdom & _ & _ & _ & Hfwd).
  split; [exact Hrun|]. split; [exact Hrow|]. split; [exact Hfrac|].
  split; [exact Hdom | apply Hfwd; reflexivity].
Defined.

(** The search alone, for the same operating point. *)
Lemma pll1_search_650 :
  clk_compute_pll1_settings 24000000 650000 [0; 0; 0; 0; 0; 0] 0
  = (Int 0, [2; 80; 0; 0; 0; 1], 2048).
Proof. vm_compute. reflexivity. Qed.

(** C3 counterexample: populating the OPP table for 700.1 MHz from a
    24 MHz reference synthesizes M = 1, N = 57, P = 0, FRAC = 2799, whose
    forward rate is 97 Hz above the entry's frequency. *)
Lemma pll1_settings_off_by_97_hz :
  (exists s',
      stm32mp1_clk_compute_all_pll1_settings dt_opp_700100 0
        mpu_800_state = Ret (Int 0, s')
      /\ opp_freq (pll1_settings s') = [800000; 700100]
      /\ opp_cfg (pll1_settings s')
         = [[2; 99; 0; 0; 0; 1]; [1; 57; 0; 0; 0; 1]]
      /\ opp_frac (pll1_settings s') = [0; 2799])
  /\ clk_compute_pll1_settings 24000000 700100 [0; 0; 0; 0; 0; 0] 0
     = (Int 0, [1; 57; 0; 0; 0; 1], 2799)
  /\ spec_pll_fout (spec_pll_fvco 24000000 1 57 2799 true) 0 = 700100097
  /\ ~ (700100 * 1000 - 1 <= 700100097 <= 700100 * 1000 + 1).
Proof.
  split; [eexists; vm_compute; repeat split|].
  split; [vm_compute; reflexivity|].
  split; [vm_compute; reflexivity|]. lia.
Qed.

(** C4 counterexample: the three registers of PLL1 already hold the words
    of the requested configuration, but 24 MHz / 6 is below the 8 MHz that
    PLL1 accepts: the decision is not same, the call fails with the
    invalid-argument error and the caller's result keeps its initial
    value -1. *)
Lemma on_the_fly_out_of_range :
  let s := pll1_moved_to_hse_state in
  let pll := pll_ref _PLL1 in
  mmio_read_32 s (pllxcfgr1 pll) = 74 + 5 * 65536
  /\ mmio_read_32 s (pllxfracr pll) = pllxfracr_word 0
  /\ mmio_read_32 s (pllxcfgr2 pll)
     = stm32mp1_pll_compute_pllxcfgr2 pll1_hsi_cfg
  /\ stm32mp1_pll_get_fref pll s / (5 + 1) = 4000000
  /\ stm32mp1_is_pll_config_on_the_fly _PLL1 pll1_hsi_cfg 0 (-1) s
     = (Err EINVAL, -1).
Proof. vm_compute. repeat split. Qed.

(** PLL3 started and not yet locked, its registers holding the requested
    configuration: [matches] answers true. *)
Lemma pll_matches_characterised_witness :
  stm32mp1_check_pll_conf _PLL3 CLK_PLL3_HSE pll3_cfg pll3_frac
    pll3_started_state = true.
Proof.
  apply (proj2 (pll_matches_characterised (P := stm32mp15) _PLL3
                  CLK_PLL3_HSE pll3_cfg pll3_frac pll3_started_state)).
  - vm_compute. reflexivity.
  - split; [vm_compute; reflexivity|].
    split; [eexists; split; vm_compute; reflexivity|].
    split; vm_compute; reflexivity.
Defined.

(** C5 counterexample.  With PLL3 stopped and its three registers holding
    the requested words, configuring again changes no register, and
    [matches] answers false.  With PLL3 locked and its outputs enabled,
    PLLON is set, the mux and the three registers are as requested,
    configuring again changes no register, and [matches] still answers
    false: the control register reads 0x73, not PLLON alone. *)
Lemma pll_matches_rejects_running_pll :
  let pll := pll_ref _PLL3 in
  (let s := pll3_stopped_state in
   stm32mp1_check_pll_conf _PLL3 CLK_PLL3_HSE pll3_cfg pll3_frac s
     = false
   /\ fst (stm32mp1_pll_config _PLL3 pll3_cfg pll3_frac s) = Int 0
   /\ rcc (snd (stm32mp1_pll_config _PLL3 pll3_cfg pll3_frac s))
      = rcc s)
  /\ (let s := pll3_running_state in
      stm32mp1_check_pll_conf _PLL3 CLK_PLL3_HSE pll3_cfg pll3_frac s
        = false
      /\ Z.land (mmio_read_32 s (pllxcr pll)) RCC_PLLNCR_PLLON
         = RCC_PLLNCR_PLLON
      /\ mmio_read_32 s (CLK_PLL3_HSE / 2 ^ 4) mod 8 = CLK_PLL3_HSE mod 8
      /\ stm32mp1_pll_compute_pllxcfgr1 pll pll3_cfg s
         = inr (mmio_read_32 s (pllxcfgr1 pll))
      /\ mmio_read_32 s (pllxfracr pll) = pllxfracr_word pll3_frac
      /\ mmio_read_32 s (pllxcfgr2 pll)
         = stm32mp1_pll_compute_pllxcfgr2 pll3_cfg
      /\ fst (stm32mp1_pll_config _PLL3 pll3_cfg pll3_frac s) = Int 0
      /\ rcc (snd (stm32mp1_pll_config _PLL3 pll3_cfg pll3_frac s))
         = rcc s).
Proof. vm_compute. repeat split. Qed.

(** C6 counterexample: with the valid table {800000, 650000} a request of
    100 kHz is rounded to 0, which the table does not hold. *)
Lemma round_opp_below_table :
  clk_pll1_settings_are_valid opp_table_state = true
  /\ opp_freq (pll1_settings opp_table_state) = [800000; 650000]
  /\ stm32mp1_round_opp_khz 100 opp_table_state = (Int 0, 0)
  /\ ~ In 0 (opp_freq (pll1_settings opp_table_state)).
Proof.
  split; [reflexivity|]. split; [reflexivity|]. split; [reflexivity|].
  simpl. intros [H|[H|[]]]; discriminate.
Qed.

(** A request of 700 MHz against that table is rounded to 650 MHz. *)
Lemma round_opp_supported_witness :
  snd (stm32mp1_round_opp_khz 700000 opp_table_state) <= 700000
  /\ In (snd (stm32mp1_round_opp_khz 700000 opp_table_state))
        (opp_freq (pll1_settings opp_table_state)).
Proof.
  destruct (round_opp_supported (P := stm32mp15) 700000 opp_table_state
              ltac:(lia)) as (_ & _ & Hvalid).
  destruct (Hvalid ltac:(reflexivity)) as (Hle & _ & Hin & _).
  split; [exact Hle|]. apply Hin. exists 650000.
  split; [right; left; reflexivity | lia].
Defined.

(** The checks of [set_opp], in their order, and a successful change
    from 800 MHz to 650 MHz. *)
Lemma set_opp_checks_witness :
  stm32mp1_set_opp_khz 800000 mpu_800_state
    = Ret (Int 0, mpu_800_state)
  /\ stm32mp1_set_opp_khz 650000 mpu_800_state
     = Ret (Err EACCES, mpu_800_state)
  /\ stm32mp1_set_opp_khz 650000
       (with_regs [(0x20, 0x80000000)] opp_table_state)
     = Ret (Err EPERM, with_regs [(0x20, 0x80000000)] opp_table_state)
  /\ (forall s',
        stm32mp1_set_opp_khz 650000 opp_table_state
          = Ret (Int 0, s') ->
        current_opp_khz s' = 650000).
Proof.
  split; [|split; [|split]].
  - apply (proj1 (set_opp_checks 800000 mpu_800_state)).
    reflexivity.
  - apply (proj1 (proj2 (set_opp_checks 650000 mpu_800_state)));
      [vm_compute; discriminate | reflexivity].
  - apply (proj1 (proj2 (proj2 (set_opp_checks 650000
             (with_regs [(0x20, 0x80000000)] opp_table_state)))));
      [vm_compute; discriminate | reflexivity
      | vm_compute; discriminate | vm_compute; discriminate].
  - intros s' Hrun.
    refine (proj1 (proj2 (proj2 (proj2 (set_opp_checks 650000
              opp_table_state))) s' _ Hrun)).
    vm_compute; discriminate.
Defined.

(** That change does succeed on hardware that locks promptly, and the
    MPU then runs at 650 MHz. *)
Lemma set_opp_650_succeeds :
  match stm32mp1_set_opp_khz 650000 opp_table_state with
  | Ret (Int 0, s') =>
      current_opp_khz s' = 650000
      /\ get_clock_rate _CK_MPU s' = 650000000
  | _ => False
  end.
Proof. vm_compute. split; reflexivity. Qed.

(** C8 counterexample: PLL4_P is outside the always-on set and names no
    gate, the three operations panic. *)
Lemma pll4_output_is_not_always_on :
  clock_is_always_on PLL4_P = false
  /\ stm32mp_clk_enable PLL4_P
       (idle_state 64000000 24000000) = Panic
  /\ stm32mp_clk_disable PLL4_P
       (idle_state 64000000 24000000) = Panic
  /\ stm32mp_clk_is_enabled PLL4_P
       (idle_state 64000000 24000000) = Panic.
Proof. repeat split; vm_compute; reflexivity. Qed.

(** Scenario S6. *)
Lemma axi_rate_walk_witness :
  get_clock_rate _PCLK5 axi_266_state = 33250000.
Proof.
  refine (proj2 (axi_rate_walk _PCLK5 axi_266_state _) _ _ _ _);
    first [vm_compute; reflexivity | simpl; tauto].
Defined.

(** SYSCFG has neither a fixed parent nor a selector; the USB PHY selector
    may hold 3, past its three candidates: the rate is 0 in both cases. *)
Lemma clk_get_rate_unresolved_parent_witness :
  stm32mp_clk_get_rate SYSCFG
    (idle_state 64000000 24000000) = Ret 0
  /\ stm32mp_clk_get_rate USBPHY_K usbphy_sel3_state
     = Ret 0.
Proof.
  assert (Hsys : clock_id2parent_id SYSCFG = _UNKNOWN_ID)
    by (vm_compute; reflexivity).
  assert (Husb : clock_id2parent_id USBPHY_K = _UNKNOWN_ID)
    by (vm_compute; reflexivity).
  split.
  - pose proof (clk_get_rate_unresolved_parent SYSCFG
                  (idle_state 64000000 24000000) Hsys) as Hthm.
    change (stm32mp1_clk_get_gated_id SYSCFG) with (Int 13) in Hthm.
    cbv beta iota zeta in Hthm.
    assert (Hfixed : _PARENT_NB <= gate_fixed (gate_ref 13))
      by (vm_compute; discriminate).
    apply (proj1 (Hthm Hfixed)). reflexivity.
  - pose proof (clk_get_rate_unresolved_parent USBPHY_K
                  usbphy_sel3_state Husb) as Hthm.
    change (stm32mp1_clk_get_gated_id USBPHY_K) with (Int 17) in Hthm.
    cbv beta iota zeta in Hthm.
    assert (Hfixed : _PARENT_NB <= gate_fixed (gate_ref 17))
      by (vm_compute; discriminate).
    apply (proj2 (Hthm Hfixed));
      [vm_compute; reflexivity | vm_compute; discriminate].
Defined.

(** C10 counterexample: the identifier 6 (TIM2 in the binding) is in
    neither table; asking for its rate panics. *)
Lemma clk_get_rate_unknown_id_panics :
  clock_id2parent_id 6 = _UNKNOWN_ID
  /\ stm32mp1_clk_get_gated_id 6 = Err EINVAL
  /\ stm32mp_clk_get_rate 6 (idle_state 64000000 24000000)
     = Panic.
Proof. repeat split; vm_compute; reflexivity. Qed.

End ConcreteRuns.

(** * Further properties *)

(** ** The gate engine beyond the counted secure gates *)

Lemma first_index_least {A : Type} (p : A -> bool) (l : list A) n m d :
  first_index p l = Some n -> (m < n)%nat -> p (nth m l d) = false.
Proof.
  revert n m. induction l as [|x l IH]; simpl; intros n m Hn Hm;
    [discriminate|].
  destruct (p x) eqn:E; [inversion Hn; lia|].
  destruct (first_index p l) as [k|] eqn:Ek; simpl in Hn; [|discriminate].
  inversion Hn; subst n. destruct m as [|m]; [exact E|].
  apply (IH k); [reflexivity | lia].
Qed.

Lemma first_index_None_nth {A : Type} (p : A -> bool) (l : list A) m d :
  first_index p l = None -> (m < length l)%nat -> p (nth m l d) = false.
Proof.
  intros Hn Hm. apply first_index_None in Hn.
  rewrite List.Forall_forall in Hn. apply Hn, nth_In, Hm.
Qed.

Section GateFrames.
Context {P : Platform}.

(** [__clk_enable] and [__clk_disable] write one bit of one register. *)
Lemma clk_enable_other_bits g s addr k :
  0 <= gate_bit g < 32 -> 0 <= k < 32 ->
  (addr, k) <> (gate_offset g, gate_bit g) ->
  Z.testbit (mmio_read_32 (__clk_enable g s) addr) k
  = Z.testbit (mmio_read_32 s addr) k.
Proof.
  intros Hb Hk Hne. unfold __clk_enable.
  destruct (Z.eq_dec (gate_offset g) addr) as [<-|Ha].
  - assert (gate_bit g <> k) as Hbk by congruence.
    destruct (negb (gate_set_clr g =? 0)).
    + unfold mmio_write_32_enset, mmio_read_32 at 1. simpl.
      rewrite lookup_insert_eq. simpl.
      rewrite testbit_u32, Z.lor_spec, testbit_BIT by lia.
      apply Z.eqb_neq in Hbk. rewrite Hbk. apply orb_false_r.
    + unfold stm32mp_mmio_setbits_32_shregs, mmio_setbits_32.
      rewrite read_write_eq, testbit_u32, Z.lor_spec, testbit_BIT by lia.
      apply Z.eqb_neq in Hbk. rewrite Hbk. apply orb_false_r.
  - destruct (negb (gate_set_clr g =? 0)).
    + unfold mmio_write_32_enset, mmio_read_32 at 1. simpl.
      by rewrite lookup_insert_ne.
    + unfold stm32mp_mmio_setbits_32_shregs, mmio_setbits_32.
      by rewrite read_write_ne.
Qed.

Lemma clk_disable_other_bits g s addr k :
  0 <= gate_bit g < 32 -> 0 <= k < 32 ->
  (addr, k) <> (gate_offset g, gate_bit g) ->
  Z.testbit (mmio_read_32 (__clk_disable g s) addr) k
  = Z.testbit (mmio_read_32 s addr) k.
Proof.
  intros Hb Hk Hne. unfold __clk_disable.
  destruct (Z.eq_dec (gate_offset g) addr) as [<-|Ha].
  - assert (gate_bit g <> k) as Hbk by congruence.
    destruct (negb (gate_set_clr g =? 0)).
    + unfold mmio_write_32_enclr.
      replace (gate_offset g + RCC_MP_ENCLRR_OFFSET - RCC_MP_ENCLRR_OFFSET)
        with (gate_offset g) by lia.
      unfold mmio_read_32 at 1. simpl. rewrite lookup_insert_eq. simpl.
      rewrite testbit_u32, Z.ldiff_spec, testbit_BIT by lia.
      apply Z.eqb_neq in Hbk. rewrite Hbk. apply andb_true_r.
    + unfold stm32mp_mmio_clrbits_32_shregs, mmio_clrbits_32.
      rewrite read_write_eq, testbit_u32, Z.ldiff_spec, testbit_BIT by lia.
      apply Z.eqb_neq in Hbk. rewrite Hbk. apply andb_true_r.
  - destruct (negb (gate_set_clr g =? 0)).
    + unfold mmio_write_32_enclr.
      replace (gate_offset g + RCC_MP_ENCLRR_OFFSET - RCC_MP_ENCLRR_OFFSET)
        with (gate_offset g) by lia.
      unfold mmio_read_32 at 1. simpl. by rewrite lookup_insert_ne.
    + unfold stm32mp_mmio_clrbits_32_shregs, mmio_clrbits_32.
      by rewrite read_write_ne.
Qed.

End GateFrames.

Lemma gate_frame_refl i offset b s : gate_frame i offset b s s.
Proof. unfold gate_frame. split_and!; auto. Qed.

Lemma gate_frame_trans i offset b s1 s2 s3 :
  gate_frame i offset b s1 s2 -> gate_frame i offset b s2 s3 ->
  gate_frame i offset b s1 s3.
Proof.
  intros (Hc1 & Hl1 & Hb1 & Ho1 & Ht1 & Hk1)
    (Hc2 & Hl2 & Hb2 & Ho2 & Ht2 & Hk2).
  unfold gate_frame. split_and!; try congruence.
  - intros j Hj. rewrite Hc2, Hc1 by exact Hj. reflexivity.
  - intros addr k Hk Hne. rewrite Hb2, Hb1 by assumption. reflexivity.
Qed.

Section GateFrames2.
Context {P : Platform}.

Lemma gate_frame_enable i g s :
  0 <= gate_bit g < 32 ->
  gate_frame i (gate_offset g) (gate_bit g) s (__clk_enable g s).
Proof.
  intros Hb. unfold gate_frame. rewrite clk_enable_refcounts.
  split_and!; auto.
  - intros addr k Hk Hne. by apply clk_enable_other_bits.
  - unfold __clk_enable. by destruct (negb _).
  - unfold __clk_enable. by destruct (negb _).
  - unfold __clk_enable. by destruct (negb _).
Qed.

Lemma gate_frame_disable i g s :
  0 <= gate_bit g < 32 ->
  gate_frame i (gate_offset g) (gate_bit g) s (__clk_disable g s).
Proof.
  intros Hb. unfold gate_frame. rewrite clk_disable_refcounts.
  split_and!; auto.
  - intros addr k Hk Hne. by apply clk_disable_other_bits.
  - unfold __clk_disable. by destruct (negb _).
  - unfold __clk_disable. by destruct (negb _).
  - unfold __clk_disable. by destruct (negb _).
Qed.

Lemma gate_frame_set_refcount i offset b v s :
  gate_frame i offset b s (set_refcount i v s).
Proof.
  unfold gate_frame, set_refcount. simpl. rewrite length_insert.
  split_and!; auto.
  intros j Hj. by rewrite list_lookup_insert_ne.
Qed.

End GateFrames2.

Section GateOps.
Context {P : Platform}.

(** X3. An enable or a disable that returns, counted or forced, touches one
    gate: the reference count of the gate that the identifier resolves
    to and the enable bit of that gate; every other count, every other
    register bit, the oscillator rates and the OPP data are as before.  For
    an always-on identifier that is not in the gate table, nothing
    changes. *)
Theorem gate_ops_touch_one_gate (id : Z) (with_refcnt : bool)
  (s s' : clk_state) :
  __stm32mp1_clk_enable id with_refcnt s = Ret (tt, s')
  \/ __stm32mp1_clk_disable id with_refcnt s = Ret (tt, s') ->
  match stm32mp1_clk_get_gated_id id with
  | Int i =>
      gate_frame i (gate_offset (gate_ref i)) (gate_bit (gate_ref i)) s s'
  | Err _ => s' = s
  end.
Proof.
  intros Hrun.
  unfold __stm32mp1_clk_enable, __stm32mp1_clk_disable in Hrun.
  destruct (clock_is_always_on id).
  { assert (s' = s) as -> by (destruct Hrun as [Hr|Hr]; by inversion Hr).
    destruct (stm32mp1_clk_get_gated_id id); [apply gate_frame_refl | done]. }
  destruct (stm32mp1_clk_get_gated_id id) as [i|e] eqn:Hid;
    [|destruct Hrun; discriminate].
  destruct (gated_id_gate _ _ Hid) as (_ & _ & _ & Hbit).
  set (g := gate_ref i) in *.
  pose proof (fun t => gate_frame_enable i g t Hbit) as Hen.
  pose proof (fun t => gate_frame_disable i g t Hbit) as Hdis.
  pose proof (fun v t => gate_frame_set_refcount i (gate_offset g)
                           (gate_bit g) v t) as Hset.
  destruct with_refcnt; cbn [negb] in Hrun.
  - destruct Hrun as [Hr|Hr].
    + destruct IMAGE, (gate_is_non_secure g);
        cbv beta iota delta [bind get modify ret panic] in Hr;
        try (inversion Hr; subst; apply Hen);
        destruct (refcount_of i s =? 0);
        match type of Hr with
        | context [?c =? UINT_MAX] => destruct (c =? UINT_MAX)
        end;
        try discriminate;
        inversion Hr; subst; eauto using gate_frame_trans.
    + destruct IMAGE, (gate_is_non_secure g);
        cbv beta iota delta [bind get modify ret panic] in Hr;
        try (inversion Hr; subst; apply gate_frame_refl);
        (destruct (refcount_of i s =? 0); [discriminate|]);
        match type of Hr with
        | context [refcount_of i ?t =? 0] => destruct (refcount_of i t =? 0)
        end;
        inversion Hr; subst; eauto using gate_frame_trans.
  - destruct Hrun as [Hr|Hr]; cbv beta iota delta [modify] in Hr;
      inversion Hr; subst; auto.
Qed.

End GateOps.

Section GateOps2.
Context {P : Platform}.

(** X4. In BL32 the driver keeps no count for a non-secure gate: any run of
    enables and disables returns, leaves every reference count as it was,
    leaves the gate on as soon as the run holds one enable, since a disable
    does nothing, and changes nothing at all without an enable. *)
Theorem non_secure_gates_are_uncounted (id i : Z) (ops : list gate_op)
  (s : clk_state) :
  IMAGE = IMAGE_BL32 ->
  clock_is_always_on id = false ->
  stm32mp1_clk_get_gated_id id = Int i ->
  gate_secure (gate_ref i) = N_S ->
  exists s',
    run_gate_ops id ops s = Ret (tt, s')
    /\ gate_refcounts s' = gate_refcounts s
    /\ (In OpEnable ops -> __clk_is_enabled (gate_ref i) s' = true)
    /\ (~ In OpEnable ops -> s' = s).
Proof.
  intros Himg Hon Hid Hsec.
  destruct (gated_id_gate _ _ Hid) as (_ & _ & _ & Hbit).
  assert (stm32mp_clk_enable id
          = fun t => Ret (tt, __clk_enable (gate_ref i) t))
    as Hen.
  { unfold stm32mp_clk_enable, __stm32mp1_clk_enable.
    rewrite Hon, Hid, Himg. unfold gate_is_non_secure. rewrite Hsec.
    reflexivity. }
  assert (stm32mp_clk_disable id = fun t => Ret (tt, t)) as Hdis.
  { unfold stm32mp_clk_disable, __stm32mp1_clk_disable.
    rewrite Hon, Hid, Himg. unfold gate_is_non_secure. rewrite Hsec.
    reflexivity. }
  revert s. induction ops as [|op ops IH]; intros s.
  - exists s. split_and!; auto; intros [].
  - cbn [run_gate_ops]. unfold bind. destruct op; cbn [apply_gate_op].
    + rewrite Hen.
      destruct (IH (__clk_enable (gate_ref i) s))
        as (s' & Hrun & Hc & Hin & Hnot).
      exists s'. split; [exact Hrun|].
      split; [by rewrite Hc, clk_enable_refcounts|].
      split.
      * intros _. destruct (in_dec (fun a b : gate_op =>
                     ltac:(decide equality) : {a = b} + {a <> b})
                     OpEnable ops) as [Hi|Hni]; [by apply Hin|].
        rewrite (Hnot Hni). by apply clk_enable_is_enabled.
      * intros Hn. exfalso. apply Hn. by left.
    + rewrite Hdis.
      destruct (IH s) as (s' & Hrun & Hc & Hin & Hnot).
      exists s'. split; [exact Hrun|]. split; [exact Hc|]. split.
      * intros [Heq|Hi]; [discriminate | by apply Hin].
      * intros Hn. apply Hnot. intros Hi. apply Hn. by right.
Qed.

(** X5. The forced calls write the enable bit and leave the reference counts
    alone, so they can part the gate from its count: after a forced
    disable of a secure gate that is counted, a counted enable raises the
    count and returns with the gate still off. *)
Theorem force_bypasses_refcounts (id i : Z) (s : clk_state) :
  clock_is_always_on id = false ->
  stm32mp1_clk_get_gated_id id = Int i ->
  let g := gate_ref i in
  stm32mp1_clk_force_enable id s = Ret (tt, __clk_enable g s)
  /\ gate_refcounts (__clk_enable g s) = gate_refcounts s
  /\ __clk_is_enabled g (__clk_enable g s) = true
  /\ stm32mp1_clk_force_disable id s = Ret (tt, __clk_disable g s)
  /\ gate_refcounts (__clk_disable g s) = gate_refcounts s
  /\ __clk_is_enabled g (__clk_disable g s) = false
  /\ (gate_secure g = SEC ->
      (Z.to_nat i < length (gate_refcounts s))%nat ->
      0 < refcount_of i s < UINT_MAX - 1 ->
      exists s3,
        stm32mp_clk_enable id (__clk_disable g s) = Ret (tt, s3)
        /\ refcount_of i s3 = refcount_of i s + 1
        /\ __clk_is_enabled g s3 = false).
Proof.
  intros Hon Hid g.
  destruct (gated_id_gate _ _ Hid) as (Hi & _ & _ & Hbit).
  split; [|split; [|split; [|split; [|split; [|split]]]]].
  - unfold stm32mp1_clk_force_enable, __stm32mp1_clk_enable.
    by rewrite Hon, Hid.
  - apply clk_enable_refcounts.
  - by apply clk_enable_is_enabled.
  - unfold stm32mp1_clk_force_disable, __stm32mp1_clk_disable.
    by rewrite Hon, Hid.
  - apply clk_disable_refcounts.
  - by apply clk_disable_is_enabled.
  - intros Hsec Hlen Hc.
    set (s2 := __clk_disable g s).
    assert (gate_refcounts s2 = gate_refcounts s) as Hrc
      by apply clk_disable_refcounts.
    assert (refcount_of i s2 = refcount_of i s) as Hc2
      by (unfold refcount_of; by rewrite Hrc).
    rewrite (clk_enable_counted _ _ _ Hon Hid Hsec)
      by (rewrite ?Hrc, ?Hc2; unfold UINT_MAX in *; lia).
    rewrite Hc2.
    destruct (refcount_of i s + 1 =? UINT_MAX) eqn:E;
      [apply Z.eqb_eq in E; lia|].
    destruct (refcount_of i s =? 0) eqn:E0; [apply Z.eqb_eq in E0; lia|].
    eexists. split; [reflexivity|]. split.
    + apply refcount_of_set_refcount; [exact Hi | by rewrite Hrc].
    + rewrite set_refcount_is_enabled. by apply clk_disable_is_enabled.
Qed.

(** A gate stores its identifier in 8 bits. *)
Lemma gate_table_indices :
  Forall (fun g => 0 <= gate_index g < 256) stm32mp1_clk_gate.
Proof.
  unfold stm32mp1_clk_gate, bl32_only, bl2_only.
  destruct IMAGE; simpl;
    repeat (constructor;
            [unfold _CLK_FIXED, _CLK_SELEC, _CLK_SC_FIXED,
               _CLK_SC_SELEC; cbn [gate_index]; unfold u8;
             apply Z.mod_pos_bound; lia|]);
    constructor.
Qed.

(** X1. [stm32mp1_clk_get_gated_id] answers the first position of the gate
    table that holds the identifier, and [-EINVAL] exactly when no gate
    holds it; a gate stores its identifier in 8 bits, so an identifier of
    256 or more never resolves. *)
Theorem gated_id_first_match (id : Z) :
  match stm32mp1_clk_get_gated_id id with
  | Int i =>
      0 <= i < Z.of_nat NB_GATES
      /\ gate_index (gate_ref i) = id
      /\ (forall j, 0 <= j < i -> gate_index (gate_ref j) <> id)
      /\ 0 <= id < 256
  | Err e =>
      e = EINVAL
      /\ forall j, 0 <= j < Z.of_nat NB_GATES -> gate_index (gate_ref j) <> id
  end.
Proof.
  unfold stm32mp1_clk_get_gated_id.
  destruct (first_index _ _) as [n|] eqn:E.
  - destruct (first_index_Some _ _ _ (_CLK_SELEC 0 0 0 0 0) E) as [Hlt Hp].
    apply Z.eqb_eq in Hp. unfold gate_ref, NB_GATES. rewrite Nat2Z.id.
    split; [lia|]. split; [exact Hp|]. split.
    + intros j Hj.
      pose proof (first_index_least _ _ _ (Z.to_nat j)
                    (_CLK_SELEC 0 0 0 0 0) E ltac:(lia)) as Hl.
      by apply Z.eqb_neq in Hl.
    + rewrite <- Hp. pose proof gate_table_indices as HF.
      rewrite List.Forall_forall in HF. apply HF, nth_In, Hlt.
  - split; [reflexivity|]. intros j Hj.
    pose proof (first_index_None_nth _ _ (Z.to_nat j)
                  (_CLK_SELEC 0 0 0 0 0) E) as Hn.
    unfold NB_GATES in Hj. specialize (Hn ltac:(lia)).
    by apply Z.eqb_neq in Hn.
Qed.

End GateOps2.

(** ** Parent resolution *)

Lemma array_get_in_or_zero (a : list Z) (i : Z) :
  In (array_get a i) a \/ array_get a i = 0.
Proof.
  unfold array_get.
  destruct (nth_in_or_default (Z.to_nat i) a 0); [by left | by right].
Qed.

Section ParentRange.
Context {P : Platform}.

Lemma sel_parents_in_range :
  Forall (fun sel =>
            Forall (fun p => 0 <= p < _PARENT_NB \/ p = _UNKNOWN_ID)
              (sel_parent sel))
    stm32mp1_clk_sel.
Proof.
  unfold stm32mp1_clk_sel.
  repeat (constructor;
          [unfold _CLK_PARENT_SEL; cbn [sel_parent];
           repeat (constructor; [vm_compute; intuition discriminate|]);
           constructor|]).
  constructor.
Qed.

Lemma gate_fixed_nonneg :
  Forall (fun g => 0 <= gate_fixed g) stm32mp1_clk_gate.
Proof.
  unfold stm32mp1_clk_gate, bl32_only, bl2_only.
  destruct IMAGE; simpl;
    repeat (constructor;
            [unfold _CLK_FIXED, _CLK_SELEC, _CLK_SC_FIXED, _CLK_SC_SELEC;
             cbn [gate_fixed]; vm_compute; discriminate|]);
    constructor.
Qed.

Lemma clk_get_parent_in_range (id : Z) (s : clk_state) (r : cint) :
  stm32mp1_clk_get_parent id s = Ret r ->
  r = Err EINVAL
  \/ exists p, r = Int p /\ (0 <= p < _PARENT_NB \/ p = _UNKNOWN_ID).
Proof.
  unfold stm32mp1_clk_get_parent. cbv zeta.
  destruct (negb (clock_id2parent_id id =? _UNKNOWN_ID)) eqn:Eid.
  - intros Hr. inversion Hr; subst. right. eexists. split; [reflexivity|].
    left. unfold clock_id2parent_id in *.
    destruct (first_index _ _) as [n|] eqn:En; [|discriminate].
    destruct (first_index_Some _ _ _ 0 En) as [Hlt _].
    change (length parent_id_clock_id) with 34%nat in Hlt.
    unfold _PARENT_NB. lia.
  - destruct (stm32mp1_clk_get_gated_id id) as [i|e] eqn:Hid; [|discriminate].
    destruct (gated_id_gate _ _ Hid) as (Hi & Hlt & _).
    destruct (stm32mp1_clk_get_fixed_parent i <? _PARENT_NB) eqn:Ef.
    + intros Hr. inversion Hr; subst. right. eexists. split; [reflexivity|].
      left. apply Z.ltb_lt in Ef. split; [|exact Ef].
      pose proof gate_fixed_nonneg as HF. rewrite List.Forall_forall in HF.
      apply HF. unfold gate_ref. apply nth_In. exact Hlt.
    + destruct (stm32mp1_clk_get_sel i =? _UNKNOWN_SEL);
        [intros Hr; inversion Hr; by left|].
      destruct (_PARENT_SEL_NB <=? stm32mp1_clk_get_sel i); [discriminate|].
      destruct (_ <? sel_nb_parent _); intros Hr; inversion Hr; subst;
        [|by left].
      right. eexists. split; [reflexivity|].
      set (sel := clk_sel_ref (stm32mp1_clk_get_sel i)).
      destruct (array_get_in_or_zero (sel_parent sel) 
                  (Z.shiftr (Z.land (mmio_read_32 s (sel_offset sel))
                                    (Z.shiftl (sel_msk sel) (sel_src sel)))
                            (sel_src sel))) as [Hin| ->];
        [|left; unfold _PARENT_NB; lia].
      pose proof sel_parents_in_range as HF.
      rewrite List.Forall_forall in HF.
      unfold sel, clk_sel_ref in Hin.
      destruct (nth_in_or_default (Z.to_nat (stm32mp1_clk_get_sel i))
                  stm32mp1_clk_sel (_CLK_PARENT_SEL 0 0 [])) as [Hs|Hd].
      * specialize (HF _ Hs). rewrite List.Forall_forall in HF.
        by apply HF.
      * rewrite Hd in Hin. destruct Hin.
Qed.

(** X2. The parent [stm32mp1_clk_get_parent] returns is [-EINVAL], an index of
    [enum stm32mp1_parent_id], or the value 255 that the tables use for an
    unknown parent. *)
Theorem clk_get_parent_range (id : Z) (s : clk_state) (r : cint) :
  stm32mp1_clk_get_parent id s = Ret r ->
  r = Err EINVAL
  \/ exists p, r = Int p /\ (0 <= p < _PARENT_NB \/ p = _UNKNOWN_ID).
Proof. apply clk_get_parent_in_range. Qed.

End ParentRange.

(** ** DVFS: what the entry points leave alone *)

Lemma same_software_state_refl s : same_software_state s s.
Proof. unfold same_software_state. auto. Qed.

Lemma same_software_state_trans s1 s2 s3 :
  same_software_state s1 s2 -> same_software_state s2 s3 ->
  same_software_state s1 s3.
Proof.
  unfold same_software_state. intros (? & ? & ? & ?) (? & ? & ? & ?).
  split_and!; congruence.
Qed.

Lemma same_software_state_set_rcc s m : same_software_state s (set_rcc s m).
Proof. unfold same_software_state. auto. Qed.

Create HintDb sw.

#[local] Hint Resolve same_software_state_refl same_software_state_set_rcc
  : sw.

Section Software.
Context {P : Platform} {H : Hardware}.

Lemma sw_write addr v s : same_software_state s (mmio_write_32 addr v s).
Proof. apply same_software_state_set_rcc. Qed.

Lemma sw_setbits addr v s : same_software_state s (mmio_setbits_32 addr v s).
Proof. apply sw_write. Qed.

Lemma sw_clrbits addr v s : same_software_state s (mmio_clrbits_32 addr v s).
Proof. apply sw_write. Qed.

Lemma sw_clrsetbits addr c v s :
  same_software_state s (mmio_clrsetbits_32 addr c v s).
Proof. apply sw_write. Qed.

Lemma sw_poll_while n busy s :
  same_software_state s (snd (poll_while n busy s)).
Proof.
  revert s. induction n as [|n IH]; intros s; simpl;
    destruct (busy s); simpl; auto with sw.
  eapply same_software_state_trans; [|apply IH]. auto with sw.
Qed.

Lemma sw_set_clksrc clksrc s :
  same_software_state s (snd (stm32mp1_set_clksrc clksrc s)).
Proof.
  unfold stm32mp1_set_clksrc. cbv zeta.
  match goal with |- context [poll_while ?n ?b ?t] =>
    pose proof (sw_poll_while n b t) as Hp;
    destruct (poll_while n b t) as [to t'] end.
  simpl in Hp.
  eapply same_software_state_trans; [apply sw_clrsetbits|].
  by destruct to.
Qed.

Lemma sw_set_clkdiv clkdiv address s :
  same_software_state s (snd (stm32mp1_set_clkdiv clkdiv address s)).
Proof.
  unfold stm32mp1_set_clkdiv. cbv zeta.
  match goal with |- context [poll_while ?n ?b ?t] =>
    pose proof (sw_poll_while n b t) as Hp;
    destruct (poll_while n b t) as [to t'] end.
  simpl in Hp.
  eapply same_software_state_trans; [apply sw_clrsetbits|].
  by destruct to.
Qed.

Lemma sw_pll_stop pll_id s :
  same_software_state s (snd (stm32mp1_pll_stop pll_id s)).
Proof.
  unfold stm32mp1_pll_stop. cbv zeta.
  match goal with |- context [poll_while ?n ?b ?t] =>
    pose proof (sw_poll_while n b t) as Hp;
    destruct (poll_while n b t) as [to t'] end.
  simpl in Hp.
  eapply same_software_state_trans; [apply sw_clrbits|].
  eapply same_software_state_trans; [apply sw_clrbits|].
  by destruct to.
Qed.

Lemma sw_pll_start pll_id s :
  same_software_state s (stm32mp1_pll_start pll_id s).
Proof. apply sw_clrsetbits. Qed.

Lemma sw_pll_output pll_id output s :
  same_software_state s (snd (stm32mp1_pll_output pll_id output s)).
Proof.
  unfold stm32mp1_pll_output. cbv zeta.
  match goal with |- context [poll_while ?n ?b ?t] =>
    pose proof (sw_poll_while n b t) as Hp;
    destruct (poll_while n b t) as [to t'] end.
  simpl in Hp. destruct to; simpl; [exact Hp|].
  eapply same_software_state_trans; [exact Hp | apply sw_setbits].
Qed.

Lemma sw_pll_config pll_id pllcfg fracv s :
  same_software_state s (snd (stm32mp1_pll_config pll_id pllcfg fracv s)).
Proof.
  unfold stm32mp1_pll_config.
  destruct (stm32mp1_pll_compute_pllxcfgr1 _ _ _); simpl; auto with sw.
  unfold stm32mp1_pll_config_output.
  repeat (eapply same_software_state_trans; [|apply sw_write]).
  apply same_software_state_refl.
Qed.

End Software.

Lemma first_index_In {A : Type} (p : A -> bool) (l : list A) :
  (exists n, first_index p l = Some n) <-> exists x, In x l /\ p x = true.
Proof.
  induction l as [|x l IH]; simpl.
  - split; [intros [n Hn]; discriminate | intros (x & [] & _)].
  - destruct (p x) eqn:E.
    + split; [intros _; exists x; auto | intros _; eauto].
    + split.
      * intros [n Hn]. destruct (first_index p l) as [m|]; [|discriminate].
        destruct (proj1 IH (ex_intro _ m eq_refl)) as (y & Hy & Hp).
        exists y. auto.
      * intros (y & [->|Hy] & Hp); [congruence|].
        destruct (proj2 IH (ex_intro _ y (conj Hy Hp))) as [m ->].
        simpl. eauto.
Qed.

Section DvfsCodes.
Context {P : Platform} {H : Hardware}.

Lemma code_set_clksrc clksrc s :
  fst (stm32mp1_set_clksrc clksrc s) = Int 0
  \/ fst (stm32mp1_set_clksrc clksrc s) = Err ETIMEDOUT.
Proof.
  unfold stm32mp1_set_clksrc. cbv zeta.
  destruct (poll_while _ _ _) as [[|] t]; auto.
Qed.

Lemma code_set_clkdiv clkdiv address s :
  fst (stm32mp1_set_clkdiv clkdiv address s) = Int 0
  \/ fst (stm32mp1_set_clkdiv clkdiv address s) = Err ETIMEDOUT.
Proof.
  unfold stm32mp1_set_clkdiv. cbv zeta.
  destruct (poll_while _ _ _) as [[|] t]; auto.
Qed.

Lemma code_pll_stop pll_id s :
  fst (stm32mp1_pll_stop pll_id s) = Int 0
  \/ fst (stm32mp1_pll_stop pll_id s) = Err ETIMEDOUT.
Proof.
  unfold stm32mp1_pll_stop. cbv zeta.
  destruct (poll_while _ _ _) as [[|] t]; auto.
Qed.

Lemma code_pll_output pll_id output s :
  fst (stm32mp1_pll_output pll_id output s) = Int 0
  \/ fst (stm32mp1_pll_output pll_id output s) = Err ETIMEDOUT.
Proof.
  unfold stm32mp1_pll_output. cbv zeta.
  destruct (poll_while _ _ _) as [[|] t]; auto.
Qed.

Lemma code_pll_config pll_id pllcfg fracv s :
  fst (stm32mp1_pll_config pll_id pllcfg fracv s) = Int 0
  \/ fst (stm32mp1_pll_config pll_id pllcfg fracv s) = Err EINVAL.
Proof.
  unfold stm32mp1_pll_config, stm32mp1_pll_compute_pllxcfgr1. cbv zeta.
  destruct (_ || _); auto.
Qed.

Lemma code_on_the_fly pll_id pllcfg fracv result0 s :
  fst (stm32mp1_is_pll_config_on_the_fly pll_id pllcfg fracv result0 s)
    = Int 0
  \/ fst (stm32mp1_is_pll_config_on_the_fly pll_id pllcfg fracv result0 s)
     = Err EINVAL.
Proof.
  unfold stm32mp1_is_pll_config_on_the_fly, stm32mp1_pll_compute_pllxcfgr1.
  cbv zeta. destruct (_ || _); [auto|].
  destruct (negb _); [auto|]. destruct (_ && _); auto.
Qed.

Lemma ok_set_clksrc s c t :
  same_software_state s t -> pll1_config_ok s (stm32mp1_set_clksrc c t).
Proof.
  intros Hs. split.
  - eapply same_software_state_trans; [exact Hs | apply sw_set_clksrc].
  - unfold pll1_config_code. destruct (code_set_clksrc c t); auto.
Qed.

Lemma ok_set_clkdiv s c a t :
  same_software_state s t -> pll1_config_ok s (stm32mp1_set_clkdiv c a t).
Proof.
  intros Hs. split.
  - eapply same_software_state_trans; [exact Hs | apply sw_set_clkdiv].
  - unfold pll1_config_code. destruct (code_set_clkdiv c a t); auto.
Qed.

Lemma ok_pll_stop s c t :
  same_software_state s t -> pll1_config_ok s (stm32mp1_pll_stop c t).
Proof.
  intros Hs. split.
  - eapply same_software_state_trans; [exact Hs | apply sw_pll_stop].
  - unfold pll1_config_code. destruct (code_pll_stop c t); auto.
Qed.

Lemma ok_pll_output s c o t :
  same_software_state s t -> pll1_config_ok s (stm32mp1_pll_output c o t).
Proof.
  intros Hs. split.
  - eapply same_software_state_trans; [exact Hs | apply sw_pll_output].
  - unfold pll1_config_code. destruct (code_pll_output c o t); auto.
Qed.

Lemma ok_pll_config s c p f t :
  same_software_state s t -> pll1_config_ok s (stm32mp1_pll_config c p f t).
Proof.
  intros Hs. split.
  - eapply same_software_state_trans; [exact Hs | apply sw_pll_config].
  - unfold pll1_config_code. destruct (code_pll_config c p f t); auto.
Qed.

Lemma ok_zero s t : same_software_state s t -> pll1_config_ok s (Int 0, t).
Proof. intros Hs. split; [exact Hs | by left]. Qed.

(** One call followed by [if (ret != 0) return ret;]. *)
Ltac seq_step :=
  match goal with
  | |- pll1_config_ok ?s (let '(r, t) := ?x in @?body r t) =>
      let Hx := fresh "Hx" in
      assert (Hx : pll1_config_ok s x) by solve_ok;
      destruct x as [? ?]; destruct Hx as [? ?]; cbn [fst snd] in *;
      match goal with
      | |- context [is_nonzero ?code] =>
          destruct (is_nonzero code); [split; assumption|]
      end
  end
with solve_ok :=
  first [ apply ok_zero; assumption
        | apply ok_set_clksrc; assumption
        | apply ok_set_clkdiv; assumption
        | apply ok_pll_stop; assumption
        | apply ok_pll_output; assumption
        | apply ok_pll_config; assumption
        | seq_step; solve_ok ].

Lemma pll1_config_from_opp_found freq_khz s n :
  first_index (fun f => f =? freq_khz) (opp_freq (pll1_settings s)) = Some n ->
  same_software_state s (snd (stm32mp1_pll1_config_from_opp_khz freq_khz s))
  /\ pll1_config_code (fst (stm32mp1_pll1_config_from_opp_khz freq_khz s)).
Proof.
  intros Hn.
  change (pll1_config_ok s (stm32mp1_pll1_config_from_opp_khz freq_khz s)).
  unfold stm32mp1_pll1_config_from_opp_khz. rewrite Hn. cbv zeta.
  pose proof (same_software_state_refl s) as Hs0.
  destruct (stm32mp1_get_mpu_div freq_khz s =? 0); [solve_ok|].
  destruct (negb (stm32mp1_get_mpu_div freq_khz s =? -1)); [solve_ok|].
  pose proof (code_on_the_fly _PLL1 (nth n (opp_cfg (pll1_settings s)) [])
                (nth n (opp_frac (pll1_settings s)) 0) (-1) s) as Hfly.
  destruct (stm32mp1_is_pll_config_on_the_fly _ _ _ _ _) as [rf dec].
  cbn [fst] in Hfly.
  destruct (is_nonzero rf).
  { split; [exact Hs0|]. unfold pll1_config_code. cbn [fst].
    destruct Hfly; auto. }
  destruct (dec =? 1); [solve_ok|].
  destruct (dec =? -1).
  - do 2 seq_step.
    match goal with
    | |- context [stm32mp1_pll_start ?c ?t] =>
        pose proof (sw_pll_start c t) as Hst;
        match goal with
        | Ha : same_software_state s t |- _ =>
            pose proof (same_software_state_trans _ _ _ Ha Hst)
        end;
        generalize dependent (stm32mp1_pll_start c t); intros
    end.
    solve_ok.
  - cbv beta iota. change (is_nonzero (Int 0)) with false. cbv iota.
    solve_ok.
Qed.

Lemma pll1_config_from_opp_software (freq_khz : Z) (s : clk_state) :
  same_software_state s (snd (stm32mp1_pll1_config_from_opp_khz freq_khz s)).
Proof.
  destruct (first_index (fun f => f =? freq_khz) (opp_freq (pll1_settings s)))
    as [n|] eqn:En.
  - by destruct (pll1_config_from_opp_found _ _ _ En) as [Hs _].
  - unfold stm32mp1_pll1_config_from_opp_khz. rewrite En.
    apply same_software_state_refl.
Qed.

(** X12. [stm32mp1_pll1_config_from_opp_khz] writes registers only, returns
    [-ENXIO] without writing anything for a frequency that the table does
    not hold, and 0, [-ETIMEDOUT] or [-EINVAL] otherwise. *)
Theorem pll1_config_from_opp_codes (freq_khz : Z) (s : clk_state) :
  same_software_state s (snd (stm32mp1_pll1_config_from_opp_khz freq_khz s))
  /\ (In freq_khz (opp_freq (pll1_settings s)) ->
      pll1_config_code (fst (stm32mp1_pll1_config_from_opp_khz freq_khz s)))
  /\ (~ In freq_khz (opp_freq (pll1_settings s)) ->
      stm32mp1_pll1_config_from_opp_khz freq_khz s = (Err ENXIO, s)).
Proof.
  destruct (first_index (fun f => f =? freq_khz) (opp_freq (pll1_settings s)))
    as [n|] eqn:En.
  - destruct (pll1_config_from_opp_found _ _ _ En) as [Hs Hc].
    split; [exact Hs|]. split; [by intros _|].
    intros Hnot. exfalso. apply Hnot.
    destruct (first_index_Some _ _ _ 0 En) as [Hlt Hp].
    apply Z.eqb_eq in Hp. rewrite <- Hp. by apply nth_In.
  - assert (stm32mp1_pll1_config_from_opp_khz freq_khz s = (Err ENXIO, s))
      as Heq by (unfold stm32mp1_pll1_config_from_opp_khz; by rewrite En).
    rewrite Heq. split; [apply same_software_state_refl|].
    split; [|by intros _].
    intros Hin. exfalso.
    apply first_index_None in En. rewrite List.Forall_forall in En.
    specialize (En _ Hin). by rewrite Z.eqb_refl in En.
Qed.

(** X13. [stm32mp1_set_opp_khz] never touches the OPP table, the oscillator
    rates or the reference counts; it returns 0, [-EACCES], [-EPERM] or
    [-EIO]; the current OPP changes only when it returns 0, and nothing at
    all changes when it returns [-EACCES] or [-EPERM]. *)
Theorem set_opp_leaves_software_state (freq_khz : Z) (s s' : clk_state)
  (r : cint) :
  stm32mp1_set_opp_khz freq_khz s = Ret (r, s') ->
  stm32mp1_osc s' = stm32mp1_osc s
  /\ gate_refcounts s' = gate_refcounts s
  /\ pll1_settings s' = pll1_settings s
  /\ (r = Int 0 \/ r = Err EACCES \/ r = Err EPERM \/ r = Err EIO)
  /\ (r <> Int 0 -> current_opp_khz s' = current_opp_khz s)
  /\ (r = Err EACCES \/ r = Err EPERM -> s' = s).
Proof.
  unfold stm32mp1_set_opp_khz, bind, get, ret, panic.
  destruct (freq_khz =? current_opp_khz s).
  { intros Hr. inversion Hr; subst. split_and!; auto; congruence. }
  destruct (negb (clk_pll1_settings_are_valid s)).
  { intros Hr. inversion Hr; subst. split_and!; auto; congruence. }
  destruct (_ && _).
  { intros Hr. inversion Hr; subst. split_and!; auto; congruence. }
  destruct (pll1_config_from_opp_software freq_khz s)
    as (Ho1 & Hg1 & Ht1 & Hk1).
  destruct (stm32mp1_pll1_config_from_opp_khz freq_khz s) as [r1 s1].
  cbn [snd] in *.
  destruct (is_nonzero r1).
  - destruct (pll1_config_from_opp_software (current_opp_khz s1) s1)
      as (Ho2 & Hg2 & Ht2 & Hk2).
    destruct (stm32mp1_pll1_config_from_opp_khz (current_opp_khz s1) s1)
      as [r2 s2].
    cbn [snd] in *. destruct (is_nonzero r2); [discriminate|].
    unfold modify. intros Hr. inversion Hr; subst.
    split_and!; try congruence; auto.
    intros [?|?]; discriminate.
  - unfold modify. intros Hr. inversion Hr; subst. cbn.
    split_and!; auto; try congruence.
    intros [?|?]; discriminate.
Qed.

End DvfsCodes.

Section MpuDiv.
Context {P : Platform}.

(** X14. [stm32mp1_get_mpu_div] answers the exponent [d] of the MPU divider
    exactly when the rate of PLL1_P in kHz is the requested frequency
    times 2^d with d in 0..4, and -1 in every other case. *)
Theorem mpu_div_characterised (freq_khz : Z) (s : clk_state) :
  0 < freq_khz ->
  let pll1_p := get_clock_rate _PLL1_P s / 1000 in
  let d := stm32mp1_get_mpu_div freq_khz s in
  (d = -1 \/ 0 <= d <= 4)
  /\ (0 <= d -> pll1_p = freq_khz * 2 ^ d)
  /\ (forall k, 0 <= k <= 4 -> pll1_p = freq_khz * 2 ^ k -> d = k).
Proof.
  intros Hf. cbv zeta. unfold stm32mp1_get_mpu_div. cbv zeta.
  set (p := get_clock_rate _PLL1_P s / 1000).
  destruct (negb (p mod freq_khz =? 0)) eqn:Em.
  - apply negb_true_iff, Z.eqb_neq in Em.
    split; [by left|]. split; [lia|].
    intros k Hk Hp. exfalso. apply Em. rewrite Hp, Z.mul_comm.
    apply Z.mod_mul. lia.
  - apply negb_false_iff, Z.eqb_eq in Em.
    assert (p = freq_khz * (p / freq_khz)) as Hp
      by (apply Z.div_exact; [lia | exact Em]).
    set (q := p / freq_khz) in *.
    assert (forall k, 0 <= k <= 4 -> p = freq_khz * 2 ^ k -> q = 2 ^ k) as Hq.
    { intros k Hk Hpk. unfold q. rewrite Hpk, Z.mul_comm.
      apply Z.div_mul. lia. }
    destruct (q =? 1) eqn:E1; [apply Z.eqb_eq in E1|apply Z.eqb_neq in E1];
    [|destruct (q =? 2) eqn:E2; [apply Z.eqb_eq in E2|apply Z.eqb_neq in E2];
    [|destruct (q =? 4) eqn:E4; [apply Z.eqb_eq in E4|apply Z.eqb_neq in E4];
    [|destruct (q =? 8) eqn:E8; [apply Z.eqb_eq in E8|apply Z.eqb_neq in E8];
    [|destruct (q =? 16) eqn:E16;
        [apply Z.eqb_eq in E16|apply Z.eqb_neq in E16]]]]];
      (split; [lia|]);
      (split;
       [intros Hd;
        first [lia
              | rewrite Hp;
                first [rewrite E1 | rewrite E2 | rewrite E4 | rewrite E8
                      | rewrite E16];
                reflexivity]|]);
      intros k Hk Hpk; specialize (Hq k Hk Hpk);
      assert (k = 0 \/ k = 1 \/ k = 2 \/ k = 3 \/ k = 4) as Hcases by lia;
      destruct Hcases as [ -> | [ -> | [ -> | [ -> | -> ] ] ] ];
      simpl in Hq; lia.
Qed.

End MpuDiv.

(** ** The OPP table: validity and maximum *)

Lemma same_but_opp_settings_refl s : same_but_opp_settings s s.
Proof. unfold same_but_opp_settings. auto 10. Qed.

Lemma same_but_opp_settings_trans s1 s2 s3 :
  same_but_opp_settings s1 s2 -> same_but_opp_settings s2 s3 ->
  same_but_opp_settings s1 s3.
Proof.
  unfold same_but_opp_settings.
  intros (? & ? & ? & ? & ? & ? & ?) (? & ? & ? & ? & ? & ? & ?).
  split_and!; congruence.
Qed.

Lemma same_but_opp_settings_set s i pllcfg fracv :
  same_but_opp_settings s
    (set_pll1_settings s (set_opp_cfg i pllcfg fracv (pll1_settings s))).
Proof. unfold same_but_opp_settings. simpl. auto 10. Qed.

Section OppValidity.
Context {P : Platform}.

Lemma compute_all_body_frame index clksrc v s r s' :
  compute_all_body index clksrc v s = Ret (r, s') ->
  same_but_opp_settings s s'.
Proof.
  unfold compute_all_body. destruct (v =? index).
  - intros Hr. inversion Hr; subst. apply same_but_opp_settings_refl.
  - unfold bind, get, modify, ret, panic.
    destruct (clk_get_pll1_settings _ _ _ _ s) as [[[r1 pllcfg] fracv]|];
      [|discriminate].
    destruct (is_nonzero r1); intros Hr; inversion Hr; subst;
      apply same_but_opp_settings_set.
Qed.

Lemma compute_all_loop_frame index clksrc vals : forall s r s',
  for_each_m vals (compute_all_body index clksrc) s = Ret (r, s') ->
  same_but_opp_settings s s'.
Proof.
  induction vals as [|v vals IH]; intros s r s'; simpl.
  - intros Hr. inversion Hr; subst. apply same_but_opp_settings_refl.
  - unfold bind at 1.
    destruct (compute_all_body index clksrc v s) as [[[r1|] s1]|] eqn:E;
      [| |discriminate].
    + intros Hr. inversion Hr; subst. by eapply compute_all_body_frame.
    + intros Hr. eapply same_but_opp_settings_trans.
      * by eapply compute_all_body_frame.
      * by eapply IH.
Qed.

Lemma save_current_settings_frame buck1_voltage s index s1 :
  clk_save_current_pll1_settings buck1_voltage s = Ret (index, s1) ->
  same_but_opp_settings s s1.
Proof.
  unfold clk_save_current_pll1_settings, bind, get, modify, ret, panic.
  destruct (stm32mp_clk_get_rate CK_MPU s) as [rate|]; [|discriminate].
  destruct (first_index _ _) as [j|].
  - destruct (_ && _); intros Hr; inversion Hr; subst;
      [apply same_but_opp_settings_refl | apply same_but_opp_settings_set].
  - intros Hr. inversion Hr; subst. apply same_but_opp_settings_refl.
Qed.

(** X15. [stm32mp1_clk_compute_all_pll1_settings] writes no register; the
    frequencies and voltages of the table become those of the device
    tree; the table is marked valid when the device tree was read and 0
    is returned, and its mark is left as it was in every other case;
    without a device-tree table it returns 0 and leaves the settings as
    they were. *)
Theorem compute_all_marks_valid_on_success (dt : dt_opp) (buck1_voltage : Z)
  (s s' : clk_state) (r : cint) :
  stm32mp1_clk_compute_all_pll1_settings dt buck1_voltage s = Ret (r, s') ->
  rcc s' = rcc s
  /\ gate_refcounts s' = gate_refcounts s
  /\ current_opp_khz s' = current_opp_khz s
  /\ opp_freq (pll1_settings s') = dt_freq dt
  /\ opp_volt (pll1_settings s') = dt_volt dt
  /\ (dt_ret dt = DT_OK -> r = Int 0 ->
      valid_id (pll1_settings s') = PLL1_SETTINGS_VALID_ID)
  /\ (dt_ret dt <> DT_OK \/ r <> Int 0 ->
      valid_id (pll1_settings s') = valid_id (pll1_settings s))
  /\ (dt_ret dt <> DT_OK ->
      r = Int 0
      /\ opp_cfg (pll1_settings s') = opp_cfg (pll1_settings s)
      /\ opp_frac (pll1_settings s') = opp_frac (pll1_settings s)).
Proof.
  unfold stm32mp1_clk_compute_all_pll1_settings.
  unfold bind at 1, modify at 1.
  set (s_dt := set_pll1_settings s _).
  destruct (dt_ret dt) eqn:Hdt.
  2,3: unfold ret; intros Hr; inversion Hr; subst; unfold s_dt; simpl;
       split_and!; auto; try congruence; intros [?|?]; congruence.
  unfold bind at 1.
  destruct (clk_save_current_pll1_settings buck1_voltage s_dt)
    as [[index s1]|] eqn:Esave; [|discriminate].
  apply save_current_settings_frame in Esave.
  unfold bind at 1.
  assert (forall t, match stm32mp1_clk_get_pll1_current_clksrc t with
                    | Ret (_, t') => t' = t
                    | Panic => True
                    end) as Hsrc.
  { intros t. unfold stm32mp1_clk_get_pll1_current_clksrc, bind, get, ret,
      panic.
    destruct (_ =? 0); [reflexivity|]. by destruct (_ =? 1). }
  specialize (Hsrc s1).
  destruct (stm32mp1_clk_get_pll1_current_clksrc s1) as [[clksrc s1']|];
    [|discriminate].
  subst s1'. unfold bind at 1.
  destruct (for_each_m _ _ s1) as [[[r1|] s2]|] eqn:Eloop; [| |discriminate].
  - pose proof (for_each_m_Some _ _ (fun r => is_nonzero r = true)
                  (compute_all_body_Some index clksrc) _ _ _ Eloop) as Hnz.
    apply compute_all_loop_frame in Eloop.
    pose proof (same_but_opp_settings_trans _ _ _ Esave Eloop)
      as (Hrcc & _ & Hg & Hk & Hv & Hf & Hvt).
    unfold ret. intros Hr. inversion Hr; subst.
    unfold s_dt in *. simpl in *.
    split_and!; auto; try congruence;
      first [ intros _ ->; discriminate
            | intros Hne; exfalso; by apply Hne ].
  - apply compute_all_loop_frame in Eloop.
    pose proof (same_but_opp_settings_trans _ _ _ Esave Eloop)
      as (Hrcc & _ & Hg & Hk & Hv & Hf & Hvt).
    unfold bind, modify, ret. intros Hr. inversion Hr; subst.
    unfold s_dt in *. simpl in *.
    split_and!; auto; try congruence;
      first [ intros [?|?]; congruence
            | intros Hne; exfalso; by apply Hne ].
Qed.

End OppValidity.

Section MaxFreq.
Context {P : Platform}.

Lemma maxfreq_opp_loop_spec (t : stm32mp1_pll_settings) (n : nat) :
  forall (a : nat) (f v : Z),
    let r := maxfreq_opp_loop (seq a n) t f v in
    f <= fst r
    /\ (forall j, (a <= j < a + n)%nat -> nth j (opp_freq t) 0 <= fst r)
    /\ ((fst r = f /\ snd r = v)
        \/ exists i, (a <= i < a + n)%nat
             /\ nth i (opp_freq t) 0 = fst r
             /\ nth i (opp_volt t) 0 = snd r
             /\ f < fst r
             /\ forall j, (a <= j < i)%nat -> nth j (opp_freq t) 0 < fst r).
Proof.
  induction n as [|n IH]; intros a f v; cbn [seq maxfreq_opp_loop].
  - cbv zeta. cbn [fst snd]. split; [lia|]. split; [intros j Hj; lia|].
    by left.
  - cbv zeta. destruct (f <? nth a (opp_freq t) 0) eqn:E.
    + apply Z.ltb_lt in E.
      specialize (IH (S a) (nth a (opp_freq t) 0) (nth a (opp_volt t) 0)).
      cbv zeta in IH. destruct IH as (Hle & Hall & Hwho).
      set (r := maxfreq_opp_loop _ _ _ _) in *.
      split; [lia|]. split.
      * intros j Hj. destruct (Nat.eq_dec j a) as [->|Hne]; [lia|].
        apply Hall. lia.
      * right.
        destruct Hwho
          as [(Hf & Hv)|(i & Hi & Hfi & Hvi & Hlt & Hbefore)].
        -- exists a. split; [lia|]. split; [by rewrite Hf|].
           split; [by rewrite Hv|]. split; [lia|]. intros j Hj. lia.
        -- exists i. split; [lia|]. split; [exact Hfi|]. split; [exact Hvi|].
           split; [lia|]. intros j Hj.
           destruct (Nat.eq_dec j a) as [->|Hne]; [lia|]. apply Hbefore. lia.
    + apply Z.ltb_ge in E.
      specialize (IH (S a) f v). cbv zeta in IH.
      destruct IH as (Hle & Hall & Hwho).
      set (r := maxfreq_opp_loop _ _ _ _) in *.
      split; [lia|]. split.
      * intros j Hj. destruct (Nat.eq_dec j a) as [->|Hne]; [lia|].
        apply Hall. lia.
      * destruct Hwho as [Hsame|(i & Hi & Hfi & Hvi & Hlt & Hbefore)];
          [by left|].
        right. exists i. split; [lia|]. split; [exact Hfi|].
        split; [exact Hvi|]. split; [lia|]. intros j Hj.
        destruct (Nat.eq_dec j a) as [->|Hne]; [lia|]. apply Hbefore. lia.
Qed.

(** X16. [stm32mp1_clk_get_maxfreq_opp] fails, leaving its two outputs as they
    were, when the table is not valid, when no frequency of the table is
    above 0, or when the voltage of the entry found is 0.  When it
    returns 0, the frequency is the largest of the table and the voltage
    is the one of the first entry that holds this frequency. *)
Theorem maxfreq_opp_is_maximum (freq_khz0 voltage_mv0 : Z) (s : clk_state) :
  let t := pll1_settings s in
  let out := stm32mp1_clk_get_maxfreq_opp freq_khz0 voltage_mv0 s in
  let ret := fst (fst out) in
  let freq := snd (fst out) in
  let voltage := snd out in
  (ret = Int 0 \/ ret = Int (-1))
  /\ (ret = Int (-1) -> freq = freq_khz0 /\ voltage = voltage_mv0)
  /\ (clk_pll1_settings_are_valid s = false -> ret = Int (-1))
  /\ ((forall j, (j < PLAT_MAX_OPP_NB)%nat -> nth j (opp_freq t) 0 <= 0) ->
      ret = Int (-1))
  /\ (ret = Int 0 ->
      clk_pll1_settings_are_valid s = true
      /\ 0 < freq /\ voltage <> 0
      /\ (forall j, (j < PLAT_MAX_OPP_NB)%nat -> nth j (opp_freq t) 0 <= freq)
      /\ exists i, (i < PLAT_MAX_OPP_NB)%nat
           /\ nth i (opp_freq t) 0 = freq
           /\ nth i (opp_volt t) 0 = voltage
           /\ forall j, (j < i)%nat -> nth j (opp_freq t) 0 < freq).
Proof.
  cbv zeta. unfold stm32mp1_clk_get_maxfreq_opp.
  destruct (clk_pll1_settings_are_valid s); cbn [negb].
  2: { cbn [fst snd]. split_and!; auto; intros; discriminate. }
  pose proof (maxfreq_opp_loop_spec (pll1_settings s) PLAT_MAX_OPP_NB 0 0 0)
    as Hspec.
  cbv zeta in Hspec.
  destruct (maxfreq_opp_loop _ _ _ _) as [freq voltage].
  cbn [fst snd] in Hspec. destruct Hspec as (Hle & Hall & Hwho).
  destruct ((freq =? 0) || (voltage =? 0)) eqn:E; cbn [fst snd].
  - split_and!; auto; try discriminate.
  - apply orb_false_iff in E as [Ef Ev].
    apply Z.eqb_neq in Ef. apply Z.eqb_neq in Ev.
    split; [by left|]. split; [discriminate|]. split; [discriminate|].
    split.
    + intros Hzero. exfalso.
      destruct Hwho as [(Hf & _)|(i & Hi & Hfi & _ & Hlt & _)]; [lia|].
      specialize (Hzero i ltac:(lia)). lia.
    + intros _. split; [reflexivity|]. split; [lia|]. split; [exact Ev|].
      split; [intros j Hj; apply Hall; lia|].
      destruct Hwho as [(Hf & _)|(i & Hi & Hfi & Hvi & Hlt & Hbefore)]; [lia|].
      exists i. split; [lia|]. split; [exact Hfi|]. split; [exact Hvi|].
      intros j Hj. apply Hbefore. lia.
Qed.

End MaxFreq.

Section Rcc2Id.
Context {P : Platform}.

(** X6. [stm32mp1_clk_rcc2id] answers ~0 exactly when no gate has its enable
    bit at that place; otherwise it answers the identifier of a gate whose
    enable bit is [bit] of the register at [offset], or of its clear
    register for a set/clear gate, and this identifier resolves in the
    gate table. *)
Theorem rcc2id_finds_gate (offset bit : Z) :
  let id := stm32mp1_clk_rcc2id offset bit in
  let at_bit g :=
    bit = gate_bit g
    /\ (offset = gate_offset g
        \/ (gate_set_clr g <> 0
            /\ offset = u32 (gate_offset g + RCC_MP_ENCLRR_OFFSET))) in
  (id = 4294967295
   /\ forall g, In g stm32mp1_clk_gate -> ~ at_bit g)
  \/ (0 <= id < 256
      /\ (exists g, In g stm32mp1_clk_gate /\ at_bit g /\ gate_index g = id)
      /\ exists i, stm32mp1_clk_get_gated_id id = Int i).
Proof.
  cbv zeta. unfold stm32mp1_clk_rcc2id, get_id_from_rcc_bit.
  destruct (first_index _ _) as [n|] eqn:E.
  - right.
    destruct (first_index_Some _ _ _ (_CLK_SELEC 0 0 0 0 0) E) as [Hlt Hp].
    unfold gate_ref. rewrite Nat2Z.id.
    set (g := nth n stm32mp1_clk_gate (_CLK_SELEC 0 0 0 0 0)) in *.
    assert (In g stm32mp1_clk_gate) as Hin by (by apply nth_In).
    assert (exists i, stm32mp1_clk_get_gated_id (gate_index g) = Int i) as Hres.
    { unfold stm32mp1_clk_get_gated_id.
      destruct (first_index (fun g0 => gate_index g0 =? gate_index g)
                  stm32mp1_clk_gate) as [m|] eqn:Em; [eauto|].
      apply first_index_None in Em. rewrite List.Forall_forall in Em.
      specialize (Em g Hin). by rewrite Z.eqb_refl in Em. }
    split.
    + pose proof gate_table_indices as HF.
      rewrite List.Forall_forall in HF. by apply HF.
    + split; [|exact Hres]. exists g. split; [exact Hin|].
      split; [|reflexivity].
      apply orb_true_iff in Hp as [Hp|Hp].
      * apply andb_true_iff in Hp as [Ho Hb].
        apply Z.eqb_eq in Ho, Hb. auto.
      * apply andb_true_iff in Hp as [Hp Hb].
        apply andb_true_iff in Hp as [Hsc Ho].
        apply negb_true_iff, Z.eqb_neq in Hsc.
        apply Z.eqb_eq in Ho, Hb. auto.
  - left. split; [reflexivity|].
    intros g Hin (Hb & Ho).
    apply first_index_None in E. rewrite List.Forall_forall in E.
    specialize (E g Hin). apply orb_false_iff in E as [E1 E2].
    destruct Ho as [Ho|(Hsc & Ho)].
    + subst. by rewrite !Z.eqb_refl in E1.
    + subst bit. rewrite Z.eqb_refl, andb_true_r in E2.
      apply andb_false_iff in E2 as [E2|E2].
      * apply negb_false_iff, Z.eqb_eq in E2. contradiction.
      * rewrite Ho, Z.eqb_refl in E2. discriminate.
Qed.

End Rcc2Id.

(** ** Encoding and decoding the PLL registers *)

(** [(x << l) & GENMASK(h, l)] on 32 bits keeps the low [h - l + 1] bits of
    [x], moved to position [l]. *)
Lemma encode_field x h l :
  0 <= l <= h -> h < 32 ->
  Z.land (u32 (Z.shiftl x l)) (GENMASK h l) = (x mod 2 ^ (h - l + 1)) * 2 ^ l.
Proof.
  intros Hl Hh. rewrite <- Z.shiftl_mul_pow2 by lia.
  apply Z.bits_inj'. intros i Hi.
  unfold GENMASK. rewrite Z.land_spec, !Z.shiftl_spec by lia.
  destruct (Z.lt_ge_cases i l) as [Hlo|Hhi].
  - rewrite !(Z.testbit_neg_r _ (i - l)) by lia. apply andb_false_r.
  - destruct (Z.lt_ge_cases (i - l) (h - l + 1)) as [Hin|Hout].
    + rewrite Z.ones_spec_low, andb_true_r by lia.
      rewrite testbit_u32, Z.shiftl_spec by lia.
      by rewrite Z.mod_pow2_bits_low by lia.
    + rewrite Z.ones_spec_high, andb_false_r by lia.
      by rewrite Z.mod_pow2_bits_high by lia.
Qed.

(** Fields that do not overlap add up. *)
Lemma lor_add_high a b k :
  0 <= k -> 0 <= a < 2 ^ k -> Z.lor a (b * 2 ^ k) = a + b * 2 ^ k.
Proof.
  intros Hk Ha.
  assert (Z.land a (b * 2 ^ k) = 0) as Hdisj.
  { apply Z.bits_inj'. intros i Hi. rewrite Z.land_spec, Z.bits_0.
    rewrite <- Z.shiftl_mul_pow2 by lia.
    destruct (Z.lt_ge_cases i k) as [Hlo|Hhi].
    - by rewrite Z.shiftl_spec_low, andb_false_r by lia.
    - replace (Z.testbit a i) with false; [reflexivity|].
      symmetry. destruct (Z.eq_dec a 0) as [->|Hne]; [apply Z.bits_0|].
      apply Z.bits_above_log2; [lia|].
      apply Z.log2_lt_pow2; [lia|].
      apply Z.lt_le_trans with (2 ^ k); [lia|].
      apply Z.pow_le_mono_r; lia. }
  rewrite <- Z.lxor_lor by exact Hdisj.
  symmetry. by apply Z.add_nocarry_lxor.
Qed.

Section PllEncoding.
Context {P : Platform}.

(** The words that [stm32mp1_pll_config] writes, as sums of fields. *)
Lemma pllxcfgr2_word_sum pllcfg :
  stm32mp1_pll_compute_pllxcfgr2 pllcfg
  = array_get pllcfg (Z.of_nat PLLCFG_P) mod 2 ^ 7
    + (array_get pllcfg (Z.of_nat PLLCFG_Q) mod 2 ^ 7) * 2 ^ 8
    + (array_get pllcfg (Z.of_nat PLLCFG_R) mod 2 ^ 7) * 2 ^ 16.
Proof.
  unfold stm32mp1_pll_compute_pllxcfgr2. cbv zeta.
  unfold RCC_PLLNCFGR2_DIVP_SHIFT, RCC_PLLNCFGR2_DIVP_MASK,
    RCC_PLLNCFGR2_DIVQ_SHIFT, RCC_PLLNCFGR2_DIVQ_MASK,
    RCC_PLLNCFGR2_DIVR_SHIFT, RCC_PLLNCFGR2_DIVR_MASK.
  rewrite !encode_field by lia.
  set (p := array_get pllcfg (Z.of_nat PLLCFG_P) mod 2 ^ (6 - 0 + 1)).
  set (q := array_get pllcfg (Z.of_nat PLLCFG_Q) mod 2 ^ (14 - 8 + 1)).
  set (r := array_get pllcfg (Z.of_nat PLLCFG_R) mod 2 ^ (22 - 16 + 1)).
  assert (0 <= p < 2 ^ 7) by (apply Z.mod_pos_bound; lia).
  assert (0 <= q < 2 ^ 7) by (apply Z.mod_pos_bound; lia).
  assert (0 <= r < 2 ^ 7) by (apply Z.mod_pos_bound; lia).
  change (array_get pllcfg (Z.of_nat PLLCFG_P) mod 2 ^ 7) with p.
  change (array_get pllcfg (Z.of_nat PLLCFG_Q) mod 2 ^ 7) with q.
  change (array_get pllcfg (Z.of_nat PLLCFG_R) mod 2 ^ 7) with r.
  clearbody p q r.
  rewrite (lor_add_high (p * 2 ^ 0)) by lia.
  rewrite lor_add_high by lia. lia.
Qed.

Lemma pllxcfgr1_word_sum pll pllcfg s w :
  stm32mp1_pll_compute_pllxcfgr1 pll pllcfg s = inr w ->
  exists ifrge,
    0 <= ifrge <= 1
    /\ (plltype pll = PLL_1600 -> ifrge = 0)
    /\ w = array_get pllcfg (Z.of_nat PLLCFG_N) mod 2 ^ 9
           + (array_get pllcfg (Z.of_nat PLLCFG_M) mod 2 ^ 6) * 2 ^ 16
           + ifrge * 2 ^ 24.
Proof.
  unfold stm32mp1_pll_compute_pllxcfgr1. cbv zeta.
  destruct (_ || _); [discriminate|]. intros Hw. inversion Hw. clear Hw.
  unfold RCC_PLLNCFGR1_DIVN_SHIFT, RCC_PLLNCFGR1_DIVN_MASK,
    RCC_PLLNCFGR1_DIVM_SHIFT, RCC_PLLNCFGR1_DIVM_MASK,
    RCC_PLLNCFGR1_IFRGE_SHIFT, RCC_PLLNCFGR1_IFRGE_MASK.
  rewrite !encode_field by lia.
  set (n := array_get pllcfg (Z.of_nat PLLCFG_N) mod 2 ^ (8 - 0 + 1)).
  set (m := array_get pllcfg (Z.of_nat PLLCFG_M) mod 2 ^ (21 - 16 + 1)).
  assert (0 <= n < 2 ^ 9) by (apply Z.mod_pos_bound; lia).
  assert (0 <= m < 2 ^ 6) by (apply Z.mod_pos_bound; lia).
  match goal with |- context [if ?c then 1 else 0] =>
    set (cond := c); exists (if cond then 1 else 0) end.
  split; [destruct cond; lia|]. split.
  - intros Ht. unfold cond. rewrite Ht. reflexivity.
  - assert ((if cond then 1 else 0) mod 2 ^ (25 - 24 + 1)
            = if cond then 1 else 0) as -> by (by destruct cond).
    change (array_get pllcfg (Z.of_nat PLLCFG_N) mod 2 ^ 9) with n.
    change (array_get pllcfg (Z.of_nat PLLCFG_M) mod 2 ^ 6) with m.
    assert (0 <= (if cond then 1 else 0) <= 1) by (destruct cond; lia).
    generalize dependent (if cond then 1 else 0). intros g Hg.
    clearbody n m.
    rewrite (lor_add_high (n * 2 ^ 0)) by lia.
    rewrite lor_add_high by lia. lia.
Qed.

End PllEncoding.

Lemma decode_three a b c w :
  0 <= a < 2 ^ 7 -> 0 <= b < 2 ^ 7 -> 0 <= c < 2 ^ 7 ->
  w = a + b * 2 ^ 8 + c * 2 ^ 16 ->
  (w / 2 ^ (8 * 0)) mod 2 ^ 7 = a
  /\ (w / 2 ^ (8 * 1)) mod 2 ^ 7 = b
  /\ (w / 2 ^ (8 * 2)) mod 2 ^ 7 = c.
Proof.
  intros Ha Hb Hc ->.
  change (2 ^ (8 * 0)) with 1. change (2 ^ (8 * 1)) with 256.
  change (2 ^ (8 * 2)) with 65536. change (2 ^ 7) with 128 in *.
  change (2 ^ 8) with 256. change (2 ^ 16) with 65536.
  split_and!; Z.div_mod_to_equations; lia.
Qed.

Lemma decode_cfgr1 n m g w :
  0 <= n < 2 ^ 9 -> 0 <= m < 2 ^ 6 -> 0 <= g <= 1 ->
  w = n + m * 2 ^ 16 + g * 2 ^ 24 ->
  w mod 2 ^ 9 = n /\ (w / 2 ^ 16) mod 2 ^ 6 = m /\ 0 <= w < 2 ^ 32.
Proof.
  intros Hn Hm Hg ->.
  change (2 ^ 9) with 512 in *. change (2 ^ 6) with 64 in *.
  change (2 ^ 16) with 65536. change (2 ^ 24) with 16777216.
  change (2 ^ 32) with 4294967296.
  split_and!; try (Z.div_mod_to_equations; lia); lia.
Qed.

Lemma fracr_word_fields fracv :
  let w := pllxfracr_word fracv in
  u32 w = w /\ (w / 2 ^ 3) mod 2 ^ 13 = fracv mod 2 ^ 13
  /\ Z.testbit w 16 = true.
Proof.
  unfold pllxfracr_word, RCC_PLLNFRACR_FRACV_SHIFT, RCC_PLLNFRACR_FRACLE.
  cbv zeta. split_and!.
  - apply u32_fixed. intros i Hi.
    rewrite Z.lor_spec, testbit_u32_high, testbit_BIT by lia.
    rewrite orb_false_l. apply Z.eqb_neq. lia.
  - apply Z.bits_inj'. intros i Hi.
    rewrite <- Z.land_ones, <- Z.shiftr_div_pow2 by lia.
    rewrite <- (Z.land_ones fracv) by lia.
    rewrite !Z.land_spec, Z.shiftr_spec, Z.lor_spec by lia.
    destruct (Z.lt_ge_cases i 13) as [Hlo|Hhi].
    + rewrite testbit_u32, Z.shiftl_spec, testbit_BIT by lia.
      replace (i + 3 - 3) with i by lia.
      replace (16 =? i + 3) with false by (symmetry; apply Z.eqb_neq; lia).
      by rewrite orb_false_r.
    + by rewrite Z.ones_spec_high, !andb_false_r by lia.
  - rewrite Z.lor_spec, testbit_BIT by lia. apply orb_true_r.
Qed.

Section PllRoundTrip.
Context {P : Platform}.

Lemma get_fixed_set_rcc idx s m :
  stm32mp1_clk_get_fixed idx (set_rcc s m) = stm32mp1_clk_get_fixed idx s.
Proof. reflexivity. Qed.

Lemma compute_pllxcfgr1_frame pll pllcfg s s' :
  stm32mp1_osc s' = stm32mp1_osc s ->
  mmio_read_32 s' (rckxselr pll) = mmio_read_32 s (rckxselr pll) ->
  stm32mp1_pll_compute_pllxcfgr1 pll pllcfg s'
  = stm32mp1_pll_compute_pllxcfgr1 pll pllcfg s.
Proof.
  intros Hosc Hsel. unfold stm32mp1_pll_compute_pllxcfgr1.
  rewrite Hsel. unfold stm32mp1_clk_get_fixed. by rewrite Hosc.
Qed.

Lemma pll_config_writes pll_id pllcfg fracv s w :
  let pll := pll_ref pll_id in
  stm32mp1_pll_compute_pllxcfgr1 pll pllcfg s = inr w ->
  pll_registers_distinct pll ->
  let s' := snd (stm32mp1_pll_config pll_id pllcfg fracv s) in
  fst (stm32mp1_pll_config pll_id pllcfg fracv s) = Int 0
  /\ mmio_read_32 s' (pllxcfgr1 pll) = u32 w
  /\ mmio_read_32 s' (pllxfracr pll) = u32 (pllxfracr_word fracv)
  /\ mmio_read_32 s' (pllxcfgr2 pll)
     = u32 (stm32mp1_pll_compute_pllxcfgr2 pllcfg)
  /\ only_registers [pllxcfgr1 pll; pllxcfgr2 pll; pllxfracr pll] s s'.
Proof.
  intros pll Hw Hd. unfold stm32mp1_pll_config. fold pll. rewrite Hw.
  cbv zeta. unfold stm32mp1_pll_config_output, mmio_setbits_32. fold pll.
  unfold pll_registers_distinct in Hd. fold pll in Hd.
  apply NoDup_cons in Hd as [H0 Hd]. apply NoDup_cons in Hd as [H1 Hd].
  apply NoDup_cons in Hd as [H2 _].
  assert (pllxcfgr1 pll <> pllxcfgr2 pll) by set_solver.
  assert (pllxcfgr1 pll <> pllxfracr pll) by set_solver.
  assert (pllxcfgr2 pll <> pllxfracr pll) by set_solver.
  simpl fst. simpl snd. split_and!.
  - reflexivity.
  - by rewrite !read_write_ne, read_write_eq by congruence.
  - rewrite read_write_ne by congruence. rewrite read_write_eq.
    rewrite read_write_eq. unfold pllxfracr_word. rewrite u32_idem.
    reflexivity.
  - by rewrite read_write_eq.
  - split.
    + unfold mmio_write_32. repeat split.
    + intros addr Hin. simpl in Hin.
      rewrite !read_write_ne; [reflexivity|intros E; apply Hin; auto..].
Qed.

End PllRoundTrip.

Section PllRoundTrip2.
Context {P : Platform}.

(** The words and the fields that a successful [stm32mp1_pll_config]
    leaves in the registers. *)
Lemma pll_config_fields pll_id pllcfg fracv s w :
  stm32mp1_pll_compute_pllxcfgr1 (pll_ref pll_id) pllcfg s = inr w ->
  pll_registers_distinct (pll_ref pll_id) ->
  let pll := pll_ref pll_id in
  let s' := snd (stm32mp1_pll_config pll_id pllcfg fracv s) in
  fst (stm32mp1_pll_config pll_id pllcfg fracv s) = Int 0
  /\ mmio_read_32 s' (pllxcfgr1 pll) = w
  /\ mmio_read_32 s' (pllxfracr pll) = pllxfracr_word fracv
  /\ mmio_read_32 s' (pllxcfgr2 pll) = stm32mp1_pll_compute_pllxcfgr2 pllcfg
  /\ only_registers [pllxcfgr1 pll; pllxcfgr2 pll; pllxfracr pll] s s'
  /\ pll_DIVM pll s' = array_get pllcfg (Z.of_nat PLLCFG_M) mod 2 ^ 6
  /\ pll_DIVN pll s' = array_get pllcfg (Z.of_nat PLLCFG_N) mod 2 ^ 9
  /\ pll_FRACV pll s' = fracv mod 2 ^ 13
  /\ pll_FRACLE pll s' = true
  /\ pll_DIVY pll 0 s' = array_get pllcfg (Z.of_nat PLLCFG_P) mod 2 ^ 7
  /\ pll_DIVY pll 1 s' = array_get pllcfg (Z.of_nat PLLCFG_Q) mod 2 ^ 7
  /\ pll_DIVY pll 2 s' = array_get pllcfg (Z.of_nat PLLCFG_R) mod 2 ^ 7.
Proof.
  intros Hw Hd pll s'.
  destruct (pll_config_writes pll_id pllcfg fracv s w Hw Hd)
    as (Hr & H1 & Hf & H2 & Hfr).
  fold pll s' in Hr, H1, Hf, H2, Hfr.
  destruct (pllxcfgr1_word_sum _ _ _ _ Hw) as (g & Hg & _ & Hsum).
  destruct (decode_cfgr1 _ _ g w
              (Z.mod_pos_bound _ (2 ^ 9) eq_refl)
              (Z.mod_pos_bound _ (2 ^ 6) eq_refl) Hg Hsum)
    as (HN & HM & Hwr).
  rewrite (u32_small w) in H1 by exact Hwr.
  destruct (fracr_word_fields fracv) as (Hfu & Hfv & Hfl).
  rewrite Hfu in Hf.
  destruct (decode_three _ _ _ _
              (Z.mod_pos_bound _ (2 ^ 7) eq_refl)
              (Z.mod_pos_bound _ (2 ^ 7) eq_refl)
              (Z.mod_pos_bound _ (2 ^ 7) eq_refl)
              (pllxcfgr2_word_sum pllcfg))
    as (HP & HQ & HR).
  assert (u32 (stm32mp1_pll_compute_pllxcfgr2 pllcfg)
          = stm32mp1_pll_compute_pllxcfgr2 pllcfg) as H2u.
  { apply u32_small. rewrite pllxcfgr2_word_sum.
    pose proof (Z.mod_pos_bound (array_get pllcfg (Z.of_nat PLLCFG_P))
                  (2 ^ 7) eq_refl).
    pose proof (Z.mod_pos_bound (array_get pllcfg (Z.of_nat PLLCFG_Q))
                  (2 ^ 7) eq_refl).
    pose proof (Z.mod_pos_bound (array_get pllcfg (Z.of_nat PLLCFG_R))
                  (2 ^ 7) eq_refl).
    lia. }
  rewrite H2u in H2.
  unfold pll_DIVM, pll_DIVN, pll_FRACV, pll_FRACLE, pll_DIVY.
  rewrite H1, Hf, H2.
  split_and!; first [assumption | reflexivity].
Qed.

(** X7. What [stm32mp1_pll_config] writes is what the rate functions and
    [stm32mp1_is_pll_config_on_the_fly] read back: every field holds the
    value requested, cut to the width of the field, the fractional part is
    latched, no other register changes, and asking again whether the same
    configuration can be applied answers that nothing is to be done.  The
    only error is [-EINVAL], and then nothing was written. *)
Theorem pll_config_reads_back pll_id pllcfg fracv s :
  pll_registers_distinct (pll_ref pll_id) ->
  match stm32mp1_pll_config pll_id pllcfg fracv s with
  | (Int 0, s') =>
      pll_DIVM (pll_ref pll_id) s'
      = array_get pllcfg (Z.of_nat PLLCFG_M) mod 2 ^ 6
      /\ pll_DIVN (pll_ref pll_id) s'
         = array_get pllcfg (Z.of_nat PLLCFG_N) mod 2 ^ 9
      /\ pll_FRACV (pll_ref pll_id) s' = fracv mod 2 ^ 13
      /\ pll_FRACLE (pll_ref pll_id) s' = true
      /\ pll_DIVY (pll_ref pll_id) 0 s'
         = array_get pllcfg (Z.of_nat PLLCFG_P) mod 2 ^ 7
      /\ pll_DIVY (pll_ref pll_id) 1 s'
         = array_get pllcfg (Z.of_nat PLLCFG_Q) mod 2 ^ 7
      /\ pll_DIVY (pll_ref pll_id) 2 s'
         = array_get pllcfg (Z.of_nat PLLCFG_R) mod 2 ^ 7
      /\ only_registers [pllxcfgr1 (pll_ref pll_id);
                         pllxcfgr2 (pll_ref pll_id);
                         pllxfracr (pll_ref pll_id)] s s'
      /\ (forall result0,
            stm32mp1_is_pll_config_on_the_fly pll_id pllcfg fracv result0 s'
            = (Int 0, 1))
  | (r, s') => r = Err EINVAL /\ s' = s
  end.
Proof.
  intros Hd.
  destruct (stm32mp1_pll_compute_pllxcfgr1 (pll_ref pll_id) pllcfg s)
    as [e|w] eqn:Hw.
  { unfold stm32mp1_pll_config. rewrite Hw.
    unfold stm32mp1_pll_compute_pllxcfgr1 in Hw. cbv zeta in Hw.
    destruct (_ || _); [|discriminate]. by inversion Hw. }
  destruct (pll_config_fields pll_id pllcfg fracv s w Hw Hd)
    as (Hr & H1 & Hf & H2 & Hfr & HM & HN & HF & HL & HP & HQ & HR).
  destruct (stm32mp1_pll_config pll_id pllcfg fracv s) as [r s'].
  simpl in Hr, H1, Hf, H2, Hfr, HM, HN, HF, HL, HP, HQ, HR. subst r.
  split_and!; try assumption.
  intros result0. unfold stm32mp1_is_pll_config_on_the_fly.
  rewrite (compute_pllxcfgr1_frame _ _ s s').
  - unfold pllxfracr_word in Hf.
    rewrite Hw, H1, Hf, H2, !Z.eqb_refl. reflexivity.
  - destruct Hfr as [(Hosc & _) _]. congruence.
  - apply Hfr. unfold pll_registers_distinct in Hd.
    apply NoDup_cons in Hd as [H0 _]. intros Hin. apply H0.
    apply list_elem_of_In. exact Hin.
Qed.

(** X8. The rate read back after [stm32mp1_pll_config] is the rate of the
    configuration written: with the fields in range and the VCO rate within
    32 bits, output [div_id] runs at the fractional formula of (M, N, FRAC)
    divided by the requested divider plus one. *)
Theorem pll_config_sets_rate pll_id pllcfg fracv div_id s s' :
  pll_registers_distinct (pll_ref pll_id) ->
  0 <= array_get pllcfg (Z.of_nat PLLCFG_M) < 2 ^ 6 ->
  0 <= array_get pllcfg (Z.of_nat PLLCFG_N) < 2 ^ 9 ->
  0 <= fracv < 2 ^ 13 ->
  0 <= div_id < 3 ->
  0 <= array_get pllcfg (Z.of_nat PLLCFG_P + div_id) < 2 ^ 7 ->
  0 <= stm32mp1_pll_get_fref (pll_ref pll_id) s < 2 ^ 32 ->
  spec_pll_fvco (stm32mp1_pll_get_fref (pll_ref pll_id) s)
    (array_get pllcfg (Z.of_nat PLLCFG_M))
    (array_get pllcfg (Z.of_nat PLLCFG_N)) fracv true < 2 ^ 32 ->
  stm32mp1_pll_config pll_id pllcfg fracv s = (Int 0, s') ->
  stm32mp1_read_pll_freq pll_id div_id s'
  = spec_pll_fout
      (spec_pll_fvco (stm32mp1_pll_get_fref (pll_ref pll_id) s)
         (array_get pllcfg (Z.of_nat PLLCFG_M))
         (array_get pllcfg (Z.of_nat PLLCFG_N)) fracv true)
      (array_get pllcfg (Z.of_nat PLLCFG_P + div_id)).
Proof.
  intros Hd HM HN HF Hdiv HY Href Hfit Hcfg.
  destruct (stm32mp1_pll_compute_pllxcfgr1 (pll_ref pll_id) pllcfg s)
    as [e|w] eqn:Hw.
  { unfold stm32mp1_pll_config in Hcfg. rewrite Hw in Hcfg. discriminate. }
  destruct (pll_config_fields pll_id pllcfg fracv s w Hw Hd)
    as (_ & _ & _ & _ & (Hsw & Hfr) & EM & EN & EF & EL & EP & EQ & ER).
  rewrite Hcfg in Hsw, Hfr, EM, EN, EF, EL, EP, EQ, ER.
  cbn [snd] in Hsw, Hfr, EM, EN, EF, EL, EP, EQ, ER.
  rewrite Z.mod_small in EM, EN, EF by assumption.
  assert (stm32mp1_pll_get_fref (pll_ref pll_id) s'
          = stm32mp1_pll_get_fref (pll_ref pll_id) s) as Efref.
  { unfold stm32mp1_pll_get_fref. cbv zeta. rewrite Hfr.
    - unfold stm32mp1_clk_get_fixed.
      destruct Hsw as (Hosc & _). by rewrite <- Hosc.
    - unfold pll_registers_distinct in Hd.
      apply NoDup_cons in Hd as [H0 _]. intros Hin. apply H0.
      apply list_elem_of_In. exact Hin. }
  assert (pll_DIVY (pll_ref pll_id) div_id s'
          = array_get pllcfg (Z.of_nat PLLCFG_P + div_id)) as EY.
  { assert (div_id = 0 \/ div_id = 1 \/ div_id = 2) as [->|[->| ->]] by lia.
    - rewrite EP. apply Z.mod_small. exact HY.
    - rewrite EQ. apply Z.mod_small. exact HY.
    - rewrite ER. apply Z.mod_small. exact HY. }
  rewrite read_pll_freq_fields by exact Hdiv. rewrite EY. f_equal.
  pose proof (pll_fvco_exact (pll_ref pll_id) s') as Hex. cbv zeta in Hex.
  rewrite Efref, EM, EN, EF, EL in Hex. apply Hex; assumption.
Qed.

End PllRoundTrip2.

(** ** Wait loops *)

Section WaitLoops.
Context {P : Platform} {H : Hardware}.

Lemma hw_run_S k s : hw_run (S k) s = hw_run k (set_rcc s (hw_step (rcc s))).
Proof. reflexivity. Qed.

(** A wait loop stops at the first poll that finds the flag, or after all
    the polls of its timeout. *)
Lemma poll_while_spec n busy s :
  exists k,
    (k <= n)%nat
    /\ snd (poll_while n busy s) = hw_run k s
    /\ (forall j, (j < k)%nat -> busy (hw_run j s) = true)
    /\ busy (hw_run k s) = fst (poll_while n busy s)
    /\ (fst (poll_while n busy s) = true -> k = n).
Proof.
  revert s. induction n as [|n IH]; intros s.
  - exists 0%nat. simpl. destruct (busy s) eqn:E; simpl;
      split_and!; auto; intros; lia.
  - simpl. destruct (busy s) eqn:E.
    + destruct (IH (set_rcc s (hw_step (rcc s))))
        as (k & Hk & Hs & Hb & Hf & Hn).
      exists (S k). rewrite hw_run_S. split_and!; auto; try lia.
      intros [|j] Hj; [exact E|]. rewrite hw_run_S. apply Hb. lia.
    + exists 0%nat. simpl.
      split_and!; auto; try lia; try discriminate; intros; lia.
Qed.

Lemma hw_run_software k s : same_software_state s (hw_run k s).
Proof.
  revert s. induction k as [|k IH]; intros s; simpl.
  - apply same_software_state_refl.
  - eapply same_software_state_trans; [|apply IH].
    apply same_software_state_set_rcc.
Qed.

End WaitLoops.

Lemma reg_bit_write addr v s b :
  0 <= b < 32 -> reg_bit (mmio_write_32 addr v s) addr b = Z.testbit v b.
Proof.
  intros Hb. unfold reg_bit. rewrite read_write_eq. by apply testbit_u32.
Qed.

Lemma only_registers_write addr v s :
  only_registers [addr] s (mmio_write_32 addr v s).
Proof.
  split.
  - unfold mmio_write_32. apply same_software_state_set_rcc.
  - intros a Ha. apply read_write_ne. intros ->. apply Ha. by left.
Qed.

Lemma only_registers_trans l s1 s2 s3 :
  only_registers l s1 s2 -> only_registers l s2 s3 -> only_registers l s1 s3.
Proof.
  intros [Ha Hb] [Hc Hd]. split.
  - eapply same_software_state_trans; eassumption.
  - intros a Hin. rewrite Hd, Hb by assumption. reflexivity.
Qed.

Lemma testbit_on_off_mask b :
  0 <= b ->
  Z.testbit (Z.lor RCC_PLLNCR_DIVPEN
               (Z.lor RCC_PLLNCR_DIVQEN RCC_PLLNCR_DIVREN)) b
  = (b =? 4) || (b =? 5) || (b =? 6).
Proof.
  intros Hb. unfold RCC_PLLNCR_DIVPEN, RCC_PLLNCR_DIVQEN, RCC_PLLNCR_DIVREN.
  rewrite !Z.lor_spec, !testbit_BIT by lia.
  rewrite (Z.eqb_sym 4), (Z.eqb_sym 5), (Z.eqb_sym 6).
  by rewrite orb_assoc.
Qed.

Section PllOnOff.
Context {P : Platform} {H : Hardware}.

(** X9. [stm32mp1_pll_output] enables the outputs of a PLL only after it read
    the lock flag as set: it returns 0 at the first poll that sees
    [PLLRDY], having then set the requested enables on top of what the
    control register held, and [-ETIMEDOUT] when every poll of the timeout
    saw the flag clear, having written nothing. *)
Theorem pll_output_waits_for_lock pll_id output s :
  exists k,
    (k <= timeout_polls PLLRDY_TIMEOUT)%nat
    /\ (forall j, (j < k)%nat ->
          reg_bit (hw_run j s) (pllxcr (pll_ref pll_id)) 1 = false)
    /\ match stm32mp1_pll_output pll_id output s with
       | (Int 0, s') =>
           reg_bit (hw_run k s) (pllxcr (pll_ref pll_id)) 1 = true
           /\ only_registers [pllxcr (pll_ref pll_id)] (hw_run k s) s'
           /\ (forall b, 0 <= b < 32 ->
                 reg_bit s' (pllxcr (pll_ref pll_id)) b
                 = reg_bit (hw_run k s) (pllxcr (pll_ref pll_id)) b
                   || Z.testbit output (b - 4))
       | (r, s') =>
           r = Err ETIMEDOUT
           /\ k = timeout_polls PLLRDY_TIMEOUT
           /\ s' = hw_run k s
           /\ reg_bit s' (pllxcr (pll_ref pll_id)) 1 = false
       end.
Proof.
  unfold stm32mp1_pll_output. cbv zeta.
  match goal with |- context [poll_while ?n ?busy s] =>
    destruct (poll_while_spec n busy s) as (k & Hk & Hs & Hb & Hf & Hn);
    destruct (poll_while n busy s) as [timed_out t] end.
  simpl in Hs, Hf, Hn. subst t. exists k.
  unfold RCC_PLLNCR_PLLRDY in *. cbv beta in Hf.
  rewrite land_BIT_eqb in Hf by lia.
  split; [exact Hk|]. split.
  { intros j Hj. specialize (Hb j Hj). cbv beta in Hb.
    rewrite land_BIT_eqb in Hb by lia. unfold reg_bit.
    by destruct (Z.testbit _ 1). }
  destruct timed_out.
  - split_and!; auto. unfold reg_bit. by destruct (Z.testbit _ 1).
  - split_and!.
    + unfold reg_bit. by destruct (Z.testbit _ 1).
    + apply only_registers_write.
    + intros b Hb'. unfold mmio_setbits_32. rewrite reg_bit_write by lia.
      rewrite Z.lor_spec, testbit_u32 by lia.
      unfold RCC_PLLNCR_DIVEN_SHIFT. rewrite Z.shiftl_spec by lia.
      reflexivity.
Qed.

(** X10. Stopping and starting a PLL write only [PLLON] and the three output
    enables of its control register, so the spread-spectrum control bit
    keeps its value.  [stm32mp1_pll_start] sets [PLLON] and leaves every
    output off.  [stm32mp1_pll_stop] clears the four bits, then returns 0
    at the first poll that sees [PLLRDY] clear and [-ETIMEDOUT] when every
    poll of the timeout saw it set. *)
Theorem pll_start_stop_bits pll_id s :
  (only_registers [pllxcr (pll_ref pll_id)] s (stm32mp1_pll_start pll_id s)
   /\ forall b, 0 <= b < 32 ->
        reg_bit (stm32mp1_pll_start pll_id s) (pllxcr (pll_ref pll_id)) b
        = if b =? 0 then true
          else if pll_on_off_bit b then false
          else reg_bit s (pllxcr (pll_ref pll_id)) b)
  /\ exists s0 k,
       only_registers [pllxcr (pll_ref pll_id)] s s0
       /\ (forall b, 0 <= b < 32 ->
             reg_bit s0 (pllxcr (pll_ref pll_id)) b
             = if pll_on_off_bit b then false
               else reg_bit s (pllxcr (pll_ref pll_id)) b)
       /\ (k <= timeout_polls PLLRDY_TIMEOUT)%nat
       /\ snd (stm32mp1_pll_stop pll_id s) = hw_run k s0
       /\ (forall j, (j < k)%nat ->
             reg_bit (hw_run j s0) (pllxcr (pll_ref pll_id)) 1 = true)
       /\ match fst (stm32mp1_pll_stop pll_id s) with
          | Int 0 =>
              reg_bit (hw_run k s0) (pllxcr (pll_ref pll_id)) 1 = false
          | r =>
              r = Err ETIMEDOUT
              /\ k = timeout_polls PLLRDY_TIMEOUT
              /\ reg_bit (hw_run k s0) (pllxcr (pll_ref pll_id)) 1 = true
          end.
Proof.
  split.
  - unfold stm32mp1_pll_start, mmio_clrsetbits_32. cbv zeta. split.
    + apply only_registers_write.
    + intros b Hb. rewrite reg_bit_write by lia.
      rewrite Z.lor_spec, Z.ldiff_spec, testbit_on_off_mask by lia.
      unfold RCC_PLLNCR_PLLON. rewrite testbit_BIT by lia.
      unfold pll_on_off_bit, reg_bit. rewrite (Z.eqb_sym 0).
      destruct (b =? 0) eqn:E0; [apply orb_true_r|].
      rewrite orb_false_r, orb_false_l.
      destruct ((b =? 4) || (b =? 5) || (b =? 6)); simpl;
        [apply andb_false_r | apply andb_true_r].
  - unfold stm32mp1_pll_stop. cbv zeta.
    set (cr := pllxcr (pll_ref pll_id)).
    set (mask := Z.lor RCC_PLLNCR_DIVPEN
                   (Z.lor RCC_PLLNCR_DIVQEN RCC_PLLNCR_DIVREN)).
    set (s0 := mmio_clrbits_32 cr RCC_PLLNCR_PLLON
                 (mmio_clrbits_32 cr mask s)).
    match goal with |- context [poll_while ?n ?busy s0] =>
      destruct (poll_while_spec n busy s0) as (k & Hk & Hs & Hb & Hf & Hn);
      destruct (poll_while n busy s0) as [timed_out t] end.
    simpl in Hs, Hf, Hn. subst t. exists s0, k.
    unfold RCC_PLLNCR_PLLRDY in *. cbv beta in Hf.
    rewrite land_BIT_eqb, negb_involutive in Hf by lia.
    split_and!.
    + unfold s0, mmio_clrbits_32.
      eapply only_registers_trans; apply only_registers_write.
    + intros b Hb'. unfold s0, mmio_clrbits_32.
      rewrite reg_bit_write by lia. rewrite Z.ldiff_spec.
      fold (reg_bit (mmio_write_32 cr (Z.ldiff (mmio_read_32 s cr) mask) s)
              cr b).
      rewrite reg_bit_write by lia. rewrite Z.ldiff_spec.
      unfold mask. rewrite testbit_on_off_mask by lia.
      unfold RCC_PLLNCR_PLLON. rewrite testbit_BIT by lia.
      unfold pll_on_off_bit, reg_bit. rewrite (Z.eqb_sym 0).
      destruct (b =? 0), (b =? 4), (b =? 5), (b =? 6); simpl;
        rewrite ?andb_false_r, ?andb_true_r; reflexivity.
    + exact Hk.
    + by destruct timed_out.
    + intros j Hj. specialize (Hb j Hj). cbv beta in Hb.
      rewrite land_BIT_eqb, negb_involutive in Hb by lia. exact Hb.
    + destruct timed_out; simpl; [split_and!; auto|]; exact Hf.
Qed.

End PllOnOff.

(** ** Secure parent clocks *)

Lemma existsb_eqb_In x l : existsb (Z.eqb x) l = true <-> In x l.
Proof.
  rewrite existsb_exists. split.
  - intros (y & Hy & E). apply Z.eqb_eq in E. by subst.
  - intros Hx. exists x. split; [exact Hx|apply Z.eqb_refl].
Qed.

Lemma land_refclk_range x :
  let v := Z.land x RCC_SELR_REFCLK_SRC_MASK in
  v = 0 \/ v = 1 \/ v = 2 \/ v = 3.
Proof.
  cbv zeta. unfold RCC_SELR_REFCLK_SRC_MASK.
  change (GENMASK 1 0) with (GENMASK (2 - 1) 0).
  rewrite land_low_mask by lia.
  pose proof (Z.mod_pos_bound x (2 ^ 2) eq_refl). lia.
Qed.

Section SecureParentsProps.
Context {P : Platform} {SP : SecurePlatform}.

Lemma gpp_osc p s :
  In p [_HSI; _HSI_KER; _LSI; _CSI; _CSI_KER; _HSE; _HSE_KER;
        _HSE_KER_DIV2; _LSE] ->
  get_parent_id_parent p s = Ret (-1).
Proof. simpl. intuition; subst; reflexivity. Qed.

Lemma gpp_axis p s :
  In p [_ACLK; _PCLK4; _PCLK5] ->
  exists g, get_parent_id_parent p s = Ret g
            /\ (g = -1 \/ g = _HSI \/ g = _HSE \/ g = _PLL2_P).
Proof.
  intros Hp. unfold get_parent_id_parent. cbv zeta.
  apply existsb_eqb_In in Hp. rewrite Hp.
  match goal with |- context [if ?c <? ?n then _ else _] =>
    set (p_sel := c); set (nb := n) end.
  assert (0 <= p_sel) as Hnn.
  { unfold p_sel. apply Z.land_nonneg. right. unfold clk_sel_ref. simpl.
    unfold u8. apply Z.mod_pos_bound. lia. }
  assert (nb = 3) as -> by reflexivity.
  destruct (p_sel <? 3) eqn:E; [|eauto].
  apply Z.ltb_lt in E.
  assert (p_sel = 0 \/ p_sel = 1 \/ p_sel = 2) as [->|[->| ->]] by lia;
    eexists; (split; [reflexivity|]); auto.
Qed.

Lemma gpp_pll12 p s :
  In p [_PLL1_P; _PLL1_Q; _PLL1_R; _PLL2_P; _PLL2_Q; _PLL2_R] ->
  exists g, get_parent_id_parent p s = Ret g
            /\ (g = -1 \/ g = _HSI \/ g = _HSE).
Proof.
  intros Hp. unfold get_parent_id_parent. cbv zeta.
  assert (forall pll_id, pll_id = _PLL1 \/ pll_id = _PLL2 ->
            exists g,
              (let pll := pll_ref pll_id in
               let p_sel := Z.land (mmio_read_32 s (rckxselr pll))
                                   RCC_SELR_REFCLK_SRC_MASK in
               if negb (array_get (refclk pll) p_sel =? _UNKNOWN_OSC_ID)
               then Ret (array_get (refclk pll) p_sel) else Ret (-1))
              = Ret g /\ (g = -1 \/ g = _HSI \/ g = _HSE)) as Hpll.
  { intros pll_id Hid. cbv zeta.
    destruct (land_refclk_range (mmio_read_32 s (rckxselr (pll_ref pll_id))))
      as [E|[E|[E|E]]]; rewrite E;
      destruct Hid as [-> | ->]; eexists; (split; [reflexivity|]); auto. }
  simpl in Hp.
  destruct Hp as [<-|[<-|[<-|[<-|[<-|[<-|[]]]]]]];
    first [apply (Hpll _PLL1); auto | apply (Hpll _PLL2); auto].
Qed.

Lemma gpp_pll3 p s :
  In p [_PLL3_P; _PLL3_Q; _PLL3_R] ->
  exists g, get_parent_id_parent p s = Ret g
            /\ (g = -1 \/ g = _HSI \/ g = _HSE \/ g = _CSI).
Proof.
  intros Hp. unfold get_parent_id_parent. cbv zeta.
  assert (exists g,
              (let pll := pll_ref _PLL3 in
               let p_sel := Z.land (mmio_read_32 s (rckxselr pll))
                                   RCC_SELR_REFCLK_SRC_MASK in
               if negb (array_get (refclk pll) p_sel =? _UNKNOWN_OSC_ID)
               then Ret (array_get (refclk pll) p_sel) else Ret (-1))
              = Ret g /\ (g = -1 \/ g = _HSI \/ g = _HSE \/ g = _CSI))
    as Hpll.
  { cbv zeta.
    destruct (land_refclk_range (mmio_read_32 s (rckxselr (pll_ref _PLL3))))
      as [E|[E|[E|E]]]; rewrite E;
      eexists; (split; [reflexivity|]); auto. }
  simpl in Hp. destruct Hp as [<-|[<-|[<-|[]]]]; apply Hpll.
Qed.

Lemma spc_osc fuel p s :
  In p [_HSI; _HSI_KER; _LSI; _CSI; _CSI_KER; _HSE; _HSE_KER;
        _HSE_KER_DIV2; _LSE] ->
  secure_parent_clocks (S fuel) p s = Some (Ret []).
Proof.
  intros Hp. cbn [secure_parent_clocks]. rewrite (gpp_osc p s Hp).
  simpl in Hp. intuition; subst; reflexivity.
Qed.

Lemma secure_parent_clocks_S fuel p s :
  secure_parent_clocks (S fuel) p s
  = match (if existsb (Z.eqb p) [_PLL3_P; _PLL3_Q; _PLL3_R]
           then Some [STM32MP1_SHRES_PLL3]
           else if existsb (Z.eqb p)
                     [_ACLK; _HCLK2; _HCLK6; _PCLK4; _PCLK5;
                      _PLL1_P; _PLL1_Q; _PLL1_R; _PLL2_P; _PLL2_Q; _PLL2_R;
                      _HSI; _HSI_KER; _LSI; _CSI; _CSI_KER; _HSE; _HSE_KER;
                      _HSE_KER_DIV2; _LSE]
           then Some [] else None) with
    | None => Some Panic
    | Some l =>
        match get_parent_id_parent p s with
        | Panic => Some Panic
        | Ret grandparent_id =>
            if 0 <=? grandparent_id then
              match secure_parent_clocks fuel grandparent_id s with
              | Some (Ret l') => Some (Ret (l ++ l'))
              | other => other
              end
            else Some (Ret l)
        end
    end.
Proof. reflexivity. Qed.

Lemma spc_pll12 fuel p s :
  In p [_PLL1_P; _PLL1_Q; _PLL1_R; _PLL2_P; _PLL2_Q; _PLL2_R] ->
  secure_parent_clocks (S (S fuel)) p s = Some (Ret []).
Proof.
  intros Hp. destruct (gpp_pll12 p s Hp) as (g & Hg & Hcases).
  rewrite secure_parent_clocks_S, Hg.
  assert (existsb (Z.eqb p) [_PLL3_P; _PLL3_Q; _PLL3_R] = false) as ->
    by (simpl in Hp; intuition; subst; reflexivity).
  match goal with |- context [existsb (Z.eqb p) ?l] =>
    assert (existsb (Z.eqb p) l = true) as ->
      by (simpl in Hp; intuition; subst; reflexivity) end.
  destruct Hcases as [->|[->| ->]].
  - reflexivity.
  - change (0 <=? _HSI) with true. cbv iota.
    rewrite spc_osc by (simpl; auto). reflexivity.
  - change (0 <=? _HSE) with true. cbv iota.
    rewrite spc_osc by (simpl; auto 10). reflexivity.
Qed.

Lemma spc_pll3 fuel p s :
  In p [_PLL3_P; _PLL3_Q; _PLL3_R] ->
  secure_parent_clocks (S (S fuel)) p s = Some (Ret [STM32MP1_SHRES_PLL3]).
Proof.
  intros Hp. destruct (gpp_pll3 p s Hp) as (g & Hg & Hcases).
  rewrite secure_parent_clocks_S, Hg.
  rewrite (proj2 (existsb_eqb_In p _) Hp).
  destruct Hcases as [->|[->|[->| ->]]].
  - reflexivity.
  - change (0 <=? _HSI) with true. cbv iota.
    rewrite spc_osc by (simpl; auto). reflexivity.
  - change (0 <=? _HSE) with true. cbv iota.
    rewrite spc_osc by (simpl; auto 10). reflexivity.
  - change (0 <=? _CSI) with true. cbv iota.
    rewrite spc_osc by (simpl; auto 10). reflexivity.
Qed.

Lemma spc_axis fuel p s :
  In p [_ACLK; _PCLK4; _PCLK5] ->
  secure_parent_clocks (S (S (S fuel))) p s = Some (Ret []).
Proof.
  intros Hp. destruct (gpp_axis p s Hp) as (g & Hg & Hcases).
  rewrite secure_parent_clocks_S, Hg.
  assert (existsb (Z.eqb p) [_PLL3_P; _PLL3_Q; _PLL3_R] = false) as ->
    by (simpl in Hp; intuition; subst; reflexivity).
  match goal with |- context [existsb (Z.eqb p) ?l] =>
    assert (existsb (Z.eqb p) l = true) as ->
      by (simpl in Hp; intuition; subst; reflexivity) end.
  destruct Hcases as [->|[->|[->| ->]]].
  - reflexivity.
  - change (0 <=? _HSI) with true. cbv iota.
    rewrite spc_osc by (simpl; auto). reflexivity.
  - change (0 <=? _HSE) with true. cbv iota.
    rewrite spc_osc by (simpl; auto 10). reflexivity.
  - change (0 <=? _PLL2_P) with true. cbv iota.
    rewrite spc_pll12 by (simpl; auto 10). reflexivity.
Qed.

Lemma spc_hclk fuel p s :
  In p [_HCLK2; _HCLK6] -> secure_parent_clocks (S fuel) p s = Some Panic.
Proof.
  intros Hp. rewrite secure_parent_clocks_S.
  simpl in Hp. intuition; subst; reflexivity.
Qed.

Lemma secure_parent_clocks_closed fuel parent_id s :
  secure_parent_clocks (S (S (S fuel))) parent_id s
  = Some (if existsb (Z.eqb parent_id) [_PLL3_P; _PLL3_Q; _PLL3_R]
          then Ret [STM32MP1_SHRES_PLL3]
          else if existsb (Z.eqb parent_id) securable_parents then Ret []
          else Panic).
Proof.
  destruct (existsb (Z.eqb parent_id) [_PLL3_P; _PLL3_Q; _PLL3_R]) eqn:E3.
  { apply existsb_eqb_In in E3. by apply spc_pll3. }
  destruct (existsb (Z.eqb parent_id) securable_parents) eqn:Es.
  { apply existsb_eqb_In in Es. unfold securable_parents in Es.
    simpl in Es.
    destruct Es as [<-|[<-|[<-|Es]]];
      [apply spc_axis; simpl; auto..|].
    destruct Es as [<-|[<-|[<-|[<-|[<-|[<-|Es]]]]]];
      [apply spc_pll12; simpl; auto 10..|].
    apply spc_osc. simpl. tauto. }
  destruct (existsb (Z.eqb parent_id)
              [_ACLK; _HCLK2; _HCLK6; _PCLK4; _PCLK5;
               _PLL1_P; _PLL1_Q; _PLL1_R; _PLL2_P; _PLL2_Q; _PLL2_R;
               _HSI; _HSI_KER; _LSI; _CSI; _CSI_KER; _HSE; _HSE_KER;
               _HSE_KER_DIV2; _LSE]) eqn:El.
  - apply existsb_eqb_In in El.
    assert (In parent_id [_HCLK2; _HCLK6]) as Hh.
    { assert (~ In parent_id securable_parents) as Hn.
      { intros Hin. apply existsb_eqb_In in Hin. congruence. }
      unfold securable_parents in Hn. simpl in El, Hn |- *. tauto. }
    by apply spc_hclk.
  - rewrite secure_parent_clocks_S, E3, El. reflexivity.
Qed.

(** X17. Whether a parent clock can be registered as secure does not depend on
    the registers, and the parents of parents are never followed for more
    than three calls: the three outputs of PLL3 register PLL3, eighteen
    parents register nothing, and every other parent halts the firmware.
    Among these are [_HCLK2] and [_HCLK6]: the function lists them as
    always secure, then looks up their parent, which halts. *)
Theorem secure_parent_clocks_outcome fuel parent_id s :
  (3 <= fuel)%nat ->
  secure_parent_clocks fuel parent_id s
  = Some (if existsb (Z.eqb parent_id) [_PLL3_P; _PLL3_Q; _PLL3_R]
          then Ret [STM32MP1_SHRES_PLL3]
          else if existsb (Z.eqb parent_id) securable_parents then Ret []
          else Panic).
Proof.
  intros Hfuel. destruct fuel as [|[|[|fuel]]]; try lia.
  apply secure_parent_clocks_closed.
Qed.

(** X18. Registering the parents of a clock as secure follows the parent that
    [stm32mp1_clk_get_parent] reads: nothing happens outside BL32 or when
    the RCC is not secure, and otherwise the call registers PLL3 when that
    parent is an output of PLL3, registers nothing when it is another
    securable parent or when there is none, and halts the firmware in every
    other case. *)
Theorem register_clock_parents_secure_outcome fuel clock_id s :
  (3 <= fuel)%nat ->
  exists r,
    stm32mp1_register_clock_parents_secure fuel clock_id s = Some r
    /\ (IMAGE = IMAGE_BL2 \/ stm32mp1_rcc_is_secure s = false -> r = Ret [])
    /\ (IMAGE = IMAGE_BL32 -> stm32mp1_rcc_is_secure s = true ->
        ~ In clock_id [PLL1; PLL2; PLL3; PLL4] ->
        r = match stm32mp1_clk_get_parent clock_id s with
            | Panic => Panic
            | Ret (Err _) => Ret []
            | Ret (Int p) =>
                if existsb (Z.eqb p) [_PLL3_P; _PLL3_Q; _PLL3_R]
                then Ret [STM32MP1_SHRES_PLL3]
                else if existsb (Z.eqb p) securable_parents then Ret []
                else Panic
            end).
Proof.
  intros Hfuel. unfold stm32mp1_register_clock_parents_secure.
  destruct IMAGE eqn:Eimg.
  { eexists. split; [reflexivity|]. split; [reflexivity|discriminate]. }
  destruct (stm32mp1_rcc_is_secure s) eqn:Esec; simpl negb; cbv iota.
  2:{ eexists. split; [reflexivity|]. split; [reflexivity|discriminate]. }
  assert (forall r : result (list shres),
            (IMAGE_BL32 = IMAGE_BL2 \/ true = false -> r = Ret []))
    as Hvoid by (intros r [?|?]; discriminate).
  destruct ((clock_id =? PLL1) || (clock_id =? PLL2)) eqn:E12.
  { eexists. split; [reflexivity|]. split; [apply Hvoid|].
    intros _ _ Hn. exfalso. apply Hn. simpl.
    apply orb_true_iff in E12 as [E|E]; apply Z.eqb_eq in E; auto. }
  destruct (clock_id =? PLL3) eqn:E3.
  { eexists. split; [reflexivity|]. split; [apply Hvoid|].
    intros _ _ Hn. exfalso. apply Hn. simpl. apply Z.eqb_eq in E3. auto. }
  destruct (clock_id =? PLL4) eqn:E4.
  { eexists. split; [reflexivity|]. split; [apply Hvoid|].
    intros _ _ Hn. exfalso. apply Hn. simpl. apply Z.eqb_eq in E4. auto. }
  destruct (stm32mp1_clk_get_parent clock_id s) as [[p|e]|] eqn:Hp.
  - destruct (clk_get_parent_in_range _ _ _ Hp) as [?|(p' & Hp' & Hr)];
      [discriminate|]. inversion Hp'; subst p'.
    assert ((p <? 0) = false) as ->
      by (apply Z.ltb_ge; unfold _PARENT_NB, _UNKNOWN_ID in Hr; lia).
    destruct fuel as [|[|[|fuel]]]; try lia.
    rewrite secure_parent_clocks_closed.
    eexists. split; [reflexivity|]. split; [apply Hvoid|reflexivity].
  - eexists. split; [reflexivity|]. split; [apply Hvoid|reflexivity].
  - eexists. split; [reflexivity|]. split; [apply Hvoid|reflexivity].
Qed.

End SecureParentsProps.

(** ** Resume *)

Lemma NoDup_map_filter_nth {A B : Type} (f : A -> B) (p : A -> bool)
  (l : list A) (d : A) (i j : nat) :
  NoDup (map f (filter (fun x => p x = true) l)) ->
  (i < length l)%nat -> (j < length l)%nat -> i <> j ->
  p (nth i l d) = true -> p (nth j l d) = true ->
  f (nth i l d) <> f (nth j l d).
Proof.
  revert i j. induction l as [|a l IH]; intros i j Hnd Hi Hj Hij Hpi Hpj.
  { simpl in Hi. lia. }
  assert (forall k, (k < length l)%nat -> p (nth k l d) = true ->
            In (f (nth k l d)) (map f (filter (fun x => p x = true) l)))
    as Hin.
  { intros k Hk Hp. apply in_map. apply list_elem_of_In.
    apply list_elem_of_filter. split; [exact Hp|].
    apply list_elem_of_In. by apply nth_In. }
  destruct i as [|i], j as [|j]; simpl in *; try lia.
  - rewrite filter_cons_True in Hnd by exact Hpi. simpl in Hnd.
    apply NoDup_cons in Hnd as [Hn _]. intros E. apply Hn.
    apply list_elem_of_In. rewrite E. apply Hin; [lia|exact Hpj].
  - rewrite filter_cons_True in Hnd by exact Hpj. simpl in Hnd.
    apply NoDup_cons in Hnd as [Hn _]. intros E. apply Hn.
    apply list_elem_of_In. rewrite <- E. apply Hin; [lia|exact Hpi].
  - apply IH; try lia; try assumption.
    destruct (p a) eqn:Ea.
    + rewrite filter_cons_True in Hnd by exact Ea. simpl in Hnd.
      by apply NoDup_cons in Hnd as [_ Hnd].
    + rewrite filter_cons_False in Hnd by congruence. exact Hnd.
Qed.

Section ResumeSync.
Context {P : Platform} {PM : PmPlatform}.

Lemma gate_ref_bits i :
  (i < NB_GATES)%nat -> 0 <= gate_bit (gate_ref (Z.of_nat i)) < 32.
Proof.
  intros Hi. pose proof gate_table_bits as HF.
  rewrite List.Forall_forall in HF. apply HF.
  unfold gate_ref. rewrite Nat2Z.id. by apply nth_In.
Qed.

Lemma synced_gate_bit_In i :
  (i < NB_GATES)%nat -> resume_synced (gate_ref (Z.of_nat i)) = true ->
  In (gate_offset (gate_ref (Z.of_nat i)), gate_bit (gate_ref (Z.of_nat i)))
     synced_gate_bits.
Proof.
  intros Hi Hs. unfold synced_gate_bits.
  apply (in_map (fun gate => (gate_offset gate, gate_bit gate))).
  apply list_elem_of_In. apply list_elem_of_filter. split; [exact Hs|].
  apply list_elem_of_In. unfold gate_ref. rewrite Nat2Z.id. by apply nth_In.
Qed.

Lemma clock_resume_sync_software s idx :
  same_software_state s (clock_resume_sync s idx).
Proof.
  unfold clock_resume_sync. cbv zeta.
  destruct (clock_is_always_on _); [apply same_software_state_refl|].
  destruct (gate_is_non_secure _); [apply same_software_state_refl|].
  destruct (negb _).
  - unfold __clk_enable, mmio_write_32_enset, stm32mp_mmio_setbits_32_shregs,
      mmio_setbits_32, mmio_write_32.
    destruct (negb _); apply same_software_state_set_rcc.
  - unfold __clk_disable, mmio_write_32_enclr,
      stm32mp_mmio_clrbits_32_shregs, mmio_clrbits_32, mmio_write_32.
    destruct (negb _); apply same_software_state_set_rcc.
Qed.

Lemma clock_resume_sync_other_bits s idx addr k :
  (idx < NB_GATES)%nat -> 0 <= k < 32 ->
  (resume_synced (gate_ref (Z.of_nat idx)) = true ->
   (addr, k) <> (gate_offset (gate_ref (Z.of_nat idx)),
                 gate_bit (gate_ref (Z.of_nat idx)))) ->
  reg_bit (clock_resume_sync s idx) addr k = reg_bit s addr k.
Proof.
  intros Hidx Hk Hne. unfold clock_resume_sync, resume_synced in *.
  cbv zeta.
  destruct (clock_is_always_on _); [reflexivity|].
  destruct (gate_is_non_secure _); [reflexivity|].
  specialize (Hne eq_refl). unfold reg_bit.
  destruct (negb _).
  - apply clk_enable_other_bits; auto using gate_ref_bits.
  - apply clk_disable_other_bits; auto using gate_ref_bits.
Qed.

Lemma clock_resume_sync_own_bit s idx :
  (idx < NB_GATES)%nat ->
  resume_synced (gate_ref (Z.of_nat idx)) = true ->
  __clk_is_enabled (gate_ref (Z.of_nat idx)) (clock_resume_sync s idx)
  = negb (refcount_of (Z.of_nat idx) s =? 0).
Proof.
  intros Hidx Hs. unfold clock_resume_sync, resume_synced in *. cbv zeta.
  destruct (clock_is_always_on _); [discriminate|].
  destruct (gate_is_non_secure _); [discriminate|].
  destruct (negb (refcount_of _ _ =? 0)).
  - apply clk_enable_is_enabled. by apply gate_ref_bits.
  - apply clk_disable_is_enabled. by apply gate_ref_bits.
Qed.

Lemma is_enabled_reg_bit g s :
  0 <= gate_bit g < 32 ->
  __clk_is_enabled g s = reg_bit s (gate_offset g) (gate_bit g).
Proof.
  intros Hb. unfold __clk_is_enabled, reg_bit.
  by rewrite land_BIT_eqb, negb_involutive by lia.
Qed.

Lemma sync_loop_software l s :
  same_software_state s (fold_left clock_resume_sync l s).
Proof.
  revert s. induction l as [|x l IH]; intros s; simpl.
  - apply same_software_state_refl.
  - eapply same_software_state_trans; [apply clock_resume_sync_software|].
    apply IH.
Qed.

Lemma sync_loop_other_bits l s addr k :
  Forall (fun idx => (idx < NB_GATES)%nat) l -> 0 <= k < 32 ->
  ~ In (addr, k) synced_gate_bits ->
  reg_bit (fold_left clock_resume_sync l s) addr k = reg_bit s addr k.
Proof.
  intros Hl Hk Hn. revert s.
  induction Hl as [|x l Hx Hl IH]; intros s; simpl; [reflexivity|].
  rewrite IH. apply clock_resume_sync_other_bits; auto.
  intros Hs E. apply Hn. rewrite E. by apply synced_gate_bit_In.
Qed.

Lemma sync_loop_syncs n s i :
  NoDup synced_gate_bits ->
  (n <= NB_GATES)%nat -> (i < n)%nat ->
  resume_synced (gate_ref (Z.of_nat i)) = true ->
  __clk_is_enabled (gate_ref (Z.of_nat i))
    (fold_left clock_resume_sync (seq 0 n) s)
  = negb (refcount_of (Z.of_nat i) s =? 0).
Proof.
  intros Hnd. induction n as [|n IH]; intros Hn Hi Hs; [lia|].
  rewrite seq_S, fold_left_app. simpl.
  set (t := fold_left clock_resume_sync (seq 0 n) s).
  assert (refcount_of (Z.of_nat i) t = refcount_of (Z.of_nat i) s) as Hrc.
  { unfold refcount_of.
    destruct (sync_loop_software (seq 0 n) s) as (_ & Hg & _).
    fold t in Hg. by rewrite Hg. }
  destruct (Nat.eq_dec i n) as [->|Hne].
  - rewrite clock_resume_sync_own_bit by (auto; lia). by rewrite Hrc.
  - rewrite is_enabled_reg_bit by (apply gate_ref_bits; lia).
    rewrite clock_resume_sync_other_bits; try lia.
    + rewrite <- is_enabled_reg_bit by (apply gate_ref_bits; lia).
      apply IH; auto; lia.
    + apply gate_ref_bits. lia.
    + intros Hsn. unfold gate_ref. rewrite !Nat2Z.id.
      apply (NoDup_map_filter_nth
               (fun gate => (gate_offset gate, gate_bit gate))
               resume_synced stm32mp1_clk_gate);
        fold NB_GATES; try lia; try exact Hnd.
      * unfold gate_ref in Hs. by rewrite Nat2Z.id in Hs.
      * unfold gate_ref in Hsn. by rewrite Nat2Z.id in Hsn.
Qed.

Lemma disable_kernel_clocks_frame s :
  same_software_state s (disable_kernel_clocks s)
  /\ forall addr, addr <> kernel_clocks_register ->
       mmio_read_32 (disable_kernel_clocks s) addr = mmio_read_32 s addr.
Proof.
  unfold disable_kernel_clocks, mmio_write_32_enclr. cbv zeta. split.
  - apply same_software_state_set_rcc.
  - intros addr Hne. unfold mmio_read_32 at 1. simpl.
    rewrite lookup_insert_ne; [reflexivity|].
    unfold kernel_clocks_register in Hne. congruence.
Qed.

End ResumeSync.

Lemma testbit_GENMASK h l j :
  0 <= l <= h + 1 -> 0 <= j ->
  Z.testbit (GENMASK h l) j = (l <=? j) && (j <=? h).
Proof.
  intros Hl Hj. unfold GENMASK. rewrite Z.shiftl_spec by lia.
  destruct (Z.leb_spec l j); simpl.
  - destruct (Z.leb_spec j h).
    + apply Z.ones_spec_low. lia.
    + apply Z.ones_spec_high. lia.
  - apply Z.testbit_neg_r. lia.
Qed.

Lemma testbit_u8 x j : 0 <= j < 8 -> Z.testbit (u8 x) j = Z.testbit x j.
Proof. intros. unfold u8. apply Z.mod_pow2_bits_low. lia. Qed.

(** A loop of writes establishes a property of the registers as soon as
    one turn does, when every turn keeps it. *)
Lemma fold_left_establish {C : Type} (step : clk_state -> C -> clk_state)
  (covers : C -> bool) (I : clk_state -> Prop) (l : list C) :
  (forall c s, In c l -> covers c = true -> I (step s c)) ->
  (forall c s, In c l -> I s -> I (step s c)) ->
  forall s, existsb covers l = true \/ I s -> I (fold_left step l s).
Proof.
  induction l as [|c l IH]; intros Hest Hkeep s Hs; simpl in *.
  - destruct Hs as [?|?]; [discriminate|assumption].
  - apply IH.
    + intros; apply Hest; auto.
    + intros; apply Hkeep; auto.
    + destruct Hs as [Hs|Hs].
      * apply orb_true_iff in Hs as [Hc|Hl]; [right|left; exact Hl].
        apply Hest; auto.
      * right. apply Hkeep; auto.
Qed.

Lemma fold_left_software {C : Type} (step : clk_state -> C -> clk_state)
  (l : list C) :
  (forall c s, same_software_state s (step s c)) ->
  forall s, same_software_state s (fold_left step l s).
Proof.
  intros Hstep. induction l as [|c l IH]; intros s; simpl.
  - apply same_software_state_refl.
  - eapply same_software_state_trans; [apply Hstep|apply IH].
Qed.

Section Restore.
Context {P : Platform} {PM : PmPlatform}.

Lemma restore_mux_cfg_software b s :
  same_software_state s (restore_mux_cfg b s).
Proof.
  unfold restore_mux_cfg. cbv zeta.
  match goal with
  | |- same_software_state s (fold_left ?f2 ?l2 (fold_left ?f1 ?l1 s)) =>
      apply (same_software_state_trans s (fold_left f1 l1 s));
        [apply (fold_left_software f1 l1)|apply (fold_left_software f2 l2)]
  end;
    intros; unfold mmio_clrsetbits_32, mmio_write_32;
    apply same_software_state_set_rcc.
Qed.

Lemma restore_sc_cfg_software b s :
  same_software_state s (restore_sc_cfg b s).
Proof.
  unfold restore_sc_cfg. apply fold_left_software. intros c t. cbv zeta.
  unfold mmio_write_32_enclr, mmio_write_32_enset. cbv zeta.
  eapply same_software_state_trans; apply same_software_state_set_rcc.
Qed.

Lemma restore_regular_cfg_software b s :
  same_software_state s (restore_regular_cfg b s).
Proof.
  unfold restore_regular_cfg. apply fold_left_software. intros c t.
  unfold mmio_write_32. apply same_software_state_set_rcc.
Qed.

(** X19. After [stm32mp1_clock_resume], the enable bit of every secure or
    shared gate that is not always on tells whether its reference count is
    non zero: set for a counted gate, clear for an unused one, whatever the
    restored words held.  The reference counts themselves are not
    changed. *)
Theorem clock_resume_syncs_secure_gates b s :
  NoDup synced_gate_bits ->
  ~ In kernel_clocks_register (map fst synced_gate_bits) ->
  same_software_state s (stm32mp1_clock_resume b s)
  /\ forall i, (i < NB_GATES)%nat ->
       resume_synced (gate_ref (Z.of_nat i)) = true ->
       __clk_is_enabled (gate_ref (Z.of_nat i)) (stm32mp1_clock_resume b s)
       = negb (refcount_of (Z.of_nat i) s =? 0).
Proof.
  intros Hnd Hker. unfold stm32mp1_clock_resume. cbv zeta.
  set (s1 := restore_regular_cfg b (restore_sc_cfg b (restore_mux_cfg b s))).
  assert (same_software_state s s1) as Hs1.
  { eapply same_software_state_trans; [apply restore_mux_cfg_software|].
    eapply same_software_state_trans; [apply restore_sc_cfg_software|].
    apply restore_regular_cfg_software. }
  split.
  - eapply same_software_state_trans; [exact Hs1|].
    eapply same_software_state_trans; [apply sync_loop_software|].
    apply disable_kernel_clocks_frame.
  - intros i Hi Hs. unfold __clk_is_enabled.
    rewrite (proj2 (disable_kernel_clocks_frame _)).
    + fold (__clk_is_enabled (gate_ref (Z.of_nat i))
              (fold_left clock_resume_sync (seq 0 NB_GATES) s1)).
      rewrite sync_loop_syncs by auto.
      unfold refcount_of. destruct Hs1 as (_ & Hg & _). by rewrite Hg.
    + intros E. apply Hker. rewrite <- E.
      apply (in_map fst _ _ (synced_gate_bit_In i Hi Hs)).
Qed.

End Restore.

Section RoundTrip.
Context {P : Platform} {PM : PmPlatform}.

Lemma reg_bit_write_ne a v s addr k :
  a <> addr -> reg_bit (mmio_write_32 a v s) addr k = reg_bit s addr k.
Proof. intros. unfold reg_bit. by rewrite read_write_ne. Qed.

(** One turn of [restore_mux_cfg], for a field saved from [s0]. *)
Lemma restore_mux_step (s0 s : clk_state) off mask addr k :
  0 <= k < 32 ->
  (forall j, 0 <= j -> Z.testbit mask j = true -> j < 8) ->
  let value := u8 (Z.land (mmio_read_32 s0 off) mask) in
  reg_bit (mmio_clrsetbits_32 off mask (Z.land value mask) s) addr k
  = if (off =? addr) && Z.testbit mask k then reg_bit s0 addr k
    else reg_bit s addr k.
Proof.
  intros Hk Hmask value. unfold mmio_clrsetbits_32.
  destruct (Z.eqb_spec off addr) as [->|Hne]; simpl.
  - rewrite reg_bit_write by lia.
    rewrite Z.lor_spec, Z.ldiff_spec, Z.land_spec.
    destruct (Z.testbit mask k) eqn:Em.
    + pose proof (Hmask k (proj1 Hk) Em) as Hk8.
      unfold value. rewrite testbit_u8 by lia.
      rewrite Z.land_spec, Em. unfold reg_bit.
      by rewrite andb_false_r, !andb_true_r.
    + unfold reg_bit. by rewrite !andb_false_r, andb_true_r, orb_false_r.
  - by apply reg_bit_write_ne.
Qed.

(** One turn of [restore_sc_cfg]. *)
Lemma restore_sc_step (s : clk_state) off value addr k :
  0 <= k < 32 ->
  reg_bit (mmio_write_32_enclr (off + RCC_MP_ENCLRR_OFFSET)
             (u32 (Z.lnot (u32 value)))
             (mmio_write_32_enset off (u32 value) s)) addr k
  = if off =? addr then Z.testbit value k else reg_bit s addr k.
Proof.
  intros Hk. unfold mmio_write_32_enclr. cbv zeta.
  replace (off + RCC_MP_ENCLRR_OFFSET - RCC_MP_ENCLRR_OFFSET) with off
    by lia.
  unfold reg_bit, mmio_write_32_enset.
  destruct (Z.eqb_spec off addr) as [->|Hne].
  - unfold mmio_read_32. simpl. rewrite !lookup_insert_eq. simpl.
    rewrite testbit_u32, Z.ldiff_spec, !testbit_u32, Z.lor_spec,
      Z.lnot_spec, !testbit_u32 by lia.
    destruct (Z.testbit value k); simpl;
      [by rewrite orb_true_r | apply andb_false_r].
  - unfold mmio_read_32. simpl. by rewrite !lookup_insert_ne.
Qed.

Lemma mux0_mask_bits cfg j :
  1 <= mux_bit_len cfg <= 8 -> 0 <= j ->
  Z.testbit (mux0_mask cfg) j = (j <? mux_bit_len cfg).
Proof.
  intros Hl Hj. unfold mux0_mask. rewrite u32_small by lia.
  rewrite testbit_GENMASK by lia.
  destruct (Z.leb_spec 0 j), (Z.leb_spec j (mux_bit_len cfg - 1)),
    (Z.ltb_spec j (mux_bit_len cfg)); simpl; try reflexivity; lia.
Qed.

Lemma mux4_mask_bits cfg j :
  1 <= mux_bit_len cfg <= 4 -> 0 <= j ->
  Z.testbit (mux4_mask cfg) j = (4 <=? j) && (j <? 4 + mux_bit_len cfg).
Proof.
  intros Hl Hj. unfold mux4_mask. rewrite u32_small by lia.
  rewrite testbit_GENMASK by lia.
  destruct (Z.leb_spec 4 j), (Z.leb_spec j (4 + mux_bit_len cfg - 1)),
    (Z.ltb_spec j (4 + mux_bit_len cfg)); simpl; try reflexivity; lia.
Qed.

End RoundTrip.

Lemma existsb_map_true {A B : Type} (g : A -> B) (p : B -> bool)
  (q : A -> bool) (l : list A) :
  (forall a, In a l -> p (g a) = q a) ->
  existsb q l = true -> existsb p (map g l) = true.
Proof.
  intros Hpq Hq. apply existsb_exists in Hq as (a & Ha & Hqa).
  apply existsb_exists. exists (g a). split; [by apply in_map|].
  by rewrite Hpq.
Qed.

Section RoundTrip2.
Context {P : Platform} {PM : PmPlatform}.

Lemma suspend_backup s0 b0 :
  snd (stm32mp1_clock_suspend s0 b0)
  = {| backup_mux0_cfg :=
         map (fun cfg =>
                set_mux_value cfg
                  (Z.land (mmio_read_32 s0 (mux_offset cfg)) (mux0_mask cfg)))
             (backup_mux0_cfg b0);
       backup_mux4_cfg :=
         map (fun cfg =>
                set_mux_value cfg
                  (Z.land (mmio_read_32 s0 (mux_offset cfg)) (mux4_mask cfg)))
             (backup_mux4_cfg b0);
       backup_clock_sc_cfg :=
         map (fun cfg => set_cfg_value cfg (mmio_read_32 s0 (cfg_offset cfg)))
             (backup_clock_sc_cfg b0);
       backup_clock_cfg :=
         map (fun cfg => set_cfg_value cfg (mmio_read_32 s0 (cfg_offset cfg)))
             (backup_clock_cfg b0) |}.
Proof. reflexivity. Qed.

Variables (s0 : clk_state) (b0 : pm_backup) (addr k : Z).
Hypothesis Hk : 0 <= k < 32.
Hypothesis Hwf : pm_backup_wf b0.


Lemma restore_mux_restores s :
  existsb (fun cfg => (mux_offset cfg =? addr) && (k <? mux_bit_len cfg))
          (backup_mux0_cfg b0)
  || existsb (fun cfg => (mux_offset cfg =? addr) && (4 <=? k)
                         && (k <? 4 + mux_bit_len cfg))
             (backup_mux4_cfg b0) = true
  \/ (bit_restored s0 addr k) s ->
  bit_restored s0 addr k
    (restore_mux_cfg (snd (stm32mp1_clock_suspend s0 b0)) s).
Proof.
  intros Hs. destruct Hwf as [Hwf0 Hwf4].
  rewrite List.Forall_forall in Hwf0, Hwf4.
  unfold restore_mux_cfg. rewrite suspend_backup. cbn [backup_mux0_cfg
    backup_mux4_cfg]. cbv zeta.
  match goal with
  | |- bit_restored s0 addr k
         (fold_left ?f4 (map ?g4 ?l4) (fold_left ?f0 (map ?g0 ?l0) s)) =>
      set (t := fold_left f0 (map g0 l0) s);
      assert (existsb (fun cfg => (mux_offset cfg =? addr) && (4 <=? k)
                                  && (k <? 4 + mux_bit_len cfg)) l4 = true
              \/ (bit_restored s0 addr k) t) as Ht
  end.
  { destruct Hs as [Hs|Hs];
      [apply orb_true_iff in Hs as [Hs|Hs]; [right|left; exact Hs]|right].
    - unfold t.
      apply (fold_left_establish _
               (fun cfg => (mux_offset cfg =? addr)
                           && (k <? mux_bit_len cfg)) (bit_restored s0 addr k)).
      + intros c u Hc Hcov. apply in_map_iff in Hc as (c0 & <- & Hc0).
        unfold bit_restored.
        cbn [set_mux_value mux_offset mux_value mux_bit_len] in *.
        change (mux0_mask (set_mux_value c0 _)) with (mux0_mask c0).
        rewrite restore_mux_step; try exact Hk.
        * rewrite mux0_mask_bits by (auto; lia). by rewrite Hcov.
        * intros j Hj Hb. rewrite mux0_mask_bits in Hb by auto.
          apply Z.ltb_lt in Hb. specialize (Hwf0 _ Hc0). simpl in Hwf0. lia.
      + intros c u Hc Hu. apply in_map_iff in Hc as (c0 & <- & Hc0).
        unfold bit_restored.
        cbn [set_mux_value mux_offset mux_value mux_bit_len] in *.
        change (mux0_mask (set_mux_value c0 _)) with (mux0_mask c0).
        rewrite restore_mux_step; try exact Hk.
        * destruct (_ && _); [reflexivity|exact Hu].
        * intros j Hj Hb. rewrite mux0_mask_bits in Hb by auto.
          apply Z.ltb_lt in Hb. specialize (Hwf0 _ Hc0). simpl in Hwf0. lia.
      + left. eapply existsb_map_true; [|exact Hs]. reflexivity.
    - unfold t.
      apply (fold_left_establish _ (fun _ => false) (bit_restored s0 addr k)).
      + discriminate.
      + intros c u Hc Hu. apply in_map_iff in Hc as (c0 & <- & Hc0).
        unfold bit_restored.
        cbn [set_mux_value mux_offset mux_value mux_bit_len] in *.
        change (mux0_mask (set_mux_value c0 _)) with (mux0_mask c0).
        rewrite restore_mux_step; try exact Hk.
        * destruct (_ && _); [reflexivity|exact Hu].
        * intros j Hj Hb. rewrite mux0_mask_bits in Hb by auto.
          apply Z.ltb_lt in Hb. specialize (Hwf0 _ Hc0). simpl in Hwf0. lia.
      + right. exact Hs. }
  apply (fold_left_establish _
           (fun cfg => (mux_offset cfg =? addr) && (4 <=? k)
                       && (k <? 4 + mux_bit_len cfg)) (bit_restored s0 addr k)).
  - intros c u Hc Hcov. apply in_map_iff in Hc as (c0 & <- & Hc0).
    unfold bit_restored.
        cbn [set_mux_value mux_offset mux_value mux_bit_len] in *.
    change (mux4_mask (set_mux_value c0 _)) with (mux4_mask c0).
    rewrite restore_mux_step; try exact Hk.
    + rewrite mux4_mask_bits by (auto; lia).
      by rewrite andb_assoc, Hcov.
    + intros j Hj Hb. rewrite mux4_mask_bits in Hb by auto.
      apply andb_true_iff in Hb as [_ Hb].
      apply Z.ltb_lt in Hb. specialize (Hwf4 _ Hc0). simpl in Hwf4. lia.
  - intros c u Hc Hu. apply in_map_iff in Hc as (c0 & <- & Hc0).
    unfold bit_restored.
        cbn [set_mux_value mux_offset mux_value mux_bit_len] in *.
    change (mux4_mask (set_mux_value c0 _)) with (mux4_mask c0).
    rewrite restore_mux_step; try exact Hk.
    + destruct (_ && _); [reflexivity|exact Hu].
    + intros j Hj Hb. rewrite mux4_mask_bits in Hb by auto.
      apply andb_true_iff in Hb as [_ Hb].
      apply Z.ltb_lt in Hb. specialize (Hwf4 _ Hc0). simpl in Hwf4. lia.
  - destruct Ht as [Ht|Ht]; [left|right; exact Ht].
    eapply existsb_map_true; [|exact Ht]. reflexivity.
Qed.

Lemma restore_sc_restores s :
  existsb (fun cfg => cfg_offset cfg =? addr) (backup_clock_sc_cfg b0) = true
  \/ (bit_restored s0 addr k) s ->
  bit_restored s0 addr k
    (restore_sc_cfg (snd (stm32mp1_clock_suspend s0 b0)) s).
Proof.
  intros Hs. unfold restore_sc_cfg. rewrite suspend_backup.
  cbn [backup_clock_sc_cfg]. cbv zeta.
  apply (fold_left_establish _ (fun cfg => cfg_offset cfg =? addr)
           (bit_restored s0 addr k)).
  - intros c u Hc Hcov. apply in_map_iff in Hc as (c0 & <- & Hc0).
    unfold bit_restored. cbn [set_cfg_value cfg_offset cfg_value] in *.
    rewrite restore_sc_step by exact Hk. rewrite Hcov.
    apply Z.eqb_eq in Hcov. by rewrite Hcov.
  - intros c u Hc Hu. apply in_map_iff in Hc as (c0 & <- & Hc0).
    unfold bit_restored. cbn [set_cfg_value cfg_offset cfg_value] in *.
    rewrite restore_sc_step by exact Hk.
    destruct (Z.eqb_spec (cfg_offset c0) addr) as [E|_]; [|exact Hu].
    by rewrite E.
  - destruct Hs as [Hs|Hs]; [left|right; exact Hs].
    eapply existsb_map_true; [|exact Hs]. reflexivity.
Qed.

Lemma restore_regular_restores s :
  existsb (fun cfg => cfg_offset cfg =? addr) (backup_clock_cfg b0) = true
  \/ (bit_restored s0 addr k) s ->
  bit_restored s0 addr k
    (restore_regular_cfg (snd (stm32mp1_clock_suspend s0 b0)) s).
Proof.
  intros Hs. unfold restore_regular_cfg. rewrite suspend_backup.
  cbn [backup_clock_cfg].
  apply (fold_left_establish _ (fun cfg => cfg_offset cfg =? addr)
           (bit_restored s0 addr k)).
  - intros c u Hc Hcov. apply in_map_iff in Hc as (c0 & <- & Hc0).
    unfold bit_restored. cbn [set_cfg_value cfg_offset cfg_value] in *.
    apply Z.eqb_eq in Hcov. rewrite Hcov.
    rewrite reg_bit_write, testbit_u32 by lia. reflexivity.
  - intros c u Hc Hu. apply in_map_iff in Hc as (c0 & <- & Hc0).
    unfold bit_restored. cbn [set_cfg_value cfg_offset cfg_value] in *.
    destruct (Z.eq_dec (cfg_offset c0) addr) as [E|E].
    + rewrite E. rewrite reg_bit_write, testbit_u32 by lia. reflexivity.
    + rewrite reg_bit_write_ne by exact E. exact Hu.
  - destruct Hs as [Hs|Hs]; [left|right; exact Hs].
    eapply existsb_map_true; [|exact Hs]. reflexivity.
Qed.

Lemma restores_saved_bit s :
  saved_bit b0 addr k = true ->
  bit_restored s0 addr k
    (restore_regular_cfg (snd (stm32mp1_clock_suspend s0 b0))
       (restore_sc_cfg (snd (stm32mp1_clock_suspend s0 b0))
          (restore_mux_cfg (snd (stm32mp1_clock_suspend s0 b0)) s))).
Proof.
  unfold saved_bit. intros Hsv.
  apply orb_true_iff in Hsv as [Hsv|Hsv].
  2:{ apply restore_regular_restores. by left. }
  apply restore_regular_restores. right.
  apply orb_true_iff in Hsv as [Hsv|Hsv].
  2:{ apply restore_sc_restores. by left. }
  apply restore_sc_restores. right.
  apply restore_mux_restores. by left.
Qed.

End RoundTrip2.

Section RoundTrip3.
Context {P : Platform} {PM : PmPlatform}.

Lemma pm_backup_init_wf : pm_backup_wf pm_backup_init.
Proof.
  split; unfold pm_backup_init; cbn [backup_mux0_cfg backup_mux4_cfg];
    repeat (constructor; [vm_compute; split; discriminate|]); constructor.
Qed.

(** X20. What [stm32mp1_clock_suspend] saves, [stm32mp1_clock_resume] puts
    back, whatever the registers became in between: every bit of a saved
    mux field, of a saved gating word and of a saved regular register holds
    after resume what it held at suspend, except the enable bits of the
    secure gates, which follow the reference counts, and the kernel clock
    enables that resume switches off. *)
Theorem suspend_resume_restores_saved_bits s0 b0 s2 addr k :
  0 <= k < 32 ->
  pm_backup_wf b0 ->
  saved_bit b0 addr k = true ->
  ~ In (addr, k) synced_gate_bits ->
  addr <> kernel_clocks_register ->
  reg_bit (stm32mp1_clock_resume (snd (stm32mp1_clock_suspend s0 b0)) s2)
          addr k
  = reg_bit s0 addr k.
Proof.
  intros Hk Hwf Hsv Hgate Hker. unfold stm32mp1_clock_resume. cbv zeta.
  unfold reg_bit at 1.
  rewrite (proj2 (disable_kernel_clocks_frame _)) by exact Hker.
  match goal with |- Z.testbit (mmio_read_32 ?t addr) k = _ =>
    change (reg_bit t addr k = reg_bit s0 addr k) end.
  rewrite sync_loop_other_bits; auto.
  - by apply restores_saved_bit.
  - apply List.Forall_forall. intros x Hx. apply in_seq in Hx. lia.
Qed.

End RoundTrip3.

(** ** HSI divider *)

Section HsiDividerProps.
Context {P : Platform} {H : Hardware} {OP : OscPlatform}.



End HsiDividerProps.

(** ** Source and divider fields *)

Lemma testbit_low_mask n b :
  0 <= n -> 0 <= b -> Z.testbit (GENMASK (n - 1) 0) b = (b <? n).
Proof.
  intros Hn Hb. rewrite testbit_GENMASK by lia.
  destruct (Z.leb_spec 0 b), (Z.leb_spec b (n - 1)), (Z.ltb_spec b n);
    simpl; try reflexivity; lia.
Qed.

(** X22. [stm32mp1_pkcs_config] writes one nibble of one register: the value
    of the binding lands in bits 3 to 0, or in bits 7 to 4 when bit 31 of
    the binding is set, of the register whose offset the binding carries;
    every other bit keeps its value. *)
Theorem pkcs_config_writes_one_nibble pkcs s :
  only_registers [Z.land (Z.shiftr pkcs 4) 0xFFF] s
    (stm32mp1_pkcs_config pkcs s)
  /\ forall b, 0 <= b < 32 ->
       reg_bit (stm32mp1_pkcs_config pkcs s)
               (Z.land (Z.shiftr pkcs 4) 0xFFF) b
       = let low := if Z.testbit pkcs 31 then 4 else 0 in
         if (low <=? b) && (b <? low + 4) then Z.testbit pkcs (b - low)
         else reg_bit s (Z.land (Z.shiftr pkcs 4) 0xFFF) b.
Proof.
  unfold stm32mp1_pkcs_config. cbv zeta.
  rewrite land_BIT_eqb, negb_involutive by lia.
  destruct (Z.testbit pkcs 31); unfold mmio_clrsetbits_32.
  - split; [apply only_registers_write|]. intros b Hb. cbv zeta.
    change (4 + 4) with 8.
    rewrite reg_bit_write by lia.
    rewrite Z.lor_spec, Z.ldiff_spec, !testbit_u32, !Z.shiftl_spec,
      Z.land_spec by lia.
    change 15 with (Z.ones 4). unfold reg_bit.
    destruct (Z.leb_spec 4 b); simpl.
    + destruct (Z.ltb_spec b 8).
      * rewrite Z.ones_spec_low by lia. simpl.
        by rewrite andb_false_r, andb_true_r.
      * rewrite Z.ones_spec_high by lia. simpl.
        by rewrite andb_true_r, andb_false_r, orb_false_r.
    + rewrite !(Z.testbit_neg_r _ (b - 4)) by lia. simpl.
      by rewrite andb_true_r, orb_false_r.
  - split; [apply only_registers_write|]. intros b Hb. cbv zeta.
    change (0 + 4) with 4.
    rewrite reg_bit_write by lia.
    rewrite Z.lor_spec, Z.ldiff_spec, Z.land_spec.
    change 15 with (Z.ones 4). unfold reg_bit.
    replace (b - 0) with b by lia.
    destruct (Z.leb_spec 0 b); [|lia]. simpl.
    destruct (Z.ltb_spec b 4).
    + rewrite Z.ones_spec_low by lia. simpl.
      by rewrite andb_false_r, andb_true_r.
    + rewrite Z.ones_spec_high by lia. simpl.
      by rewrite andb_true_r, andb_false_r, orb_false_r.
Qed.

Section FieldWrites.
Context {P : Platform} {H : Hardware}.

(** X11. [stm32mp1_set_clksrc] and [stm32mp1_set_clkdiv] write one field and
    wait for its ready flag: the three source bits of the register that the
    binding names, or the six divider bits of the register given, take
    the low bits of the argument, no other bit is written, and the call
    returns 0 at the first poll that sees bit 31 set, or [-ETIMEDOUT] when
    no poll of the timeout did. *)
Theorem set_clksrc_clkdiv_write_field (clksrc clkdiv address : Z) s :
  (exists s1 k,
     only_registers [Z.shiftr clksrc 4] s s1
     /\ (forall b, 0 <= b < 32 ->
           reg_bit s1 (Z.shiftr clksrc 4) b
           = if b <? 3 then Z.testbit clksrc b
             else reg_bit s (Z.shiftr clksrc 4) b)
     /\ (k <= timeout_polls CLKSRC_TIMEOUT)%nat
     /\ snd (stm32mp1_set_clksrc clksrc s) = hw_run k s1
     /\ (forall j, (j < k)%nat ->
           reg_bit (hw_run j s1) (Z.shiftr clksrc 4) 31 = false)
     /\ match fst (stm32mp1_set_clksrc clksrc s) with
        | Int 0 => reg_bit (hw_run k s1) (Z.shiftr clksrc 4) 31 = true
        | r => r = Err ETIMEDOUT /\ k = timeout_polls CLKSRC_TIMEOUT
               /\ reg_bit (hw_run k s1) (Z.shiftr clksrc 4) 31 = false
        end)
  /\ (exists s1 k,
        only_registers [address] s s1
        /\ (forall b, 0 <= b < 32 ->
              reg_bit s1 address b
              = if b <? 6 then Z.testbit clkdiv b else reg_bit s address b)
        /\ (k <= timeout_polls CLKDIV_TIMEOUT)%nat
        /\ snd (stm32mp1_set_clkdiv clkdiv address s) = hw_run k s1
        /\ (forall j, (j < k)%nat -> reg_bit (hw_run j s1) address 31 = false)
        /\ match fst (stm32mp1_set_clkdiv clkdiv address s) with
           | Int 0 => reg_bit (hw_run k s1) address 31 = true
           | r => r = Err ETIMEDOUT /\ k = timeout_polls CLKDIV_TIMEOUT
                  /\ reg_bit (hw_run k s1) address 31 = false
           end).
Proof.
  assert (forall addr n x t b, 0 <= n -> 0 <= b < 32 ->
            reg_bit (mmio_clrsetbits_32 addr (GENMASK (n - 1) 0)
                       (Z.land x (GENMASK (n - 1) 0)) t) addr b
            = if b <? n then Z.testbit x b else reg_bit t addr b) as Hfield.
  { intros addr n x t b Hn Hb. unfold mmio_clrsetbits_32.
    rewrite reg_bit_write by lia.
    rewrite Z.lor_spec, Z.ldiff_spec, Z.land_spec, testbit_low_mask by lia.
    unfold reg_bit. destruct (b <? n); simpl.
    - by rewrite andb_false_r, andb_true_r.
    - by rewrite andb_true_r, andb_false_r, orb_false_r. }
  split.
  - unfold stm32mp1_set_clksrc. cbv zeta.
    set (a := Z.shiftr clksrc 4).
    set (s1 := mmio_clrsetbits_32 a RCC_SELR_SRC_MASK
                 (Z.land clksrc RCC_SELR_SRC_MASK) s).
    match goal with |- context [poll_while ?n ?busy s1] =>
      destruct (poll_while_spec n busy s1) as (k & Hk & Hs & Hb & Hf & Hn);
      destruct (poll_while n busy s1) as [timed_out t] end.
    simpl in Hs, Hf, Hn. subst t. exists s1, k.
    unfold RCC_SELR_SRCRDY in *. cbv beta in Hf.
    rewrite land_BIT_eqb in Hf by lia.
    split_and!.
    + unfold s1, mmio_clrsetbits_32. apply only_registers_write.
    + intros b Hb'. unfold s1, RCC_SELR_SRC_MASK.
      change (GENMASK 2 0) with (GENMASK (3 - 1) 0).
      by rewrite Hfield by lia.
    + exact Hk.
    + by destruct timed_out.
    + intros j Hj. specialize (Hb j Hj). cbv beta in Hb.
      rewrite land_BIT_eqb in Hb by lia. unfold reg_bit.
      by destruct (Z.testbit _ 31).
    + unfold reg_bit. destruct timed_out; simpl.
      * apply negb_true_iff in Hf. split_and!; auto.
      * by apply negb_false_iff in Hf.
  - unfold stm32mp1_set_clkdiv. cbv zeta.
    set (s1 := mmio_clrsetbits_32 address RCC_DIVR_DIV_MASK
                 (Z.land clkdiv RCC_DIVR_DIV_MASK) s).
    match goal with |- context [poll_while ?n ?busy s1] =>
      destruct (poll_while_spec n busy s1) as (k & Hk & Hs & Hb & Hf & Hn);
      destruct (poll_while n busy s1) as [timed_out t] end.
    simpl in Hs, Hf, Hn. subst t. exists s1, k.
    unfold RCC_DIVR_DIVRDY in *. cbv beta in Hf.
    rewrite land_BIT_eqb in Hf by lia.
    split_and!.
    + unfold s1, mmio_clrsetbits_32. apply only_registers_write.
    + intros b Hb'. unfold s1, RCC_DIVR_DIV_MASK.
      change (GENMASK 5 0) with (GENMASK (6 - 1) 0).
      by rewrite Hfield by lia.
    + exact Hk.
    + by destruct timed_out.
    + intros j Hj. specialize (Hb j Hj). cbv beta in Hb.
      rewrite land_BIT_eqb in Hb by lia. unfold reg_bit.
      by destruct (Z.testbit _ 31).
    + unfold reg_bit. destruct timed_out; simpl.
      * apply negb_true_iff in Hf. split_and!; auto.
      * by apply negb_false_iff in Hf.
Qed.

End FieldWrites.

(** ** The reset path *)

Section ResetPath.
Context {P : Platform}.

Lemma gated_id_of_table_gate g :
  In g stm32mp1_clk_gate ->
  exists i, stm32mp1_clk_get_gated_id (gate_index g) = Int i.
Proof.
  intros Hin. unfold stm32mp1_clk_get_gated_id.
  destruct (first_index (fun g0 => gate_index g0 =? gate_index g)
              stm32mp1_clk_gate) as [m|] eqn:Em; [eauto|].
  apply first_index_None in Em. rewrite List.Forall_forall in Em.
  specialize (Em g Hin). by rewrite Z.eqb_refl in Em.
Qed.

Lemma gate_found_here (a : stm32mp1_clk_gate_t) l x :
  gate_index a = x -> exists g, In g (a :: l) /\ gate_index g = x.
Proof. intros Ha. exists a. split; [by left|exact Ha]. Qed.

Lemma gate_found_later (a : stm32mp1_clk_gate_t) l x :
  (exists g, In g l /\ gate_index g = x) ->
  exists g, In g (a :: l) /\ gate_index g = x.
Proof. intros (g & Hg & Hx). exists g. split; [by right|exact Hx]. Qed.

Lemma tzc_source_gates :
  IMAGE = IMAGE_BL32 ->
  forall id, In id tzc_source_ip_clock_id ->
    exists g, In g stm32mp1_clk_gate /\ gate_index g = u8 id.
Proof.
  intros Himg id Hin.
  unfold stm32mp1_clk_gate, bl32_only, bl2_only. rewrite Himg.
  unfold tzc_source_ip_clock_id in Hin. simpl in Hin. simpl app.
  repeat (destruct Hin as [<-|Hin];
          [repeat first [apply gate_found_here; reflexivity
                        | apply gate_found_later]|]).
  destruct Hin.
Qed.

(** X23. In BL32 none of the questions that [stm32mp_plat_reset] puts to
    [stm32mp_clk_is_enabled] can halt the firmware: each of the eleven
    clocks of [tzc_source_ip] is always on or has a gate in the table of
    that image, so the call returns the state of an enable bit. *)
Theorem plat_reset_clock_queries_return (id : Z) (s : clk_state) :
  IMAGE = IMAGE_BL32 ->
  Forall (fun id => 0 <= id < 256) tzc_source_ip_clock_id ->
  In id tzc_source_ip_clock_id ->
  stm32mp_clk_is_enabled id s = Ret true
  \/ exists i, stm32mp1_clk_get_gated_id id = Int i
               /\ stm32mp_clk_is_enabled id s
                  = Ret (__clk_is_enabled (gate_ref i) s).
Proof.
  intros Himg Hrange Hin. unfold stm32mp_clk_is_enabled.
  destruct (clock_is_always_on id); [by left|]. right.
  destruct (tzc_source_gates Himg id Hin) as (g & Hg & Hidx).
  rewrite List.Forall_forall in Hrange. specialize (Hrange id Hin).
  assert (u8 id = id) as Hu by (unfold u8; apply Z.mod_small; lia).
  rewrite Hu in Hidx.
  destruct (gated_id_of_table_gate g Hg) as (i & Hi).
  rewrite Hidx in Hi. exists i. rewrite Hi. auto.
Qed.

End ResetPath.

(** ** Early boot *)

Section EarlyBootProps.
Context {P : Platform} {SP : SecurePlatform}.

Lemma only_more_enabled_refl s : only_more_enabled s s.
Proof. unfold only_more_enabled. split_and!; auto. intros; lia. Qed.

Lemma only_more_enabled_trans s1 s2 s3 :
  only_more_enabled s1 s2 -> only_more_enabled s2 s3 ->
  only_more_enabled s1 s3.
Proof.
  intros (Hc1 & Hb1 & Ho1 & Ht1 & Hk1) (Hc2 & Hb2 & Ho2 & Ht2 & Hk2).
  unfold only_more_enabled. split_and!; try congruence.
  - intros j Hj. specialize (Hc1 j Hj). specialize (Hc2 j Hj). lia.
  - intros addr k Hk Hs. apply Hb2; auto.
Qed.

Lemma clk_enable_keeps_bits g s addr k :
  0 <= gate_bit g < 32 -> 0 <= k < 32 ->
  reg_bit s addr k = true -> reg_bit (__clk_enable g s) addr k = true.
Proof.
  intros Hg Hk Hs.
  destruct (decide ((addr, k) = (gate_offset g, gate_bit g))) as [E|E].
  - inversion E; subst. rewrite <- is_enabled_reg_bit by exact Hg.
    by apply clk_enable_is_enabled.
  - unfold reg_bit in *. by rewrite clk_enable_other_bits.
Qed.

Lemma clk_enable_only_more g s :
  0 <= gate_bit g < 32 -> only_more_enabled s (__clk_enable g s).
Proof.
  intros Hg. unfold only_more_enabled. split_and!.
  - intros j _. unfold refcount_of. rewrite clk_enable_refcounts. lia.
  - intros addr k Hk. by apply clk_enable_keeps_bits.
  - unfold __clk_enable. by destruct (negb _).
  - unfold __clk_enable. by destruct (negb _).
  - unfold __clk_enable. by destruct (negb _).
Qed.

Lemma refcount_of_set_other i j v s :
  0 <= i -> 0 <= j -> i <> j ->
  refcount_of j (set_refcount i v s) = refcount_of j s.
Proof.
  intros Hi Hj Hne. unfold refcount_of, set_refcount, array_get. simpl.
  apply nth_insert_ne. lia.
Qed.

Lemma counted_gates_on_weaken n m s :
  m <= n -> counted_gates_on n s -> counted_gates_on m s.
Proof.
  intros Hle [Hlen Hall]. split; [exact Hlen|]. intros j Hj.
  destruct (Hall j Hj) as [Hr Hon]. split; [lia|exact Hon].
Qed.

Lemma counted_gates_on_enable n g s :
  0 <= gate_bit g < 32 ->
  counted_gates_on n s -> counted_gates_on n (__clk_enable g s).
Proof.
  intros Hg [Hlen Hall]. split.
  - by rewrite clk_enable_refcounts.
  - intros j Hj. destruct (Hall j Hj) as [Hr Hon].
    unfold counted_gate_on, refcount_of in *.
    rewrite clk_enable_refcounts. split; [exact Hr|].
    intros Hne. specialize (Hon Hne).
    assert (0 <= gate_bit (gate_ref j) < 32) as Hb.
    { replace j with (Z.of_nat (Z.to_nat j)) by lia.
      apply gate_ref_bits. lia. }
    rewrite is_enabled_reg_bit in Hon |- * by exact Hb.
    by apply clk_enable_keeps_bits.
Qed.

(** One counted or uncounted enable from a state where every counted gate
    is on. *)
Lemma enable_step_counted_on id i n s :
  0 <= n ->
  clock_is_always_on id = false ->
  stm32mp1_clk_get_gated_id id = Int i ->
  counted_gates_on (n + 1) s ->
  exists s',
    stm32mp_clk_enable id s = Ret (tt, s')
    /\ counted_gates_on n s'
    /\ only_more_enabled s s'
    /\ __clk_is_enabled (gate_ref i) s' = true
    /\ (gate_is_non_secure (gate_ref i) = false \/ IMAGE = IMAGE_BL2 ->
        refcount_of i s' = refcount_of i s + 1).
Proof.
  intros Hn Hon Hid Hinv.
  destruct (gated_id_gate _ _ Hid) as (Hi & Hlt & _ & Hbit).
  assert (0 <= i < Z.of_nat NB_GATES) as Hirange by lia.
  set (g := gate_ref i) in *.
  (* the uncounted enable *)
  assert (exists s',
            Ret (tt, __clk_enable g s) = Ret (tt, s')
            /\ counted_gates_on n s'
            /\ only_more_enabled s s'
            /\ __clk_is_enabled g s' = true) as Huncounted.
  { eexists. split; [reflexivity|]. split_and!.
    - apply counted_gates_on_enable; [exact Hbit|].
      apply (counted_gates_on_weaken (n + 1)); [lia|exact Hinv].
    - by apply clk_enable_only_more.
    - by apply clk_enable_is_enabled. }
  (* the counted enable *)
  assert (exists s',
            (let s1 := if refcount_of i s =? 0 then __clk_enable g s else s in
             let s2 := set_refcount i (u32 (refcount_of i s1 + 1)) s1 in
             if refcount_of i s2 =? UINT_MAX then Panic else Ret (tt, s2))
            = Ret (tt, s')
            /\ counted_gates_on n s'
            /\ only_more_enabled s s'
            /\ __clk_is_enabled g s' = true
            /\ refcount_of i s' = refcount_of i s + 1) as Hcounted.
  { cbv zeta. rewrite refcount_of_maybe_enable.
    destruct Hinv as [Hlen Hall].
    destruct (Hall i Hirange) as [Hr Hion].
    set (s1 := if refcount_of i s =? 0 then __clk_enable g s else s).
    assert (gate_refcounts s1 = gate_refcounts s) as Hrc1.
    { unfold s1. destruct (_ =? 0); [apply clk_enable_refcounts|done]. }
    assert (__clk_is_enabled g s1 = true) as Hen1.
    { unfold s1. destruct (refcount_of i s =? 0) eqn:E0.
      - by apply clk_enable_is_enabled.
      - apply Hion. by apply Z.eqb_neq. }
    assert (only_more_enabled s s1) as Hmono1.
    { unfold s1. destruct (_ =? 0);
        [by apply clk_enable_only_more|apply only_more_enabled_refl]. }
    assert (counted_gates_on (n + 1) s1) as Hinv1.
    { unfold s1. destruct (_ =? 0);
        [apply counted_gates_on_enable; [exact Hbit|]|]; by split. }
    rewrite u32_small by (unfold UINT_MAX in Hr; lia).
    rewrite refcount_of_set_refcount by (rewrite ?Hrc1; lia).
    destruct (refcount_of i s + 1 =? UINT_MAX) eqn:Emax;
      [apply Z.eqb_eq in Emax; lia|].
    eexists. split; [reflexivity|]. split_and!.
    - split; [by rewrite set_refcount_length, Hrc1|].
      intros j Hj. destruct Hinv1 as [_ Hall1].
      destruct (Hall1 j Hj) as [Hrj Hjon].
      unfold counted_gate_on. rewrite set_refcount_is_enabled.
      destruct (Z.eq_dec i j) as [<-|Hne].
      + rewrite refcount_of_set_refcount by (rewrite ?Hrc1; lia).
        split; [lia|]. intros _. exact Hen1.
      + rewrite refcount_of_set_other by lia. split; [lia|exact Hjon].
    - eapply only_more_enabled_trans; [exact Hmono1|].
      unfold only_more_enabled. split_and!; try reflexivity.
      + intros j Hj. destruct (Z.eq_dec i j) as [<-|Hne].
        * rewrite refcount_of_set_refcount by (rewrite ?Hrc1; lia).
          unfold refcount_of. rewrite Hrc1. fold (refcount_of i s). lia.
        * rewrite refcount_of_set_other by lia. lia.
      + intros addr k Hk Hb. exact Hb.
    - rewrite set_refcount_is_enabled. exact Hen1.
    - by rewrite refcount_of_set_refcount by (rewrite ?Hrc1; lia). }
  assert (stm32mp_clk_enable id s
          = match IMAGE, gate_is_non_secure g with
            | IMAGE_BL32, true => Ret (tt, __clk_enable g s)
            | _, _ =>
                let s1 := if refcount_of i s =? 0
                          then __clk_enable g s else s in
                let s2 := set_refcount i (u32 (refcount_of i s1 + 1)) s1 in
                if refcount_of i s2 =? UINT_MAX then Panic else Ret (tt, s2)
            end) as ->.
  { unfold stm32mp_clk_enable, __stm32mp1_clk_enable.
    rewrite Hon, Hid. fold g.
    destruct IMAGE, (gate_is_non_secure g);
      cbv beta iota delta [bind get modify ret panic negb];
      try reflexivity;
      destruct (refcount_of i s =? 0); cbv beta iota zeta;
      match goal with
      | |- context [?c =? UINT_MAX] => destruct (c =? UINT_MAX)
      end;
      reflexivity. }
  destruct IMAGE eqn:Eimg, (gate_is_non_secure g) eqn:Ens.
  3:{ destruct Huncounted as (s' & Heq & H1 & H2 & H3).
      exists s'. split; [exact Heq|]. split_and!; auto.
      intros [?|?]; discriminate. }
  all: destruct Hcounted as (s' & Heq & H1 & H2 & H3 & H4);
    exists s'; split; [exact Heq|]; split_and!; auto.
Qed.

Lemma is_enabled_only_more j s s' :
  0 <= j < Z.of_nat NB_GATES ->
  only_more_enabled s s' ->
  __clk_is_enabled (gate_ref j) s = true ->
  __clk_is_enabled (gate_ref j) s' = true.
Proof.
  intros Hj (_ & Hbits & _) Hen.
  assert (0 <= gate_bit (gate_ref j) < 32) as Hb.
  { replace j with (Z.of_nat (Z.to_nat j)) by lia. apply gate_ref_bits. lia. }
  rewrite is_enabled_reg_bit in Hen |- * by exact Hb.
  apply Hbits; [exact Hb|exact Hen].
Qed.

(** A run of enables from a state where every counted gate is on and the
    counts leave room for the run. *)
Lemma enable_clocks_counted_on ids s :
  Forall (fun id => clock_is_always_on id = false
                    /\ exists i, stm32mp1_clk_get_gated_id id = Int i) ids ->
  counted_gates_on (Z.of_nat (length ids)) s ->
  exists s',
    enable_clocks ids s = Ret (tt, s')
    /\ counted_gates_on 0 s'
    /\ only_more_enabled s s'
    /\ forall id, In id ids ->
         exists i,
           stm32mp1_clk_get_gated_id id = Int i
           /\ __clk_is_enabled (gate_ref i) s' = true
           /\ (gate_is_non_secure (gate_ref i) = false
               \/ IMAGE = IMAGE_BL2 ->
               refcount_of i s < refcount_of i s').
Proof.
  intros Hids. revert s.
  induction Hids as [|id ids (Hon & i & Hid) Hids IH]; intros s Hinv.
  - exists s. split; [reflexivity|]. split; [exact Hinv|].
    split; [apply only_more_enabled_refl|]. intros id [].
  - change (Z.of_nat (length (id :: ids)))
      with (Z.of_nat (S (length ids))) in Hinv.
    rewrite Nat2Z.inj_succ in Hinv. unfold Z.succ in Hinv.
    destruct (enable_step_counted_on id i (Z.of_nat (length ids)) s
                ltac:(lia) Hon Hid Hinv)
      as (s1 & Hstep & Hinv1 & Hmono1 & Hen1 & Hcnt1).
    destruct (IH s1 Hinv1) as (s' & Hrun & Hinv' & Hmono' & Hall').
    destruct (gated_id_gate _ _ Hid) as (Hi & Hlt & _ & _).
    exists s'. split.
    { cbn [enable_clocks]. unfold bind. rewrite Hstep. exact Hrun. }
    split; [exact Hinv'|].
    split; [eapply only_more_enabled_trans; eassumption|].
    intros id' [<-|Hin].
    + exists i. split; [exact Hid|]. split.
      * apply (is_enabled_only_more i s1); [lia|exact Hmono'|exact Hen1].
      * intros Hc. specialize (Hcnt1 Hc).
        destruct Hmono' as (Hc' & _). specialize (Hc' i Hi). lia.
    + destruct (Hall' id' Hin) as (i' & Hid' & Hen' & Hcnt').
      exists i'. split; [exact Hid'|]. split; [exact Hen'|].
      intros Hc. specialize (Hcnt' Hc).
      destruct (gated_id_gate _ _ Hid') as (Hi' & _).
      destruct Hmono1 as (Hc1 & _). specialize (Hc1 i' Hi'). lia.
Qed.

Lemma register_clock_parents_secure_total fuel clock_id s :
  (3 <= fuel)%nat ->
  exists r, stm32mp1_register_clock_parents_secure fuel clock_id s = Some r.
Proof.
  intros Hfuel. unfold stm32mp1_register_clock_parents_secure.
  destruct IMAGE; [eauto|].
  destruct (negb _); [eauto|].
  destruct (_ || _); [eauto|].
  destruct (clock_id =? PLL3); [eauto|].
  destruct (clock_id =? PLL4); [eauto|].
  destruct (stm32mp1_clk_get_parent clock_id s) as [[p|e]|]; eauto.
  destruct (p <? 0); [eauto|].
  destruct fuel as [|[|[|fuel]]]; try lia.
  rewrite secure_parent_clocks_closed. eauto.
Qed.

Lemma register_secure_gates_total fuel gates s :
  (3 <= fuel)%nat ->
  exists r, register_secure_gates fuel gates s = Some r.
Proof.
  intros Hfuel. induction gates as [|g gates (r & IH)]; simpl; [eauto|].
  destruct (negb _); [|eauto].
  destruct (register_clock_parents_secure_total fuel (gate_index g) s Hfuel)
    as ([l|] & ->); [|eauto].
  rewrite IH. destruct r; eauto.
Qed.

Lemma earlyboot_gates :
  forall id, In id earlyboot_clocks ->
    exists g, In g stm32mp1_clk_gate /\ gate_index g = u8 id.
Proof.
  intros id Hin.
  unfold stm32mp1_clk_gate, bl32_only, bl2_only.
  unfold earlyboot_clocks in Hin. simpl in Hin.
  destruct IMAGE; simpl app;
    repeat (destruct Hin as [<-|Hin];
            [repeat first [apply gate_found_here; reflexivity
                          | apply gate_found_later]|]);
    destruct Hin.
Qed.

(** X24. [sync_earlyboot_clocks_state] halts the firmware only while it
    registers the parents of the secure gates.  When that loop returns,
    the fifteen enables return too, from any state where the counted gates
    are on and the counts leave room for them: every one of these clocks
    is then on, holds at least one reference when its gate is counted, and
    no count went down nor any register bit was cleared. *)
Theorem earlyboot_clocks_end_enabled fuel s :
  (3 <= fuel)%nat ->
  Forall (fun id => 0 <= id < 256 /\ clock_is_always_on id = false)
    earlyboot_clocks ->
  counted_gates_on 15 s ->
  exists r,
    sync_earlyboot_clocks_state fuel s = Some r
    /\ (register_secure_gates fuel stm32mp1_clk_gate s = Some Panic ->
        r = Panic)
    /\ (forall l,
          register_secure_gates fuel stm32mp1_clk_gate s = Some (Ret l) ->
          exists s',
            r = Ret (l, s')
            /\ counted_gates_on 0 s'
            /\ only_more_enabled s s'
            /\ forall id, In id earlyboot_clocks ->
                 exists i,
                   stm32mp1_clk_get_gated_id id = Int i
                   /\ __clk_is_enabled (gate_ref i) s' = true
                   /\ (gate_is_non_secure (gate_ref i) = false
                       \/ IMAGE = IMAGE_BL2 ->
                       1 <= refcount_of i s')).
Proof.
  intros Hfuel Hids Hinv.
  assert (Forall (fun id => clock_is_always_on id = false
                            /\ exists i,
                                 stm32mp1_clk_get_gated_id id = Int i)
            earlyboot_clocks) as Hres.
  { rewrite List.Forall_forall in Hids |- *. intros id Hin.
    destruct (Hids id Hin) as [Hrange Hon]. split; [exact Hon|].
    destruct (earlyboot_gates id Hin) as (g & Hg & Hidx).
    assert (u8 id = id) as Hu by (unfold u8; apply Z.mod_small; lia).
    rewrite Hu in Hidx. rewrite <- Hidx.
    by apply gated_id_of_table_gate. }
  destruct (enable_clocks_counted_on earlyboot_clocks s Hres Hinv)
    as (s' & Hrun & Hinv' & Hmono & Hall).
  unfold sync_earlyboot_clocks_state.
  destruct (register_secure_gates_total fuel stm32mp1_clk_gate s Hfuel)
    as ([l|] & ->).
  - rewrite Hrun. eexists. split; [reflexivity|]. split; [discriminate|].
    intros l' Hl'. inversion Hl'; subst l'. exists s'.
    split; [reflexivity|]. split; [exact Hinv'|]. split; [exact Hmono|].
    intros id Hin. destruct (Hall id Hin) as (i & Hid & Hen & Hcnt).
    exists i. split; [exact Hid|]. split; [exact Hen|].
    intros Hc. specialize (Hcnt Hc).
    destruct (gated_id_gate _ _ Hid) as (Hi & Hlt & _).
    destruct Hinv as [_ Hall0].
    destruct (Hall0 i ltac:(lia)) as [Hr _]. lia.
  - eexists. split; [reflexivity|]. split; [reflexivity|]. discriminate.
Qed.

End EarlyBootProps.

(** * Further runs on the concrete platform *)

Section ConcreteRuns2.
#[local] Existing Instance stm32mp15.
#[local] Existing Instance prompt_hw.
#[local] Existing Instance stm32mp15_secure.
#[local] Existing Instance stm32mp15_pm.

(** Enabling TZC1 from the idle state changes bit 11 of the APB5 enable
    register and the count of gate 23, nothing else. *)
Lemma gate_ops_touch_one_gate_witness :
  match __stm32mp1_clk_enable TZC1 true (idle_state 64000000 24000000) with
  | Ret (tt, s') =>
      gate_frame 23 0x208 11 (idle_state 64000000 24000000) s'
  | Panic => False
  end.
Proof.
  destruct (__stm32mp1_clk_enable TZC1 true (idle_state 64000000 24000000))
    as [[[] s']|] eqn:E.
  - exact (gate_ops_touch_one_gate TZC1 true _ s' (or_introl E)).
  - vm_compute in E. discriminate.
Defined.

(** GPIOA, gate 34 of the BL32 table, is non secure: one enable and two
    disables leave the counts alone and the gate on. *)
Lemma non_secure_gates_are_uncounted_witness :
  exists s',
    run_gate_ops GPIOA [OpEnable; OpDisable; OpDisable]
      (idle_state 64000000 24000000) = Ret (tt, s')
    /\ gate_refcounts s' = gate_refcounts (idle_state 64000000 24000000)
    /\ __clk_is_enabled (gate_ref 34) s' = true.
Proof.
  pose proof (non_secure_gates_are_uncounted (P := stm32mp15) GPIOA 34
                [OpEnable; OpDisable; OpDisable]
                (idle_state 64000000 24000000)) as Hthm.
  premise Hthm ltac:(reflexivity).
  premise Hthm ltac:(vm_compute; reflexivity).
  premise Hthm ltac:(vm_compute; reflexivity).
  premise Hthm ltac:(vm_compute; reflexivity).
  destruct Hthm as (s' & Hrun & Hcnt & Hon & _).
  exists s'. split; [exact Hrun|]. split; [exact Hcnt|].
  apply Hon. simpl. auto.
Defined.

(** TZC1 counted once: the forced calls move the bit and not the count,
    and a counted enable after a forced disable reaches a count of two with
    the gate still off. *)
Lemma force_bypasses_refcounts_witness :
  let s := set_refcount 23 1 (idle_state 64000000 24000000) in
  let g := gate_ref 23 in
  stm32mp1_clk_force_enable TZC1 s = Ret (tt, __clk_enable g s)
  /\ gate_refcounts (__clk_enable g s) = gate_refcounts s
  /\ __clk_is_enabled g (__clk_enable g s) = true
  /\ stm32mp1_clk_force_disable TZC1 s = Ret (tt, __clk_disable g s)
  /\ gate_refcounts (__clk_disable g s) = gate_refcounts s
  /\ __clk_is_enabled g (__clk_disable g s) = false
  /\ exists s3,
       stm32mp_clk_enable TZC1 (__clk_disable g s) = Ret (tt, s3)
       /\ refcount_of 23 s3 = 2
       /\ __clk_is_enabled g s3 = false.
Proof.
  intros s g.
  pose proof (force_bypasses_refcounts (P := stm32mp15) TZC1 23 s) as Hthm.
  premise Hthm ltac:(vm_compute; reflexivity).
  premise Hthm ltac:(vm_compute; reflexivity).
  destruct Hthm as (H1 & H2 & H3 & H4 & H5 & H6 & H7).
  split_and!; try assumption.
  premise H7 ltac:(vm_compute; reflexivity).
  premise H7 ltac:(vm_compute; lia).
  premise H7 ltac:(vm_compute; split; reflexivity).
  destruct H7 as (s3 & Ha & Hb & Hc).
  exists s3. split_and!; assumption.
Defined.

(** SPI6 with its mux on source 5: the parent is PLL3_Q, number 17. *)
Lemma clk_get_parent_range_witness :
  stm32mp1_clk_get_parent SPI6_K secure_spi6_state = Ret (Int 17)
  /\ (Int 17 = Err EINVAL
      \/ exists p, Int 17 = Int p
                   /\ (0 <= p < _PARENT_NB \/ p = _UNKNOWN_ID)).
Proof.
  split; [vm_compute; reflexivity|].
  apply (clk_get_parent_range (P := stm32mp15) SPI6_K secure_spi6_state).
  vm_compute. reflexivity.
Defined.

(** Moving the MPU from 800 MHz to 650 MHz. *)
Lemma set_opp_leaves_software_state_witness :
  match stm32mp1_set_opp_khz 650000 opp_table_state with
  | Ret (r, s') =>
      stm32mp1_osc s' = stm32mp1_osc opp_table_state
      /\ gate_refcounts s' = gate_refcounts opp_table_state
      /\ pll1_settings s' = pll1_settings opp_table_state
      /\ (r = Int 0 \/ r = Err EACCES \/ r = Err EPERM \/ r = Err EIO)
      /\ (r <> Int 0 -> current_opp_khz s' = current_opp_khz opp_table_state)
      /\ (r = Err EACCES \/ r = Err EPERM -> s' = opp_table_state)
  | Panic => False
  end.
Proof.
  destruct (stm32mp1_set_opp_khz 650000 opp_table_state) as [[r s']|] eqn:E.
  - exact (set_opp_leaves_software_state 650000 opp_table_state s' r E).
  - vm_compute in E. discriminate.
Defined.

(** PLL1_P at 800 MHz and a request for 400 MHz: the divider field is 1. *)
Lemma mpu_div_characterised_witness :
  0 < 400000
  /\ (let pll1_p := get_clock_rate _PLL1_P mpu_800_state / 1000 in
      let d := stm32mp1_get_mpu_div 400000 mpu_800_state in
      (d = -1 \/ 0 <= d <= 4)
      /\ (0 <= d -> pll1_p = 400000 * 2 ^ d)
      /\ (forall k, 0 <= k <= 4 -> pll1_p = 400000 * 2 ^ k -> d = k)).
Proof.
  split; [lia|].
  apply (mpu_div_characterised (P := stm32mp15) 400000 mpu_800_state). lia.
Defined.

(** Populating the table for 800 MHz and 650 MHz from the running
    800 MHz. *)
Lemma compute_all_marks_valid_on_success_witness :
  match stm32mp1_clk_compute_all_pll1_settings dt_opp_650000 0
          mpu_800_state with
  | Ret (r, s') =>
      r = Int 0
      /\ valid_id (pll1_settings s') = PLL1_SETTINGS_VALID_ID
      /\ opp_freq (pll1_settings s') = [800000; 650000]
      /\ rcc s' = rcc mpu_800_state
  | Panic => False
  end.
Proof.
  destruct (stm32mp1_clk_compute_all_pll1_settings dt_opp_650000 0
              mpu_800_state) as [[r s']|] eqn:E.
  - pose proof (compute_all_marks_valid_on_success (P := stm32mp15)
                  dt_opp_650000 0 mpu_800_state s' r E)
      as (Hrcc & _ & _ & Hfreq & _ & Hvalid & _).
    assert (r = Int 0) as Hr
      by (vm_compute in E; inversion E; reflexivity).
    split; [exact Hr|]. split; [apply Hvalid; [reflexivity|exact Hr]|].
    split; [exact Hfreq|exact Hrcc].
  - vm_compute in E. discriminate.
Defined.

(** PLL1 configured for 650 MHz from HSE at 24 MHz: M = 2, N = 80,
    FRAC = 2048, P = 0. *)
Lemma pll_config_reads_back_witness :
  pll_registers_distinct (pll_ref _PLL1)
  /\ match stm32mp1_pll_config _PLL1 [2; 80; 0; 0; 0; 1] 2048
             pll1_stopped_state with
     | (Int 0, s') =>
         pll_DIVM (pll_ref _PLL1) s' = 2
         /\ pll_DIVN (pll_ref _PLL1) s' = 80
         /\ pll_FRACV (pll_ref _PLL1) s' = 2048
         /\ pll_FRACLE (pll_ref _PLL1) s' = true
         /\ pll_DIVY (pll_ref _PLL1) 0 s' = 0
         /\ stm32mp1_is_pll_config_on_the_fly _PLL1 [2; 80; 0; 0; 0; 1]
              2048 (-1) s' = (Int 0, 1)
     | _ => False
     end.
Proof.
  assert (Hd : pll_registers_distinct (pll_ref _PLL1)).
  { unfold pll_registers_distinct. apply (bool_decide_unpack _).
    vm_compute. exact I. }
  split; [exact Hd|].
  pose proof (pll_config_reads_back (P := stm32mp15) _PLL1
                [2; 80; 0; 0; 0; 1] 2048 pll1_stopped_state Hd) as Hthm.
  destruct (stm32mp1_pll_config _PLL1 [2; 80; 0; 0; 0; 1] 2048
              pll1_stopped_state) as [r s'] eqn:E.
  assert (r = Int 0) as -> by (vm_compute in E; inversion E; reflexivity).
  destruct Hthm as (HM & HN & HF & HL & HP & _ & _ & _ & Hfly).
  split_and!; [exact HM|exact HN|exact HF|exact HL|exact HP|apply Hfly].
Defined.

(** The rate read back for the P output is 650 MHz. *)
Lemma pll_config_sets_rate_witness :
  stm32mp1_read_pll_freq _PLL1 0
    (snd (stm32mp1_pll_config _PLL1 [2; 80; 0; 0; 0; 1] 2048
            pll1_stopped_state))
  = 650000000.
Proof.
  pose proof (pll_config_sets_rate (P := stm32mp15) _PLL1
                [2; 80; 0; 0; 0; 1] 2048 0 pll1_stopped_state
                (snd (stm32mp1_pll_config _PLL1 [2; 80; 0; 0; 0; 1] 2048
                        pll1_stopped_state))) as Hthm.
  premise Hthm ltac:(unfold pll_registers_distinct;
                     apply (bool_decide_unpack _); vm_compute; exact I).
  premise Hthm ltac:(vm_compute; split; [discriminate|reflexivity]).
  premise Hthm ltac:(vm_compute; split; [discriminate|reflexivity]).
  premise Hthm ltac:(lia).
  premise Hthm ltac:(lia).
  premise Hthm ltac:(vm_compute; split; [discriminate|reflexivity]).
  premise Hthm ltac:(vm_compute; split; [discriminate|reflexivity]).
  premise Hthm ltac:(vm_compute; reflexivity).
  premise Hthm ltac:(vm_compute; reflexivity).
  exact Hthm.
Defined.

(** The AXI clock: its parent PLL2_P and the oscillator behind it are
    followed within three calls. *)
Lemma secure_parent_clocks_outcome_witness :
  (3 <= 3)%nat
  /\ secure_parent_clocks 3 _ACLK (idle_state 64000000 24000000)
     = Some (Ret []).
Proof.
  split; [lia|].
  apply (secure_parent_clocks_outcome (P := stm32mp15) 3 _ACLK
           (idle_state 64000000 24000000)). lia.
Defined.

(** SPI6 fed by PLL3_Q while the RCC is secure: PLL3 is registered. *)
Lemma register_clock_parents_secure_outcome_witness :
  stm32mp1_register_clock_parents_secure 3 SPI6_K secure_spi6_state
  = Some (Ret [STM32MP1_SHRES_PLL3]).
Proof.
  pose proof (register_clock_parents_secure_outcome (P := stm32mp15)
                (SP := stm32mp15_secure) 3 SPI6_K secure_spi6_state)
    as Hthm.
  premise Hthm ltac:(lia).
  destruct Hthm as (r & Hr & _ & H3).
  rewrite Hr. f_equal. rewrite H3.
  - vm_compute. reflexivity.
  - reflexivity.
  - vm_compute. reflexivity.
  - intros Hin. vm_compute in Hin. intuition discriminate.
Defined.

(** Resume from [unsynced_state]: TZC1, counted, is switched on and BSEC,
    not counted, is switched off. *)
Lemma clock_resume_syncs_secure_gates_witness :
  NoDup synced_gate_bits
  /\ ~ In kernel_clocks_register (map fst synced_gate_bits)
  /\ __clk_is_enabled (gate_ref 23)
       (stm32mp1_clock_resume pm_backup_init unsynced_state) = true
  /\ __clk_is_enabled (gate_ref 27)
       (stm32mp1_clock_resume pm_backup_init unsynced_state) = false.
Proof.
  assert (Hnd : NoDup synced_gate_bits)
    by (apply (bool_decide_unpack _); vm_compute; exact I).
  assert (Hker : ~ In kernel_clocks_register (map fst synced_gate_bits)).
  { rewrite <- list_elem_of_In. apply (bool_decide_unpack _).
    vm_compute. exact I. }
  split; [exact Hnd|]. split; [exact Hker|].
  pose proof (clock_resume_syncs_secure_gates (P := stm32mp15)
                (PM := stm32mp15_pm) pm_backup_init unsynced_state
                Hnd Hker) as [_ Hsync].
  split.
  - change (gate_ref 23) with (gate_ref (Z.of_nat 23)).
    rewrite Hsync; [reflexivity|vm_compute; lia|reflexivity].
  - change (gate_ref 27) with (gate_ref (Z.of_nat 27)).
    rewrite Hsync; [reflexivity|vm_compute; lia|reflexivity].
Defined.

(** The QSPI mux, set to source 2 at suspend and reset meanwhile, is back
    on source 2 after resume. *)
Lemma suspend_resume_restores_saved_bits_witness :
  reg_bit (stm32mp1_clock_resume
             (snd (stm32mp1_clock_suspend before_suspend_state
                     pm_backup_init))
             (idle_state 64000000 24000000)) 0x900 1
  = reg_bit before_suspend_state 0x900 1
  /\ reg_bit before_suspend_state 0x900 1 = true
  /\ reg_bit (idle_state 64000000 24000000) 0x900 1 = false.
Proof.
  split; [|split; vm_compute; reflexivity].
  apply (suspend_resume_restores_saved_bits (P := stm32mp15)
           (PM := stm32mp15_pm)).
  - lia.
  - apply pm_backup_init_wf.
  - vm_compute. reflexivity.
  - rewrite <- list_elem_of_In. apply (bool_decide_unpack _).
    vm_compute. exact I.
  - vm_compute. discriminate.
Defined.

(** The GPU clock, one of the clocks the reset path asks about, has gate
    54 of the BL32 table. *)
Lemma plat_reset_clock_queries_return_witness :
  IMAGE = IMAGE_BL32
  /\ Forall (fun id => 0 <= id < 256) tzc_source_ip_clock_id
  /\ In GPU tzc_source_ip_clock_id
  /\ (stm32mp_clk_is_enabled GPU (idle_state 64000000 24000000) = Ret true
      \/ exists i,
           stm32mp1_clk_get_gated_id GPU = Int i
           /\ stm32mp_clk_is_enabled GPU (idle_state 64000000 24000000)
              = Ret (__clk_is_enabled (gate_ref i)
                       (idle_state 64000000 24000000))).
Proof.
  assert (Hrange : Forall (fun id => 0 <= id < 256) tzc_source_ip_clock_id)
    by (repeat constructor; vm_compute; discriminate).
  assert (Hin : In GPU tzc_source_ip_clock_id) by (simpl; auto).
  split; [reflexivity|]. split; [exact Hrange|]. split; [exact Hin|].
  exact (plat_reset_clock_queries_return (P := stm32mp15) GPU
           (idle_state 64000000 24000000) eq_refl Hrange Hin).
Defined.

Lemma idle_counted_gates_on :
  counted_gates_on 15 (idle_state 64000000 24000000).
Proof.
  split; [reflexivity|]. intros j Hj.
  assert (refcount_of j (idle_state 64000000 24000000) = 0) as Hz.
  { unfold refcount_of, array_get, idle_state. cbn [gate_refcounts].
    destruct (lookup_lt_is_Some_2 (replicate (@NB_GATES stm32mp15) 0)
                (Z.to_nat j)) as [x Hx].
    { rewrite length_replicate. lia. }
    rewrite (nth_lookup_Some _ _ 0 x Hx).
    by apply lookup_replicate in Hx as [-> _]. }
  unfold counted_gate_on. rewrite Hz.
  split; [split; [lia | reflexivity] | intros Hne; by destruct Hne].
Defined.

(** Early boot from the idle state, the RCC not being secure: nothing is
    registered, and TZC1 ends on with a reference. *)
Lemma earlyboot_clocks_end_enabled_witness :
  match sync_earlyboot_clocks_state 3 (idle_state 64000000 24000000) with
  | Some (Ret (l, s')) =>
      l = [] /\ __clk_is_enabled (gate_ref 23) s' = true
      /\ 1 <= refcount_of 23 s'
  | _ => False
  end.
Proof.
  pose proof (earlyboot_clocks_end_enabled (P := stm32mp15)
                (SP := stm32mp15_secure) 3
                (idle_state 64000000 24000000)) as Hthm.
  premise Hthm ltac:(lia).
  premise Hthm ltac:(repeat constructor; vm_compute;
                     first [discriminate | reflexivity]).
  premise Hthm ltac:(exact idle_counted_gates_on).
  destruct Hthm as (r & Hsync & _ & Hret).
  destruct (Hret [] ltac:(vm_compute; reflexivity))
    as (s' & -> & _ & _ & Hall).
  rewrite Hsync. split; [reflexivity|].
  destruct (Hall TZC1 ltac:(simpl; auto 20)) as (i & Hid & Hen & Hcnt).
  assert (i = 23) as -> by (vm_compute in Hid; by inversion Hid).
  split; [exact Hen|]. apply Hcnt. left. reflexivity.
Defined.

End ConcreteRuns2.
